(** * Build My Bowl: nutrition aggregation, bowl ownership, working bowl

    A shallow embedding of the FastAPI/SQLModel application under [app/]:
    the table classes of [app/models.py], the cookie lookup of
    [app/auth.py], the JSON handlers of [app/routers/bowls_api.py] and the
    HTMX handlers of [app/routers/bowls_ui.py].

    Conventions of the embedding.
    - Python [float] is the kernel's binary64 [float]; [+], [*], [==], [>=]
      are the IEEE operations of [PrimFloat].
    - Python [int] is [Z]; [Optional[T]] is [option T]; [str] is [string],
      the UTF-8 bytes of the text: [len] counts characters, not bytes, and
      [strip] removes every character Python holds for white space.
    - A table is the list of its rows in the order PostgreSQL returns them
      to a SELECT without ORDER BY: an INSERT puts the row last, and so
      does an UPDATE, which writes a new version of the row behind the
      others; [.first()] takes the first row of a filtered table and
      [.all()] all of them.
    - A SQLAlchemy session is what is committed, what the open transaction
      sees, and the objects marked for deletion that the next flush will
      delete.  A handler is a state-and-error computation over it; a raised
      exception ends the request and the uncommitted part is dropped.
    - The [current_user] of a handler is the row [get_current_user] found
      for the cookie, so a row of the store. *)

From Stdlib Require Import ZArith List String Ascii Bool Lia Sorting.Sorted.
From Stdlib Require Import Floats.PrimFloat Floats.SpecFloat Floats.FloatOps.
From Stdlib Require Floats.FloatAxioms.
From stdpp Require Import base option gmap strings pretty.
Import ListNotations.

#[local] Open Scope string_scope.
#[local] Open Scope list_scope.
#[local] Open Scope Z_scope.

(** * Part I: the program *)

(** ** app/models.py *)

(** An attribute assignment [obj.column = new] is compared with the value
    the object was loaded with, by [==], when the session is flushed: the
    UPDATE sets the columns that differ, and there is no UPDATE when none
    does.  For each table class, [unchanged old new] says that no column
    of [new] differs from the row [old], and [updated old new] is the row
    the UPDATE leaves. *)

(** A [float] column: [==] is the IEEE comparison, under which the two
    zeros are equal and NaN differs from itself. *)
Definition assign_float (old new : float) : float :=
  if PrimFloat.eqb new old then old else new.

(** [==] on an [Optional[str]]. *)
Definition optional_str_eqb (a b : option string) : bool :=
  match a, b with
  | Some x, Some y => String.eqb x y
  | None, None => true
  | _, _ => false
  end.

Module User.
Record t := { id : Z; username : string; password_hash : string; name : string }.

Definition unchanged (old new : t) : bool :=
  String.eqb (username new) (username old)
  && String.eqb (password_hash new) (password_hash old)
  && String.eqb (name new) (name old).

Definition updated (old new : t) : t :=
  {| id := id old; username := username new; password_hash := password_hash new;
     name := name new |}.
End User.

Module Ingredient.
Record t := {
  id : Z;
  name : string;
  calories : float;
  protein : float;
  fiber : float;
  sugar : float;
  icon_filename : option string;
  bowl_image_filename : option string;
  is_drizzle : bool
}.

Definition unchanged (old new : t) : bool :=
  String.eqb (name new) (name old)
  && PrimFloat.eqb (calories new) (calories old)
  && PrimFloat.eqb (protein new) (protein old)
  && PrimFloat.eqb (fiber new) (fiber old)
  && PrimFloat.eqb (sugar new) (sugar old)
  && optional_str_eqb (icon_filename new) (icon_filename old)
  && optional_str_eqb (bowl_image_filename new) (bowl_image_filename old)
  && Bool.eqb (is_drizzle new) (is_drizzle old).

Definition updated (old new : t) : t :=
  {| id := id old; name := name new;
     calories := assign_float (calories old) (calories new);
     protein := assign_float (protein old) (protein new);
     fiber := assign_float (fiber old) (fiber new);
     sugar := assign_float (sugar old) (sugar new);
     icon_filename := icon_filename new;
     bowl_image_filename := bowl_image_filename new;
     is_drizzle := is_drizzle new |}.
End Ingredient.

Module Bowl.
Record t := { id : Z; name : string; user_id : Z; saved : bool }.

Definition with_name (n : string) (b : t) : t :=
  {| id := id b; name := n; user_id := user_id b; saved := saved b |}.

Definition with_saved (s : bool) (b : t) : t :=
  {| id := id b; name := name b; user_id := user_id b; saved := s |}.

Definition unchanged (old new : t) : bool :=
  String.eqb (name new) (name old) && (user_id new =? user_id old)
  && Bool.eqb (saved new) (saved old).

Definition updated (old new : t) : t :=
  {| id := id old; name := name new; user_id := user_id new; saved := saved new |}.
End Bowl.

Module BowlIngredient.
Record t := { id : Z; bowl_id : Z; ingredient_id : Z; quantity : float }.

Definition with_quantity (q : float) (bi : t) : t :=
  {| id := id bi; bowl_id := bowl_id bi; ingredient_id := ingredient_id bi;
     quantity := q |}.

Definition unchanged (old new : t) : bool :=
  (bowl_id new =? bowl_id old) && (ingredient_id new =? ingredient_id old)
  && PrimFloat.eqb (quantity new) (quantity old).

Definition updated (old new : t) : t :=
  {| id := id old; bowl_id := bowl_id new; ingredient_id := ingredient_id new;
     quantity := assign_float (quantity old) (quantity new) |}.
End BowlIngredient.

Module UserIngredientNutrition.
Record t := {
  id : Z;
  user_id : Z;
  ingredient_id : Z;
  calories : float;
  protein : float;
  fiber : float;
  sugar : float
}.

Definition with_values (c p f s : float) (n : t) : t :=
  {| id := id n; user_id := user_id n; ingredient_id := ingredient_id n;
     calories := c; protein := p; fiber := f; sugar := s |}.

Definition unchanged (old new : t) : bool :=
  (user_id new =? user_id old) && (ingredient_id new =? ingredient_id old)
  && PrimFloat.eqb (calories new) (calories old)
  && PrimFloat.eqb (protein new) (protein old)
  && PrimFloat.eqb (fiber new) (fiber old)
  && PrimFloat.eqb (sugar new) (sugar old).

Definition updated (old new : t) : t :=
  {| id := id old; user_id := user_id new; ingredient_id := ingredient_id new;
     calories := assign_float (calories old) (calories new);
     protein := assign_float (protein old) (protein new);
     fiber := assign_float (fiber old) (fiber new);
     sugar := assign_float (sugar old) (sugar new) |}.
End UserIngredientNutrition.

(** ** The store behind [app/db.py]

    The database is PostgreSQL.  Per table class: the rows in the order a
    sequential scan returns them, and the last value handed out by the
    table's id sequence. *)

Record Stored (A : Type) := { stored_rows : list A; stored_seq : Z }.
Arguments stored_rows {A} _.
Arguments stored_seq {A} _.
Arguments Build_Stored {A} _ _.

Record DB := {
  user : Stored User.t;
  ingredient : Stored Ingredient.t;
  bowl : Stored Bowl.t;
  bowlingredient : Stored BowlIngredient.t;
  useringredientnutrition : Stored UserIngredientNutrition.t
}.

(** An object of one of the mapped classes, as the session holds it. *)
Inductive Object :=
| a_User (u : User.t)
| an_Ingredient (g : Ingredient.t)
| a_Bowl (b : Bowl.t)
| a_BowlIngredient (bi : BowlIngredient.t)
| a_UserIngredientNutrition (n : UserIngredientNutrition.t).

(** What SQLModel needs of a table class: its primary key, its place in
    the store, what an UPDATE of a loaded object writes, and its objects
    among those of all mapped classes. *)
Class Table (A : Type) := {
  pk : A -> Z;
  set_pk : Z -> A -> A;
  table : DB -> Stored A;
  set_table : Stored A -> DB -> DB;
  unchanged : A -> A -> bool;
  updated : A -> A -> A;
  object : A -> Object
}.

#[export] Instance User_Table : Table User.t := {|
  pk := User.id;
  set_pk i u :=
    {| User.id := i; User.username := User.username u;
       User.password_hash := User.password_hash u; User.name := User.name u |};
  table := user;
  set_table t db :=
    {| user := t; ingredient := ingredient db; bowl := bowl db;
       bowlingredient := bowlingredient db;
       useringredientnutrition := useringredientnutrition db |};
  unchanged := User.unchanged;
  updated := User.updated;
  object := a_User
|}.

#[export] Instance Ingredient_Table : Table Ingredient.t := {|
  pk := Ingredient.id;
  set_pk i g :=
    {| Ingredient.id := i; Ingredient.name := Ingredient.name g;
       Ingredient.calories := Ingredient.calories g;
       Ingredient.protein := Ingredient.protein g;
       Ingredient.fiber := Ingredient.fiber g;
       Ingredient.sugar := Ingredient.sugar g;
       Ingredient.icon_filename := Ingredient.icon_filename g;
       Ingredient.bowl_image_filename := Ingredient.bowl_image_filename g;
       Ingredient.is_drizzle := Ingredient.is_drizzle g |};
  table := ingredient;
  set_table t db :=
    {| user := user db; ingredient := t; bowl := bowl db;
       bowlingredient := bowlingredient db;
       useringredientnutrition := useringredientnutrition db |};
  unchanged := Ingredient.unchanged;
  updated := Ingredient.updated;
  object := an_Ingredient
|}.

#[export] Instance Bowl_Table : Table Bowl.t := {|
  pk := Bowl.id;
  set_pk i b :=
    {| Bowl.id := i; Bowl.name := Bowl.name b; Bowl.user_id := Bowl.user_id b;
       Bowl.saved := Bowl.saved b |};
  table := bowl;
  set_table t db :=
    {| user := user db; ingredient := ingredient db; bowl := t;
       bowlingredient := bowlingredient db;
       useringredientnutrition := useringredientnutrition db |};
  unchanged := Bowl.unchanged;
  updated := Bowl.updated;
  object := a_Bowl
|}.

#[export] Instance BowlIngredient_Table : Table BowlIngredient.t := {|
  pk := BowlIngredient.id;
  set_pk i bi :=
    {| BowlIngredient.id := i;
       BowlIngredient.bowl_id := BowlIngredient.bowl_id bi;
       BowlIngredient.ingredient_id := BowlIngredient.ingredient_id bi;
       BowlIngredient.quantity := BowlIngredient.quantity bi |};
  table := bowlingredient;
  set_table t db :=
    {| user := user db; ingredient := ingredient db; bowl := bowl db;
       bowlingredient := t;
       useringredientnutrition := useringredientnutrition db |};
  unchanged := BowlIngredient.unchanged;
  updated := BowlIngredient.updated;
  object := a_BowlIngredient
|}.

#[export] Instance UserIngredientNutrition_Table : Table UserIngredientNutrition.t := {|
  pk := UserIngredientNutrition.id;
  set_pk i n :=
    {| UserIngredientNutrition.id := i;
       UserIngredientNutrition.user_id := UserIngredientNutrition.user_id n;
       UserIngredientNutrition.ingredient_id := UserIngredientNutrition.ingredient_id n;
       UserIngredientNutrition.calories := UserIngredientNutrition.calories n;
       UserIngredientNutrition.protein := UserIngredientNutrition.protein n;
       UserIngredientNutrition.fiber := UserIngredientNutrition.fiber n;
       UserIngredientNutrition.sugar := UserIngredientNutrition.sugar n |};
  table := useringredientnutrition;
  set_table t db :=
    {| user := user db; ingredient := ingredient db; bowl := bowl db;
       bowlingredient := bowlingredient db;
       useringredientnutrition := t |};
  unchanged := UserIngredientNutrition.unchanged;
  updated := UserIngredientNutrition.updated;
  object := a_UserIngredientNutrition
|}.

(** *** Queries and writes on a store *)

Section StoreOps.
Context {A : Type} `{Table A}.

Definition rows (db : DB) : list A := stored_rows (table db).

(** [select(A).where(p)] followed by [.all()]. *)
Definition select_all (p : A -> bool) (db : DB) : list A :=
  List.filter p (rows db).

(** [select(A).where(p)] followed by [.first()]. *)
Definition select_first (p : A -> bool) (db : DB) : option A :=
  head (select_all p db).

(** [session.get(A, i)]: the row whose primary key is [i]. *)
Definition db_get (i : Z) (db : DB) : option A :=
  select_first (fun r => pk r =? i) db.

(** INSERT of a new object: the sequence numbers it and it goes last. *)
Definition db_insert (r : A) (db : DB) : A * DB :=
  let i := stored_seq (table db) + 1 in
  let r' := set_pk i r in
  (r', set_table {| stored_rows := rows db ++ [r']; stored_seq := i |} db).

(** The flush of a loaded object [r] whose attributes were assigned:
    UPDATE ... SET the columns that differ WHERE id = pk r.  PostgreSQL
    writes the new version of the row behind the rows the table has, and
    that is where the later scans find it.  Without a column that differs
    no statement is sent and the row stays where it is. *)
Definition db_update (r : A) (db : DB) : DB :=
  match db_get (pk r) db with
  | Some old =>
      if unchanged old r then db
      else
        set_table
          {| stored_rows :=
               List.filter (fun x => negb (pk x =? pk r)) (rows db) ++ [updated old r];
             stored_seq := stored_seq (table db) |} db
  | None => db
  end.

(** DELETE ... WHERE id = pk r. *)
Definition db_delete (r : A) (db : DB) : DB :=
  set_table
    {| stored_rows := List.filter (fun x => negb (pk x =? pk r)) (rows db);
       stored_seq := stored_seq (table db) |} db.

End StoreOps.

(** ** Sessions, exceptions and the handler monad *)

Module status.
Definition HTTP_400_BAD_REQUEST : Z := 400.
Definition HTTP_401_UNAUTHORIZED : Z := 401.
Definition HTTP_403_FORBIDDEN : Z := 403.
Definition HTTP_404_NOT_FOUND : Z := 404.
Definition HTTP_422_UNPROCESSABLE_ENTITY : Z := 422.
End status.

(** [IntegrityError] carries the name of the constraint PostgreSQL
    reports. *)
Inductive Exception :=
| HTTPException (status_code : Z) (detail : string)
| RequestValidationError (field : string)
| TypeError (msg : string)
| InvalidRequestError (msg : string)
| IntegrityError (constraint : string).

(** [committed]: the database as the last COMMIT left it.  [pending]: the
    database as the open transaction sees it.  [deleted]: the objects
    [session.delete] has marked, in the order they were marked; their
    DELETE statements are sent by the next flush. *)
Record Session := { committed : DB; pending : DB; deleted : list Object }.

Definition M (A : Type) : Type := Session -> (Exception + A) * Session.

#[export] Instance M_ret : MRet M := fun A a s => (inr a, s).

#[export] Instance M_bind : MBind M := fun A B f m s =>
  match m s with
  | (inl e, s') => (inl e, s')
  | (inr a, s') => f a s'
  end.

Definition raise {A : Type} (e : Exception) : M A := fun s => (inl e, s).

(** *** The flush

    SQLAlchemy's unit of work sends the DELETE statements of a flush class
    by class, in the order of the class names, whatever the order in which
    the objects were marked: [Bowl] before [BowlIngredient], and so on.
    (Within one class the rows go in the order of their keys; DELETEs on
    one table can be taken in any order.)  models.py declares the foreign
    keys as plain columns, without relationships between the classes, so
    nothing tells the unit of work that the lines of a bowl have to go
    before the bowl. *)
Definition class_rank (o : Object) : Z :=
  match o with
  | a_Bowl _ => 0
  | a_BowlIngredient _ => 1
  | an_Ingredient _ => 2
  | a_User _ => 3
  | a_UserIngredientNutrition _ => 4
  end.

Definition unit_of_work (marked : list Object) : list Object :=
  flat_map (fun rank => List.filter (fun o => class_rank o =? rank) marked)
    [0; 1; 2; 3; 4].

(** The foreign key that forbids the DELETE of [o]: PostgreSQL checks the
    five constraints of models.py at each statement, on what the
    transaction sees at that moment. *)
Definition restricts (o : Object) (db : DB) : option string :=
  match o with
  | a_Bowl b =>
      if existsb (fun bi => BowlIngredient.bowl_id bi =? Bowl.id b)
           (stored_rows (bowlingredient db))
      then Some "bowlingredient_bowl_id_fkey" else None
  | an_Ingredient g =>
      if existsb (fun bi => BowlIngredient.ingredient_id bi =? Ingredient.id g)
           (stored_rows (bowlingredient db))
      then Some "bowlingredient_ingredient_id_fkey"
      else if existsb (fun n => UserIngredientNutrition.ingredient_id n =? Ingredient.id g)
                (stored_rows (useringredientnutrition db))
      then Some "useringredientnutrition_ingredient_id_fkey" else None
  | a_User u =>
      if existsb (fun b => Bowl.user_id b =? User.id u) (stored_rows (bowl db))
      then Some "bowl_user_id_fkey"
      else if existsb (fun n => UserIngredientNutrition.user_id n =? User.id u)
                (stored_rows (useringredientnutrition db))
      then Some "useringredientnutrition_user_id_fkey" else None
  | a_BowlIngredient _ | a_UserIngredientNutrition _ => None
  end.

(** One DELETE statement. *)
Definition emit_delete (o : Object) (db : DB) : Exception + DB :=
  match restricts o db with
  | Some constraint => inl (IntegrityError constraint)
  | None =>
      inr match o with
          | a_User u => db_delete u db
          | an_Ingredient g => db_delete g db
          | a_Bowl b => db_delete b db
          | a_BowlIngredient bi => db_delete bi db
          | a_UserIngredientNutrition n => db_delete n db
          end
  end.

Fixpoint emit_deletes (l : list Object) (db : DB) : Exception + DB :=
  match l with
  | [] => inr db
  | o :: l' =>
      match emit_delete o db with
      | inl e => inl e
      | inr db' => emit_deletes l' db'
      end
  end.

(** What [session.flush()] does, and what a query and a commit begin
    with.  A statement that fails raises, and the transaction is rolled
    back. *)
Definition autoflush : M unit := fun s =>
  match deleted s with
  | [] => (inr tt, s)
  | marked =>
      match emit_deletes (unit_of_work marked) (pending s) with
      | inr db => (inr tt, {| committed := committed s; pending := db; deleted := [] |})
      | inl e =>
          (inl e, {| committed := committed s; pending := committed s; deleted := [] |})
      end
  end.

(** Run a read-only function on what the transaction sees; the session
    flushes first (autoflush). *)
Definition query {A : Type} (f : DB -> A) : M A :=
  autoflush;; ((fun s => (inr (f (pending s)), s)) : M A).

Definition modify (f : DB -> DB) : M unit :=
  fun s =>
    (inr tt, {| committed := committed s; pending := f (pending s);
                deleted := deleted s |}).

Module session.
Section Session.
Context {A : Type} `{Table A}.

Definition get (i : Z) : M (option A) := query (db_get i).

Definition exec_first (p : A -> bool) : M (option A) := query (select_first p).

Definition exec_all (p : A -> bool) : M (list A) := query (select_all p).

(** [session.add(obj)] of a new object.  Its INSERT belongs to the next
    flush, which sends INSERTs and UPDATEs before any DELETE; it is done
    here at once, which gives [obj] its id.  (The handlers flush or commit
    right after, and no INSERT or UPDATE of theirs can fail: the rows a new
    row refers to were looked up in the same transaction, or are the
    acting user's.) *)
Definition add (r : A) : M A := fun s =>
  let '(r', db) := db_insert r (pending s) in
  (inr r', {| committed := committed s; pending := db; deleted := deleted s |}).

(** An attribute assignment on a loaded object (with or without a
    following [session.add]): the UPDATE of the next flush, done at once
    like the INSERT. *)
Definition update (r : A) : M unit := modify (db_update r).

(** [session.delete(obj)] marks the object; nothing is sent yet. *)
Definition delete (r : A) : M unit := fun s =>
  (inr tt, {| committed := committed s; pending := pending s;
              deleted := deleted s ++ [object r] |}).

(** [session.refresh(obj)]: the object as the transaction now sees it. *)
Definition refresh (r : A) : M A :=
  found ← query (db_get (pk r));
  match found with
  | Some r' => mret r'
  | None => raise (InvalidRequestError "Could not refresh instance")
  end.

End Session.

Definition flush : M unit := autoflush.

(** [session.commit()]: flush, then COMMIT. *)
Definition commit : M unit :=
  autoflush;;
  ((fun s =>
      (inr tt, {| committed := pending s; pending := pending s; deleted := [] |}))
   : M unit).
End session.

(** [try: body / except Exception as e: handler(e)]. *)
Definition try_except {A : Type} (body : M A) (handler : Exception -> M A) : M A :=
  fun s =>
    match body s with
    | (inl e, s') => handler e s'
    | (inr a, s') => (inr a, s')
    end.

(** [str(e)]: Starlette prints an [HTTPException] as "status: detail". *)
Definition Exception_str (e : Exception) : string :=
  match e with
  | HTTPException status_code detail => pretty status_code +:+ ": " +:+ detail
  | RequestValidationError field => field
  | TypeError msg => msg
  | InvalidRequestError msg => msg
  | IntegrityError constraint => constraint
  end.

(** [for x in l: body(x)]. *)
Fixpoint for_each {A : Type} (l : list A) (body : A -> M unit) : M unit :=
  match l with
  | [] => mret tt
  | x :: l' => body x;; for_each l' body
  end.

(** Truth value of an [Optional[int]]: [None] and [0] are false. *)
Definition truthy (o : option Z) : bool :=
  match o with
  | Some i => negb (i =? 0)
  | None => false
  end.

(** One request against the store [db]: [get_session] opens a session,
    the handler runs, and closing the session keeps what was committed. *)
Definition run_request {A : Type} (h : M A) (db : DB) : (Exception + A) * DB :=
  let '(r, s) := h {| committed := db; pending := db; deleted := [] |} in
  (r, committed s).

(** FastAPI checks the declared constraints before it calls the handler
    and answers 422 when one fails. *)
Definition validated {A : Type} (ok : bool) (field : string) (handler : M A) : M A :=
  if ok then handler else raise (RequestValidationError field).

(** ** Python built-ins used by the handlers *)

Module Py.

(** [c.lower()] on one byte: ASCII capitals move down, the rest stay.
    (The patterns matched against lowered names are ASCII and hold no
    letter that is the lower case of a non-ASCII character, so leaving the
    bytes of non-ASCII text alone does not change any match.) *)
Definition lower_ascii (c : ascii) : ascii :=
  let n := nat_of_ascii c in
  if (Nat.leb 65 n && Nat.leb n 90)%bool then ascii_of_nat (n + 32) else c.

(** [s.lower()]. *)
Fixpoint lower (s : string) : string :=
  match s with
  | EmptyString => EmptyString
  | String c s' => String (lower_ascii c) (lower s')
  end.

(** [sub in s]: [sub] occurs in [s] as a contiguous run. *)
Fixpoint contains (sub s : string) : bool :=
  if String.prefix sub s then true
  else match s with
       | EmptyString => false
       | String _ s' => contains sub s'
       end.

(** [len(s)]: the number of characters.  In UTF-8 every character has
    one byte that is not a continuation byte (0x80-0xbf). *)
Definition is_continuation (c : ascii) : bool :=
  let n := nat_of_ascii c in (Nat.leb 128 n && Nat.leb n 191)%bool.

Fixpoint len (s : string) : nat :=
  match s with
  | EmptyString => O
  | String c s' => if is_continuation c then len s' else S (len s')
  end.

(** The characters [str.strip()] removes are those [str.isspace()] holds
    for, 29 in all.  Of one byte: tab, line feed, vertical tab, form feed,
    carriage return, the four separators 0x1c-0x1f and space. *)
Definition is_space (c : ascii) : bool :=
  let n := nat_of_ascii c in
  ((Nat.leb 9 n && Nat.leb n 13) || (Nat.leb 28 n && Nat.leb n 32))%bool.

(** Of two bytes: U+0085 (c2 85) and the no-break space U+00A0 (c2 a0). *)
Definition is_space2 (a b : ascii) : bool :=
  let '(x, y) := (nat_of_ascii a, nat_of_ascii b) in
  (Nat.eqb x 194 && (Nat.eqb y 133 || Nat.eqb y 160))%bool.

(** Of three bytes: U+1680 (e1 9a 80), U+2000 to U+200A (e2 80 80-8a),
    U+2028, U+2029 and U+202F (e2 80 a8, a9, af), U+205F (e2 81 9f) and
    U+3000 (e3 80 80). *)
Definition is_space3 (a b c : ascii) : bool :=
  let '(x, y, z) := (nat_of_ascii a, nat_of_ascii b, nat_of_ascii c) in
  ((Nat.eqb x 225 && Nat.eqb y 154 && Nat.eqb z 128)
   || (Nat.eqb x 226 && Nat.eqb y 128
       && ((Nat.leb 128 z && Nat.leb z 138) || Nat.eqb z 168 || Nat.eqb z 169
           || Nat.eqb z 175))
   || (Nat.eqb x 226 && Nat.eqb y 129 && Nat.eqb z 159)
   || (Nat.eqb x 227 && Nat.eqb y 128 && Nat.eqb z 128))%bool.

(** Drop the white space a text begins with; [two] and [three] recognise
    the characters of two and three bytes. *)
Fixpoint lstrip_with (two : ascii -> ascii -> bool)
  (three : ascii -> ascii -> ascii -> bool) (s : string) : string :=
  match s with
  | EmptyString => s
  | String a s1 =>
      if is_space a then lstrip_with two three s1
      else
        match s1 with
        | EmptyString => s
        | String b s2 =>
            if two a b then lstrip_with two three s2
            else
              match s2 with
              | EmptyString => s
              | String c s3 => if three a b c then lstrip_with two three s3 else s
              end
        end
  end.

Definition lstrip (s : string) : string := lstrip_with is_space2 is_space3 s.

Fixpoint reverse_onto (s acc : string) : string :=
  match s with
  | EmptyString => acc
  | String c s' => reverse_onto s' (String c acc)
  end.

Definition reverse (s : string) : string := reverse_onto s EmptyString.

(** The same from the end: on the reversed text a character's bytes come
    last byte first. *)
Definition rstrip (s : string) : string :=
  reverse
    (lstrip_with (fun b a => is_space2 a b) (fun c b a => is_space3 a b c) (reverse s)).

(** [s.strip()]. *)
Definition strip (s : string) : string := rstrip (lstrip s).

(** [c in string.punctuation]: the 32 ASCII marks. *)
Definition is_punctuation (c : ascii) : bool :=
  let n := nat_of_ascii c in
  ((Nat.leb 33 n && Nat.leb n 47) || (Nat.leb 58 n && Nat.leb n 64)
   || (Nat.leb 91 n && Nat.leb n 96) || (Nat.leb 123 n && Nat.leb n 126))%bool.

(** [any(p(char) for char in s)]. *)
Fixpoint any (p : ascii -> bool) (s : string) : bool :=
  match s with
  | EmptyString => false
  | String c s' => p c || any p s'
  end.

(** [all(p(char) for char in s)]. *)
Fixpoint all (p : ascii -> bool) (s : string) : bool :=
  match s with
  | EmptyString => true
  | String c s' => p c && all p s'
  end.

(** The class [[a-zA-Z0-9_]] of a regular expression. *)
Definition is_word (c : ascii) : bool :=
  let n := nat_of_ascii c in
  ((Nat.leb 48 n && Nat.leb n 57) || (Nat.leb 65 n && Nat.leb n 90)
   || (Nat.leb 97 n && Nat.leb n 122) || Nat.eqb n 95)%bool.

(** The integer nearest to [a / b], ties to the even one ([0 <= a], [0 < b]). *)
Definition div_half_even (a b : Z) : Z :=
  let q := a / b in
  match 2 * (a mod b) ?= b with
  | Lt => q
  | Gt => q + 1
  | Eq => if Z.even q then q else q + 1
  end.

(** [round(x, 2)] on a float: the exact value of [x] is rounded to the
    nearest multiple of 1/100 (ties to even), and the float nearest to
    that decimal is returned; zeros, infinities and NaN, and every float
    that is a whole number, are returned as they are. *)
Definition round2 (x : float) : float :=
  match Prim2SF x with
  | S754_finite s m e =>
      if 0 <=? e then x
      else
        match div_half_even (Z.pos m * 100) (2 ^ (- e)) with
        | Z.pos n =>
            SF2Prim (SFdiv prec emax (S754_finite s n 0) (S754_finite false 100 0))
        | _ => SF2Prim (S754_zero s)
        end
  | _ => x
  end.

End Py.

(** ** app/auth.py *)

(** The part of a Starlette request the handlers read. *)
Record Request := {
  cookies : gmap string string;
  headers : gmap string string
}.

Module auth.

Section Hashing.

(** [hashlib.sha256(data).hexdigest()], the library's digest of a text. *)
Variable sha256_hexdigest : string -> string.

Definition hash_password (password : string) : string := sha256_hexdigest password.

Definition verify_password (password password_hash : string) : bool :=
  String.eqb (hash_password password) password_hash.

End Hashing.

Definition get_current_user (request : Request) : M User.t :=
  match cookies request !! "username" with
  | None | Some "" =>
      raise (HTTPException status.HTTP_401_UNAUTHORIZED "Not authenticated")
  | Some username =>
      user ← session.exec_first (fun u => String.eqb (User.username u) username);
      match user with
      | None => raise (HTTPException status.HTTP_401_UNAUTHORIZED "User not found")
      | Some user => mret user
      end
  end.

Definition get_optional_user (request : Request) : M (option User.t) :=
  match cookies request !! "username" with
  | None | Some "" => mret None
  | Some username =>
      session.exec_first (fun u => String.eqb (User.username u) username)
  end.

End auth.

(** ** What the templates receive

    Jinja rendering is outside the program; a response keeps the template's
    name and the context it is rendered with. *)

(** The dict [get_ingredient_nutrition] returns. *)
Module Nutrition.
Record t := { calories : float; protein : float; fiber : float; sugar : float }.
End Nutrition.

(** One entry of [ingredients_list] in [calculate_nutrition]. *)
Module Line.
Record t := {
  id : Z;
  name : string;
  quantity : float;
  unit : string;
  calories : float;
  protein : float;
  fiber : float;
  sugar : float;
  icon_filename : option string;
  bowl_image_filename : option string;
  is_drizzle : bool
}.
End Line.

(** The dict [calculate_nutrition] returns. *)
Module BowlData.
Record t := {
  ingredients : list Line.t;
  total_calories : float;
  total_protein : float;
  total_fiber : float;
  total_sugar : float;
  tags : list string
}.
End BowlData.

Inductive Value :=
| VNone
| VStr (s : string)
| VInt (i : Z)
| VRequest (r : Request)
| VUser (u : User.t)
| VBowl (b : Bowl.t)
| VBowls (l : list Bowl.t)
| VIngredients (l : list Ingredient.t)
| VIngredientData (g : Ingredient.t)
| VBowlData (d : BowlData.t).

Definition opt_value {A : Type} (f : A -> Value) (o : option A) : Value :=
  match o with Some a => f a | None => VNone end.

Inductive Html :=
| Render (template : string) (context : gmap string Value)
| Text (s : string)
| Concat (a b : Html).

(** The opening tag of an out-of-band swap; [dq] is the double quote. *)
Definition dq : string := String (ascii_of_nat 34) EmptyString.

Definition oob_div (id : string) : string :=
  "<div id=" +:+ dq +:+ id +:+ dq +:+ " hx-swap-oob=" +:+ dq +:+ "innerHTML" +:+ dq +:+ ">".

Inductive Response :=
| TemplateResponse (template : string) (context : gmap string Value)
| TemplateResponseStatus (template : string) (context : gmap string Value)
    (status_code : Z)
| HTMLResponse (content : Html)
| RedirectResponse (url : string) (status_code : Z)
| set_cookie (response : Response) (key value : string)
| delete_cookie (response : Response) (key path : string).

(** ** app/routers/bowls_ui.py *)

Module bowls_ui.

Definition INGREDIENT_ORDER : list string :=
  [ "Greek Yogurt"; "Plain Yogurt"; "Strawberry Yogurt"; "Banana";
    "Blueberries"; "Strawberry"; "Nuts"; "Peanut Butter"; "Honey" ].

(** [{name: idx for idx, name in enumerate(names)}], counting from [idx]. *)
Fixpoint enumerate_map (idx : Z) (names : list string) (m : gmap string Z)
  : gmap string Z :=
  match names with
  | [] => m
  | name :: names' => enumerate_map (idx + 1) names' (<[name := idx]> m)
  end.

(** [sorted(l, key=key)]: a stable sort, by insertion. *)
Fixpoint insert_sorted {A : Type} (key : A -> Z) (x : A) (l : list A) : list A :=
  match l with
  | [] => [x]
  | y :: l' => if key x <=? key y then x :: l else y :: insert_sorted key x l'
  end.

Definition sorted {A : Type} (l : list A) (key : A -> Z) : list A :=
  fold_right (insert_sorted key) [] l.

Definition sort_ingredients (ingredients : list Ingredient.t) : list Ingredient.t :=
  let order_map := enumerate_map 0 INGREDIENT_ORDER ∅ in
  sorted ingredients
    (fun ing => default 999 (order_map !! Ingredient.name ing)).

Definition get_saved_bowls (user_id : Z) (db : DB) : list Bowl.t :=
  select_all (fun b => (Bowl.user_id b =? user_id) && Bool.eqb (Bowl.saved b) true) db.

Definition get_ingredient_nutrition (ingredient_id user_id : Z) (db : DB)
  : Nutrition.t :=
  let user_nutrition :=
    select_first
      (fun n => (UserIngredientNutrition.user_id n =? user_id)
                && (UserIngredientNutrition.ingredient_id n =? ingredient_id)) db in
  match user_nutrition with
  | Some user_nutrition =>
      {| Nutrition.calories := UserIngredientNutrition.calories user_nutrition;
         Nutrition.protein := UserIngredientNutrition.protein user_nutrition;
         Nutrition.fiber := UserIngredientNutrition.fiber user_nutrition;
         Nutrition.sugar := UserIngredientNutrition.sugar user_nutrition |}
  | None =>
      match db_get ingredient_id db with
      | None =>
          {| Nutrition.calories := 0; Nutrition.protein := 0;
             Nutrition.fiber := 0; Nutrition.sugar := 0 |}
      | Some ingredient =>
          {| Nutrition.calories := Ingredient.calories ingredient;
             Nutrition.protein := Ingredient.protein ingredient;
             Nutrition.fiber := Ingredient.fiber ingredient;
             Nutrition.sugar := Ingredient.sugar ingredient |}
      end
  end.

(** The [# set units] chain of [calculate_nutrition]. *)
Definition unit_of (name : string) (quantity : float) : string :=
  if Py.contains "yogurt" (Py.lower name) then
    if PrimFloat.eqb quantity 1 then "cup" else "cups"
  else if Py.contains "honey" (Py.lower name) then "tbsp"
  else if Py.contains "peanut" (Py.lower name) then "tbsp"
  else if Py.contains "nuts" (Py.lower name) then
    if PrimFloat.eqb quantity 1 then "cup" else "cups"
  else if Py.contains "strawberry" (Py.lower name)
          && negb (Py.contains "yogurt" (Py.lower name)) then
    if PrimFloat.eqb quantity 1 then "strawberry" else "strawberries"
  else if Py.contains "blueberr" (Py.lower name) then
    if PrimFloat.eqb quantity 1 then "cup" else "cups"
  else if Py.contains "banana" (Py.lower name) then
    if PrimFloat.eqb quantity 1 then "medium banana" else "medium bananas"
  else "".

(** The three [if/elif/else] blocks that fill [tags]. *)
Definition protein_tag (total_protein : float) : string :=
  if PrimFloat.leb 20 total_protein then "High Protein"
  else if PrimFloat.leb 10 total_protein then "Moderate Protein"
  else "Low Protein".

Definition fiber_tag (total_fiber : float) : string :=
  if PrimFloat.leb 6 total_fiber then "High Fiber"
  else if PrimFloat.leb 3 total_fiber then "Moderate Fiber"
  else "Low Fiber".

Definition sugar_tag (total_sugar : float) : string :=
  if PrimFloat.leb 20 total_sugar then "High Sugar"
  else if PrimFloat.leb 10 total_sugar then "Moderate Sugar"
  else "Low Sugar".

(** The variables the [for bi in bowl_ingredients] loop carries. *)
Record Loop := {
  total_calories : float;
  total_protein : float;
  total_fiber : float;
  total_sugar : float;
  ingredients_list : list Line.t
}.

(** One turn of the loop. *)
Definition loop_body (user_id : Z) (db : DB) (st : Loop) (bi : BowlIngredient.t)
  : Loop :=
  match db_get (BowlIngredient.ingredient_id bi) db with
  | None => st
  | Some ingredient =>
      let nutrition :=
        get_ingredient_nutrition (BowlIngredient.ingredient_id bi) user_id db in
      let calories := (Nutrition.calories nutrition * BowlIngredient.quantity bi)%float in
      let protein := (Nutrition.protein nutrition * BowlIngredient.quantity bi)%float in
      let fiber := (Nutrition.fiber nutrition * BowlIngredient.quantity bi)%float in
      let sugar := (Nutrition.sugar nutrition * BowlIngredient.quantity bi)%float in
      {| total_calories := (total_calories st + calories)%float;
         total_protein := (total_protein st + protein)%float;
         total_fiber := (total_fiber st + fiber)%float;
         total_sugar := (total_sugar st + sugar)%float;
         ingredients_list :=
           ingredients_list st ++
           [ {| Line.id := Ingredient.id ingredient;
                Line.name := Ingredient.name ingredient;
                Line.quantity := BowlIngredient.quantity bi;
                Line.unit :=
                  unit_of (Ingredient.name ingredient) (BowlIngredient.quantity bi);
                Line.calories := Py.round2 calories;
                Line.protein := Py.round2 protein;
                Line.fiber := Py.round2 fiber;
                Line.sugar := Py.round2 sugar;
                Line.icon_filename := Ingredient.icon_filename ingredient;
                Line.bowl_image_filename := Ingredient.bowl_image_filename ingredient;
                Line.is_drizzle := Ingredient.is_drizzle ingredient |} ] |}
  end.

Definition calculate_nutrition (bowl_id user_id : Z) (db : DB) : BowlData.t :=
  let bowl_ingredients :=
    select_all (fun bi => BowlIngredient.bowl_id bi =? bowl_id) db in
  let st :=
    fold_left (loop_body user_id db) bowl_ingredients
      {| total_calories := 0; total_protein := 0; total_fiber := 0;
         total_sugar := 0; ingredients_list := [] |} in
  let tags :=
    (([] ++ [protein_tag (total_protein st)])
        ++ [fiber_tag (total_fiber st)])
        ++ [sugar_tag (total_sugar st)] in
  {| BowlData.ingredients := ingredients_list st;
     BowlData.total_calories := Py.round2 (total_calories st);
     BowlData.total_protein := Py.round2 (total_protein st);
     BowlData.total_fiber := Py.round2 (total_fiber st);
     BowlData.total_sugar := Py.round2 (total_sugar st);
     BowlData.tags := tags |}.

(** *** The helpers that use the session *)

Definition verify_bowl_access (bowl : option Bowl.t) (current_user : User.t)
  : M Bowl.t :=
  let not_found_detail := "Bowl not found" in
  let unauthorized_detail := "Not authorized to access this bowl" in
  match bowl with
  | None => raise (HTTPException status.HTTP_404_NOT_FOUND not_found_detail)
  | Some bowl =>
      if negb (Bowl.user_id bowl =? User.id current_user) then
        (* Using 404 for UI consistency *)
        raise (HTTPException status.HTTP_404_NOT_FOUND unauthorized_detail)
      else mret bowl
  end.

(** A new [Bowl(...)] has [id=None] until its INSERT; the [0] below stands
    for that and is replaced by the sequence value. *)
Definition get_or_create_unsaved_bowl (user_id : Z) : M Bowl.t :=
  bowl ← session.exec_first
            (fun b => (Bowl.user_id b =? user_id) && Bool.eqb (Bowl.saved b) false);
  match bowl with
  | Some bowl => mret bowl
  | None =>
      bowl ← session.add
                {| Bowl.id := 0; Bowl.name := "My Bowl"; Bowl.user_id := user_id;
                   Bowl.saved := false |};
      session.commit;;
      bowl ← session.refresh bowl;
      mret bowl
  end.

Definition prepare_home_context (request : Request) (user : User.t)
  : M (gmap string Value) :=
  all_ingredients ← session.exec_all (fun _ : Ingredient.t => true);
  let ingredients := sort_ingredients all_ingredients in
  bowls ← query (get_saved_bowls (User.id user));
  current_bowl ← session.exec_first
      (fun b => (Bowl.user_id b =? User.id user) && Bool.eqb (Bowl.saved b) false);
  bowl_data ← match current_bowl with
               | Some current_bowl =>
                   d ← query (calculate_nutrition (Bowl.id current_bowl) (User.id user));
                   mret (VBowlData d)
               | None => mret VNone
               end;
  mret ({[ "request" := VRequest request;
           "user" := VUser user;
           "ingredients" := VIngredients ingredients;
           "bowls" := VBowls bowls;
           "current_bowl" := opt_value VBowl current_bowl;
           "bowl" := opt_value VBowl current_bowl;
           "bowl_data" := bowl_data ]} : gmap string Value).

(** The context of [bowl_section.html]. *)
Definition bowl_section_context (request : Request) (bowl : Bowl.t)
  (bowl_data : BowlData.t) : gmap string Value :=
  {[ "request" := VRequest request; "bowl" := VBowl bowl;
     "bowl_data" := VBowlData bowl_data ]}.

(** *** The routes; [current_user] is what [Depends(get_current_user)] gave *)

Definition home (request : Request) : M Response :=
  user ← auth.get_optional_user request;
  match user with
  | None =>
      mret (TemplateResponse "login_wrapper.html"
              {[ "request" := VRequest request; "error" := VNone ]})
  | Some user =>
      context ← prepare_home_context request user;
      mret (TemplateResponse "home.html" context)
  end.

(** The [try ... except Exception: pass] gives up the redirect when the
    lookup raises; the page is rendered either way. *)
Definition login_form (request : Request) : M Response :=
  redirect ← try_except
      (user ← auth.get_optional_user request;
       match user with
       | Some _ => mret (Some (RedirectResponse "/" 303))
       | None => mret None
       end)
      (fun _ => mret None);
  match redirect with
  | Some response => mret response
  | None =>
      if bool_decide (headers request !! "HX-Request" = Some "true") then
        mret (TemplateResponse "login.html"
                {[ "request" := VRequest request; "error" := VNone ]})
      else
        mret (TemplateResponse "login_wrapper.html"
                {[ "request" := VRequest request; "error" := VNone ]})
  end.

Definition register_form (request : Request) : M Response :=
  redirect ← try_except
      (user ← auth.get_optional_user request;
       match user with
       | Some _ => mret (Some (RedirectResponse "/" 303))
       | None => mret None
       end)
      (fun _ => mret None);
  match redirect with
  | Some response => mret response
  | None =>
      if bool_decide (headers request !! "HX-Request" = Some "true") then
        mret (TemplateResponse "register.html"
                {[ "request" := VRequest request; "error" := VNone ]})
      else
        mret (TemplateResponse "register_wrapper.html"
                {[ "request" := VRequest request; "error" := VNone ]})
  end.

Section Passwords.

Variable sha256_hexdigest : string -> string.

Definition register_htmx (request : Request) (name username password : string)
  : M Response :=
  try_except
    (existing ← session.exec_first (fun u => String.eqb (User.username u) username);
     match existing with
     | Some _ =>
         mret (TemplateResponse "register.html"
                 {[ "request" := VRequest request;
                    "error" := VStr "Username already exists" ]})
     | None =>
         if String.eqb (Py.strip username) "" || String.eqb (Py.strip password) ""
            || String.eqb (Py.strip name) "" then
           mret (TemplateResponseStatus "register.html"
                   {[ "request" := VRequest request;
                      "error" := VStr "Name, username and password cannot be empty" ]}
                   status.HTTP_400_BAD_REQUEST)
         else if Nat.ltb (Py.len password) 6 then
           mret (TemplateResponseStatus "register.html"
                   {[ "request" := VRequest request;
                      "error" := VStr "Password must be at least 6 characters long" ]}
                   status.HTTP_400_BAD_REQUEST)
         else
           let has_special := Py.any Py.is_punctuation password in
           if negb has_special then
             mret (TemplateResponseStatus "register.html"
                     {[ "request" := VRequest request;
                        "error" :=
                          VStr "Password must contain at least one special character" ]}
                     status.HTTP_400_BAD_REQUEST)
           else
             user ← session.add
                       {| User.id := 0; User.username := username;
                          User.password_hash :=
                            auth.hash_password sha256_hexdigest password;
                          User.name := Py.strip name |};
             session.commit;;
             user ← session.refresh user;
             context ← prepare_home_context request user;
             let response := TemplateResponse "home_content.html" context in
             mret (set_cookie response "username" (User.username user))
     end)
    (fun e =>
       mret (TemplateResponse "register.html"
               {[ "request" := VRequest request;
                  "error" := VStr ("Registration failed: " +:+ Exception_str e) ]})).

Definition login (request : Request) (username password : string) : M Response :=
  try_except
    (user ← session.exec_first (fun u => String.eqb (User.username u) username);
     match user with
     | None =>
         mret (TemplateResponse "login.html"
                 {[ "request" := VRequest request;
                    "error" := VStr "Invalid username or password" ]})
     | Some user =>
         if negb (auth.verify_password sha256_hexdigest password
                    (User.password_hash user)) then
           mret (TemplateResponse "login.html"
                   {[ "request" := VRequest request;
                      "error" := VStr "Invalid username or password" ]})
         else
           context ← prepare_home_context request user;
           let response := TemplateResponse "home_content.html" context in
           mret (set_cookie response "username" (User.username user))
     end)
    (fun e =>
       mret (TemplateResponse "login.html"
               {[ "request" := VRequest request;
                  "error" := VStr ("Login failed: " +:+ Exception_str e) ]})).

End Passwords.

Definition logout (request : Request) : M Response :=
  let response :=
    TemplateResponse "login.html"
      {[ "request" := VRequest request; "error" := VNone ]} in
  mret (delete_cookie response "username" "/").

Definition get_bowl_view (request : Request) (bowl_id : option Z)
  (current_user : User.t) : M Response :=
  bowl ← (if truthy bowl_id then
             bowl ← session.get (default 0 bowl_id);
             verify_bowl_access bowl current_user
           else get_or_create_unsaved_bowl (User.id current_user));
  bowl_data ← query (calculate_nutrition (Bowl.id bowl) (User.id current_user));
  let bowl_content := Render "bowl_section.html" (bowl_section_context request bowl bowl_data) in
  all_ingredients ← session.exec_all (fun _ : Ingredient.t => true);
  let ingredients := sort_ingredients all_ingredients in
  let ingredient_list_content :=
    Render "ingredient_list.html"
      {[ "request" := VRequest request; "ingredients" := VIngredients ingredients;
         "current_bowl" := VBowl bowl ]} in
  mret (HTMLResponse
          (Concat bowl_content
             (Concat (Text (oob_div "ingredient-list"))
                (Concat ingredient_list_content (Text "</div>"))))).

Definition get_saved_bowls_view (request : Request) (current_user : User.t)
  : M Response :=
  bowls ← query (get_saved_bowls (User.id current_user));
  mret (TemplateResponse "saved_bowls.html"
          {[ "request" := VRequest request; "bowls" := VBowls bowls ]}).

(** The [try ... except Exception: print; raise] around the body re-raises
    what it catches, so the body alone decides the outcome. *)
Definition delete_bowl (request : Request) (bowl_id : Z) (current_user : User.t)
  : M Response :=
  bowl ← session.get bowl_id;
  bowl ← verify_bowl_access bowl current_user;
  let user_id := User.id current_user in
  bowl_ingredients ← session.exec_all (fun bi => BowlIngredient.bowl_id bi =? bowl_id);
  for_each bowl_ingredients (fun bi => session.delete bi);;
  session.flush;;
  session.delete bowl;;
  session.commit;;
  bowls ← query (get_saved_bowls user_id);
  mret (TemplateResponse "saved_bowls.html"
          {[ "request" := VRequest request; "bowls" := VBowls bowls ]}).

Definition add_ingredient_to_bowl (request : Request) (bowl_id : option Z)
  (ingredient_id : Z) (quantity : float) (current_user : User.t) : M Response :=
  bowl ← (if truthy bowl_id then
             bowl ← session.get (default 0 bowl_id);
             verify_bowl_access bowl current_user
           else get_or_create_unsaved_bowl (User.id current_user));
  ingredient ← session.get (A := Ingredient.t) ingredient_id;
  match ingredient with
  | None => raise (HTTPException status.HTTP_404_NOT_FOUND "Ingredient not found")
  | Some ingredient =>
      existing ← session.exec_first
          (fun bi => (BowlIngredient.bowl_id bi =? Bowl.id bowl)
                     && (BowlIngredient.ingredient_id bi =? ingredient_id));
      match existing with
      | Some existing =>
          session.update (BowlIngredient.with_quantity quantity existing)
      | None =>
          _ ← session.add
                {| BowlIngredient.id := 0; BowlIngredient.bowl_id := Bowl.id bowl;
                   BowlIngredient.ingredient_id := ingredient_id;
                   BowlIngredient.quantity := quantity |};
          mret tt
      end;;
      session.commit;;
      bowl_data ← query (calculate_nutrition (Bowl.id bowl) (User.id current_user));
      mret (TemplateResponse "bowl_section.html"
              (bowl_section_context request bowl bowl_data))
  end.

Definition remove_ingredient_from_bowl (request : Request) (bowl_id ingredient_id : Z)
  (current_user : User.t) : M Response :=
  bowl ← session.get bowl_id;
  bowl ← verify_bowl_access bowl current_user;
  bowl_ingredient ← session.exec_first
      (fun bi => (BowlIngredient.bowl_id bi =? bowl_id)
                 && (BowlIngredient.ingredient_id bi =? ingredient_id));
  match bowl_ingredient with
  | Some bowl_ingredient => session.delete bowl_ingredient;; session.commit
  | None => mret tt
  end;;
  bowl_data ← query (calculate_nutrition bowl_id (User.id current_user));
  mret (TemplateResponse "bowl_section.html"
          (bowl_section_context request bowl bowl_data)).

Definition edit_bowl_name_form (request : Request) (bowl_id : Z)
  (current_user : User.t) : M Response :=
  bowl ← session.get bowl_id;
  bowl ← verify_bowl_access bowl current_user;
  mret (TemplateResponse "bowl_name_edit.html"
          {[ "request" := VRequest request; "bowl" := VBowl bowl ]}).

(** The call [calculate_nutrition(bowl.id, session)] gives two arguments
    to a function of three: Python raises [TypeError] there, after the
    commit, and the lines after it are not reached. *)
Definition update_bowl_name (request : Request) (bowl_id : Z) (name : string)
  (current_user : User.t) : M Response :=
  bowl ← session.get bowl_id;
  bowl ← verify_bowl_access bowl current_user;
  let cleaned_name := Py.strip name in
  let cleaned_name := if String.eqb cleaned_name "" then "My Bowl" else cleaned_name in
  let bowl := Bowl.with_name cleaned_name bowl in
  session.update bowl;;
  session.commit;;
  bowl ← session.refresh bowl;
  bowl_data ← raise (A := BowlData.t)
      (TypeError "calculate_nutrition() missing 1 required positional argument: 'session'");
  mret (TemplateResponse "bowl_section.html"
          (bowl_section_context request bowl bowl_data)).

Definition reset_bowl (request : Request) (current_user : User.t) : M Response :=
  current_bowl ← session.exec_first
      (fun b => (Bowl.user_id b =? User.id current_user)
                && Bool.eqb (Bowl.saved b) false);
  match current_bowl with
  | Some current_bowl =>
      bowl_ingredients ← session.exec_all
          (fun bi => BowlIngredient.bowl_id bi =? Bowl.id current_bowl);
      for_each bowl_ingredients (fun bi => session.delete bi);;
      session.delete current_bowl;;
      session.commit
  | None => mret tt
  end;;
  mret (TemplateResponse "empty_bowl.html" {[ "request" := VRequest request ]}).

Definition save_bowl_htmx (request : Request) (bowl_id : Z) (current_user : User.t)
  : M Response :=
  bowl ← session.get bowl_id;
  bowl ← verify_bowl_access bowl current_user;
  let bowl := Bowl.with_saved true bowl in
  session.update bowl;;
  session.commit;;
  bowl ← session.refresh bowl;
  bowl_data ← query (calculate_nutrition (Bowl.id bowl) (User.id current_user));
  bowls ← query (get_saved_bowls (User.id current_user));
  let bowl_content :=
    Render "bowl_section.html" (bowl_section_context request bowl bowl_data) in
  let saved_bowls_content :=
    Render "saved_bowls.html"
      {[ "request" := VRequest request; "bowls" := VBowls bowls ]} in
  mret (HTMLResponse
          (Concat bowl_content
             (Concat (Text (oob_div "saved-bowls"))
                (Concat saved_bowls_content (Text "</div>"))))).

Definition edit_ingredient_form (request : Request) (ingredient_id : Z)
  (bowl_id : option Z) (current_user : User.t) : M Response :=
  ingredient ← session.get (A := Ingredient.t) ingredient_id;
  match ingredient with
  | None => raise (HTTPException status.HTTP_404_NOT_FOUND "Ingredient not found")
  | Some ingredient =>
      nutrition ← query (get_ingredient_nutrition ingredient_id (User.id current_user));
      let ingredient_data :=
        {| Ingredient.id := Ingredient.id ingredient;
           Ingredient.name := Ingredient.name ingredient;
           Ingredient.calories := Nutrition.calories nutrition;
           Ingredient.protein := Nutrition.protein nutrition;
           Ingredient.fiber := Nutrition.fiber nutrition;
           Ingredient.sugar := Nutrition.sugar nutrition;
           Ingredient.icon_filename := Ingredient.icon_filename ingredient;
           Ingredient.bowl_image_filename := Ingredient.bowl_image_filename ingredient;
           Ingredient.is_drizzle := Ingredient.is_drizzle ingredient |} in
      mret (TemplateResponse "ingredient_edit.html"
              {[ "request" := VRequest request;
                 "ingredient" := VIngredientData ingredient_data;
                 "bowl_id" := opt_value VInt bowl_id ]})
  end.

Definition update_ingredient_htmx (request : Request) (ingredient_id : Z)
  (bowl_id : option Z) (calories protein fiber sugar : float)
  (current_user : User.t) : M Response :=
  ingredient ← session.get (A := Ingredient.t) ingredient_id;
  match ingredient with
  | None => raise (HTTPException status.HTTP_404_NOT_FOUND "Ingredient not found")
  | Some ingredient =>
      user_nutrition ← session.exec_first
          (fun n => (UserIngredientNutrition.user_id n =? User.id current_user)
                    && (UserIngredientNutrition.ingredient_id n =? ingredient_id));
      match user_nutrition with
      | Some user_nutrition =>
          session.update
            (UserIngredientNutrition.with_values calories protein fiber sugar
               user_nutrition)
      | None =>
          _ ← session.add
                {| UserIngredientNutrition.id := 0;
                   UserIngredientNutrition.user_id := User.id current_user;
                   UserIngredientNutrition.ingredient_id := ingredient_id;
                   UserIngredientNutrition.calories := calories;
                   UserIngredientNutrition.protein := protein;
                   UserIngredientNutrition.fiber := fiber;
                   UserIngredientNutrition.sugar := sugar |};
          mret tt
      end;;
      session.commit;;
      bowl ← (if truthy bowl_id then
                 bowl ← session.get (default 0 bowl_id);
                 verify_bowl_access bowl current_user
               else get_or_create_unsaved_bowl (User.id current_user));
      bowl_data ← query (calculate_nutrition (Bowl.id bowl) (User.id current_user));
      all_ingredients ← session.exec_all (fun _ : Ingredient.t => true);
      let ingredients := sort_ingredients all_ingredients in
      let ingredient_list_content :=
        Render "ingredient_list.html"
          {[ "request" := VRequest request;
             "ingredients" := VIngredients ingredients;
             "current_bowl" := VBowl bowl ]} in
      let bowl_content :=
        Render "bowl_section.html" (bowl_section_context request bowl bowl_data) in
      mret (HTMLResponse
              (Concat ingredient_list_content
                 (Concat (Text (oob_div "bowl-section"))
                    (Concat bowl_content (Text "</div>")))))
  end.

End bowls_ui.

(** ** app/routers/bowls_api.py *)

Module bowls_api.

Definition verify_bowl_access (bowl : option Bowl.t) (current_user : User.t)
  (not_found_detail unauthorized_detail : string) : M Bowl.t :=
  match bowl with
  | None => raise (HTTPException status.HTTP_404_NOT_FOUND not_found_detail)
  | Some bowl =>
      if negb (Bowl.user_id bowl =? User.id current_user) then
        raise (HTTPException status.HTTP_401_UNAUTHORIZED unauthorized_detail)
      else mret bowl
  end.

Definition get_and_verify_bowl (bowl_id : Z) (current_user : User.t)
  (unauthorized_detail : string) : M Bowl.t :=
  bowl ← session.get bowl_id;
  verify_bowl_access bowl current_user "Bowl not found" unauthorized_detail.

Definition verify_ingredient_exists (ingredient_id : Z) : M Ingredient.t :=
  ingredient ← session.get ingredient_id;
  match ingredient with
  | None => raise (HTTPException status.HTTP_404_NOT_FOUND "Ingredient not found")
  | Some ingredient => mret ingredient
  end.

Definition delete_bowl_ingredients (bowl_id : Z) : M unit :=
  bowl_ingredients ← session.exec_all (fun bi => BowlIngredient.bowl_id bi =? bowl_id);
  for_each bowl_ingredients (fun bi => session.delete bi).

(** *** Request and response models, with their [Field] constraints *)

Module CreateBowlRequest.
Record t := { name : string }.

Definition valid (r : t) : bool :=
  (Nat.leb 1 (Py.len (name r)) && Nat.leb (Py.len (name r)) 100)%bool.
End CreateBowlRequest.

Module CreateBowlResponse.
Record t := { bowl_id : Z }.
End CreateBowlResponse.

Module SaveBowlRequest.
Record t := { bowl_id : Z }.

Definition valid (r : t) : bool := 1 <=? bowl_id r.
End SaveBowlRequest.

Module SaveBowlResponse.
Record t := { bowl_id : Z; saved : bool }.
End SaveBowlResponse.

Module AddIngredientRequest.
Record t := { bowl_id : Z; ingredient_id : Z; quantity : float }.

Definition valid (r : t) : bool :=
  (1 <=? bowl_id r) && (1 <=? ingredient_id r) && PrimFloat.ltb 0 (quantity r).
End AddIngredientRequest.

Module AddIngredientResponse.
Record t := { bowl_id : Z }.
End AddIngredientResponse.

Module RemoveIngredientRequest.
Record t := { bowl_id : Z; ingredient_id : Z }.

Definition valid (r : t) : bool := (1 <=? bowl_id r) && (1 <=? ingredient_id r).
End RemoveIngredientRequest.

Module RemoveIngredientResponse.
Record t := { bowl_id : Z }.
End RemoveIngredientResponse.

Module BowlResponse.
Record t := { id : Z; name : string; user_id : Z; saved : bool }.
End BowlResponse.

(** [Path(ge=1)] on a route's [bowl_id]. *)
Definition Path_ge_1 (bowl_id : Z) : bool := 1 <=? bowl_id.

(** *** The routes *)

Definition get_bowl (bowl_id : Z) (current_user : User.t) : M BowlResponse.t :=
  bowl ← get_and_verify_bowl bowl_id current_user "Not authorized to access this bowl";
  mret {| BowlResponse.id := Bowl.id bowl; BowlResponse.name := Bowl.name bowl;
          BowlResponse.user_id := Bowl.user_id bowl; BowlResponse.saved := Bowl.saved bowl |}.

Definition create_bowl (request : CreateBowlRequest.t) (current_user : User.t)
  : M CreateBowlResponse.t :=
  let cleaned := Py.strip (CreateBowlRequest.name request) in
  bowl ← session.add
            {| Bowl.id := 0; Bowl.name := cleaned;
               Bowl.user_id := User.id current_user; Bowl.saved := false |};
  session.commit;;
  bowl ← session.refresh bowl;
  mret {| CreateBowlResponse.bowl_id := Bowl.id bowl |}.

Definition update_bowl (request : CreateBowlRequest.t) (bowl_id : Z)
  (current_user : User.t) : M BowlResponse.t :=
  bowl ← get_and_verify_bowl bowl_id current_user "Not authorized to update this bowl";
  let cleaned := Py.strip (CreateBowlRequest.name request) in
  let bowl := Bowl.with_name cleaned bowl in
  session.update bowl;;
  session.commit;;
  bowl ← session.refresh bowl;
  mret {| BowlResponse.id := Bowl.id bowl; BowlResponse.name := Bowl.name bowl;
          BowlResponse.user_id := Bowl.user_id bowl; BowlResponse.saved := Bowl.saved bowl |}.

Definition save_bowl (request : SaveBowlRequest.t) (current_user : User.t)
  : M SaveBowlResponse.t :=
  bowl ← get_and_verify_bowl (SaveBowlRequest.bowl_id request) current_user
            "Not authorized to save this bowl";
  let bowl := Bowl.with_saved true bowl in
  session.update bowl;;
  session.commit;;
  mret {| SaveBowlResponse.bowl_id := Bowl.id bowl; SaveBowlResponse.saved := true |}.

Definition add_ingredient (request : AddIngredientRequest.t) (current_user : User.t)
  : M AddIngredientResponse.t :=
  bowl ← get_and_verify_bowl (AddIngredientRequest.bowl_id request) current_user
            "Not authorized to modify this bowl";
  ingredient ← verify_ingredient_exists (AddIngredientRequest.ingredient_id request);
  existing ← session.exec_first
      (fun bi => (BowlIngredient.bowl_id bi =? AddIngredientRequest.bowl_id request)
                 && (BowlIngredient.ingredient_id bi =? AddIngredientRequest.ingredient_id request));
  match existing with
  | Some existing =>
      session.update (BowlIngredient.with_quantity (AddIngredientRequest.quantity request) existing)
  | None =>
      _ ← session.add
            {| BowlIngredient.id := 0;
               BowlIngredient.bowl_id := AddIngredientRequest.bowl_id request;
               BowlIngredient.ingredient_id := AddIngredientRequest.ingredient_id request;
               BowlIngredient.quantity := AddIngredientRequest.quantity request |};
      mret tt
  end;;
  session.commit;;
  mret {| AddIngredientResponse.bowl_id := AddIngredientRequest.bowl_id request |}.

Definition remove_ingredient (request : RemoveIngredientRequest.t)
  (current_user : User.t) : M RemoveIngredientResponse.t :=
  bowl ← get_and_verify_bowl (RemoveIngredientRequest.bowl_id request) current_user
            "Not authorized to modify this bowl";
  bowl_ingredient ← session.exec_first
      (fun bi => (BowlIngredient.bowl_id bi =? RemoveIngredientRequest.bowl_id request)
                 && (BowlIngredient.ingredient_id bi =? RemoveIngredientRequest.ingredient_id request));
  match bowl_ingredient with
  | None =>
      raise (HTTPException status.HTTP_404_NOT_FOUND "Ingredient not found in bowl")
  | Some bowl_ingredient =>
      session.delete bowl_ingredient;;
      session.commit;;
      mret {| RemoveIngredientResponse.bowl_id := RemoveIngredientRequest.bowl_id request |}
  end.

(** Answers [Response(status_code=204)]: no content. *)
Definition delete_bowl (bowl_id : Z) (current_user : User.t) : M unit :=
  bowl ← get_and_verify_bowl bowl_id current_user "Not authorized to delete this bowl";
  delete_bowl_ingredients bowl_id;;
  session.delete bowl;;
  session.commit;;
  mret tt.

End bowls_api.

(** ** app/routers/ingredients_api.py *)

Module ingredients_api.

Module UpdateNutritionRequest.
Record t := {
  ingredient_id : Z;
  calories : float;
  protein : float;
  fiber : float;
  sugar : float
}.

Definition valid (r : t) : bool :=
  (1 <=? ingredient_id r)
  && PrimFloat.leb 0 (calories r) && PrimFloat.leb 0 (protein r)
  && PrimFloat.leb 0 (fiber r) && PrimFloat.leb 0 (sugar r).
End UpdateNutritionRequest.

Module UpdateNutritionResponse.
Record t := { ingredient_id : Z; updated : bool }.
End UpdateNutritionResponse.

Definition update_nutrition (request : UpdateNutritionRequest.t)
  (current_user : User.t) : M UpdateNutritionResponse.t :=
  ingredient ← session.get (A := Ingredient.t)
      (UpdateNutritionRequest.ingredient_id request);
  match ingredient with
  | None => raise (HTTPException status.HTTP_404_NOT_FOUND "Ingredient not found")
  | Some ingredient =>
      user_nutrition ← session.exec_first
          (fun n => (UserIngredientNutrition.user_id n =? User.id current_user)
                    && (UserIngredientNutrition.ingredient_id n
                        =? UpdateNutritionRequest.ingredient_id request));
      match user_nutrition with
      | Some user_nutrition =>
          session.update
            (UserIngredientNutrition.with_values
               (UpdateNutritionRequest.calories request)
               (UpdateNutritionRequest.protein request)
               (UpdateNutritionRequest.fiber request)
               (UpdateNutritionRequest.sugar request) user_nutrition)
      | None =>
          _ ← session.add
                {| UserIngredientNutrition.id := 0;
                   UserIngredientNutrition.user_id := User.id current_user;
                   UserIngredientNutrition.ingredient_id :=
                     UpdateNutritionRequest.ingredient_id request;
                   UserIngredientNutrition.calories :=
                     UpdateNutritionRequest.calories request;
                   UserIngredientNutrition.protein :=
                     UpdateNutritionRequest.protein request;
                   UserIngredientNutrition.fiber := UpdateNutritionRequest.fiber request;
                   UserIngredientNutrition.sugar := UpdateNutritionRequest.sugar request |};
          mret tt
      end;;
      session.commit;;
      mret {| UpdateNutritionResponse.ingredient_id := Ingredient.id ingredient;
              UpdateNutritionResponse.updated := true |}
  end.

End ingredients_api.

(** ** app/routers/auth_api.py *)

Module auth_api.

Module RegisterRequest.
Record t := { username : string; password : string }.

(** [username]: 3 to 30 characters of [[a-zA-Z0-9_]]; [password]: at least 6. *)
Definition valid (r : t) : bool :=
  (Nat.leb 3 (Py.len (username r)) && Nat.leb (Py.len (username r)) 30
   && Py.all Py.is_word (username r)
   && Nat.leb 6 (Py.len (password r)))%bool.
End RegisterRequest.

Module RegisterResponse.
Record t := { user_id : Z; username : string; name : string }.
End RegisterResponse.

Section Passwords.

Variable sha256_hexdigest : string -> string.

(** The answer is the response model together with the cookie the handler
    sets on the injected [response]. *)
Definition register (request : RegisterRequest.t)
  : M (RegisterResponse.t * (string * string)) :=
  existing ← session.exec_first
      (fun u => String.eqb (User.username u) (RegisterRequest.username request));
  match existing with
  | Some _ =>
      raise (HTTPException status.HTTP_400_BAD_REQUEST "Username already exists")
  | None =>
      user ← session.add
                {| User.id := 0; User.username := RegisterRequest.username request;
                   User.password_hash :=
                     auth.hash_password sha256_hexdigest (RegisterRequest.password request);
                   User.name := RegisterRequest.username request |};
      session.commit;;
      user ← session.refresh user;
      mret ({| RegisterResponse.user_id := User.id user;
               RegisterResponse.username := User.username user;
               RegisterResponse.name := User.name user |},
            ("username", User.username user))
  end.

End Passwords.

End auth_api.

(** ** app/seed.py: the catalog, and small stores to evaluate on *)

Module seed.

Definition row (id : Z) (name : string) (calories protein fiber sugar : float)
  (icon_filename bowl_image_filename : option string) (is_drizzle : bool)
  : Ingredient.t :=
  {| Ingredient.id := id; Ingredient.name := name;
     Ingredient.calories := calories; Ingredient.protein := protein;
     Ingredient.fiber := fiber; Ingredient.sugar := sugar;
     Ingredient.icon_filename := icon_filename;
     Ingredient.bowl_image_filename := bowl_image_filename;
     Ingredient.is_drizzle := is_drizzle |}.

(** [INGREDIENTS], numbered in the order [seed_ingredients] inserts them
    into an empty table. *)
Definition INGREDIENTS : list Ingredient.t :=
  [ row 1 "Greek Yogurt" 140 22 0.5 7.5 None None false;
    row 2 "Plain Yogurt" 140 23 0 7 None None false;
    row 3 "Strawberry Yogurt" 160 7 0.5 23 None None false;
    row 4 "Banana" 107.5 0x1.4cccccccccccdp+0 3 14.5
      (Some "banana_icon.PNG") (Some "banana_slices.PNG") false;
    row 5 "Blueberries" 87.5 1 3.5 15
      (Some "blueberry_icon.PNG") (Some "blueberry_clump.PNG") false;
    row 6 "Strawberry" 5 0x1.999999999999ap-4 1 0x1.6666666666666p-1
      (Some "strawberry_icon.png") (Some "strawberry_slices.PNG") false;
    row 7 "Honey" 64 0 0 17
      (Some "honey_bottle.PNG") (Some "honey_drizzle.PNG") true;
    row 8 "Nuts" 575 17.5 7 5
      (Some "nuts_icon.png") (Some "nuts_slices.png") false;
    row 9 "Peanut Butter" 95 3.5 1.5 1.5
      (Some "peanut_icon.png") (Some "peanut_drizzle.png") true ].

(** One turn of the loop of [seed_ingredients]: the row that has the name
    takes the values of [ing_data] and keeps its id and name; without such
    a row a new [Ingredient] built from [ing_data] is added. *)
Definition seed_ingredient (ing_data : Ingredient.t) : M unit :=
  existing ← session.exec_first
      (fun g => String.eqb (Ingredient.name g) (Ingredient.name ing_data));
  match existing with
  | Some existing =>
      session.update
        {| Ingredient.id := Ingredient.id existing;
           Ingredient.name := Ingredient.name existing;
           Ingredient.calories := Ingredient.calories ing_data;
           Ingredient.protein := Ingredient.protein ing_data;
           Ingredient.fiber := Ingredient.fiber ing_data;
           Ingredient.sugar := Ingredient.sugar ing_data;
           Ingredient.icon_filename := Ingredient.icon_filename ing_data;
           Ingredient.bowl_image_filename := Ingredient.bowl_image_filename ing_data;
           Ingredient.is_drizzle := Ingredient.is_drizzle ing_data |}
  | None =>
      _ ← session.add ing_data;
      mret tt
  end.

(** [seed_ingredients] over a list; the source runs it on [INGREDIENTS]. *)
Definition seed_ingredients_from (data : list Ingredient.t) : M unit :=
  for_each data seed_ingredient;;
  session.commit.

Definition seed_ingredients : M unit := seed_ingredients_from INGREDIENTS.

End seed.

Module sample.

Definition alice : User.t :=
  {| User.id := 1; User.username := "alice"; User.password_hash := "h1";
     User.name := "Alice" |}.

Definition carol : User.t :=
  {| User.id := 2; User.username := "carol"; User.password_hash := "h2";
     User.name := "Carol" |}.

(** The seeded catalog and two users; no bowl yet. *)
Definition db0 : DB :=
  {| user := {| stored_rows := [alice; carol]; stored_seq := 2 |};
     ingredient := {| stored_rows := seed.INGREDIENTS; stored_seq := 9 |};
     bowl := {| stored_rows := []; stored_seq := 0 |};
     bowlingredient := {| stored_rows := []; stored_seq := 0 |};
     useringredientnutrition := {| stored_rows := []; stored_seq := 0 |} |}.

(** Alice owns bowl 1, with two bananas and one line (ingredient 77) whose
    catalog entry is gone; she has overridden both ingredients. *)
Definition db1 : DB :=
  {| user := user db0;
     ingredient := ingredient db0;
     bowl :=
       {| stored_rows :=
            [ {| Bowl.id := 1; Bowl.name := "My Bowl"; Bowl.user_id := 1;
                 Bowl.saved := false |} ];
          stored_seq := 1 |};
     bowlingredient :=
       {| stored_rows :=
            [ {| BowlIngredient.id := 1; BowlIngredient.bowl_id := 1;
                 BowlIngredient.ingredient_id := 4; BowlIngredient.quantity := 2 |};
              {| BowlIngredient.id := 2; BowlIngredient.bowl_id := 1;
                 BowlIngredient.ingredient_id := 77; BowlIngredient.quantity := 3 |} ];
          stored_seq := 2 |};
     useringredientnutrition :=
       {| stored_rows :=
            [ {| UserIngredientNutrition.id := 1;
                 UserIngredientNutrition.user_id := 1;
                 UserIngredientNutrition.ingredient_id := 4;
                 UserIngredientNutrition.calories := 200;
                 UserIngredientNutrition.protein := 2;
                 UserIngredientNutrition.fiber := 3;
                 UserIngredientNutrition.sugar := 10 |};
              {| UserIngredientNutrition.id := 2;
                 UserIngredientNutrition.user_id := 1;
                 UserIngredientNutrition.ingredient_id := 77;
                 UserIngredientNutrition.calories := 50;
                 UserIngredientNutrition.protein := 50;
                 UserIngredientNutrition.fiber := 50;
                 UserIngredientNutrition.sugar := 50 |} ];
          stored_seq := 2 |} |}.

(** The same store without any line. *)
Definition db2 : DB :=
  {| user := user db1; ingredient := ingredient db1; bowl := bowl db1;
     bowlingredient := {| stored_rows := []; stored_seq := 2 |};
     useringredientnutrition := useringredientnutrition db1 |}.

(** The seeded store with two users, where Alice's unsaved bowl 1 holds
    two bananas and Carol has a saved bowl 2 with one cup of blueberries
    and values of her own for them. *)
Definition db3 : DB :=
  {| user := user db0;
     ingredient := ingredient db0;
     bowl :=
       {| stored_rows :=
            [ {| Bowl.id := 1; Bowl.name := "My Bowl"; Bowl.user_id := 1;
                 Bowl.saved := false |};
              {| Bowl.id := 2; Bowl.name := "Breakfast"; Bowl.user_id := 2;
                 Bowl.saved := true |} ];
          stored_seq := 2 |};
     bowlingredient :=
       {| stored_rows :=
            [ {| BowlIngredient.id := 1; BowlIngredient.bowl_id := 1;
                 BowlIngredient.ingredient_id := 4; BowlIngredient.quantity := 2 |};
              {| BowlIngredient.id := 2; BowlIngredient.bowl_id := 2;
                 BowlIngredient.ingredient_id := 5; BowlIngredient.quantity := 1 |} ];
          stored_seq := 2 |};
     useringredientnutrition :=
       {| stored_rows :=
            [ {| UserIngredientNutrition.id := 1;
                 UserIngredientNutrition.user_id := 2;
                 UserIngredientNutrition.ingredient_id := 5;
                 UserIngredientNutrition.calories := 90;
                 UserIngredientNutrition.protein := 1;
                 UserIngredientNutrition.fiber := 4;
                 UserIngredientNutrition.sugar := 14 |} ];
          stored_seq := 1 |} |}.

Definition request_of (username : string) : Request :=
  {| cookies := {[ "username" := username ]}; headers := ∅ |}.

(** The no-break space U+00A0 and the letter U+00E9, in UTF-8. *)
Definition nbsp : string :=
  String (ascii_of_nat 194) (String (ascii_of_nat 160) EmptyString).

Definition e_acute : string :=
  String (ascii_of_nat 195) (String (ascii_of_nat 169) EmptyString).

End sample.

(** * Part II: what the theorems speak about *)

(** ** The aggregation as the specification words it

    These definitions follow section 4.3 of the specification, not the
    code; the theorems of Part III compare the two. *)

Module Spec.

(** The override of [(user, ingredient)], if the user has one. *)
Definition override (user_id ingredient_id : Z) (db : DB)
  : option UserIngredientNutrition.t :=
  select_first
    (fun n => (UserIngredientNutrition.user_id n =? user_id)
              && (UserIngredientNutrition.ingredient_id n =? ingredient_id)) db.

(** Per-unit values: the override's if present, else the ingredient's. *)
Definition per_unit (user_id : Z) (db : DB) (g : Ingredient.t) : Nutrition.t :=
  match override user_id (Ingredient.id g) db with
  | Some o =>
      {| Nutrition.calories := UserIngredientNutrition.calories o;
         Nutrition.protein := UserIngredientNutrition.protein o;
         Nutrition.fiber := UserIngredientNutrition.fiber o;
         Nutrition.sugar := UserIngredientNutrition.sugar o |}
  | None =>
      {| Nutrition.calories := Ingredient.calories g;
         Nutrition.protein := Ingredient.protein g;
         Nutrition.fiber := Ingredient.fiber g;
         Nutrition.sugar := Ingredient.sugar g |}
  end.

(** The lines of a bowl, in storage order. *)
Definition lines (bowl_id : Z) (db : DB) : list BowlIngredient.t :=
  select_all (fun bi => BowlIngredient.bowl_id bi =? bowl_id) db.

(** The retained lines: those whose ingredient is in the catalog, each
    with its catalog entry.  A line without one is dropped. *)
Fixpoint retained (db : DB) (l : list BowlIngredient.t)
  : list (BowlIngredient.t * Ingredient.t) :=
  match l with
  | [] => []
  | bi :: l' =>
      match db_get (BowlIngredient.ingredient_id bi) db with
      | Some g => (bi, g) :: retained db l'
      | None => retained db l'
      end
  end.

(** A line's unrounded value of one nutrient: per-unit value times quantity. *)
Definition raw (nutrient : Nutrition.t -> float) (user_id : Z) (db : DB)
  (line : BowlIngredient.t * Ingredient.t) : float :=
  (nutrient (per_unit user_id db (snd line)) * BowlIngredient.quantity (fst line))%float.

(** The sum of floats at full precision, left to right from [0.0]. *)
Definition fsum (xs : list float) : float := fold_left PrimFloat.add xs 0%float.

(** A bowl's unrounded total of one nutrient. *)
Definition total (nutrient : Nutrition.t -> float) (bowl_id user_id : Z) (db : DB)
  : float :=
  fsum (map (raw nutrient user_id db) (retained db (lines bowl_id db))).

(** The unit rule table: predicate on the lowered name, singular, plural. *)
Definition unit_rules : list ((string -> bool) * string * string) :=
  [ (Py.contains "yogurt", "cup", "cups");
    (Py.contains "honey", "tbsp", "tbsp");
    (Py.contains "peanut", "tbsp", "tbsp");
    (Py.contains "nuts", "cup", "cups");
    (fun n => Py.contains "strawberry" n && negb (Py.contains "yogurt" n),
      "strawberry", "strawberries");
    (Py.contains "blueberr", "cup", "cups");
    (Py.contains "banana", "medium banana", "medium bananas") ].

(** First matching rule wins; no rule gives the empty string. *)
Fixpoint first_rule (rules : list ((string -> bool) * string * string))
  (lowered : string) (singular : bool) : string :=
  match rules with
  | [] => ""
  | (matches, one, many) :: rules' =>
      if matches lowered then (if singular then one else many)
      else first_rule rules' lowered singular
  end.

Definition unit_label (name : string) (quantity : float) : string :=
  first_rule unit_rules (Py.lower name) (PrimFloat.eqb quantity 1).

(** The reported line of a retained line. *)
Definition reported (user_id : Z) (db : DB) (line : BowlIngredient.t * Ingredient.t)
  : Line.t :=
  let '(bi, g) := line in
  {| Line.id := Ingredient.id g;
     Line.name := Ingredient.name g;
     Line.quantity := BowlIngredient.quantity bi;
     Line.unit := unit_label (Ingredient.name g) (BowlIngredient.quantity bi);
     Line.calories := Py.round2 (raw Nutrition.calories user_id db line);
     Line.protein := Py.round2 (raw Nutrition.protein user_id db line);
     Line.fiber := Py.round2 (raw Nutrition.fiber user_id db line);
     Line.sugar := Py.round2 (raw Nutrition.sugar user_id db line);
     Line.icon_filename := Ingredient.icon_filename g;
     Line.bowl_image_filename := Ingredient.bowl_image_filename g;
     Line.is_drizzle := Ingredient.is_drizzle g |}.

End Spec.

(** ** Catalog order *)

(** The sort key of [sort_ingredients]: the place of the name in
    [INGREDIENT_ORDER], and 999 for a name that is not listed. *)
Definition display_rank (ing : Ingredient.t) : Z :=
  default 999
    (bowls_ui.enumerate_map 0 bowls_ui.INGREDIENT_ORDER ∅ !! Ingredient.name ing).

(** ** Invariants of the store *)

(** What registration maintains on the user table: no empty username, and
    no username twice (the column is declared [unique]). *)
Definition users_ok (db : DB) : Prop :=
  List.Forall (fun u => User.username u <> "") (rows (A := User.t) db)
  /\ List.NoDup (map User.username (rows (A := User.t) db)).

(** The laws a table's place in the store obeys. *)
Class TableLaws (A : Type) `{Table A} := {
  table_set_table : forall (t : Stored A) (db : DB), table (set_table t db) = t;
  set_table_table : forall db : DB, set_table (table db) db = db;
  pk_set_pk : forall (i : Z) (r : A), pk (set_pk i r) = i;
  pk_updated : forall old new : A, pk (updated old new) = pk old;
  updated_unchanged : forall old new : A, unchanged old new = true -> updated old new = old
}.

(** Primary keys are distinct and were all handed out by the sequence. *)
Definition keys_ok {A : Type} `{Table A} (db : DB) : Prop :=
  List.NoDup (map pk (rows db))
  /\ List.Forall (fun r => pk r <= stored_seq (table db)) (rows db).

(** The filter of [get_or_create_unsaved_bowl]: owner and [saved == False]. *)
Definition working (user_id : Z) (b : Bowl.t) : bool :=
  (Bowl.user_id b =? user_id) && Bool.eqb (Bowl.saved b) false.

(** ** The bowl-scoped routes, as one type *)

Inductive Route :=
| api_get_bowl (bowl_id : Z)
| api_update_bowl (request : bowls_api.CreateBowlRequest.t) (bowl_id : Z)
| api_save_bowl (request : bowls_api.SaveBowlRequest.t)
| api_add_ingredient (request : bowls_api.AddIngredientRequest.t)
| api_remove_ingredient (request : bowls_api.RemoveIngredientRequest.t)
| api_delete_bowl (bowl_id : Z)
| ui_get_bowl_view (request : Request) (bowl_id : option Z)
| ui_delete_bowl (request : Request) (bowl_id : Z)
| ui_add_ingredient_to_bowl (request : Request) (bowl_id : option Z)
    (ingredient_id : Z) (quantity : float)
| ui_remove_ingredient_from_bowl (request : Request) (bowl_id ingredient_id : Z)
| ui_edit_bowl_name_form (request : Request) (bowl_id : Z)
| ui_update_bowl_name (request : Request) (bowl_id : Z) (name : string)
| ui_save_bowl_htmx (request : Request) (bowl_id : Z).

Definition is_api (r : Route) : bool :=
  match r with
  | api_get_bowl _ | api_update_bowl _ _ | api_save_bowl _ | api_add_ingredient _
  | api_remove_ingredient _ | api_delete_bowl _ => true
  | _ => false
  end.

(** The declared constraints of the request ([Path(ge=1)], [Field(...)]);
    form fields of the HTML routes declare none. *)
Definition request_valid (r : Route) : bool :=
  match r with
  | api_get_bowl bowl_id => bowls_api.Path_ge_1 bowl_id
  | api_update_bowl request bowl_id =>
      bowls_api.Path_ge_1 bowl_id && bowls_api.CreateBowlRequest.valid request
  | api_save_bowl request => bowls_api.SaveBowlRequest.valid request
  | api_add_ingredient request => bowls_api.AddIngredientRequest.valid request
  | api_remove_ingredient request => bowls_api.RemoveIngredientRequest.valid request
  | api_delete_bowl bowl_id => bowls_api.Path_ge_1 bowl_id
  | _ => true
  end.

(** The bowl id the route hands to the ownership check: none when an
    HTML route falls back to the working bowl. *)
Definition checked_bowl_id (r : Route) : option Z :=
  match r with
  | api_get_bowl bowl_id | api_update_bowl _ bowl_id | api_delete_bowl bowl_id => Some bowl_id
  | api_save_bowl request => Some (bowls_api.SaveBowlRequest.bowl_id request)
  | api_add_ingredient request => Some (bowls_api.AddIngredientRequest.bowl_id request)
  | api_remove_ingredient request =>
      Some (bowls_api.RemoveIngredientRequest.bowl_id request)
  | ui_get_bowl_view _ bowl_id | ui_add_ingredient_to_bowl _ bowl_id _ _ =>
      if truthy bowl_id then bowl_id else None
  | ui_delete_bowl _ bowl_id | ui_remove_ingredient_from_bowl _ bowl_id _
  | ui_edit_bowl_name_form _ bowl_id | ui_update_bowl_name _ bowl_id _
  | ui_save_bowl_htmx _ bowl_id => Some bowl_id
  end.

Definition answered {A : Type} (h : M A) : M unit := _ ← h; mret tt.

(** The route as FastAPI serves it for [current_user]: constraints, then
    the handler. *)
Definition serve (r : Route) (current_user : User.t) : M unit :=
  validated (request_valid r) "request"
    match r with
    | api_get_bowl bowl_id => answered (bowls_api.get_bowl bowl_id current_user)
    | api_update_bowl request bowl_id =>
        answered (bowls_api.update_bowl request bowl_id current_user)
    | api_save_bowl request => answered (bowls_api.save_bowl request current_user)
    | api_add_ingredient request => answered (bowls_api.add_ingredient request current_user)
    | api_remove_ingredient request =>
        answered (bowls_api.remove_ingredient request current_user)
    | api_delete_bowl bowl_id => bowls_api.delete_bowl bowl_id current_user
    | ui_get_bowl_view request bowl_id =>
        answered (bowls_ui.get_bowl_view request bowl_id current_user)
    | ui_delete_bowl request bowl_id =>
        answered (bowls_ui.delete_bowl request bowl_id current_user)
    | ui_add_ingredient_to_bowl request bowl_id ingredient_id quantity =>
        answered (bowls_ui.add_ingredient_to_bowl request bowl_id ingredient_id quantity
                current_user)
    | ui_remove_ingredient_from_bowl request bowl_id ingredient_id =>
        answered (bowls_ui.remove_ingredient_from_bowl request bowl_id ingredient_id
                current_user)
    | ui_edit_bowl_name_form request bowl_id =>
        answered (bowls_ui.edit_bowl_name_form request bowl_id current_user)
    | ui_update_bowl_name request bowl_id name =>
        answered (bowls_ui.update_bowl_name request bowl_id name current_user)
    | ui_save_bowl_htmx request bowl_id =>
        answered (bowls_ui.save_bowl_htmx request bowl_id current_user)
    end.

(** The status line of the answer to a raised exception: FastAPI answers
    a failed constraint with 422 and an uncaught error with 500. *)
Definition status_of (e : Exception) : Z :=
  match e with
  | HTTPException status_code _ => status_code
  | RequestValidationError _ => status.HTTP_422_UNPROCESSABLE_ENTITY
  | TypeError _ | InvalidRequestError _ | IntegrityError _ => 500
  end.

(** ** The ownership check, as the specification states it *)

(** The specification's statement: a foreign bowl is answered
    with a Forbidden condition of its own, neither the answer to a
    missing login (401) nor the answer to a missing bowl (404). *)
Definition foreign_bowl_is_forbidden : Prop :=
  forall (r : Route) (current_user : User.t) (db : DB) (bowl_id : Z) (b : Bowl.t),
    checked_bowl_id r = Some bowl_id ->
    request_valid r = true ->
    db_get (A := Bowl.t) bowl_id db = Some b ->
    Bowl.user_id b <> User.id current_user ->
    exists e : Exception,
      fst (run_request (serve r current_user) db) = inl e
      /\ status_of e <> status.HTTP_401_UNAUTHORIZED
      /\ status_of e <> status.HTTP_404_NOT_FOUND.

(** ** Lines of a bowl *)

(** The pair a line is for. *)
Definition line_pair (bi : BowlIngredient.t) : Z * Z :=
  (BowlIngredient.bowl_id bi, BowlIngredient.ingredient_id bi).

(** The filter both upsert routes use to look for the line. *)
Definition for_pair (bowl_id ingredient_id : Z) (bi : BowlIngredient.t) : bool :=
  (BowlIngredient.bowl_id bi =? bowl_id)
  && (BowlIngredient.ingredient_id bi =? ingredient_id).

(** The invariant: at most one line per (bowl, ingredient), on a table
    whose keys are in order. *)
Definition lines_ok (db : DB) : Prop :=
  keys_ok (A := BowlIngredient.t) db
  /\ List.NoDup (map line_pair (rows (A := BowlIngredient.t) db)).

(** What an upsert does to the store: assign the quantity to the line of
    the pair if it has one, else create the line. *)
Definition upsert_line (bowl_id ingredient_id : Z) (quantity : float) (db : DB) : DB :=
  match select_first (for_pair bowl_id ingredient_id) db with
  | Some existing => db_update (BowlIngredient.with_quantity quantity existing) db
  | None =>
      snd (db_insert
             {| BowlIngredient.id := 0; BowlIngredient.bowl_id := bowl_id;
                BowlIngredient.ingredient_id := ingredient_id;
                BowlIngredient.quantity := quantity |} db)
  end.

(** ** Aggregation without a bowl, and deletion *)

(** The specification's statement: aggregation of an id that resolves to
    no bowl fails with NotFound. *)
Definition aggregate_fails_without_bowl : Prop :=
  forall (bowl_id user_id : Z) (db : DB),
    db_get (A := Bowl.t) bowl_id db = None ->
    exists detail : string,
      fst (run_request (query (bowls_ui.calculate_nutrition bowl_id user_id)) db)
      = inl (HTTPException status.HTTP_404_NOT_FOUND detail).

(** What the aggregation gives for a bowl without lines. *)
Definition empty_bowl_data : BowlData.t :=
  {| BowlData.ingredients := [];
     BowlData.total_calories := 0; BowlData.total_protein := 0;
     BowlData.total_fiber := 0; BowlData.total_sugar := 0;
     BowlData.tags := ["Low Protein"; "Low Fiber"; "Low Sugar"] |}.

(** The bowl [bowl_id] and everything of it is gone from [db]. *)
Definition bowl_gone (bowl_id : Z) (db : DB) : Prop :=
  db_get (A := Bowl.t) bowl_id db = None
  /\ Spec.lines bowl_id db = []
  /\ (forall user_id, bowls_ui.calculate_nutrition bowl_id user_id db = empty_bowl_data)
  /\ (forall r current_user,
        checked_bowl_id r = Some bowl_id ->
        request_valid r = true ->
        run_request (serve r current_user) db
        = (inl (HTTPException status.HTTP_404_NOT_FOUND "Bowl not found"), db)).

(** ** Renaming *)

(** The specification's statement, for one rename route: when
    the acting user owns the bowl the route answers, and its answer
    carries the bowl's nutrition recomputed for that user on the store it
    committed. *)
Definition rename_answers_with_nutrition {R : Type} (rename : Z -> User.t -> M R)
  : Prop :=
  exists data_of : R -> BowlData.t,
    forall (bowl_id : Z) (current_user : User.t) (db : DB) (b : Bowl.t),
      db_get bowl_id db = Some b ->
      Bowl.user_id b = User.id current_user ->
      exists (resp : R) (db' : DB),
        run_request (rename bowl_id current_user) db = (inr resp, db')
        /\ data_of resp
           = bowls_ui.calculate_nutrition bowl_id (User.id current_user) db'.

(** The name the HTML rename stores. *)
Definition cleaned_name (name : string) : string :=
  if String.eqb (Py.strip name) "" then "My Bowl" else Py.strip name.

(** ** Overrides *)

(** The pair an override is for. *)
Definition override_pair (n : UserIngredientNutrition.t) : Z * Z :=
  (UserIngredientNutrition.user_id n, UserIngredientNutrition.ingredient_id n).

(** The filter every override lookup uses. *)
Definition for_override (user_id ingredient_id : Z) (n : UserIngredientNutrition.t)
  : bool :=
  (UserIngredientNutrition.user_id n =? user_id)
  && (UserIngredientNutrition.ingredient_id n =? ingredient_id).

(** At most one override per (user, ingredient), on a table whose keys are
    in order. *)
Definition overrides_ok (db : DB) : Prop :=
  keys_ok (A := UserIngredientNutrition.t) db
  /\ List.NoDup (map override_pair (rows (A := UserIngredientNutrition.t) db)).

(** What an override update does to the store: assign the four values to
    the user's override of the ingredient if there is one, else create
    it. *)
Definition upsert_override (user_id ingredient_id : Z) (v : Nutrition.t) (db : DB) : DB :=
  match select_first (for_override user_id ingredient_id) db with
  | Some existing =>
      db_update
        (UserIngredientNutrition.with_values (Nutrition.calories v)
           (Nutrition.protein v) (Nutrition.fiber v) (Nutrition.sugar v) existing) db
  | None =>
      snd (db_insert
             {| UserIngredientNutrition.id := 0;
                UserIngredientNutrition.user_id := user_id;
                UserIngredientNutrition.ingredient_id := ingredient_id;
                UserIngredientNutrition.calories := Nutrition.calories v;
                UserIngredientNutrition.protein := Nutrition.protein v;
                UserIngredientNutrition.fiber := Nutrition.fiber v;
                UserIngredientNutrition.sugar := Nutrition.sugar v |} db)
  end.

(** [stored] is the number [assigned]: the same float, or a zero where a
    zero was assigned (the two zeros differ in sign only). *)
Definition same_number (stored assigned : float) : Prop :=
  stored = assigned
  \/ (PrimFloat.eqb stored 0 = true /\ PrimFloat.eqb assigned 0 = true).

(** What the lookup of a pair finds after [v] was written over the
    override [old] the pair had: a value that equals the loaded one under
    [==] is not sent to the database, so the column keeps its float. *)
Definition written_over (old : option UserIngredientNutrition.t) (v : Nutrition.t)
  : Nutrition.t :=
  match old with
  | Some e =>
      {| Nutrition.calories :=
           assign_float (UserIngredientNutrition.calories e) (Nutrition.calories v);
         Nutrition.protein :=
           assign_float (UserIngredientNutrition.protein e) (Nutrition.protein v);
         Nutrition.fiber :=
           assign_float (UserIngredientNutrition.fiber e) (Nutrition.fiber v);
         Nutrition.sugar :=
           assign_float (UserIngredientNutrition.sugar e) (Nutrition.sugar v) |}
  | None => v
  end.


(** ** Removing a line *)

(** The store without any line of the pair. *)
Definition without_line (bowl_id ingredient_id : Z) (db : DB) : DB :=
  set_table
    {| stored_rows :=
         List.filter (fun bi => negb (for_pair bowl_id ingredient_id bi))
           (rows (A := BowlIngredient.t) db);
       stored_seq := stored_seq (bowlingredient db) |} db.

(** ** Deleting a bowl *)

(** The store without the bowl and without its lines; all else as it is. *)
Definition without_bowl (bowl_id : Z) (db : DB) : DB :=
  {| user := user db;
     ingredient := ingredient db;
     bowl :=
       {| stored_rows :=
            List.filter (fun b => negb (Bowl.id b =? bowl_id)) (stored_rows (bowl db));
          stored_seq := stored_seq (bowl db) |};
     bowlingredient :=
       {| stored_rows :=
            List.filter (fun bi => negb (BowlIngredient.bowl_id bi =? bowl_id))
              (stored_rows (bowlingredient db));
          stored_seq := stored_seq (bowlingredient db) |};
     useringredientnutrition := useringredientnutrition db |}.

(** ** Seeding the catalog *)

(** The row [e] with the values of [d], id and name kept. *)
Definition seed_values (d e : Ingredient.t) : Ingredient.t :=
  {| Ingredient.id := Ingredient.id e; Ingredient.name := Ingredient.name e;
     Ingredient.calories := Ingredient.calories d;
     Ingredient.protein := Ingredient.protein d;
     Ingredient.fiber := Ingredient.fiber d;
     Ingredient.sugar := Ingredient.sugar d;
     Ingredient.icon_filename := Ingredient.icon_filename d;
     Ingredient.bowl_image_filename := Ingredient.bowl_image_filename d;
     Ingredient.is_drizzle := Ingredient.is_drizzle d |}.

Definition named (d g : Ingredient.t) : bool :=
  String.eqb (Ingredient.name g) (Ingredient.name d).

(** What one turn of the seeding loop does to the store. *)
Definition seed_step (d : Ingredient.t) (db : DB) : DB :=
  match select_first (named d) db with
  | Some e => db_update (seed_values d e) db
  | None => snd (db_insert d db)
  end.

(** The catalog has [d]: the row the seeding finds under the name of [d]
    carries the values of [d], so that assigning them writes nothing. *)
Definition seeded (d : Ingredient.t) (db : DB) : Prop :=
  exists e,
    select_first (named d) db = Some e
    /\ Ingredient.unchanged e (seed_values d e) = true.

(** No two rows of the catalog have the same name. *)
Definition names_ok (db : DB) : Prop :=
  List.NoDup (map Ingredient.name (rows (A := Ingredient.t) db)).

(** The whole loop. *)
Definition seed_all (data : list Ingredient.t) (db : DB) : DB :=
  fold_left (fun d x => seed_step x d) data db.

(** ** The store's constraints, and every entry point *)

(** Some row of the table has the key [i]. *)
Definition has_key {A : Type} `{Table A} (i : Z) (db : DB) : Prop :=
  In i (map pk (rows db)).

(** The foreign keys models.py declares. *)
Definition refs_ok (db : DB) : Prop :=
  List.Forall (fun b => has_key (A := User.t) (Bowl.user_id b) db) (rows db)
  /\ List.Forall
       (fun bi =>
          has_key (A := Bowl.t) (BowlIngredient.bowl_id bi) db
          /\ has_key (A := Ingredient.t) (BowlIngredient.ingredient_id bi) db)
       (rows db)
  /\ List.Forall
       (fun n =>
          has_key (A := User.t) (UserIngredientNutrition.user_id n) db
          /\ has_key (A := Ingredient.t) (UserIngredientNutrition.ingredient_id n) db)
       (rows db).

(** The declared constraints (primary keys, unique usernames, foreign keys)
    together with what the handlers maintain among themselves: one line per
    bowl and ingredient, one override per user and ingredient. *)
Record store_ok (db : DB) : Prop := {
  ok_user_keys : keys_ok (A := User.t) db;
  ok_usernames : users_ok db;
  ok_ingredient_keys : keys_ok (A := Ingredient.t) db;
  ok_bowl_keys : keys_ok (A := Bowl.t) db;
  ok_lines : lines_ok db;
  ok_overrides : overrides_ok db;
  ok_refs : refs_ok db
}.

(** Every handler of the application, and the seeding script. *)
Inductive Call :=
| bowl_call (r : Route)
| api_create_bowl (request : bowls_api.CreateBowlRequest.t)
| api_update_nutrition (request : ingredients_api.UpdateNutritionRequest.t)
| api_register (request : auth_api.RegisterRequest.t)
| ui_home (request : Request)
| ui_login_form (request : Request)
| ui_register_form (request : Request)
| ui_register_htmx (request : Request) (name username password : string)
| ui_login (request : Request) (username password : string)
| ui_logout (request : Request)
| ui_get_saved_bowls_view (request : Request)
| ui_reset_bowl (request : Request)
| ui_edit_ingredient_form (request : Request) (ingredient_id : Z) (bowl_id : option Z)
| ui_update_ingredient_htmx (request : Request) (ingredient_id : Z) (bowl_id : option Z)
    (calories protein fiber sugar : float)
| seed_call.

(** The call as it is served: the declared constraints of a JSON body
    first, then the handler, for the user the cookie resolved to. *)
Definition handle (sha256_hexdigest : string -> string) (c : Call)
  (current_user : User.t) : M unit :=
  match c with
  | bowl_call r => serve r current_user
  | api_create_bowl request =>
      validated (bowls_api.CreateBowlRequest.valid request) "request"
        (answered (bowls_api.create_bowl request current_user))
  | api_update_nutrition request =>
      validated (ingredients_api.UpdateNutritionRequest.valid request) "request"
        (answered (ingredients_api.update_nutrition request current_user))
  | api_register request =>
      validated (auth_api.RegisterRequest.valid request) "request"
        (answered (auth_api.register sha256_hexdigest request))
  | ui_home request => answered (bowls_ui.home request)
  | ui_login_form request => answered (bowls_ui.login_form request)
  | ui_register_form request => answered (bowls_ui.register_form request)
  | ui_register_htmx request name username password =>
      answered (bowls_ui.register_htmx sha256_hexdigest request name username password)
  | ui_login request username password =>
      answered (bowls_ui.login sha256_hexdigest request username password)
  | ui_logout request => answered (bowls_ui.logout request)
  | ui_get_saved_bowls_view request =>
      answered (bowls_ui.get_saved_bowls_view request current_user)
  | ui_reset_bowl request => answered (bowls_ui.reset_bowl request current_user)
  | ui_edit_ingredient_form request ingredient_id bowl_id =>
      answered (bowls_ui.edit_ingredient_form request ingredient_id bowl_id current_user)
  | ui_update_ingredient_htmx request ingredient_id bowl_id calories protein fiber sugar =>
      answered (bowls_ui.update_ingredient_htmx request ingredient_id bowl_id
                  calories protein fiber sugar current_user)
  | seed_call => seed.seed_ingredients
  end.

(** The calls that take [Depends(get_current_user)]. *)
Definition authenticated (c : Call) : bool :=
  match c with
  | api_register _ | ui_home _ | ui_login_form _ | ui_register_form _
  | ui_register_htmx _ _ _ _ | ui_login _ _ _ | ui_logout _ | seed_call => false
  | _ => true
  end.

(** The stores the application can get into from [db0]: by any calls, the
    authenticated ones made for a user the store holds. *)
Inductive reachable (sha256_hexdigest : string -> string) (db0 : DB) : DB -> Prop :=
| reachable_start : reachable sha256_hexdigest db0 db0
| reachable_call (db : DB) (c : Call) (current_user : User.t) :
    reachable sha256_hexdigest db0 db ->
    (authenticated c = true -> In current_user (rows db)) ->
    reachable sha256_hexdigest db0
      (snd (run_request (handle sha256_hexdigest c current_user) db)).

(** From [db] to [db']: the constraints hold, and no user is lost. *)
Definition keeps_ok (db db' : DB) : Prop :=
  store_ok db' /\ forall u : User.t, In u (rows db) -> In u (rows db').

(** ** The list the bowl view shows *)

(** What one line contributes to the list: its entry, or nothing when the
    catalog does not have the ingredient. *)
Definition entry (user_id : Z) (db : DB) (bi : BowlIngredient.t) : list Line.t :=
  match db_get (BowlIngredient.ingredient_id bi) db with
  | Some g => [Spec.reported user_id db (bi, g)]
  | None => []
  end.

(** The entries of a list that are, or are not, about an ingredient. *)
Definition about (ingredient_id : Z) (l : Line.t) : bool := Line.id l =? ingredient_id.

(** ** The elementary writes *)

(** A new [Bowl(name=..., user_id=..., saved=False)]. *)
Definition new_bowl (name : string) (user_id : Z) : Bowl.t :=
  {| Bowl.id := 0; Bowl.name := name; Bowl.user_id := user_id; Bowl.saved := false |}.

(** What a call made for the user [u] can do to the store, whatever the
    call: nothing, or one of ten writes, or two of them in a row.  The
    writes to bowls and lines are on bowls [u] owns, the override is of
    [u].  A bowl beside the working bowl needs [creating], a change of the
    catalog needs [seeding]. *)
Inductive write (creating seeding : bool) (u : User.t) : DB -> DB -> Prop :=
| write_nothing (db : DB) : write creating seeding u db db
| write_working_bowl (db : DB) :
    In u (rows db) ->
    select_first (working (User.id u)) db = None ->
    write creating seeding u db (snd (db_insert (new_bowl "My Bowl" (User.id u)) db))
| write_created_bowl (db : DB) (name : string) :
    creating = true ->
    In u (rows db) ->
    write creating seeding u db (snd (db_insert (new_bowl name (User.id u)) db))
| write_renamed (db : DB) (b : Bowl.t) (name : string) :
    In b (rows db) ->
    Bowl.user_id b = User.id u ->
    write creating seeding u db (db_update (Bowl.with_name name b) db)
| write_saved (db : DB) (b : Bowl.t) :
    In b (rows db) ->
    Bowl.user_id b = User.id u ->
    write creating seeding u db (db_update (Bowl.with_saved true b) db)
| write_line (db : DB) (b : Bowl.t) (g : Ingredient.t) (quantity : float) :
    In b (rows db) ->
    Bowl.user_id b = User.id u ->
    In g (rows db) ->
    write creating seeding u db
      (upsert_line (Bowl.id b) (Ingredient.id g) quantity db)
| write_line_removed (db : DB) (b : Bowl.t) (ingredient_id : Z) :
    In b (rows db) ->
    Bowl.user_id b = User.id u ->
    write creating seeding u db (without_line (Bowl.id b) ingredient_id db)
| write_bowl_removed (db : DB) (b : Bowl.t) :
    In b (rows db) ->
    Bowl.user_id b = User.id u ->
    write creating seeding u db (without_bowl (Bowl.id b) db)
| write_override (db : DB) (g : Ingredient.t) (v : Nutrition.t) :
    In u (rows db) ->
    In g (rows db) ->
    write creating seeding u db (upsert_override (User.id u) (Ingredient.id g) v db)
| write_user (db : DB) (new : User.t) :
    User.username new <> "" ->
    select_first (fun v => String.eqb (User.username v) (User.username new)) db = None ->
    write creating seeding u db (snd (db_insert new db))
| write_seeded (db : DB) (data : list Ingredient.t) :
    seeding = true ->
    write creating seeding u db (seed_all data db)
| write_then (db db1 db2 : DB) :
    write creating seeding u db db1 ->
    write creating seeding u db1 db2 ->
    write creating seeding u db db2.

Definition is_create (c : Call) : bool :=
  match c with api_create_bowl _ => true | _ => false end.

Definition is_seed (c : Call) : bool :=
  match c with seed_call => true | _ => false end.

Definition is_save (c : Call) : bool :=
  match c with
  | bowl_call (api_save_bowl _) | bowl_call (ui_save_bowl_htmx _ _) => true
  | _ => false
  end.

(** The specification's statement about the working bowl: two calls of
    [get_or_create_unsaved_bowl] for a user return the same bowl id,
    whatever call that is not a save the user makes in between. *)
Definition same_working_bowl_without_save : Prop :=
  forall (sha256_hexdigest : string -> string) (c : Call) (current_user : User.t)
    (db : DB),
    store_ok db ->
    In current_user (rows db) ->
    is_save c = false ->
    let first :=
      run_request (bowls_ui.get_or_create_unsaved_bowl (User.id current_user)) db in
    let between :=
      snd (run_request (handle sha256_hexdigest c current_user) (snd first)) in
    let second :=
      run_request (bowls_ui.get_or_create_unsaved_bowl (User.id current_user)) between in
    exists b1 b2 : Bowl.t,
      fst first = inr b1 /\ fst second = inr b2 /\ Bowl.id b1 = Bowl.id b2.

(** No user has two unsaved bowls. *)
Definition one_working (db : DB) : Prop :=
  forall user_id, (length (select_all (working user_id) db) <= 1)%nat.

(** What belongs to a user: the bowls, their lines, the overrides. *)
Definition bowls_of (user_id : Z) (db : DB) : list Bowl.t :=
  select_all (fun b => Bowl.user_id b =? user_id) db.

Definition overrides_of (user_id : Z) (db : DB) : list UserIngredientNutrition.t :=
  select_all (fun n => UserIngredientNutrition.user_id n =? user_id) db.

(** The bowls of a user, the lines of those bowls and the overrides of the
    user are the same in both stores. *)
Definition same_for (user_id : Z) (db db' : DB) : Prop :=
  bowls_of user_id db' = bowls_of user_id db
  /\ (forall b, In b (bowls_of user_id db) ->
        Spec.lines (Bowl.id b) db' = Spec.lines (Bowl.id b) db)
  /\ overrides_of user_id db' = overrides_of user_id db.

(** * Part III: proofs *)

(** ** Running handlers *)

(** Unfold the monad's plumbing in the goal. *)
Ltac run_m :=
  cbv beta iota zeta delta
    [ run_request mbind mret M_bind M_ret raise query modify autoflush
      session.get session.exec_first session.exec_all session.add
      session.update session.delete session.refresh session.commit
      session.flush validated deleted ].

(** Unfold a route down to the session operations. *)
Ltac run_route :=
  unfold serve, answered, bowls_api.get_bowl, bowls_api.update_bowl,
    bowls_api.save_bowl, bowls_api.add_ingredient, bowls_api.remove_ingredient,
    bowls_api.delete_bowl, bowls_api.get_and_verify_bowl,
    bowls_api.verify_bowl_access, bowls_ui.get_bowl_view, bowls_ui.delete_bowl,
    bowls_ui.add_ingredient_to_bowl, bowls_ui.remove_ingredient_from_bowl,
    bowls_ui.edit_bowl_name_form, bowls_ui.update_bowl_name,
    bowls_ui.save_bowl_htmx, bowls_ui.update_ingredient_htmx,
    bowls_ui.verify_bowl_access;
  run_m; simpl.

(** The constraints of a sample store, by computation. *)
Ltac store_ok_by_computation :=
  split;
  [ split; simpl; repeat constructor; simpl; intuition lia
  | split; simpl; repeat constructor; simpl; intuition discriminate
  | split; simpl; repeat constructor; simpl; intuition lia
  | split; simpl; repeat constructor; simpl; intuition lia
  | split; [split|]; simpl; repeat constructor; simpl;
      first [intuition lia | intuition discriminate]
  | split; [split|]; simpl; repeat constructor; simpl;
      first [intuition lia | intuition discriminate]
  | split; [|split]; apply List.Forall_forall; simpl; intros x Hx;
      repeat destruct Hx as [<-|Hx]; try contradiction; unfold has_key; simpl; auto 20 ].

(** ** Store facts *)

Section StoreFacts.
Context {A : Type} `{Table A}.

Lemma select_first_Some (p : A -> bool) (db : DB) (r : A) :
  select_first p db = Some r -> p r = true /\ In r (rows db).
Proof.
  unfold select_first, select_all.
  induction (rows db) as [|x l IH]; simpl; [discriminate|].
  destruct (p x) eqn:Hp; simpl.
  - intros [= <-]. auto.
  - intros Hr. destruct (IH Hr). auto.
Qed.

Lemma select_first_None (p : A -> bool) (db : DB) :
  select_first p db = None -> select_all p db = [].
Proof.
  unfold select_first. destruct (select_all p db); [reflexivity | discriminate].
Qed.

Lemma db_get_Some (i : Z) (db : DB) (r : A) :
  db_get i db = Some r -> pk r = i /\ In r (rows db).
Proof.
  intros Hg. apply select_first_Some in Hg as [Hp Hin].
  split; [lia | assumption].
Qed.

End StoreFacts.

(** ** C1: what the aggregation computes *)

Lemma get_ingredient_nutrition_per_unit (user_id : Z) (db : DB) (g : Ingredient.t) :
  db_get (Ingredient.id g) db = Some g ->
  bowls_ui.get_ingredient_nutrition (Ingredient.id g) user_id db
  = Spec.per_unit user_id db g.
Proof.
  intros Hg. unfold bowls_ui.get_ingredient_nutrition, Spec.per_unit, Spec.override.
  destruct (select_first _ db); [reflexivity|].
  rewrite Hg. reflexivity.
Qed.

Lemma unit_of_unit_label (name : string) (quantity : float) :
  bowls_ui.unit_of name quantity = Spec.unit_label name quantity.
Proof.
  unfold bowls_ui.unit_of, Spec.unit_label, Spec.unit_rules, Spec.first_rule.
  repeat match goal with
         | |- context [if ?b then _ else _] => destruct b eqn:?; simpl; try reflexivity
         end.
Qed.

Lemma loop_body_retained (user_id : Z) (db : DB) (st : bowls_ui.Loop)
  (bi : BowlIngredient.t) (g : Ingredient.t) :
  db_get (BowlIngredient.ingredient_id bi) db = Some g ->
  bowls_ui.loop_body user_id db st bi =
  {| bowls_ui.total_calories :=
       (bowls_ui.total_calories st + Spec.raw Nutrition.calories user_id db (bi, g))%float;
     bowls_ui.total_protein :=
       (bowls_ui.total_protein st + Spec.raw Nutrition.protein user_id db (bi, g))%float;
     bowls_ui.total_fiber :=
       (bowls_ui.total_fiber st + Spec.raw Nutrition.fiber user_id db (bi, g))%float;
     bowls_ui.total_sugar :=
       (bowls_ui.total_sugar st + Spec.raw Nutrition.sugar user_id db (bi, g))%float;
     bowls_ui.ingredients_list :=
       bowls_ui.ingredients_list st ++ [Spec.reported user_id db (bi, g)] |}.
Proof.
  intros Hg. unfold bowls_ui.loop_body. rewrite Hg.
  destruct (db_get_Some _ _ _ Hg) as [Hid _]. simpl in Hid.
  assert (Hg' : db_get (Ingredient.id g) db = Some g) by (rewrite Hid; exact Hg).
  rewrite <- Hid, (get_ingredient_nutrition_per_unit user_id db g Hg').
  unfold Spec.raw, Spec.reported; simpl.
  rewrite unit_of_unit_label. reflexivity.
Qed.

(** The loop, from any state of its variables: it adds the retained lines'
    unrounded values to the totals, in order, and appends their reports. *)
Lemma loop_fold (user_id : Z) (db : DB) (l : list BowlIngredient.t) :
  forall st : bowls_ui.Loop,
  fold_left (bowls_ui.loop_body user_id db) l st =
  let kept := Spec.retained db l in
  {| bowls_ui.total_calories :=
       fold_left PrimFloat.add (map (Spec.raw Nutrition.calories user_id db) kept)
         (bowls_ui.total_calories st);
     bowls_ui.total_protein :=
       fold_left PrimFloat.add (map (Spec.raw Nutrition.protein user_id db) kept)
         (bowls_ui.total_protein st);
     bowls_ui.total_fiber :=
       fold_left PrimFloat.add (map (Spec.raw Nutrition.fiber user_id db) kept)
         (bowls_ui.total_fiber st);
     bowls_ui.total_sugar :=
       fold_left PrimFloat.add (map (Spec.raw Nutrition.sugar user_id db) kept)
         (bowls_ui.total_sugar st);
     bowls_ui.ingredients_list :=
       bowls_ui.ingredients_list st ++ map (Spec.reported user_id db) kept |}.
Proof.
  induction l as [|bi l IH]; intros st; simpl.
  - rewrite app_nil_r. destruct st; reflexivity.
  - destruct (db_get (BowlIngredient.ingredient_id bi) db) as [g|] eqn:Hg.
    + rewrite (loop_body_retained user_id db st bi g Hg), IH. simpl.
      rewrite <- app_assoc. reflexivity.
    + unfold bowls_ui.loop_body at 2. rewrite Hg. apply IH.
Qed.

(** The result, field by field. *)
Lemma calculate_nutrition_fields (bowl_id user_id : Z) (db : DB) :
  let r := bowls_ui.calculate_nutrition bowl_id user_id db in
  let kept := Spec.retained db (Spec.lines bowl_id db) in
  BowlData.ingredients r = map (Spec.reported user_id db) kept
  /\ BowlData.total_calories r
     = Py.round2 (Spec.fsum (map (Spec.raw Nutrition.calories user_id db) kept))
  /\ BowlData.total_protein r
     = Py.round2 (Spec.fsum (map (Spec.raw Nutrition.protein user_id db) kept))
  /\ BowlData.total_fiber r
     = Py.round2 (Spec.fsum (map (Spec.raw Nutrition.fiber user_id db) kept))
  /\ BowlData.total_sugar r
     = Py.round2 (Spec.fsum (map (Spec.raw Nutrition.sugar user_id db) kept)).
Proof.
  unfold bowls_ui.calculate_nutrition, Spec.lines, Spec.fsum.
  rewrite loop_fold. simpl. repeat split; reflexivity.
Qed.

(** C1. For every bowl and acting user, the aggregation reports exactly the
    retained lines (those whose ingredient is in the catalog; the others
    are dropped whatever overrides exist), each with its four nutrients
    equal to the rounding of (override if present else default) times
    quantity, and each total is the rounding of the full-precision sum of
    the retained lines' unrounded values. *)
Theorem calculate_nutrition_refines_spec (bowl_id user_id : Z) (db : DB) :
  let r := bowls_ui.calculate_nutrition bowl_id user_id db in
  let kept := Spec.retained db (Spec.lines bowl_id db) in
  BowlData.ingredients r = map (Spec.reported user_id db) kept
  /\ BowlData.total_calories r
     = Py.round2 (Spec.fsum (map (Spec.raw Nutrition.calories user_id db) kept))
  /\ BowlData.total_protein r
     = Py.round2 (Spec.fsum (map (Spec.raw Nutrition.protein user_id db) kept))
  /\ BowlData.total_fiber r
     = Py.round2 (Spec.fsum (map (Spec.raw Nutrition.fiber user_id db) kept))
  /\ BowlData.total_sugar r
     = Py.round2 (Spec.fsum (map (Spec.raw Nutrition.sugar user_id db) kept)).
Proof.
  cbv zeta. unfold bowls_ui.calculate_nutrition, Spec.fsum.
  change (select_all (fun bi => BowlIngredient.bowl_id bi =? bowl_id) db)
    with (Spec.lines bowl_id db).
  generalize (Spec.lines bowl_id db). intros l.
  rewrite (loop_fold user_id db l). cbn [bowls_ui.total_calories
    bowls_ui.total_protein bowls_ui.total_fiber bowls_ui.total_sugar
    bowls_ui.ingredients_list BowlData.ingredients BowlData.total_calories
    BowlData.total_protein BowlData.total_fiber BowlData.total_sugar app].
  repeat split; reflexivity.
Qed.

(** Alice's bowl 1 holds two bananas and a line for ingredient 77, which
    the catalog does not have.  Alice has overridden both.  For Alice the
    banana counts 200 kcal a piece, for Carol the default 107.5; the line
    for 77 is dropped for both, override or not. *)
Example override_precedence :
  bowls_ui.calculate_nutrition 1 1 sample.db1
  = {| BowlData.ingredients :=
         [ {| Line.id := 4; Line.name := "Banana"; Line.quantity := 2;
              Line.unit := "medium bananas";
              Line.calories := 400; Line.protein := 4; Line.fiber := 6;
              Line.sugar := 20;
              Line.icon_filename := Some "banana_icon.PNG";
              Line.bowl_image_filename := Some "banana_slices.PNG";
              Line.is_drizzle := false |} ];
       BowlData.total_calories := 400; BowlData.total_protein := 4;
       BowlData.total_fiber := 6; BowlData.total_sugar := 20;
       BowlData.tags := ["Low Protein"; "High Fiber"; "High Sugar"] |}
  /\ map Line.calories
       (BowlData.ingredients (bowls_ui.calculate_nutrition 1 2 sample.db1))
     = [215%float]
  /\ BowlData.total_calories (bowls_ui.calculate_nutrition 1 2 sample.db1)
     = 215%float.
Proof. repeat split; reflexivity. Qed.

(** ** C3: the three tags *)

(** The tags are computed from the loop's totals, before any rounding. *)
Lemma calculate_nutrition_tags (bowl_id user_id : Z) (db : DB) :
  BowlData.tags (bowls_ui.calculate_nutrition bowl_id user_id db)
  = [ bowls_ui.protein_tag (Spec.total Nutrition.protein bowl_id user_id db);
      bowls_ui.fiber_tag (Spec.total Nutrition.fiber bowl_id user_id db);
      bowls_ui.sugar_tag (Spec.total Nutrition.sugar bowl_id user_id db) ].
Proof.
  unfold bowls_ui.calculate_nutrition, Spec.total, Spec.lines, Spec.fsum.
  rewrite loop_fold. reflexivity.
Qed.

Lemma round2_zero : Py.round2 0 = 0%float.
Proof. reflexivity. Qed.

(** [round(x, 2)] as CPython gives it: on the exact binary value, ties to
    even, the sign of zero kept. *)
Example round2_values :
  (Py.round2 0x1.5666666666666p+1 = 0x1.55c28f5c28f5cp+1   (* 2.675 -> 2.67 *)
   /\ Py.round2 0.125 = 0x1.eb851eb851eb8p-4               (* 0.12 *)
   /\ Py.round2 0.375 = 0x1.851eb851eb852p-2               (* 0.38 *)
   /\ Py.round2 0x1.0147ae147ae14p+0 = 1                   (* 1.005 -> 1.0 *)
   /\ Py.round2 (-0x1.0624dd2f1a9fcp-10) = -0              (* -0.001 -> -0.0 *)
   /\ Py.round2 infinity = infinity)%float.
Proof. repeat split; reflexivity. Qed.

(** A bowl id without lines aggregates to the empty result. *)
Lemma calculate_nutrition_no_lines (bowl_id user_id : Z) (db : DB) :
  Spec.lines bowl_id db = [] ->
  bowls_ui.calculate_nutrition bowl_id user_id db
  = {| BowlData.ingredients := [];
       BowlData.total_calories := 0; BowlData.total_protein := 0;
       BowlData.total_fiber := 0; BowlData.total_sugar := 0;
       BowlData.tags := ["Low Protein"; "Low Fiber"; "Low Sugar"] |}.
Proof.
  intros Hnone. unfold bowls_ui.calculate_nutrition.
  change (select_all (fun bi => BowlIngredient.bowl_id bi =? bowl_id) db)
    with (Spec.lines bowl_id db).
  rewrite Hnone. reflexivity.
Qed.

(** C3. For every bowl the output has exactly three tags, for protein,
    fiber and sugar in this order, each the three-level classification of
    the unrounded total with inclusive lower bounds tried from the highest
    tier (20/10 for protein, 6/3 for fiber, 20/10 for sugar); and a bowl
    with no line has all four totals 0.0 and the three Low tags. *)
Theorem calculate_nutrition_tags_spec (bowl_id user_id : Z) (db : DB) :
  let r := bowls_ui.calculate_nutrition bowl_id user_id db in
  let protein := Spec.total Nutrition.protein bowl_id user_id db in
  let fiber := Spec.total Nutrition.fiber bowl_id user_id db in
  let sugar := Spec.total Nutrition.sugar bowl_id user_id db in
  BowlData.tags r
  = [ (if PrimFloat.leb 20 protein then "High Protein"
       else if PrimFloat.leb 10 protein then "Moderate Protein"
       else "Low Protein");
      (if PrimFloat.leb 6 fiber then "High Fiber"
       else if PrimFloat.leb 3 fiber then "Moderate Fiber"
       else "Low Fiber");
      (if PrimFloat.leb 20 sugar then "High Sugar"
       else if PrimFloat.leb 10 sugar then "Moderate Sugar"
       else "Low Sugar") ]
  /\ BowlData.total_protein r = Py.round2 protein
  /\ BowlData.total_fiber r = Py.round2 fiber
  /\ BowlData.total_sugar r = Py.round2 sugar
  /\ (Spec.lines bowl_id db = [] ->
      BowlData.ingredients r = []
      /\ BowlData.total_calories r = 0%float
      /\ BowlData.total_protein r = 0%float
      /\ BowlData.total_fiber r = 0%float
      /\ BowlData.total_sugar r = 0%float
      /\ BowlData.tags r = ["Low Protein"; "Low Fiber"; "Low Sugar"]).
Proof.
  cbv zeta.
  destruct (calculate_nutrition_fields bowl_id user_id db)
    as (_ & _ & Hp & Hf & Hs).
  split; [apply calculate_nutrition_tags|].
  split; [exact Hp|]. split; [exact Hf|]. split; [exact Hs|].
  intros Hnone. rewrite (calculate_nutrition_no_lines bowl_id user_id db Hnone).
  repeat split; reflexivity.
Qed.

(** The boundaries: 20.0 is High Protein, 19.99 is Moderate Protein, 3.0
    is Moderate Fiber, and a NaN total falls to the Low tier. *)
Example tag_boundaries :
  bowls_ui.protein_tag 20 = "High Protein"
  /\ bowls_ui.protein_tag 0x1.3fd70a3d70a3dp+4 = "Moderate Protein"
  /\ bowls_ui.fiber_tag 3 = "Moderate Fiber"
  /\ bowls_ui.sugar_tag nan = "Low Sugar".
Proof. repeat split; reflexivity. Qed.

(** ** C4: the unit label *)

Lemma calculate_nutrition_units (bowl_id user_id : Z) (db : DB) :
  Forall (fun line => Line.unit line
                      = Spec.unit_label (Line.name line) (Line.quantity line))
    (BowlData.ingredients (bowls_ui.calculate_nutrition bowl_id user_id db)).
Proof.
  destruct (calculate_nutrition_fields bowl_id user_id db) as [-> _].
  apply List.Forall_forall. intros line Hin.
  apply in_map_iff in Hin as [[bi g] [<- _]]. reflexivity.
Qed.


(** ** C10: who the acting user is *)

Lemma select_first_username (db : DB) (u : User.t) :
  List.NoDup (map User.username (rows db)) ->
  In u (rows db) ->
  select_first (fun v => String.eqb (User.username v) (User.username u)) db = Some u.
Proof.
  unfold select_first, select_all.
  induction (rows db) as [|x l IH]; simpl; [contradiction|].
  intros Hnd Hin. apply NoDup_cons_iff in Hnd as [Hx Hnd].
  destruct (String.eqb_spec (User.username x) (User.username u)) as [Heq|Hne]; simpl.
  - destruct Hin as [->|Hin]; [reflexivity|].
    exfalso. apply Hx. rewrite Heq. apply in_map. exact Hin.
  - destruct Hin as [->|Hin]; [congruence|]. apply IH; assumption.
Qed.

Lemma select_first_no_username (db : DB) (username : string) :
  (forall u, In u (rows db) -> User.username u <> username) ->
  select_first (fun v => String.eqb (User.username v) username) db = None.
Proof.
  unfold select_first, select_all.
  induction (rows db) as [|x l IH]; simpl; [reflexivity|].
  intros Hall.
  destruct (String.eqb_spec (User.username x) username) as [Heq|Hne].
  - exfalso. exact (Hall x (or_introl eq_refl) Heq).
  - apply IH. intros u Hu. apply Hall. right. exact Hu.
Qed.

Lemma get_current_user_cookie_only (request request' : Request) :
  cookies request' !! "username" = cookies request !! "username" ->
  auth.get_current_user request' = auth.get_current_user request
  /\ auth.get_optional_user request' = auth.get_optional_user request.
Proof.
  intros Heq. unfold auth.get_current_user, auth.get_optional_user.
  rewrite Heq. split; reflexivity.
Qed.

(** C10. The acting user is resolved from the plain value of the
    "username" cookie alone: two requests with the same value of that
    cookie resolve alike whatever else they carry; a cookie that equals
    the username of a stored user yields exactly that user; a missing
    cookie, or one that matches no stored username, fails with 401 in
    [get_current_user] and yields no user in [get_optional_user]. *)
Theorem get_current_user_by_cookie (request : Request) (db : DB) :
  users_ok db ->
  (forall request' : Request,
     cookies request' !! "username" = cookies request !! "username" ->
     run_request (auth.get_current_user request') db
     = run_request (auth.get_current_user request) db
     /\ run_request (auth.get_optional_user request') db
        = run_request (auth.get_optional_user request) db)
  /\ (forall u : User.t,
        In u (rows db) ->
        cookies request !! "username" = Some (User.username u) ->
        run_request (auth.get_current_user request) db = (inr u, db)
        /\ run_request (auth.get_optional_user request) db = (inr (Some u), db))
  /\ (cookies request !! "username" = None ->
      run_request (auth.get_current_user request) db
      = (inl (HTTPException status.HTTP_401_UNAUTHORIZED "Not authenticated"), db)
      /\ run_request (auth.get_optional_user request) db = (inr None, db))
  /\ (forall username : string,
        cookies request !! "username" = Some username ->
        (forall u, In u (rows db) -> User.username u <> username) ->
        (exists detail,
           run_request (auth.get_current_user request) db
           = (inl (HTTPException status.HTTP_401_UNAUTHORIZED detail), db))
        /\ run_request (auth.get_optional_user request) db = (inr None, db)).
Proof.
  intros [Hnonempty Hunique]. split; [|split; [|split]].
  - intros request' Heq.
    destruct (get_current_user_cookie_only request request' Heq) as [-> ->].
    split; reflexivity.
  - intros u Hin Hcookie.
    assert (Hne : User.username u <> "").
    { rewrite List.Forall_forall in Hnonempty. apply Hnonempty. exact Hin. }
    unfold auth.get_current_user, auth.get_optional_user. rewrite Hcookie.
    destruct (User.username u) as [|c rest] eqn:Hname; [congruence|].
    rewrite <- Hname. run_m. simpl.
    rewrite (select_first_username db u Hunique Hin). split; reflexivity.
  - intros Hcookie.
    unfold auth.get_current_user, auth.get_optional_user. rewrite Hcookie.
    split; reflexivity.
  - intros username Hcookie Hnone.
    unfold auth.get_current_user, auth.get_optional_user. rewrite Hcookie.
    destruct username as [|c rest] eqn:Hname.
    + split; [eexists|]; reflexivity.
    + rewrite <- Hname in *. run_m. simpl.
      rewrite (select_first_no_username db username Hnone).
      split; [eexists|]; reflexivity.
Qed.

(** Carol's cookie resolves to Carol. *)
Lemma get_current_user_by_cookie_witness :
  run_request (auth.get_current_user (sample.request_of "carol")) sample.db0
  = (inr sample.carol, sample.db0).
Proof.
  assert (Hok : users_ok sample.db0).
  { split.
    - repeat constructor; discriminate.
    - repeat constructor; simpl; intuition discriminate. }
  destruct (get_current_user_by_cookie (sample.request_of "carol") sample.db0 Hok)
    as (_ & Hknown & _).
  apply (Hknown sample.carol).
  - simpl. auto.
  - reflexivity.
Defined.

(** ** Keys and sequences *)

(** *** Python's [==] on floats *)

(** What [==] on floats means: the same float, or two zeros. *)
Lemma SFeqb_cases (f g : spec_float) :
  SFeqb f g = true ->
  f = g \/ (exists s t, f = S754_zero s /\ g = S754_zero t).
Proof.
  unfold SFeqb, SFcompare.
  destruct f as [s| [|] | |[|] m e], g as [t| [|] | |[|] n d]; try discriminate;
    try (intros _; right; eexists _, _; split; reflexivity);
    try (left; reflexivity);
    try (destruct s; discriminate); try (destruct t; discriminate).
  - destruct (Z.compare_spec e d) as [->| |]; try discriminate.
    destruct (Pos.compare_cont Eq m n) eqn:Hc; try discriminate.
    apply Pos.compare_eq in Hc. subst. left; reflexivity.
  - destruct (Z.compare_spec e d) as [->| |]; try discriminate.
    destruct (Pos.compare_cont Eq m n) eqn:Hc; try discriminate.
    apply Pos.compare_eq in Hc. subst. left; reflexivity.
Qed.

Lemma float_eqb_cases (x y : float) :
  PrimFloat.eqb x y = true ->
  x = y \/ (PrimFloat.eqb x 0 = true /\ PrimFloat.eqb y 0 = true).
Proof.
  rewrite FloatAxioms.eqb_spec. intros Heq.
  destruct (SFeqb_cases _ _ Heq) as [Hsame|(s & t & Hx & Hy)].
  - left. apply FloatAxioms.Prim2SF_inj, Hsame.
  - right. rewrite !FloatAxioms.eqb_spec, Hx, Hy. split; reflexivity.
Qed.

Lemma float_eqb_sym (x y : float) : PrimFloat.eqb x y = true -> PrimFloat.eqb y x = true.
Proof.
  intros Heq. destruct (float_eqb_cases x y Heq) as [->|[Hx Hy]]; [exact Heq|].
  rewrite FloatAxioms.eqb_spec in *.
  destruct (SFeqb_cases _ _ Hx) as [Hx'|(s & t & Hx' & _)];
    destruct (SFeqb_cases _ _ Hy) as [Hy'|(s' & t' & Hy' & _)];
    rewrite Hx', Hy'; reflexivity.
Qed.

Lemma float_eqb_trans (x y z : float) :
  PrimFloat.eqb x y = true -> PrimFloat.eqb y z = true -> PrimFloat.eqb x z = true.
Proof.
  intros Hxy Hyz.
  destruct (float_eqb_cases x y Hxy) as [->|[Hx Hy]]; [exact Hyz|].
  destruct (float_eqb_cases y z Hyz) as [<-|[_ Hz]]; [exact Hxy|].
  rewrite FloatAxioms.eqb_spec in *.
  destruct (SFeqb_cases _ _ Hx) as [Hx'|(s & t & Hx' & _)];
    destruct (SFeqb_cases _ _ Hz) as [Hz'|(s' & t' & Hz' & _)];
    rewrite Hx', Hz'; reflexivity.
Qed.

(** A float above zero is equal ([==]) to itself only. *)
Lemma float_eqb_positive (x y : float) :
  PrimFloat.ltb 0 y = true -> PrimFloat.eqb y x = true -> x = y.
Proof.
  intros Hpos Heq. destruct (float_eqb_cases y x Heq) as [->|[Hy _]]; [reflexivity|].
  rewrite FloatAxioms.ltb_spec in Hpos. rewrite FloatAxioms.eqb_spec in Hy.
  destruct (SFeqb_cases _ _ Hy) as [Hy'|(s & t & Hy' & _)]; rewrite Hy' in Hpos;
    discriminate Hpos.
Qed.

(** A column that compares equal keeps the value it had. *)
Lemma assign_float_same (old new : float) :
  PrimFloat.eqb new old = true -> assign_float old new = old.
Proof. unfold assign_float. intros ->. reflexivity. Qed.

Lemma optional_str_eqb_eq (a b : option string) :
  optional_str_eqb a b = true -> a = b.
Proof.
  destruct a as [x|], b as [y|]; simpl; try discriminate; [|reflexivity].
  intros Heq. apply String.eqb_eq in Heq. congruence.
Qed.

(** Destructure the conjunction [unchanged old new = true] into equations
    and rewrite with them. *)
Ltac unchanged_columns H :=
  repeat match type of H with
         | (_ && _)%bool = true => let H' := fresh H in apply andb_prop in H as [H H']
         end;
  repeat match goal with
         | E : String.eqb _ _ = true |- _ => apply String.eqb_eq in E
         | E : Z.eqb _ _ = true |- _ => apply Z.eqb_eq in E
         | E : Bool.eqb _ _ = true |- _ => apply Bool.eqb_prop in E
         | E : optional_str_eqb _ _ = true |- _ => apply optional_str_eqb_eq in E
         | E : PrimFloat.eqb _ _ = true |- _ => apply assign_float_same in E
         end.

#[export] Instance User_TableLaws : TableLaws User.t.
Proof.
  split; [reflexivity | intros []; reflexivity | reflexivity | reflexivity |].
  intros [] [] Hsame. unfold unchanged in Hsame. simpl in *. unfold User.unchanged in Hsame.
  simpl in *. unchanged_columns Hsame. unfold User.updated. simpl. congruence.
Qed.

#[export] Instance Ingredient_TableLaws : TableLaws Ingredient.t.
Proof.
  split; [reflexivity | intros []; reflexivity | reflexivity | reflexivity |].
  intros [] [] Hsame. unfold unchanged in Hsame. simpl in *.
  unfold Ingredient.unchanged in Hsame. simpl in *. unchanged_columns Hsame.
  unfold Ingredient.updated. simpl. congruence.
Qed.

#[export] Instance Bowl_TableLaws : TableLaws Bowl.t.
Proof.
  split; [reflexivity | intros []; reflexivity | reflexivity | reflexivity |].
  intros [] [] Hsame. unfold unchanged in Hsame. simpl in *. unfold Bowl.unchanged in Hsame.
  simpl in *. unchanged_columns Hsame. unfold Bowl.updated. simpl. congruence.
Qed.

#[export] Instance BowlIngredient_TableLaws : TableLaws BowlIngredient.t.
Proof.
  split; [reflexivity | intros []; reflexivity | reflexivity | reflexivity |].
  intros [] [] Hsame. unfold unchanged in Hsame. simpl in *.
  unfold BowlIngredient.unchanged in Hsame. simpl in *. unchanged_columns Hsame.
  unfold BowlIngredient.updated. simpl. congruence.
Qed.

#[export] Instance UserIngredientNutrition_TableLaws :
  TableLaws UserIngredientNutrition.t.
Proof.
  split; [reflexivity | intros []; reflexivity | reflexivity | reflexivity |].
  intros [] [] Hsame. unfold unchanged in Hsame. simpl in *.
  unfold UserIngredientNutrition.unchanged in Hsame. simpl in *. unchanged_columns Hsame.
  unfold UserIngredientNutrition.updated. simpl. congruence.
Qed.

Section KeyFacts.
Context {A : Type} `{TableLaws A}.

Lemma rows_set_table (t : Stored A) (db : DB) :
  rows (set_table t db) = stored_rows t.
Proof. unfold rows. rewrite table_set_table. reflexivity. Qed.

Lemma find_key_fresh (i : Z) (l : list A) :
  List.Forall (fun r => pk r < i) l ->
  List.filter (fun r => pk r =? i) l = [].
Proof.
  induction 1 as [|x l Hx _ IH]; simpl; [reflexivity|].
  destruct (Z.eqb_spec (pk x) i); [lia | exact IH].
Qed.

(** A row just inserted is the one its key finds. *)
Lemma db_get_insert (r : A) (db : DB) :
  keys_ok db ->
  db_get (pk (fst (db_insert r db))) (snd (db_insert r db))
  = Some (fst (db_insert r db)).
Proof.
  intros [_ Hle]. unfold db_get, select_first, select_all, db_insert. simpl.
  rewrite rows_set_table. simpl. rewrite pk_set_pk, List.filter_app.
  rewrite find_key_fresh.
  - simpl. rewrite pk_set_pk, Z.eqb_refl. reflexivity.
  - eapply List.Forall_impl; [|exact Hle]. simpl. intros; lia.
Qed.

Lemma keys_ok_insert (r : A) (db : DB) :
  keys_ok db -> keys_ok (snd (db_insert r db)).
Proof.
  intros [Hnd Hle]. unfold keys_ok, db_insert. simpl.
  rewrite rows_set_table, table_set_table. simpl. split.
  - rewrite map_app. simpl. rewrite pk_set_pk.
    apply List.NoDup_app; [exact Hnd | repeat constructor; intros [] |].
    intros k Hin [<-|[]].
    apply in_map_iff in Hin as (x & Hx & Hin).
    rewrite List.Forall_forall in Hle. specialize (Hle x Hin). lia.
  - apply List.Forall_app. split.
    + eapply List.Forall_impl; [|exact Hle]. simpl. intros; lia.
    + constructor; [|constructor]. rewrite pk_set_pk. lia.
Qed.

End KeyFacts.

(** ** C5: the working bowl *)

Lemma working_spec (user_id : Z) (b : Bowl.t) :
  working user_id b = true <-> Bowl.user_id b = user_id /\ Bowl.saved b = false.
Proof.
  unfold working. rewrite andb_true_iff, Z.eqb_eq, Bool.eqb_true_iff. reflexivity.
Qed.

(** With an unsaved bowl of the user in the store the call returns the
    first one and writes nothing. *)
Lemma get_or_create_unsaved_bowl_found (user_id : Z) (db : DB) (b : Bowl.t) :
  select_first (working user_id) db = Some b ->
  run_request (bowls_ui.get_or_create_unsaved_bowl user_id) db = (inr b, db).
Proof.
  intros Hfirst. unfold bowls_ui.get_or_create_unsaved_bowl. run_m. simpl.
  change (fun b : Bowl.t => (Bowl.user_id b =? user_id) && Bool.eqb (Bowl.saved b) false)
    with (working user_id).
  rewrite Hfirst. reflexivity.
Qed.

(** The call reads the bowls only. *)
Lemma select_first_working_ext (user_id : Z) (db db' : DB) :
  bowl db' = bowl db ->
  select_first (working user_id) db' = select_first (working user_id) db.
Proof. intros Hb. unfold select_first, select_all, rows. simpl. rewrite Hb. reflexivity. Qed.




(** ** C2: the ownership check *)

Lemma serve_invalid (r : Route) (current_user : User.t) (db : DB) :
  request_valid r = false ->
  run_request (serve r current_user) db = (inl (RequestValidationError "request"), db).
Proof. intros Hv. unfold serve. rewrite Hv. reflexivity. Qed.

Lemma serve_no_bowl (r : Route) (current_user : User.t) (db : DB) (bowl_id : Z) :
  checked_bowl_id r = Some bowl_id ->
  request_valid r = true ->
  db_get (A := Bowl.t) bowl_id db = None ->
  run_request (serve r current_user) db
  = (inl (HTTPException status.HTTP_404_NOT_FOUND "Bowl not found"), db).
Proof.
  intros Hid Hv Hget.
  destruct r; simpl in Hid;
    try (destruct bowl_id0 as [i|]; simpl in Hid; [destruct (i =? 0) eqn:Hz|];
         simpl in Hid; try discriminate);
    injection Hid as Hid; subst bowl_id; unfold serve; rewrite Hv; run_route;
    rewrite ?Hz; simpl; rewrite Hget; reflexivity.
Qed.

Lemma serve_not_owner (r : Route) (current_user : User.t) (db : DB) (bowl_id : Z)
  (b : Bowl.t) :
  checked_bowl_id r = Some bowl_id ->
  request_valid r = true ->
  db_get (A := Bowl.t) bowl_id db = Some b ->
  Bowl.user_id b <> User.id current_user ->
  exists detail : string,
    run_request (serve r current_user) db
    = (inl (HTTPException
              (if is_api r then status.HTTP_401_UNAUTHORIZED
               else status.HTTP_404_NOT_FOUND) detail), db).
Proof.
  intros Hid Hv Hget Hne.
  apply Z.eqb_neq in Hne.
  destruct r; simpl in Hid;
    try (destruct bowl_id0 as [i|]; simpl in Hid; [destruct (i =? 0) eqn:Hz|];
         simpl in Hid; try discriminate);
    injection Hid as Hid; subst bowl_id; unfold serve; rewrite Hv; run_route;
    rewrite ?Hz; simpl; rewrite Hget; simpl; rewrite Hne; simpl;
    eexists; reflexivity.
Qed.

(** Carol asks for Alice's bowl 1.  The JSON route answers 401, the status
    of [get_current_user] without a cookie; the HTML route answers 404, the
    status of a missing bowl.  Neither is a condition of its own. *)
Lemma foreign_bowl_is_not_forbidden :
  run_request (serve (api_get_bowl 1) sample.carol) sample.db1
  = (inl (HTTPException status.HTTP_401_UNAUTHORIZED "Not authorized to access this bowl"),
     sample.db1)
  /\ run_request (auth.get_current_user {| cookies := ∅; headers := ∅ |}) sample.db1
     = (inl (HTTPException status.HTTP_401_UNAUTHORIZED "Not authenticated"), sample.db1)
  /\ run_request (serve (ui_edit_bowl_name_form (sample.request_of "carol") 1) sample.carol)
       sample.db1
     = (inl (HTTPException status.HTTP_404_NOT_FOUND "Not authorized to access this bowl"),
        sample.db1)
  /\ run_request (serve (ui_edit_bowl_name_form (sample.request_of "carol") 5) sample.carol)
       sample.db1
     = (inl (HTTPException status.HTTP_404_NOT_FOUND "Bowl not found"), sample.db1)
  /\ ~ foreign_bowl_is_forbidden.
Proof.
  repeat split; try reflexivity.
  intros Hclaim.
  destruct (Hclaim (api_get_bowl 1) sample.carol sample.db1 1
              {| Bowl.id := 1; Bowl.name := "My Bowl"; Bowl.user_id := 1;
                 Bowl.saved := false |})
    as (e & He & H401 & _); try reflexivity.
  - simpl. lia.
  - vm_compute in He. injection He as <-. apply H401. reflexivity.
Qed.

(** C2, amended. Every bowl-scoped route (the six JSON routes and the
    seven HTML routes of [Route]) checks the bowl before it writes
    anything: when no bowl has the given id it fails with 404 "Bowl not
    found"; when the bowl belongs to someone else the JSON routes fail with
    401 and the HTML routes with 404 (no 403 exists); in both cases the
    store is exactly as before. *)
Theorem ownership_check_before_mutation :
  forall (r : Route) (current_user : User.t) (db : DB) (bowl_id : Z),
    checked_bowl_id r = Some bowl_id ->
    (forall b, db_get (A := Bowl.t) bowl_id db = Some b ->
               Bowl.user_id b <> User.id current_user) ->
    exists e : Exception,
      run_request (serve r current_user) db = (inl e, db)
      /\ (request_valid r = true ->
          match db_get (A := Bowl.t) bowl_id db with
          | None => e = HTTPException status.HTTP_404_NOT_FOUND "Bowl not found"
          | Some _ =>
              exists detail,
                e = HTTPException
                      (if is_api r then status.HTTP_401_UNAUTHORIZED
                       else status.HTTP_404_NOT_FOUND) detail
          end).
Proof.
  intros r current_user db bowl_id Hid Hcheck.
  destruct (request_valid r) eqn:Hv.
  - destruct (db_get (A := Bowl.t) bowl_id db) as [b|] eqn:Hget.
    + destruct (serve_not_owner r current_user db bowl_id b Hid Hv Hget
                  (Hcheck b eq_refl)) as [detail Hrun].
      eexists. split; [exact Hrun|]. intros _. exists detail. reflexivity.
    + eexists. split; [exact (serve_no_bowl r current_user db bowl_id Hid Hv Hget)|].
      intros _. reflexivity.
  - eexists. split; [exact (serve_invalid r current_user db Hv)|]. discriminate.
Qed.

(** Carol tries to rename, and to delete, Alice's bowl 1: both fail and
    the store is untouched. *)
Lemma ownership_check_before_mutation_witness :
  (exists e,
     run_request (serve (ui_update_bowl_name (sample.request_of "carol") 1 "Mine")
                    sample.carol) sample.db1 = (inl e, sample.db1))
  /\ (exists e,
        run_request (serve (api_delete_bowl 1) sample.carol) sample.db1
        = (inl e, sample.db1)).
Proof.
  assert (Hforeign : forall b, db_get (A := Bowl.t) 1 sample.db1 = Some b ->
                               Bowl.user_id b <> User.id sample.carol).
  { intros b [= <-]. simpl. lia. }
  split.
  - destruct (ownership_check_before_mutation
                (ui_update_bowl_name (sample.request_of "carol") 1 "Mine")
                sample.carol sample.db1 1 eq_refl Hforeign) as (e & Hrun & _).
    exists e. exact Hrun.
  - destruct (ownership_check_before_mutation (api_delete_bowl 1) sample.carol
                sample.db1 1 eq_refl Hforeign) as (e & Hrun & _).
    exists e. exact Hrun.
Defined.

(** ** C6: one line per bowl and ingredient *)

Section ListFacts.
Context {A K : Type}.
Variable key : A -> K.

Lemma filter_none (p : A -> bool) (l : list A) :
  (forall x, In x l -> p x = false) -> List.filter p l = [].
Proof.
  induction l as [|x l IH]; simpl; intros Hall; [reflexivity|].
  rewrite (Hall x (or_introl eq_refl)). apply IH. intros y Hy. apply Hall. right. exact Hy.
Qed.

Lemma filter_nil_inv (p : A -> bool) (l : list A) (x : A) :
  List.filter p l = [] -> In x l -> p x = false.
Proof.
  intros Hnil Hin. destruct (p x) eqn:Hp; [|reflexivity].
  assert (Hx : In x (List.filter p l)) by (apply filter_In; auto).
  rewrite Hnil in Hx. contradiction.
Qed.

Lemma NoDup_key_inj (l : list A) (x y : A) :
  List.NoDup (map key l) -> In x l -> In y l -> key x = key y -> x = y.
Proof.
  induction l as [|z l IH]; simpl; [contradiction|].
  intros Hnd Hx Hy Heq. apply NoDup_cons_iff in Hnd as [Hz Hnd].
  destruct Hx as [<-|Hx], Hy as [<-|Hy]; auto.
  - exfalso. apply Hz. rewrite Heq. apply in_map. exact Hy.
  - exfalso. apply Hz. rewrite <- Heq. apply in_map. exact Hx.
Qed.

(** With distinct keys, a filter on the key of [e] finds [e] alone. *)
Lemma filter_key_unique (p : A -> bool) (e : A) (l : list A) :
  List.NoDup (map key l) ->
  In e l ->
  (forall x, p x = true <-> key x = key e) ->
  List.filter p l = [e].
Proof.
  intros Hnd Hin Hp. induction l as [|x l IH]; simpl in *; [contradiction|].
  apply NoDup_cons_iff in Hnd as [Hx Hnd].
  destruct Hin as [->|Hin].
  - rewrite (proj2 (Hp e) eq_refl). f_equal. apply filter_none.
    intros y Hy. destruct (p y) eqn:Hpy; [|reflexivity].
    exfalso. apply Hx. rewrite <- (proj1 (Hp y) Hpy). apply in_map. exact Hy.
  - destruct (p x) eqn:Hpx.
    + exfalso. apply Hx. rewrite (proj1 (Hp x) Hpx). apply in_map. exact Hin.
    + apply IH; assumption.
Qed.

End ListFacts.

(** ** Writes to one table *)

Lemma filter_all {A : Type} (p : A -> bool) (l : list A) :
  (forall x, In x l -> p x = true) -> List.filter p l = l.
Proof.
  induction l as [|x l IH]; simpl; intros Hall; [reflexivity|].
  rewrite (Hall x (or_introl eq_refl)). f_equal. apply IH. intros y Hy. apply Hall. auto.
Qed.

Lemma filter_twice {A : Type} (p q : A -> bool) (l : list A) :
  List.filter q (List.filter p l) = List.filter (fun x => p x && q x) l.
Proof.
  induction l as [|x l IH]; simpl; [reflexivity|].
  destruct (p x); simpl; [destruct (q x)|]; rewrite IH; reflexivity.
Qed.

Lemma filter_swap {A : Type} (p q : A -> bool) (l : list A) :
  List.filter q (List.filter p l) = List.filter p (List.filter q l).
Proof.
  rewrite !filter_twice. apply List.filter_ext. intros x. apply andb_comm.
Qed.

(** A filter loses nothing when it is preceded by one that only rejects
    what it rejects itself. *)
Lemma filter_after {A : Type} (p q : A -> bool) (l : list A) :
  (forall x, In x l -> p x = false -> q x = false) ->
  List.filter q (List.filter p l) = List.filter q l.
Proof.
  intros Hpq. rewrite filter_twice. apply List.filter_ext_in. intros x Hx.
  destruct (p x) eqn:Hp; [reflexivity|]. simpl. symmetry. apply Hpq; assumption.
Qed.

Section WriteFacts.
Context {A : Type} `{TableLaws A}.

Lemma rows_delete (r : A) (db : DB) :
  rows (db_delete r db) = List.filter (fun x => negb (pk x =? pk r)) (rows db).
Proof. unfold db_delete. rewrite rows_set_table. reflexivity. Qed.

Lemma rows_insert (r : A) (db : DB) :
  rows (snd (db_insert r db)) = rows db ++ [fst (db_insert r db)].
Proof. unfold db_insert. cbn [fst snd]. rewrite rows_set_table. reflexivity. Qed.

Lemma NoDup_map_filter {K : Type} (key : A -> K) (p : A -> bool) (l : list A) :
  List.NoDup (map key l) -> List.NoDup (map key (List.filter p l)).
Proof.
  induction l as [|x l IH]; simpl; intros Hnd; [constructor|].
  apply NoDup_cons_iff in Hnd as [Hx Hnd].
  destruct (p x); simpl; [|apply IH, Hnd].
  constructor; [|apply IH, Hnd].
  intros Hin. apply Hx. apply in_map_iff in Hin as (y & Hy & Hin).
  apply filter_In in Hin as [Hin _]. rewrite <- Hy. apply in_map, Hin.
Qed.

(** With distinct keys, the key of a row finds that row. *)
Lemma db_get_in (e : A) (db : DB) :
  List.NoDup (map pk (rows db)) -> In e (rows db) -> db_get (pk e) db = Some e.
Proof.
  intros Hnd Hin. unfold db_get, select_first, select_all.
  rewrite (filter_key_unique pk (fun r => pk r =? pk e) e (rows db) Hnd Hin);
    [reflexivity|].
  intros x. apply Z.eqb_eq.
Qed.

(** *** UPDATE *)

(** The table after the flush of an object that was loaded from [old]. *)
Lemma rows_update (r old : A) (db : DB) :
  db_get (pk r) db = Some old ->
  rows (db_update r db)
  = if unchanged old r then rows db
    else List.filter (fun x => negb (pk x =? pk r)) (rows db) ++ [updated old r].
Proof.
  intros Hget. unfold db_update. rewrite Hget.
  destruct (unchanged old r); [reflexivity|]. apply rows_set_table.
Qed.

Lemma db_update_missing (r : A) (db : DB) :
  db_get (pk r) db = None -> db_update r db = db.
Proof. intros Hget. unfold db_update. rewrite Hget. reflexivity. Qed.

(** An object none of whose columns differs is not written. *)
Lemma db_update_unchanged (r old : A) (db : DB) :
  db_get (pk r) db = Some old -> unchanged old r = true -> db_update r db = db.
Proof. intros Hget Hsame. unfold db_update. rewrite Hget, Hsame. reflexivity. Qed.

Lemma stored_seq_update (r : A) (db : DB) :
  stored_seq (table (db_update r db)) = stored_seq (table db).
Proof.
  unfold db_update. destruct (db_get (pk r) db) as [old|]; [|reflexivity].
  destruct (unchanged old r); [reflexivity|]. rewrite table_set_table. reflexivity.
Qed.

(** The rows after an UPDATE: those of other keys, and the new version. *)
Lemma in_rows_update (r old x : A) (db : DB) :
  List.NoDup (map pk (rows db)) ->
  db_get (pk r) db = Some old ->
  In x (rows (db_update r db)) <-> (In x (rows db) /\ pk x <> pk r) \/ x = updated old r.
Proof.
  intros Hnd Hget. rewrite (rows_update r old db Hget).
  destruct (db_get_Some _ _ _ Hget) as [Hpk Hin].
  destruct (unchanged old r) eqn:Hsame.
  - rewrite (updated_unchanged old r Hsame). split.
    + intros Hx. destruct (Z.eq_dec (pk x) (pk r)) as [Heq|Hne]; [|auto].
      right. apply (NoDup_key_inj pk (rows db)); [assumption..|congruence].
    + intros [[Hx _]| ->]; assumption.
  - rewrite in_app_iff, filter_In, negb_true_iff, Z.eqb_neq. simpl. intuition.
Qed.

Lemma keys_ok_update (r : A) (db : DB) : keys_ok db -> keys_ok (db_update r db).
Proof.
  intros [Hnd Hle]. unfold keys_ok. rewrite stored_seq_update.
  destruct (db_get (pk r) db) as [old|] eqn:Hget;
    [|rewrite (db_update_missing r db Hget); auto].
  rewrite (rows_update r old db Hget).
  destruct (unchanged old r); [auto|].
  destruct (db_get_Some _ _ _ Hget) as [Hpk Hin].
  rewrite List.Forall_forall in Hle. split.
  - rewrite map_app. apply List.NoDup_app.
    + apply NoDup_map_filter, Hnd.
    + repeat constructor. intros [].
    + intros k Hk [<-|[]]. apply in_map_iff in Hk as (x & Hx & Hfil).
      apply filter_In in Hfil as [_ Hne]. apply negb_true_iff, Z.eqb_neq in Hne.
      rewrite pk_updated in Hx. congruence.
  - apply List.Forall_app. split.
    + apply List.Forall_forall. intros x Hx. apply filter_In in Hx as [Hx _].
      apply Hle, Hx.
    + repeat constructor. rewrite pk_updated. apply Hle, Hin.
Qed.

(** An UPDATE that keeps a key of the row keeps that key unique. *)
Lemma NoDup_key_update {K : Type} (key : A -> K) (r : A) (db : DB) :
  (forall old, db_get (pk r) db = Some old -> key (updated old r) = key old) ->
  List.NoDup (map key (rows db)) ->
  List.NoDup (map key (rows (db_update r db))).
Proof.
  intros Hkey Hnd.
  destruct (db_get (pk r) db) as [old|] eqn:Hget;
    [|rewrite (db_update_missing r db Hget); auto].
  rewrite (rows_update r old db Hget).
  destruct (unchanged old r); [auto|].
  destruct (db_get_Some _ _ _ Hget) as [Hpk Hin].
  rewrite map_app. apply List.NoDup_app.
  - apply NoDup_map_filter, Hnd.
  - repeat constructor. intros [].
  - intros k Hk [<-|[]]. apply in_map_iff in Hk as (x & Hx & Hfil).
    apply filter_In in Hfil as [Hx' Hne]. apply negb_true_iff, Z.eqb_neq in Hne.
    rewrite (Hkey old eq_refl) in Hx.
    apply Hne. rewrite (NoDup_key_inj key (rows db) x old Hnd Hx' Hin Hx). exact Hpk.
Qed.

(** After an UPDATE by key, the key finds the new version. *)
Lemma db_get_update (r old : A) (db : DB) :
  db_get (pk r) db = Some old ->
  db_get (pk r) (db_update r db) = Some (updated old r).
Proof.
  intros Hget. destruct (unchanged old r) eqn:Hsame.
  - rewrite (db_update_unchanged r old db Hget Hsame), (updated_unchanged old r Hsame).
    exact Hget.
  - destruct (db_get_Some _ _ _ Hget) as [Hpk _].
    unfold db_get, select_first, select_all.
    rewrite (rows_update r old db Hget), Hsame, List.filter_app, filter_twice.
    rewrite filter_none.
    + simpl. rewrite pk_updated, Hpk, Z.eqb_refl. reflexivity.
    + intros x _. destruct (pk x =? pk r); reflexivity.
Qed.

Lemma db_get_update_other (r : A) (j : Z) (db : DB) :
  j <> pk r -> db_get j (db_update r db) = db_get j db.
Proof.
  intros Hj.
  destruct (db_get (pk r) db) as [old|] eqn:Hget;
    [|rewrite (db_update_missing r db Hget); reflexivity].
  destruct (db_get_Some _ _ _ Hget) as [Hpk _].
  unfold db_get, select_first, select_all.
  rewrite (rows_update r old db Hget).
  destruct (unchanged old r); [reflexivity|].
  rewrite List.filter_app. simpl. rewrite pk_updated.
  destruct (Z.eqb_spec (pk old) j) as [Heq|_]; [congruence|].
  rewrite app_nil_r. f_equal. apply filter_after.
  intros x _ Hx. apply negb_false_iff, Z.eqb_eq in Hx. apply Z.eqb_neq. congruence.
Qed.

(** A filter that rejects both the old and the new version does not see
    an UPDATE. *)
Lemma select_all_update_other (q : A -> bool) (r : A) (db : DB) :
  (forall x, In x (rows db) -> pk x = pk r -> q x = false) ->
  (forall old, db_get (pk r) db = Some old -> q (updated old r) = false) ->
  select_all q (db_update r db) = select_all q db.
Proof.
  intros Hold Hnew.
  destruct (db_get (pk r) db) as [old|] eqn:Hget;
    [|rewrite (db_update_missing r db Hget); reflexivity].
  unfold select_all. rewrite (rows_update r old db Hget).
  destruct (unchanged old r); [reflexivity|].
  rewrite List.filter_app. simpl. rewrite (Hnew old eq_refl), app_nil_r.
  apply filter_after. intros x Hx Hp. apply Hold; [exact Hx|].
  apply negb_false_iff, Z.eqb_eq in Hp. exact Hp.
Qed.

(** What a filter sees of an UPDATE that writes. *)
Lemma select_all_update (q : A -> bool) (r old : A) (db : DB) :
  db_get (pk r) db = Some old ->
  unchanged old r = false ->
  select_all q (db_update r db)
  = List.filter (fun x => negb (pk x =? pk r)) (select_all q db)
    ++ (if q (updated old r) then [updated old r] else []).
Proof.
  intros Hget Hsame. unfold select_all.
  rewrite (rows_update r old db Hget), Hsame, List.filter_app, filter_swap.
  reflexivity.
Qed.

Lemma in_rows_update_inv (r x : A) (db : DB) :
  In x (rows (db_update r db)) ->
  In x (rows db) \/ exists old, db_get (pk r) db = Some old /\ x = updated old r.
Proof.
  destruct (db_get (pk r) db) as [old|] eqn:Hget;
    [|rewrite (db_update_missing r db Hget); auto].
  rewrite (rows_update r old db Hget). destruct (unchanged old r); [auto|].
  rewrite in_app_iff, filter_In. simpl. intros [[Hx _]|[<-|[]]]; [auto|].
  right. exists old. auto.
Qed.

(** An UPDATE neither takes a key away nor brings one. *)
Lemma has_key_update (r : A) (i : Z) (db : DB) :
  has_key i db -> has_key i (db_update r db).
Proof.
  unfold has_key.
  destruct (db_get (pk r) db) as [old|] eqn:Hget;
    [|rewrite (db_update_missing r db Hget); auto].
  rewrite (rows_update r old db Hget). destruct (unchanged old r); [auto|].
  destruct (db_get_Some _ _ _ Hget) as [Hpk _].
  intros Hi. apply in_map_iff in Hi as (x & <- & Hx).
  rewrite map_app. apply in_or_app.
  destruct (Z.eq_dec (pk x) (pk r)) as [Heq|Hne].
  - right. left. rewrite pk_updated. congruence.
  - left. apply in_map, filter_In. split; [exact Hx|].
    apply negb_true_iff, Z.eqb_neq. exact Hne.
Qed.

(** *** DELETE *)

Lemma in_rows_delete (r x : A) (db : DB) :
  In x (rows (db_delete r db)) <-> In x (rows db) /\ pk x <> pk r.
Proof.
  rewrite rows_delete, filter_In, negb_true_iff, Z.eqb_neq. reflexivity.
Qed.

Lemma db_get_delete (r : A) (db : DB) : db_get (pk r) (db_delete r db) = None.
Proof.
  unfold db_get, select_first, select_all.
  rewrite (filter_none (fun x => pk x =? pk r)); [reflexivity|].
  intros x Hx. apply in_rows_delete in Hx as [_ Hne]. apply Z.eqb_neq, Hne.
Qed.

Lemma db_get_delete_other (r : A) (j : Z) (db : DB) :
  j <> pk r -> db_get j (db_delete r db) = db_get j db.
Proof.
  intros Hj. unfold db_get, select_first, select_all. rewrite rows_delete.
  f_equal. apply filter_after.
  intros x _ Hx. apply negb_false_iff, Z.eqb_eq in Hx. apply Z.eqb_neq. congruence.
Qed.

Lemma keys_ok_delete (r : A) (db : DB) : keys_ok db -> keys_ok (db_delete r db).
Proof.
  intros [Hnd Hle]. unfold keys_ok, db_delete.
  rewrite rows_set_table, table_set_table. cbn [stored_rows stored_seq]. split.
  - apply NoDup_map_filter, Hnd.
  - apply List.Forall_forall. intros x Hx. apply filter_In in Hx as [Hx _].
    rewrite List.Forall_forall in Hle. apply Hle, Hx.
Qed.

(** *** INSERT *)

Lemma select_all_insert_other (q : A -> bool) (r : A) (db : DB) :
  q (fst (db_insert r db)) = false ->
  select_all q (snd (db_insert r db)) = select_all q db.
Proof.
  intros Hr. unfold select_all. rewrite rows_insert, List.filter_app. cbn [List.filter].
  rewrite Hr. apply app_nil_r.
Qed.

End WriteFacts.

Lemma for_pair_spec (bowl_id ingredient_id : Z) (bi : BowlIngredient.t) :
  for_pair bowl_id ingredient_id bi = true <-> line_pair bi = (bowl_id, ingredient_id).
Proof.
  unfold for_pair, line_pair. rewrite andb_true_iff, !Z.eqb_eq.
  split; [intros [-> ->]; reflexivity | intros [= -> ->]; auto].
Qed.

Lemma lines_ok_ext (db db' : DB) :
  bowlingredient db' = bowlingredient db -> lines_ok db -> lines_ok db'.
Proof.
  unfold lines_ok, keys_ok, rows. simpl. intros ->. auto.
Qed.

(** What a float column holds after an assignment. *)
Lemma assign_float_cases (old new : float) :
  assign_float old new = new
  \/ (PrimFloat.eqb new old = true /\ assign_float old new = old).
Proof. unfold assign_float. destruct (PrimFloat.eqb new old); auto. Qed.

Lemma assign_float_differs (old new : float) :
  PrimFloat.eqb new old = false -> assign_float old new = new.
Proof. unfold assign_float. intros ->. reflexivity. Qed.

Lemma assign_float_same_number (old new : float) :
  same_number (assign_float old new) new.
Proof.
  destruct (assign_float_cases old new) as [->|[Heq ->]]; [left; reflexivity|].
  destruct (float_eqb_cases new old Heq) as [->|[Hnew Hold]]; [left; reflexivity|].
  right. split; assumption.
Qed.

Lemma assign_float_positive (old new : float) :
  PrimFloat.ltb 0 new = true -> assign_float old new = new.
Proof.
  intros Hpos. destruct (assign_float_cases old new) as [Hnew|[Heq ->]]; [exact Hnew|].
  apply float_eqb_positive; assumption.
Qed.

(** After an upsert the invariant still holds and the pair has exactly one
    line: the line the pair had, under the same id and with the quantity
    assigned to it, or else a new line with the quantity given. *)
Lemma upsert_line_ok (bowl_id ingredient_id : Z) (quantity : float) (db : DB) :
  lines_ok db ->
  lines_ok (upsert_line bowl_id ingredient_id quantity db)
  /\ exists line : BowlIngredient.t,
       select_all (for_pair bowl_id ingredient_id)
         (upsert_line bowl_id ingredient_id quantity db) = [line]
       /\ line
          = match select_first (for_pair bowl_id ingredient_id) db with
            | Some e =>
                {| BowlIngredient.id := BowlIngredient.id e;
                   BowlIngredient.bowl_id := bowl_id;
                   BowlIngredient.ingredient_id := ingredient_id;
                   BowlIngredient.quantity :=
                     assign_float (BowlIngredient.quantity e) quantity |}
            | None =>
                {| BowlIngredient.id := stored_seq (bowlingredient db) + 1;
                   BowlIngredient.bowl_id := bowl_id;
                   BowlIngredient.ingredient_id := ingredient_id;
                   BowlIngredient.quantity := quantity |}
            end.
Proof.
  intros [[Hnd Hle] Hpairs]. unfold upsert_line.
  destruct (select_first (for_pair bowl_id ingredient_id) db) as [e|] eqn:Hfirst.
  - destruct (select_first_Some _ _ _ Hfirst) as [He Hin].
    apply for_pair_spec in He.
    set (e' := BowlIngredient.with_quantity quantity e).
    assert (Hget : db_get (pk e') db = Some e) by exact (db_get_in e db Hnd Hin).
    assert (Hu : updated e e'
                 = {| BowlIngredient.id := BowlIngredient.id e;
                      BowlIngredient.bowl_id := bowl_id;
                      BowlIngredient.ingredient_id := ingredient_id;
                      BowlIngredient.quantity :=
                        assign_float (BowlIngredient.quantity e) quantity |}).
    { injection He as <- <-. reflexivity. }
    assert (Hone : select_all (for_pair bowl_id ingredient_id) db = [e]).
    { apply (filter_key_unique line_pair); [exact Hpairs | exact Hin |].
      intros x. rewrite for_pair_spec, He. reflexivity. }
    split; [split|].
    + apply keys_ok_update. split; assumption.
    + apply (NoDup_key_update line_pair); [|exact Hpairs].
      intros old Hold. rewrite Hget in Hold. injection Hold as <-. reflexivity.
    + exists (updated e e'). split; [|exact Hu].
      destruct (unchanged e e') eqn:Hsame.
      * rewrite (db_update_unchanged e' e db Hget Hsame), (updated_unchanged e e' Hsame).
        exact Hone.
      * rewrite (select_all_update _ e' e db Hget Hsame), Hone, Hu.
        cbn [List.filter]. change (pk e') with (pk e). rewrite Z.eqb_refl.
        unfold for_pair. simpl. rewrite !Z.eqb_refl. reflexivity.
  - apply select_first_None in Hfirst. unfold select_all in Hfirst.
    set (r := {| BowlIngredient.id := 0; BowlIngredient.bowl_id := bowl_id;
                 BowlIngredient.ingredient_id := ingredient_id;
                 BowlIngredient.quantity := quantity |}).
    split; [split|].
    + apply keys_ok_insert. split; assumption.
    + unfold db_insert. cbn [snd]. rewrite rows_set_table. cbn [stored_rows].
      rewrite map_app. apply List.NoDup_app; [exact Hpairs | repeat constructor; intros [] |].
      intros k Hk [<-|[]]. apply in_map_iff in Hk as (x & Hx & Hin).
      change (line_pair x = (bowl_id, ingredient_id)) in Hx.
      apply for_pair_spec in Hx.
      rewrite (filter_nil_inv _ _ x Hfirst Hin) in Hx. discriminate.
    + eexists. unfold select_all, db_insert. cbn [snd]. rewrite rows_set_table.
      cbn [stored_rows]. rewrite List.filter_app, Hfirst. simpl. unfold for_pair. simpl.
      rewrite !Z.eqb_refl. simpl. split; reflexivity.
Qed.

(** The JSON upsert either fails and leaves the store, or commits exactly
    the upsert of the requested pair. *)
Lemma add_ingredient_outcome (request : bowls_api.AddIngredientRequest.t)
  (current_user : User.t) (db : DB) :
  (exists e, run_request (bowls_api.add_ingredient request current_user) db = (inl e, db))
  \/ run_request (bowls_api.add_ingredient request current_user) db
     = (inr {| bowls_api.AddIngredientResponse.bowl_id :=
                 bowls_api.AddIngredientRequest.bowl_id request |},
        upsert_line (bowls_api.AddIngredientRequest.bowl_id request)
          (bowls_api.AddIngredientRequest.ingredient_id request)
          (bowls_api.AddIngredientRequest.quantity request) db).
Proof.
  unfold bowls_api.add_ingredient, bowls_api.verify_ingredient_exists. run_route.
  destruct (db_get (A := Bowl.t) _ db) as [b|]; simpl; [|left; eexists; reflexivity].
  destruct (negb _); simpl; [left; eexists; reflexivity|].
  destruct (db_get (A := Ingredient.t) _ db) as [g|]; simpl; [|left; eexists; reflexivity].
  right. unfold upsert_line.
  change (fun bi : BowlIngredient.t =>
            (BowlIngredient.bowl_id bi =? bowls_api.AddIngredientRequest.bowl_id request)
            && (BowlIngredient.ingredient_id bi
                =? bowls_api.AddIngredientRequest.ingredient_id request))
    with (for_pair (bowls_api.AddIngredientRequest.bowl_id request)
            (bowls_api.AddIngredientRequest.ingredient_id request)).
  destruct (select_first _ db) as [existing|]; reflexivity.
Qed.

(** The HTML upsert may first create the working bowl; to the lines it
    either does nothing (on failure) or exactly the upsert of the pair
    (the bowl it resolved, the ingredient). *)
Lemma add_ingredient_to_bowl_outcome (request : Request) (bowl_id : option Z)
  (ingredient_id : Z) (quantity : float) (current_user : User.t) (db : DB) :
  (exists e db',
     run_request
       (bowls_ui.add_ingredient_to_bowl request bowl_id ingredient_id quantity
          current_user) db = (inl e, db')
     /\ bowlingredient db' = bowlingredient db)
  \/ (exists (b : Bowl.t) (db0 : DB) (resp : Response),
        run_request
          (bowls_ui.add_ingredient_to_bowl request bowl_id ingredient_id quantity
             current_user) db
        = (inr resp, upsert_line (Bowl.id b) ingredient_id quantity db0)
        /\ bowlingredient db0 = bowlingredient db
        /\ (truthy bowl_id = true -> bowl_id = Some (Bowl.id b) /\ db0 = db)).
Proof.
  run_route. unfold bowls_ui.get_or_create_unsaved_bowl. run_m. simpl.
  destruct (truthy bowl_id) eqn:Htruthy; simpl.
  - destruct bowl_id as [i|]; [|discriminate]. simpl.
    destruct (db_get (A := Bowl.t) i db) as [b|] eqn:Hget; simpl;
      [|left; eexists _, _; split; reflexivity].
    destruct (negb _); simpl; [left; eexists _, _; split; reflexivity|].
    destruct (db_get (A := Ingredient.t) _ db) as [g|]; simpl;
      [|left; eexists _, _; split; reflexivity].
    apply db_get_Some in Hget as [Hid _]. simpl in Hid.
    right. exists b, db. unfold upsert_line.
    change (fun bi : BowlIngredient.t =>
              (BowlIngredient.bowl_id bi =? Bowl.id b)
              && (BowlIngredient.ingredient_id bi =? ingredient_id))
      with (for_pair (Bowl.id b) ingredient_id).
    destruct (select_first _ db) as [existing|]; simpl;
      (eexists; split; [reflexivity | split; [reflexivity | intros _; subst i; auto]]).
  - destruct (select_first (A := Bowl.t) _ db) as [b|]; simpl.
    + destruct (db_get (A := Ingredient.t) _ db) as [g|]; simpl;
        [|left; eexists _, _; split; reflexivity].
      right. exists b, db. unfold upsert_line.
      change (fun bi : BowlIngredient.t =>
                (BowlIngredient.bowl_id bi =? Bowl.id b)
                && (BowlIngredient.ingredient_id bi =? ingredient_id))
        with (for_pair (Bowl.id b) ingredient_id).
      destruct (select_first _ db) as [existing|]; simpl;
        (eexists; split; [reflexivity | split; [reflexivity | discriminate]]).
    + match goal with
      | |- context [match db_get ?i ?d with _ => _ end] =>
          destruct (db_get (A := Bowl.t) i d) as [b|]; simpl
      end; [|left; eexists _, _; split; reflexivity].
      match goal with
      | |- context [match db_get (A := Ingredient.t) ?i ?d with _ => _ end] =>
          destruct (db_get (A := Ingredient.t) i d) as [g|]; simpl
      end; [|left; eexists _, _; split; reflexivity].
      right. exists b.
      exists (snd (db_insert
                     {| Bowl.id := 0; Bowl.name := "My Bowl";
                        Bowl.user_id := User.id current_user; Bowl.saved := false |}
                     db)).
      unfold upsert_line, select_first, select_all, rows, db_insert, db_update,
        for_pair.
      simpl.
      match goal with
      | |- context [match head ?l with _ => _ end] => destruct (head l)
      end; simpl;
        (eexists; split; [reflexivity | split; [reflexivity | discriminate]]).
Qed.

(** An upsert writes to the lines only. *)
Lemma upsert_line_tables (bowl_id ingredient_id : Z) (quantity : float) (db : DB) :
  let db' := upsert_line bowl_id ingredient_id quantity db in
  user db' = user db /\ ingredient db' = ingredient db /\ bowl db' = bowl db
  /\ useringredientnutrition db' = useringredientnutrition db.
Proof.
  cbv zeta. unfold upsert_line, db_update.
  destruct (select_first (for_pair bowl_id ingredient_id) db) as [e|];
    [|repeat split; reflexivity].
  destruct (db_get _ db) as [old|]; [|repeat split; reflexivity].
  destruct (unchanged old _); repeat split; reflexivity.
Qed.

Lemma db_get_bowl_ext (bowl_id : Z) (db db' : DB) :
  bowl db' = bowl db -> db_get (A := Bowl.t) bowl_id db' = db_get bowl_id db.
Proof. intros Hb. unfold db_get, select_first, select_all, rows. simpl. rewrite Hb. reflexivity. Qed.

Lemma db_get_catalog_ext (ingredient_id : Z) (db db' : DB) :
  ingredient db' = ingredient db ->
  db_get (A := Ingredient.t) ingredient_id db' = db_get ingredient_id db.
Proof. intros Hg. unfold db_get, select_first, select_all, rows. simpl. rewrite Hg. reflexivity. Qed.

(** The JSON upsert by the owner of the bowl, for an ingredient of the
    catalog: it answers, and what it commits is the upsert. *)
Lemma add_ingredient_done (request : bowls_api.AddIngredientRequest.t)
  (current_user : User.t) (db : DB) (b : Bowl.t) (g : Ingredient.t) :
  db_get (bowls_api.AddIngredientRequest.bowl_id request) db = Some b ->
  Bowl.user_id b = User.id current_user ->
  db_get (bowls_api.AddIngredientRequest.ingredient_id request) db = Some g ->
  run_request (bowls_api.add_ingredient request current_user) db
  = (inr {| bowls_api.AddIngredientResponse.bowl_id :=
              bowls_api.AddIngredientRequest.bowl_id request |},
     upsert_line (bowls_api.AddIngredientRequest.bowl_id request)
       (bowls_api.AddIngredientRequest.ingredient_id request)
       (bowls_api.AddIngredientRequest.quantity request) db).
Proof.
  intros Hb Howner Hg.
  destruct (add_ingredient_outcome request current_user db) as [[e He]|Hdone];
    [|exact Hdone].
  exfalso. revert He.
  unfold bowls_api.add_ingredient, bowls_api.verify_ingredient_exists. run_route.
  rewrite Hb. simpl. rewrite Howner, Z.eqb_refl. simpl. rewrite Hg. simpl.
  destruct (select_first _ db); discriminate.
Qed.

(** The same for the HTML upsert into a bowl it is given: the answer is
    the bowl section with the aggregate of the store it committed. *)
Lemma add_ingredient_to_bowl_done (request : Request) (bowl_id ingredient_id : Z)
  (quantity : float) (current_user : User.t) (db : DB) (b : Bowl.t) (g : Ingredient.t) :
  bowl_id <> 0 ->
  db_get bowl_id db = Some b ->
  Bowl.user_id b = User.id current_user ->
  db_get ingredient_id db = Some g ->
  run_request
    (bowls_ui.add_ingredient_to_bowl request (Some bowl_id) ingredient_id quantity
       current_user) db
  = (inr (TemplateResponse "bowl_section.html"
            (bowls_ui.bowl_section_context request b
               (bowls_ui.calculate_nutrition bowl_id (User.id current_user)
                  (upsert_line bowl_id ingredient_id quantity db)))),
     upsert_line bowl_id ingredient_id quantity db).
Proof.
  intros Hnz Hb Howner Hg.
  destruct (db_get_Some _ _ _ Hb) as [Hid _]. simpl in Hid.
  apply Z.eqb_neq in Hnz.
  run_route. rewrite Hnz. simpl. rewrite Hb. simpl. rewrite Howner, Z.eqb_refl. simpl.
  rewrite Hg. simpl. unfold upsert_line. rewrite Hid.
  change (fun bi : BowlIngredient.t =>
            (BowlIngredient.bowl_id bi =? bowl_id)
            && (BowlIngredient.ingredient_id bi =? ingredient_id))
    with (for_pair bowl_id ingredient_id).
  destruct (select_first (for_pair bowl_id ingredient_id) db) as [existing|]; reflexivity.
Qed.

Lemma add_ingredient_keeps_lines_ok (request : bowls_api.AddIngredientRequest.t)
  (current_user : User.t) (db : DB) :
  lines_ok db ->
  lines_ok (snd (run_request (bowls_api.add_ingredient request current_user) db)).
Proof.
  intros Hok.
  destruct (add_ingredient_outcome request current_user db) as [[e ->]| ->];
    [exact Hok|].
  apply upsert_line_ok, Hok.
Qed.

Lemma add_ingredient_to_bowl_keeps_lines_ok (request : Request) (bowl_id : option Z)
  (ingredient_id : Z) (quantity : float) (current_user : User.t) (db : DB) :
  lines_ok db ->
  lines_ok
    (snd (run_request
            (bowls_ui.add_ingredient_to_bowl request bowl_id ingredient_id quantity
               current_user) db)).
Proof.
  intros Hok.
  destruct (add_ingredient_to_bowl_outcome request bowl_id ingredient_id quantity
              current_user db)
    as [(e & db1 & -> & Hlines)|(b & db0 & resp & -> & Hlines & _)]; simpl.
  - apply (lines_ok_ext db); assumption.
  - apply upsert_line_ok, (lines_ok_ext db db0 Hlines Hok).
Qed.

(** The line of the pair after one upsert and after a second one. *)
Lemma upsert_line_twice (bowl_id ingredient_id : Z) (q1 q2 : float) (db : DB) :
  lines_ok db ->
  PrimFloat.eqb q2 q1 = false ->
  exists line : BowlIngredient.t,
    select_all (for_pair bowl_id ingredient_id)
      (upsert_line bowl_id ingredient_id q2 (upsert_line bowl_id ingredient_id q1 db))
    = [line]
    /\ BowlIngredient.quantity line = q2.
Proof.
  intros Hok Hdiffer.
  destruct (upsert_line_ok bowl_id ingredient_id q1 db Hok) as [Hok1 (line1 & Hsel1 & Hline1)].
  destruct (upsert_line_ok bowl_id ingredient_id q2 _ Hok1) as [_ (line2 & Hsel2 & Hline2)].
  exists line2. split; [exact Hsel2|].
  unfold select_first in Hline2 at 1. rewrite Hsel1 in Hline2. simpl in Hline2.
  rewrite Hline2. simpl. apply assign_float_differs.
  rewrite Hline1.
  destruct (select_first (for_pair bowl_id ingredient_id) db) as [e|]; simpl;
    [|exact Hdiffer].
  destruct (assign_float_cases (BowlIngredient.quantity e) q1) as [->|[Heq ->]];
    [exact Hdiffer|].
  destruct (PrimFloat.eqb q2 (BowlIngredient.quantity e)) eqn:Heq2; [|reflexivity].
  rewrite (float_eqb_trans q2 (BowlIngredient.quantity e) q1 Heq2
             (float_eqb_sym _ _ Heq)) in Hdiffer.
  discriminate Hdiffer.
Qed.

(** C6. Both upsert routes keep the invariant "at most one line per
    (bowl, ingredient)", whatever the request and its outcome.  An upsert
    by the owner of the bowl, of an ingredient the catalog has, succeeds
    through either route and commits the same store, in which the pair has
    exactly one line: the line it had, under the same id, with the
    quantity assigned to it, or else a new line; a quantity above zero is
    the quantity the line then bears.  After two such upserts of the same
    pair with differing quantities the pair has exactly one line and it
    bears the second quantity. *)
Theorem upsert_keeps_one_line_per_pair :
  (forall (request : bowls_api.AddIngredientRequest.t) (current_user : User.t) (db : DB),
     lines_ok db ->
     lines_ok (snd (run_request (bowls_api.add_ingredient request current_user) db)))
  /\ (forall (request : Request) (bowl_id : option Z) (ingredient_id : Z)
        (quantity : float) (current_user : User.t) (db : DB),
        lines_ok db ->
        lines_ok
          (snd (run_request
                  (bowls_ui.add_ingredient_to_bowl request bowl_id ingredient_id quantity
                     current_user) db)))
  /\ (forall (bowl_id ingredient_id : Z) (quantity : float) (current_user : User.t)
        (db : DB) (b : Bowl.t) (g : Ingredient.t),
        lines_ok db ->
        db_get bowl_id db = Some b ->
        Bowl.user_id b = User.id current_user ->
        db_get ingredient_id db = Some g ->
        exists (db' : DB) (line : BowlIngredient.t),
          run_request
            (bowls_api.add_ingredient
               {| bowls_api.AddIngredientRequest.bowl_id := bowl_id;
                  bowls_api.AddIngredientRequest.ingredient_id := ingredient_id;
                  bowls_api.AddIngredientRequest.quantity := quantity |} current_user) db
          = (inr {| bowls_api.AddIngredientResponse.bowl_id := bowl_id |}, db')
          /\ (forall request : Request,
                bowl_id <> 0 ->
                exists resp : Response,
                  run_request
                    (bowls_ui.add_ingredient_to_bowl request (Some bowl_id) ingredient_id
                       quantity current_user) db = (inr resp, db'))
          /\ select_all (for_pair bowl_id ingredient_id) db' = [line]
          /\ line
             = match select_first (for_pair bowl_id ingredient_id) db with
               | Some e =>
                   {| BowlIngredient.id := BowlIngredient.id e;
                      BowlIngredient.bowl_id := bowl_id;
                      BowlIngredient.ingredient_id := ingredient_id;
                      BowlIngredient.quantity :=
                        assign_float (BowlIngredient.quantity e) quantity |}
               | None =>
                   {| BowlIngredient.id := stored_seq (bowlingredient db) + 1;
                      BowlIngredient.bowl_id := bowl_id;
                      BowlIngredient.ingredient_id := ingredient_id;
                      BowlIngredient.quantity := quantity |}
               end
          /\ (PrimFloat.ltb 0 quantity = true -> BowlIngredient.quantity line = quantity))
  /\ (forall (bowl_id ingredient_id : Z) (q1 q2 : float) (current_user : User.t)
        (db : DB) (b : Bowl.t) (g : Ingredient.t),
        lines_ok db ->
        db_get bowl_id db = Some b ->
        Bowl.user_id b = User.id current_user ->
        db_get ingredient_id db = Some g ->
        PrimFloat.eqb q2 q1 = false ->
        exists (db1 db2 : DB) (line : BowlIngredient.t),
          run_request
            (bowls_api.add_ingredient
               {| bowls_api.AddIngredientRequest.bowl_id := bowl_id;
                  bowls_api.AddIngredientRequest.ingredient_id := ingredient_id;
                  bowls_api.AddIngredientRequest.quantity := q1 |} current_user) db
          = (inr {| bowls_api.AddIngredientResponse.bowl_id := bowl_id |}, db1)
          /\ run_request
               (bowls_api.add_ingredient
                  {| bowls_api.AddIngredientRequest.bowl_id := bowl_id;
                     bowls_api.AddIngredientRequest.ingredient_id := ingredient_id;
                     bowls_api.AddIngredientRequest.quantity := q2 |} current_user) db1
             = (inr {| bowls_api.AddIngredientResponse.bowl_id := bowl_id |}, db2)
          /\ (forall request : Request,
                bowl_id <> 0 ->
                exists r1 r2 : Response,
                  run_request
                    (bowls_ui.add_ingredient_to_bowl request (Some bowl_id) ingredient_id
                       q1 current_user) db = (inr r1, db1)
                  /\ run_request
                       (bowls_ui.add_ingredient_to_bowl request (Some bowl_id)
                          ingredient_id q2 current_user) db1 = (inr r2, db2))
          /\ select_all (for_pair bowl_id ingredient_id) db2 = [line]
          /\ BowlIngredient.quantity line = q2).
Proof.
  split; [|split; [|split]].
  - intros request current_user db. apply add_ingredient_keeps_lines_ok.
  - intros request bowl_id ingredient_id quantity current_user db.
    apply add_ingredient_to_bowl_keeps_lines_ok.
  - intros bowl_id ingredient_id quantity current_user db b g Hok Hb Howner Hg.
    destruct (upsert_line_ok bowl_id ingredient_id quantity db Hok)
      as [_ (line & Hsel & Hline)].
    exists (upsert_line bowl_id ingredient_id quantity db), line.
    split; [|split; [|split; [exact Hsel|split; [exact Hline|]]]].
    + exact (add_ingredient_done
               {| bowls_api.AddIngredientRequest.bowl_id := bowl_id;
                  bowls_api.AddIngredientRequest.ingredient_id := ingredient_id;
                  bowls_api.AddIngredientRequest.quantity := quantity |}
               current_user db b g Hb Howner Hg).
    + intros request Hnz. eexists.
      exact (add_ingredient_to_bowl_done request bowl_id ingredient_id quantity
               current_user db b g Hnz Hb Howner Hg).
    + intros Hpos. rewrite Hline.
      destruct (select_first (for_pair bowl_id ingredient_id) db); simpl;
        [apply assign_float_positive, Hpos | reflexivity].
  - intros bowl_id ingredient_id q1 q2 current_user db b g Hok Hb Howner Hg Hdiffer.
    set (db1 := upsert_line bowl_id ingredient_id q1 db).
    destruct (upsert_line_tables bowl_id ingredient_id q1 db) as (_ & Hcat & Hbowls & _).
    fold db1 in Hcat, Hbowls.
    assert (Hb1 : db_get bowl_id db1 = Some b).
    { rewrite (db_get_bowl_ext bowl_id db db1 Hbowls). exact Hb. }
    assert (Hg1 : db_get ingredient_id db1 = Some g).
    { rewrite (db_get_catalog_ext ingredient_id db db1 Hcat). exact Hg. }
    destruct (upsert_line_twice bowl_id ingredient_id q1 q2 db Hok Hdiffer)
      as (line & Hsel & Hq).
    exists db1, (upsert_line bowl_id ingredient_id q2 db1), line.
    split; [|split; [|split; [|split; [exact Hsel | exact Hq]]]].
    + exact (add_ingredient_done
               {| bowls_api.AddIngredientRequest.bowl_id := bowl_id;
                  bowls_api.AddIngredientRequest.ingredient_id := ingredient_id;
                  bowls_api.AddIngredientRequest.quantity := q1 |}
               current_user db b g Hb Howner Hg).
    + exact (add_ingredient_done
               {| bowls_api.AddIngredientRequest.bowl_id := bowl_id;
                  bowls_api.AddIngredientRequest.ingredient_id := ingredient_id;
                  bowls_api.AddIngredientRequest.quantity := q2 |}
               current_user db1 b g Hb1 Howner Hg1).
    + intros request Hnz. eexists _, _. split.
      * exact (add_ingredient_to_bowl_done request bowl_id ingredient_id q1
                 current_user db b g Hnz Hb Howner Hg).
      * exact (add_ingredient_to_bowl_done request bowl_id ingredient_id q2
                 current_user db1 b g Hnz Hb1 Howner Hg1).
Qed.

(** Two upserts of (bowl 1, banana) by Alice through the JSON route, with
    quantities 3 then 5: both are answered, and the pair has one line,
    bearing 5. *)
Lemma upsert_keeps_one_line_per_pair_witness :
  exists (db1 db2 : DB) (line : BowlIngredient.t),
    run_request
      (bowls_api.add_ingredient
         {| bowls_api.AddIngredientRequest.bowl_id := 1;
            bowls_api.AddIngredientRequest.ingredient_id := 4;
            bowls_api.AddIngredientRequest.quantity := 3 |} sample.alice) sample.db1
    = (inr {| bowls_api.AddIngredientResponse.bowl_id := 1 |}, db1)
    /\ run_request
         (bowls_api.add_ingredient
            {| bowls_api.AddIngredientRequest.bowl_id := 1;
               bowls_api.AddIngredientRequest.ingredient_id := 4;
               bowls_api.AddIngredientRequest.quantity := 5 |} sample.alice) db1
       = (inr {| bowls_api.AddIngredientResponse.bowl_id := 1 |}, db2)
    /\ select_all (for_pair 1 4) db2 = [line]
    /\ BowlIngredient.quantity line = 5%float.
Proof.
  destruct upsert_keeps_one_line_per_pair as (_ & _ & _ & Htwice).
  assert (Hok : lines_ok sample.db1).
  { split; [split|]; simpl.
    - repeat constructor; simpl; intuition lia.
    - repeat constructor; simpl; lia.
    - repeat constructor; simpl; intuition discriminate. }
  destruct (Htwice 1 4 3%float 5%float sample.alice sample.db1 _ _ Hok eq_refl eq_refl
              eq_refl eq_refl)
    as (db1 & db2 & line & Hrun1 & Hrun2 & _ & Hsel & Hq).
  exists db1, db2, line. auto.
Defined.

(** ** C7: aggregation of a bowl that is not there, and deletion *)

(** No bowl has id 42 in the seeded store, and the aggregation of 42
    answers with the empty result instead of failing. *)
Lemma aggregate_without_bowl_returns :
  db_get (A := Bowl.t) 42 sample.db0 = None
  /\ run_request (query (bowls_ui.calculate_nutrition 42 1)) sample.db0
     = (inr empty_bowl_data, sample.db0)
  /\ ~ aggregate_fails_without_bowl.
Proof.
  split; [reflexivity|]. split; [reflexivity|].
  intros Hclaim. destruct (Hclaim 42 1 sample.db0 eq_refl) as [detail Hfail].
  discriminate Hfail.
Qed.

Section DeleteFacts.
Context {A : Type} `{TableLaws A}.

Lemma in_rows_delete_all (l : list A) (x : A) (db : DB) :
  In x (rows (fold_left (fun d r => db_delete r d) l db)) ->
  In x (rows db) /\ ~ In x l.
Proof.
  revert db. induction l as [|r l IH]; simpl; intros db Hin; [auto|].
  apply IH in Hin as [Hin Hnot]. apply in_rows_delete in Hin as [Hin Hne].
  split; [exact Hin|]. intros [->|Hl]; [apply Hne; reflexivity | exact (Hnot Hl)].
Qed.

End DeleteFacts.

(** *** Loops and flushes *)

(** A [for] loop whose body is one write per element, in a session that
    has nothing marked for deletion. *)
Lemma for_each_fold {B : Type} (step : B -> DB -> DB) (body : B -> M unit)
  (l : list B) :
  (forall x c p,
      body x {| committed := c; pending := p; deleted := [] |}
      = (inr tt, {| committed := c; pending := step x p; deleted := [] |})) ->
  forall c p,
    for_each l body {| committed := c; pending := p; deleted := [] |}
    = (inr tt, {| committed := c;
                  pending := fold_left (fun d x => step x d) l p;
                  deleted := [] |}).
Proof.
  intros Hbody. induction l as [|x l IH]; intros c p; simpl; [reflexivity|].
  unfold mbind, M_bind. rewrite Hbody, IH. reflexivity.
Qed.

(** A [for] loop whose body marks one object per element. *)
Lemma for_each_marks {B : Type} (mark : B -> Object) (body : B -> M unit)
  (l : list B) :
  (forall x s,
      body x s
      = (inr tt, {| committed := committed s; pending := pending s;
                    deleted := deleted s ++ [mark x] |})) ->
  forall s,
    for_each l body s
    = (inr tt, {| committed := committed s; pending := pending s;
                  deleted := deleted s ++ map mark l |}).
Proof.
  intros Hbody. induction l as [|x l IH]; intros s; simpl.
  - rewrite app_nil_r. destruct s; reflexivity.
  - unfold mbind, M_bind. rewrite Hbody, IH. simpl. rewrite <- app_assoc. reflexivity.
Qed.

Lemma autoflush_nothing (c p : DB) :
  autoflush {| committed := c; pending := p; deleted := [] |}
  = (inr tt, {| committed := c; pending := p; deleted := [] |}).
Proof. reflexivity. Qed.

Lemma autoflush_marked (c p : DB) (marked : list Object) :
  autoflush {| committed := c; pending := p; deleted := marked |}
  = match emit_deletes (unit_of_work marked) p with
    | inr db => (inr tt, {| committed := c; pending := db; deleted := [] |})
    | inl e => (inl e, {| committed := c; pending := c; deleted := [] |})
    end.
Proof. destruct marked; reflexivity. Qed.

(** The unit of work puts a bowl before the lines, however they were
    marked. *)
Lemma filter_rank_lines (rank : Z) (l : list BowlIngredient.t) :
  List.filter (fun o => class_rank o =? rank) (map a_BowlIngredient l)
  = if 1 =? rank then map a_BowlIngredient l else [].
Proof.
  induction l as [|x l IH]; cbn [map List.filter class_rank];
    [destruct (1 =? rank); reflexivity|].
  rewrite IH. destruct (1 =? rank); reflexivity.
Qed.

Lemma unit_of_work_lines (l : list BowlIngredient.t) :
  unit_of_work (map a_BowlIngredient l) = map a_BowlIngredient l.
Proof.
  unfold unit_of_work. simpl. rewrite !filter_rank_lines. simpl. apply app_nil_r.
Qed.

Lemma unit_of_work_lines_bowl (l : list BowlIngredient.t) (b : Bowl.t) :
  unit_of_work (map a_BowlIngredient l ++ [a_Bowl b]) = a_Bowl b :: map a_BowlIngredient l.
Proof.
  unfold unit_of_work. simpl. rewrite !List.filter_app, !filter_rank_lines. simpl.
  rewrite !app_nil_r. reflexivity.
Qed.

(** The DELETEs of lines are not restricted by any foreign key. *)
Lemma emit_deletes_lines (l : list BowlIngredient.t) (db : DB) :
  emit_deletes (map a_BowlIngredient l) db
  = inr (fold_left (fun d (bi : BowlIngredient.t) => db_delete bi d) l db).
Proof.
  revert db. induction l as [|x l IH]; intros db; simpl; [reflexivity|]. apply IH.
Qed.

Lemma existsb_filter {A : Type} (p : A -> bool) (l : list A) :
  existsb p l = match List.filter p l with [] => false | _ :: _ => true end.
Proof.
  induction l as [|x l IH]; simpl; [reflexivity|].
  destruct (p x); [reflexivity | exact IH].
Qed.

(** The DELETE of a bowl is refused as long as a line refers to it. *)
Lemma emit_delete_bowl (b : Bowl.t) (db : DB) :
  emit_delete (a_Bowl b) db
  = match Spec.lines (Bowl.id b) db with
    | [] => inr (db_delete b db)
    | _ :: _ => inl (IntegrityError "bowlingredient_bowl_id_fkey")
    end.
Proof.
  unfold emit_delete, restricts. rewrite existsb_filter.
  change (List.filter (fun bi => BowlIngredient.bowl_id bi =? Bowl.id b)
            (stored_rows (bowlingredient db)))
    with (Spec.lines (Bowl.id b) db).
  destruct (Spec.lines (Bowl.id b) db); reflexivity.
Qed.

(** Removing a line keeps the line invariant. *)
Lemma lines_ok_delete (bi : BowlIngredient.t) (db : DB) :
  lines_ok db -> lines_ok (db_delete bi db).
Proof.
  intros [Hkeys Hpairs]. split; [apply keys_ok_delete, Hkeys|].
  unfold db_delete. rewrite rows_set_table. cbn [stored_rows].
  apply NoDup_map_filter, Hpairs.
Qed.

(** Deleting every line of a bowl leaves no line of that bowl, and does
    not touch the bowls. *)
Lemma delete_lines_none (bowl_id : Z) (db : DB) :
  let db' :=
    fold_left (fun d (bi : BowlIngredient.t) => db_delete bi d)
      (Spec.lines bowl_id db) db in
  Spec.lines bowl_id db' = [] /\ bowl db' = bowl db.
Proof.
  cbv zeta. split.
  - apply filter_none. intros x Hx.
    apply in_rows_delete_all in Hx as [Hin Hnot].
    destruct (BowlIngredient.bowl_id x =? bowl_id) eqn:Hb; [|reflexivity].
    exfalso. apply Hnot. apply filter_In. auto.
  - generalize (Spec.lines bowl_id db). intros l. revert db.
    induction l as [|bi l IH]; intros db; simpl; [reflexivity|].
    rewrite IH. reflexivity.
Qed.

(** The loop that deletes lines one by one, as one filter. *)
Lemma delete_lines_fold (l : list BowlIngredient.t) (db : DB) :
  fold_left (fun d (bi : BowlIngredient.t) => db_delete bi d) l db
  = {| user := user db; ingredient := ingredient db; bowl := bowl db;
       bowlingredient :=
         {| stored_rows :=
              List.filter
                (fun x => negb (existsb (fun r => BowlIngredient.id x =? BowlIngredient.id r) l))
                (stored_rows (bowlingredient db));
            stored_seq := stored_seq (bowlingredient db) |};
       useringredientnutrition := useringredientnutrition db |}.
Proof.
  revert db. induction l as [|r l IH]; intros db; simpl.
  - rewrite filter_all by reflexivity. destruct db as [u g b [rs s] o]. reflexivity.
  - rewrite IH. unfold db_delete, rows. simpl. rewrite filter_twice.
    do 2 f_equal. apply List.filter_ext. intros x. rewrite negb_orb. reflexivity.
Qed.

(** With distinct line keys, deleting the lines a bowl has and then the
    bowl is taking the bowl out of the store. *)
Lemma delete_cascade (db : DB) (b : Bowl.t) :
  keys_ok (A := BowlIngredient.t) db ->
  db_delete b
    (fold_left (fun d (bi : BowlIngredient.t) => db_delete bi d)
       (Spec.lines (Bowl.id b) db) db)
  = without_bowl (Bowl.id b) db.
Proof.
  intros [Hnd _]. rewrite delete_lines_fold. unfold db_delete, without_bowl, rows. simpl.
  do 2 f_equal. apply List.filter_ext_in. intros x Hx. f_equal.
  destruct (BowlIngredient.bowl_id x =? Bowl.id b) eqn:Hb.
  - apply existsb_exists. exists x. split; [|apply Z.eqb_refl].
    apply filter_In. auto.
  - apply not_true_is_false. intros Hex.
    apply existsb_exists in Hex as (r & Hr & Heq).
    apply filter_In in Hr as [Hr Hrb]. apply Z.eqb_eq in Heq.
    rewrite (NoDup_key_inj (pk (A := BowlIngredient.t)) _ x r Hnd Hx Hr Heq) in Hb.
    congruence.
Qed.

(** A bowl without lines is taken out by its DELETE alone. *)
Lemma delete_bowl_without_lines (db : DB) (b : Bowl.t) :
  Spec.lines (Bowl.id b) db = [] -> db_delete b db = without_bowl (Bowl.id b) db.
Proof.
  intros Hnone. unfold db_delete, without_bowl, rows. simpl. f_equal.
  destruct db as [u g bs [ls s] o]. simpl in *. f_equal.
  symmetry. apply filter_all. intros x Hx.
  unfold Spec.lines, select_all, rows in Hnone. simpl in Hnone.
  rewrite (filter_nil_inv _ _ x Hnone Hx). reflexivity.
Qed.

(** Unfold the monad's plumbing, but not the flush; then take the
    flushes that have nothing to send. *)
Ltac run_session :=
  cbv beta iota zeta delta
    [ run_request mbind mret M_bind M_ret raise query modify
      session.get session.exec_first session.exec_all session.add
      session.update session.delete session.refresh session.commit
      session.flush validated ].

Ltac run_flushes :=
  repeat (rewrite autoflush_nothing; cbn [pending committed deleted]).

(** The commit of a session in which the lines [l] and then the bowl [b]
    were marked: the bowl's DELETE goes first. *)
Lemma commit_lines_and_bowl (c p : DB) (l : list BowlIngredient.t) (b : Bowl.t) :
  session.commit
    {| committed := c; pending := p; deleted := map a_BowlIngredient l ++ [a_Bowl b] |}
  = match Spec.lines (Bowl.id b) p with
    | [] =>
        let p' := fold_left (fun d (bi : BowlIngredient.t) => db_delete bi d) l
                    (db_delete b p) in
        (inr tt, {| committed := p'; pending := p'; deleted := [] |})
    | _ :: _ =>
        (inl (IntegrityError "bowlingredient_bowl_id_fkey"),
         {| committed := c; pending := c; deleted := [] |})
    end.
Proof.
  run_session. rewrite autoflush_marked, unit_of_work_lines_bowl.
  cbn [emit_deletes]. rewrite emit_delete_bowl.
  destruct (Spec.lines (Bowl.id b) p); [|reflexivity].
  rewrite emit_deletes_lines. reflexivity.
Qed.

(** The JSON delete by the owner: the commit sends the bowl's DELETE
    before those of its lines, so it fails when the bowl has a line. *)
Lemma api_delete_bowl_outcome (bowl_id : Z) (current_user : User.t) (db : DB)
  (b : Bowl.t) :
  db_get bowl_id db = Some b ->
  Bowl.user_id b = User.id current_user ->
  run_request (bowls_api.delete_bowl bowl_id current_user) db
  = match Spec.lines bowl_id db with
    | [] => (inr tt, without_bowl bowl_id db)
    | _ :: _ => (inl (IntegrityError "bowlingredient_bowl_id_fkey"), db)
    end.
Proof.
  intros Hget Howner.
  destruct (db_get_Some _ _ _ Hget) as [Hid _]. simpl in Hid.
  unfold bowls_api.delete_bowl, bowls_api.delete_bowl_ingredients,
    bowls_api.get_and_verify_bowl, bowls_api.verify_bowl_access, run_request.
  unfold mbind at 1, M_bind at 1. run_session. rewrite autoflush_nothing.
  cbn [pending]. rewrite Hget, Howner, Z.eqb_refl. cbn [negb].
  rewrite autoflush_nothing. cbn [pending].
  rewrite (for_each_marks a_BowlIngredient); [|reflexivity].
  cbn [committed pending deleted app].
  change (object b) with (a_Bowl b).
  rewrite autoflush_marked, unit_of_work_lines_bowl.
  cbn [emit_deletes]. rewrite emit_delete_bowl, Hid.
  change (select_all (fun bi : BowlIngredient.t => BowlIngredient.bowl_id bi =? bowl_id) db)
    with (Spec.lines bowl_id db).
  destruct (Spec.lines bowl_id db) as [|x l] eqn:Hlines; [|reflexivity].
  cbn [map emit_deletes pending committed]. rewrite <- Hid.
  rewrite delete_bowl_without_lines; [reflexivity|].
  rewrite Hid. exact Hlines.
Qed.

(** The HTML delete by the owner flushes the DELETEs of the lines before
    it marks the bowl: it answers, and commits the store without the bowl
    and its lines. *)
Lemma ui_delete_bowl_outcome (request : Request) (bowl_id : Z) (current_user : User.t)
  (db : DB) (b : Bowl.t) :
  db_get bowl_id db = Some b ->
  Bowl.user_id b = User.id current_user ->
  let db' :=
    db_delete b
      (fold_left (fun d (bi : BowlIngredient.t) => db_delete bi d)
         (Spec.lines bowl_id db) db) in
  run_request (bowls_ui.delete_bowl request bowl_id current_user) db
  = (inr (TemplateResponse "saved_bowls.html"
            {[ "request" := VRequest request;
               "bowls" := VBowls (bowls_ui.get_saved_bowls (User.id current_user) db') ]}),
     db').
Proof.
  intros Hget Howner. cbv zeta.
  destruct (db_get_Some _ _ _ Hget) as [Hid _]. simpl in Hid.
  destruct (delete_lines_none bowl_id db) as [Hnone _].
  unfold bowls_ui.delete_bowl, bowls_ui.verify_bowl_access, run_request.
  run_session. rewrite autoflush_nothing.
  cbn [pending]. rewrite Hget, Howner, Z.eqb_refl. cbn [negb].
  rewrite autoflush_nothing. cbn [pending].
  rewrite (for_each_marks a_BowlIngredient); [|reflexivity].
  cbn [committed pending deleted app].
  change (select_all (fun bi : BowlIngredient.t => BowlIngredient.bowl_id bi =? bowl_id) db)
    with (Spec.lines bowl_id db).
  rewrite autoflush_marked, unit_of_work_lines, emit_deletes_lines.
  cbn [committed pending deleted app]. change (object b) with (a_Bowl b).
  rewrite autoflush_marked. cbn [unit_of_work flat_map List.filter class_rank Z.eqb app].
  cbn [emit_deletes]. rewrite emit_delete_bowl, Hid, Hnone.
  cbn [committed pending]. rewrite autoflush_nothing. reflexivity.
Qed.

(** After the bowl and its lines are deleted: no bowl has the id, no line
    refers to it, the aggregation of the id is the empty result, and the
    ownership check of any route fails with 404. *)
Lemma after_delete (bowl_id : Z) (db : DB) (b : Bowl.t) :
  db_get bowl_id db = Some b ->
  bowl_gone bowl_id
    (db_delete b
       (fold_left (fun d (bi : BowlIngredient.t) => db_delete bi d)
          (Spec.lines bowl_id db) db)).
Proof.
  intros Hget.
  destruct (db_get_Some _ _ _ Hget) as [Hid _].
  destruct (delete_lines_none bowl_id db) as [Hnone Hbowls].
  set (db1 := fold_left _ _ db) in *.
  assert (Hgone : db_get (A := Bowl.t) bowl_id (db_delete b db1) = None).
  { rewrite <- Hid. apply db_get_delete. }
  assert (Hlines : Spec.lines bowl_id (db_delete b db1) = []).
  { exact Hnone. }
  split; [exact Hgone|]. split; [exact Hlines|]. split.
  - intros user_id. apply calculate_nutrition_no_lines, Hlines.
  - intros r current_user Hr Hv. apply (serve_no_bowl r current_user _ bowl_id Hr Hv Hgone).
Qed.

(** C7, amended. The aggregation itself never fails and never writes: for
    an id that no line refers to (so for any id that was never a bowl, or
    whose bowl was deleted) it returns the empty result.  NotFound comes
    from the ownership check the routes run first.  The HTML delete, for
    the owner of the bowl, succeeds and removes the bowl and all its
    lines: afterwards no bowl has the id, no line refers to it, every
    bowl-scoped route on the id fails with 404 "Bowl not found", and the
    aggregation of the id is the empty result. *)
Theorem aggregate_total_and_delete_cascades :
  (forall (bowl_id user_id : Z) (db : DB),
     run_request (query (bowls_ui.calculate_nutrition bowl_id user_id)) db
     = (inr (bowls_ui.calculate_nutrition bowl_id user_id db), db)
     /\ (Spec.lines bowl_id db = [] ->
         bowls_ui.calculate_nutrition bowl_id user_id db = empty_bowl_data))
  /\ (forall (request : Request) (bowl_id : Z) (current_user : User.t) (db : DB)
        (b : Bowl.t),
        db_get bowl_id db = Some b ->
        Bowl.user_id b = User.id current_user ->
        exists (resp : Response) (db' : DB),
          run_request (bowls_ui.delete_bowl request bowl_id current_user) db
          = (inr resp, db')
          /\ bowl_gone bowl_id db').
Proof.
  split.
  - intros bowl_id user_id db. split; [reflexivity|].
    apply calculate_nutrition_no_lines.
  - intros request bowl_id current_user db b Hget Howner.
    eexists _, _. split.
    + exact (ui_delete_bowl_outcome request bowl_id current_user db b Hget Howner).
    + exact (after_delete bowl_id db b Hget).
Qed.

(** Alice deletes her bowl 1 through the HTML route: it is gone with its
    two lines. *)
Lemma aggregate_total_and_delete_cascades_witness :
  exists resp : Response,
    fst (run_request
           (bowls_ui.delete_bowl (sample.request_of "alice") 1 sample.alice) sample.db1)
    = inr resp
    /\ bowl_gone 1
         (snd (run_request
                 (bowls_ui.delete_bowl (sample.request_of "alice") 1 sample.alice)
                 sample.db1)).
Proof.
  destruct aggregate_total_and_delete_cascades as (_ & Hdelete).
  destruct (Hdelete (sample.request_of "alice") 1 sample.alice sample.db1 _ eq_refl eq_refl)
    as (resp & db' & Hrun & Hgone).
  rewrite Hrun. exists resp. split; [reflexivity | exact Hgone].
Defined.

(** ** C8: renaming a bowl *)

(** [str.strip()] takes the white space of Unicode off both ends and
    leaves the white space inside; [len] counts characters, not bytes. *)
Example strip_and_len :
  Py.strip (String.append sample.nbsp (String.append " My Bowl " sample.nbsp))
  = "My Bowl"
  /\ Py.strip (String.append "a" (String.append sample.nbsp "b"))
     = String.append "a" (String.append sample.nbsp "b")
  /\ Py.strip (String.append sample.nbsp " ") = ""
  /\ Py.len (String.append "caf" sample.e_acute) = 4%nat
  /\ String.length (String.append "caf" sample.e_acute) = 5%nat.
Proof. repeat split; reflexivity. Qed.


(** The JSON rename: check, commit the stripped name, answer with the
    bowl's own four fields. *)
Lemma update_bowl_outcome (request : bowls_api.CreateBowlRequest.t) (bowl_id : Z)
  (current_user : User.t) (db : DB) (b : Bowl.t) :
  db_get bowl_id db = Some b ->
  Bowl.user_id b = User.id current_user ->
  run_request (bowls_api.update_bowl request bowl_id current_user) db
  = (inr {| bowls_api.BowlResponse.id := Bowl.id b;
            bowls_api.BowlResponse.name :=
              Py.strip (bowls_api.CreateBowlRequest.name request);
            bowls_api.BowlResponse.user_id := Bowl.user_id b;
            bowls_api.BowlResponse.saved := Bowl.saved b |},
     db_update
       (Bowl.with_name (Py.strip (bowls_api.CreateBowlRequest.name request)) b) db).
Proof.
  intros Hget Howner.
  destruct (db_get_Some _ _ _ Hget) as [Hid _]. simpl in Hid. subst bowl_id.
  pose proof (db_get_update
                (Bowl.with_name (Py.strip (bowls_api.CreateBowlRequest.name request)) b)
                b db Hget) as Hupd.
  unfold bowls_api.update_bowl, bowls_api.get_and_verify_bowl,
    bowls_api.verify_bowl_access.
  run_session. run_flushes. rewrite Hget, <- Howner, Z.eqb_refl. cbn [negb].
  run_flushes. rewrite Hupd. reflexivity.
Qed.

(** The HTML rename: check, commit the cleaned name, and then the call
    with a missing argument raises. *)
Lemma update_bowl_name_outcome (request : Request) (bowl_id : Z) (name : string)
  (current_user : User.t) (db : DB) (b : Bowl.t) :
  db_get bowl_id db = Some b ->
  Bowl.user_id b = User.id current_user ->
  run_request (bowls_ui.update_bowl_name request bowl_id name current_user) db
  = (inl (TypeError
            "calculate_nutrition() missing 1 required positional argument: 'session'"),
     db_update (Bowl.with_name (cleaned_name name) b) db).
Proof.
  intros Hget Howner.
  destruct (db_get_Some _ _ _ Hget) as [Hid _]. simpl in Hid. subst bowl_id.
  pose proof (db_get_update (Bowl.with_name (cleaned_name name) b) b db Hget) as Hupd.
  unfold bowls_ui.update_bowl_name, bowls_ui.verify_bowl_access.
  run_session. run_flushes. rewrite Hget, <- Howner, Z.eqb_refl. cbn [negb].
  run_flushes. fold (cleaned_name name). rewrite Hupd. reflexivity.
Qed.

(** Alice renames her bowl 1 through the JSON route, once on a store where
    the bowl has lines and once where it has none: the two answers are the
    same, so the answer does not carry the bowl's nutrition. *)
Lemma json_rename_answers_without_nutrition :
  fst (run_request
         (bowls_api.update_bowl {| bowls_api.CreateBowlRequest.name := "Lunch" |} 1
            sample.alice) sample.db1)
  = inr {| bowls_api.BowlResponse.id := 1; bowls_api.BowlResponse.name := "Lunch";
           bowls_api.BowlResponse.user_id := 1;
           bowls_api.BowlResponse.saved := false |}
  /\ fst (run_request
            (bowls_api.update_bowl {| bowls_api.CreateBowlRequest.name := "Lunch" |} 1
               sample.alice) sample.db2)
     = inr {| bowls_api.BowlResponse.id := 1; bowls_api.BowlResponse.name := "Lunch";
              bowls_api.BowlResponse.user_id := 1;
              bowls_api.BowlResponse.saved := false |}
  /\ ~ rename_answers_with_nutrition
        (bowls_api.update_bowl {| bowls_api.CreateBowlRequest.name := "Lunch" |}).
Proof.
  split; [reflexivity|]. split; [reflexivity|].
  intros [data_of Hclaim].
  pose (b := {| Bowl.id := 1; Bowl.name := "My Bowl"; Bowl.user_id := 1;
                Bowl.saved := false |}).
  destruct (Hclaim 1 sample.alice sample.db1 b eq_refl eq_refl)
    as (r1 & d1 & Hrun1 & Hdata1).
  destruct (Hclaim 1 sample.alice sample.db2 b eq_refl eq_refl)
    as (r2 & d2 & Hrun2 & Hdata2).
  rewrite (update_bowl_outcome _ 1 sample.alice sample.db1 b eq_refl eq_refl) in Hrun1.
  rewrite (update_bowl_outcome _ 1 sample.alice sample.db2 b eq_refl eq_refl) in Hrun2.
  injection Hrun1 as <- <-. injection Hrun2 as <- <-.
  rewrite Hdata1 in Hdata2. vm_compute in Hdata2. discriminate Hdata2.
Qed.

(** C8, amended. A rename by the bowl's owner commits the new name, which
    is the stripped input (the HTML route stores "My Bowl" when that is
    empty).  The JSON route then answers with the bowl's id, new name,
    owner and saved flag, and does not aggregate. *)
Theorem rename_commits_name :
  forall (bowl_id : Z) (current_user : User.t) (db : DB) (b : Bowl.t),
    db_get bowl_id db = Some b ->
    Bowl.user_id b = User.id current_user ->
    (forall request : bowls_api.CreateBowlRequest.t,
       run_request (bowls_api.update_bowl request bowl_id current_user) db
       = (inr {| bowls_api.BowlResponse.id := Bowl.id b;
                 bowls_api.BowlResponse.name :=
                   Py.strip (bowls_api.CreateBowlRequest.name request);
                 bowls_api.BowlResponse.user_id := Bowl.user_id b;
                 bowls_api.BowlResponse.saved := Bowl.saved b |},
          db_update
            (Bowl.with_name (Py.strip (bowls_api.CreateBowlRequest.name request)) b)
            db))
    /\ (forall (request : Request) (name : string),
          snd (run_request
                 (bowls_ui.update_bowl_name request bowl_id name current_user) db)
          = db_update
              (Bowl.with_name
                 (if String.eqb (Py.strip name) "" then "My Bowl" else Py.strip name) b)
              db).
Proof.
  intros bowl_id current_user db b Hget Howner. split.
  - intros request. apply update_bowl_outcome; assumption.
  - intros request name.
    rewrite (update_bowl_name_outcome request bowl_id name current_user db b Hget Howner).
    reflexivity.
Qed.

(** Alice renames her bowl 1 to "Lunch" with a no-break space before it
    and a space and a no-break space behind it: the store holds "Lunch". *)
Lemma rename_commits_name_witness :
  Bowl.name
    <$> db_get 1
          (snd (run_request
                  (bowls_api.update_bowl
                     {| bowls_api.CreateBowlRequest.name :=
                          String.append sample.nbsp
                            (String.append "Lunch " sample.nbsp) |} 1 sample.alice)
                  sample.db1))
  = Some "Lunch".
Proof.
  destruct (rename_commits_name 1 sample.alice sample.db1
              {| Bowl.id := 1; Bowl.name := "My Bowl"; Bowl.user_id := 1;
                 Bowl.saved := false |} eq_refl eq_refl) as [Hjson _].
  rewrite Hjson. reflexivity.
Defined.

(** ** C9: the quantity of a line *)

(** The JSON upsert is refused when the quantity is not above zero, and
    nothing is written. *)
Lemma api_add_ingredient_rejects (request : bowls_api.AddIngredientRequest.t)
  (current_user : User.t) (db : DB) :
  PrimFloat.ltb 0 (bowls_api.AddIngredientRequest.quantity request) = false ->
  run_request (serve (api_add_ingredient request) current_user) db
  = (inl (RequestValidationError "request"), db).
Proof.
  intros Hq. apply serve_invalid. simpl.
  unfold bowls_api.AddIngredientRequest.valid. rewrite Hq. apply andb_false_r.
Qed.

(** C9, the code at the failing input. The HTML upsert declares no
    constraint: Alice adds blueberries to her bowl 1 with quantity -1, and
    then with quantity 0; each request is answered and the line is stored
    with that quantity, while the JSON upsert refuses the same quantity. *)
Theorem ui_add_ingredient_accepts_nonpositive :
  (exists (resp : Response) (db' : DB),
     run_request
       (serve (ui_add_ingredient_to_bowl (sample.request_of "alice") (Some 1) 5 (-1))
          sample.alice) sample.db1 = (inr tt, db')
     /\ run_request
          (bowls_ui.add_ingredient_to_bowl (sample.request_of "alice") (Some 1) 5 (-1)
             sample.alice) sample.db1 = (inr resp, db')
     /\ select_all (for_pair 1 5) db'
        = [ {| BowlIngredient.id := 3; BowlIngredient.bowl_id := 1;
               BowlIngredient.ingredient_id := 5; BowlIngredient.quantity := -1 |} ])
  /\ (exists (resp : Response) (db' : DB),
        run_request
          (bowls_ui.add_ingredient_to_bowl (sample.request_of "alice") (Some 1) 5 0
             sample.alice) sample.db1 = (inr resp, db')
        /\ select_all (for_pair 1 5) db'
           = [ {| BowlIngredient.id := 3; BowlIngredient.bowl_id := 1;
                  BowlIngredient.ingredient_id := 5; BowlIngredient.quantity := 0 |} ])
  /\ run_request
       (serve (api_add_ingredient
                 {| bowls_api.AddIngredientRequest.bowl_id := 1;
                    bowls_api.AddIngredientRequest.ingredient_id := 5;
                    bowls_api.AddIngredientRequest.quantity := -1 |}) sample.alice)
       sample.db1
     = (inl (RequestValidationError "request"), sample.db1).
Proof.
  split; [|split].
  - eexists _, _. split; [reflexivity|]. split; reflexivity.
  - eexists _, _. split; reflexivity.
  - reflexivity.
Qed.

(** ** Registration keeps the user table in order *)

Lemma strip_nonempty (s : string) : Py.strip s <> "" -> s <> "".
Proof. intros Hs ->. apply Hs. reflexivity. Qed.

Lemma users_ok_insert (u : User.t) (db : DB) :
  users_ok db ->
  User.username u <> "" ->
  select_first (fun v => String.eqb (User.username v) (User.username u)) db = None ->
  users_ok (snd (db_insert u db)).
Proof.
  intros [Hne Hnd] Hu Hnone. unfold users_ok, db_insert. cbn [snd].
  rewrite rows_set_table. cbn [stored_rows]. split.
  - apply List.Forall_app. split; [exact Hne|]. repeat constructor. exact Hu.
  - rewrite map_app. apply List.NoDup_app; [exact Hnd | repeat constructor; intros [] |].
    intros k Hk [<-|[]]. apply in_map_iff in Hk as (x & Hx & Hin).
    apply select_first_None in Hnone.
    pose proof (filter_nil_inv _ _ x Hnone Hin) as Hf. simpl in Hf.
    simpl in Hx. rewrite Hx, String.eqb_refl in Hf. discriminate.
Qed.

(** The HTML registration never stores an empty or a taken username. *)
Lemma register_htmx_keeps_users_ok (sha256_hexdigest : string -> string)
  (request : Request) (name username password : string) (db : DB) :
  users_ok db ->
  users_ok (snd (run_request
                   (bowls_ui.register_htmx sha256_hexdigest request name username
                      password) db)).
Proof.
  intros Hok.
  unfold bowls_ui.register_htmx, bowls_ui.prepare_home_context, try_except.
  run_m. simpl.
  destruct (select_first _ db) as [existing|] eqn:Hnone; simpl; [exact Hok|].
  destruct (String.eqb_spec (Py.strip username) "") as [|Hstrip]; simpl; [exact Hok|].
  destruct (_ || _); simpl; [exact Hok|].
  destruct (Nat.ltb _ 6); simpl; [exact Hok|].
  destruct (negb _); simpl; [exact Hok|].
  pose proof (users_ok_insert
                {| User.id := 0; User.username := username;
                   User.password_hash := auth.hash_password sha256_hexdigest password;
                   User.name := Py.strip name |} db Hok
                (strip_nonempty username Hstrip) Hnone) as Hins.
  unfold db_insert in Hins. simpl in Hins.
  repeat match goal with
         | |- context [match db_get ?i ?d with _ => _ end] => destruct (db_get i d); simpl
         | |- context [match select_first ?q ?d with _ => _ end] =>
             destruct (select_first q d); simpl
         end;
    exact Hins.
Qed.

(** The JSON registration, once its request passed the declared
    constraints, does not either. *)
Lemma register_keeps_users_ok (sha256_hexdigest : string -> string)
  (request : auth_api.RegisterRequest.t) (db : DB) :
  auth_api.RegisterRequest.valid request = true ->
  users_ok db ->
  users_ok (snd (run_request (auth_api.register sha256_hexdigest request) db)).
Proof.
  intros Hvalid Hok. unfold auth_api.register. run_m. simpl.
  destruct (select_first _ db) as [existing|] eqn:Hnone; simpl; [exact Hok|].
  assert (Hne : auth_api.RegisterRequest.username request <> "").
  { unfold auth_api.RegisterRequest.valid in Hvalid.
    destruct (auth_api.RegisterRequest.username request); [discriminate Hvalid | discriminate]. }
  pose proof (users_ok_insert
                {| User.id := 0;
                   User.username := auth_api.RegisterRequest.username request;
                   User.password_hash :=
                     auth.hash_password sha256_hexdigest
                       (auth_api.RegisterRequest.password request);
                   User.name := auth_api.RegisterRequest.username request |} db Hok
                Hne Hnone) as Hins.
  unfold db_insert in Hins. simpl in Hins.
  match goal with
  | |- context [match db_get ?i ?d with _ => _ end] => destruct (db_get i d); simpl
  end; exact Hins.
Qed.

(** Registration, by either route, keeps usernames non-empty and pairwise
    distinct: the invariant the cookie lookup relies on. *)
Theorem registration_keeps_users_ok (sha256_hexdigest : string -> string) (db : DB) :
  users_ok db ->
  (forall (request : Request) (name username password : string),
     users_ok (snd (run_request
                      (bowls_ui.register_htmx sha256_hexdigest request name username
                         password) db)))
  /\ (forall request : auth_api.RegisterRequest.t,
        auth_api.RegisterRequest.valid request = true ->
        users_ok (snd (run_request (auth_api.register sha256_hexdigest request) db))).
Proof.
  intros Hok. split.
  - intros request name username password.
    apply register_htmx_keeps_users_ok, Hok.
  - intros request Hvalid. apply register_keeps_users_ok; assumption.
Qed.

(** Dave registers on the seeded store (the digest is immaterial here). *)
Lemma registration_keeps_users_ok_witness :
  users_ok
    (snd (run_request
            (bowls_ui.register_htmx (fun s => s) (sample.request_of "") "Dave" "dave"
               "s3cret!") sample.db0)).
Proof.
  assert (Hok : users_ok sample.db0).
  { split.
    - repeat constructor; discriminate.
    - repeat constructor; simpl; intuition discriminate. }
  destruct (registration_keeps_users_ok (fun s => s) sample.db0 Hok) as [Hhtml _].
  apply Hhtml.
Defined.

(** ** Catalog order *)

Section Sorting.
Context {A : Type}.
Variable key : A -> Z.

Lemma insert_sorted_perm (x : A) (l : list A) :
  Permutation (x :: l) (bowls_ui.insert_sorted key x l).
Proof.
  induction l as [|y l IH]; simpl; [reflexivity|].
  destruct (key x <=? key y); [reflexivity|].
  rewrite perm_swap. apply perm_skip, IH.
Qed.

Lemma insert_sorted_HdRel (a x : A) (l : list A) :
  key a <= key x ->
  HdRel (fun u v => key u <= key v) a l ->
  HdRel (fun u v => key u <= key v) a (bowls_ui.insert_sorted key x l).
Proof.
  intros Hax Hal. destruct l as [|y l]; simpl.
  - constructor. exact Hax.
  - destruct (key x <=? key y); constructor; [exact Hax|].
    apply HdRel_inv in Hal. exact Hal.
Qed.

Lemma insert_sorted_Sorted (x : A) (l : list A) :
  Sorted (fun u v => key u <= key v) l ->
  Sorted (fun u v => key u <= key v) (bowls_ui.insert_sorted key x l).
Proof.
  induction l as [|y l IH]; simpl; intros Hs.
  - repeat constructor.
  - destruct (Z.leb_spec (key x) (key y)) as [Hle|Hgt].
    + constructor; [exact Hs | constructor; exact Hle].
    + apply Sorted_inv in Hs as [Hs Hhd].
      constructor; [apply IH, Hs|].
      apply insert_sorted_HdRel; [lia | exact Hhd].
Qed.

Lemma sorted_sorts (l : list A) :
  Permutation l (bowls_ui.sorted l key)
  /\ Sorted (fun u v => key u <= key v) (bowls_ui.sorted l key).
Proof.
  unfold bowls_ui.sorted. induction l as [|x l [IHp IHs]]; simpl.
  - split; [reflexivity | constructor].
  - split.
    + rewrite <- insert_sorted_perm. apply perm_skip, IHp.
    + apply insert_sorted_Sorted, IHs.
Qed.

End Sorting.

(** The display order: [sort_ingredients] rearranges the catalog so that
    ranks never decrease; a listed name has its index in
    [INGREDIENT_ORDER] as rank, so listed ingredients come in list order
    and the unlisted ones, of rank 999, after all of them. *)
Theorem sort_ingredients_display_order (ingredients : list Ingredient.t) :
  Permutation ingredients (bowls_ui.sort_ingredients ingredients)
  /\ Sorted (fun g h => display_rank g <= display_rank h)
       (bowls_ui.sort_ingredients ingredients)
  /\ map (fun name => bowls_ui.enumerate_map 0 bowls_ui.INGREDIENT_ORDER ∅ !! name)
       bowls_ui.INGREDIENT_ORDER
     = map Some [0; 1; 2; 3; 4; 5; 6; 7; 8]
  /\ map Ingredient.name (bowls_ui.sort_ingredients (rev seed.INGREDIENTS))
     = bowls_ui.INGREDIENT_ORDER.
Proof.
  destruct (sorted_sorts display_rank ingredients) as [Hperm Hsorted].
  split; [exact Hperm|]. split; [exact Hsorted|]. split; reflexivity.
Qed.

(** ** Routes that only read *)

(** The lookups and the pages never write: whatever the request, and
    whether they answer or raise, the store is as before. *)
Theorem reading_routes_leave_store (db : DB) :
  (forall request, snd (run_request (auth.get_current_user request) db) = db)
  /\ (forall request, snd (run_request (auth.get_optional_user request) db) = db)
  /\ (forall request, snd (run_request (bowls_ui.home request) db) = db)
  /\ (forall request, snd (run_request (bowls_ui.login_form request) db) = db)
  /\ (forall request, snd (run_request (bowls_ui.register_form request) db) = db)
  /\ (forall sha256_hexdigest request username password,
        snd (run_request (bowls_ui.login sha256_hexdigest request username password) db)
        = db)
  /\ (forall request, snd (run_request (bowls_ui.logout request) db) = db)
  /\ (forall request current_user,
        snd (run_request (bowls_ui.get_saved_bowls_view request current_user) db) = db)
  /\ (forall request bowl_id current_user,
        snd (run_request (bowls_ui.edit_bowl_name_form request bowl_id current_user) db)
        = db)
  /\ (forall request ingredient_id bowl_id current_user,
        snd (run_request
               (bowls_ui.edit_ingredient_form request ingredient_id bowl_id current_user)
               db) = db)
  /\ (forall bowl_id current_user,
        snd (run_request (bowls_api.get_bowl bowl_id current_user) db) = db).
Proof.
  assert (Hcur : forall request, snd (run_request (auth.get_current_user request) db) = db).
  { intros request. unfold auth.get_current_user.
    destruct (cookies request !! "username") as [[|c u]|]; try reflexivity.
    run_m. simpl. destruct (select_first _ db); reflexivity. }
  repeat apply conj.
  - exact Hcur.
  - intros request. unfold auth.get_optional_user.
    destruct (cookies request !! "username") as [[|c u]|]; reflexivity.
  - intros request. unfold bowls_ui.home, bowls_ui.prepare_home_context,
      auth.get_optional_user.
    destruct (cookies request !! "username") as [[|c u]|]; try reflexivity.
    run_m. simpl. destruct (select_first _ db); [|reflexivity].
    simpl. destruct (select_first _ db); reflexivity.
  - intros request. unfold bowls_ui.login_form, try_except, auth.get_optional_user.
    destruct (cookies request !! "username") as [[|c u]|]; run_m; simpl;
      try (destruct (select_first _ db); simpl);
      try (destruct (bool_decide _)); reflexivity.
  - intros request. unfold bowls_ui.register_form, try_except, auth.get_optional_user.
    destruct (cookies request !! "username") as [[|c u]|]; run_m; simpl;
      try (destruct (select_first _ db); simpl);
      try (destruct (bool_decide _)); reflexivity.
  - intros sha request username password.
    unfold bowls_ui.login, bowls_ui.prepare_home_context, try_except. run_m. simpl.
    destruct (select_first _ db) as [u|]; [|reflexivity]. simpl.
    destruct (negb _); [reflexivity|]. simpl.
    destruct (select_first _ db); reflexivity.
  - intros; reflexivity.
  - intros; reflexivity.
  - intros request bowl_id current_user. run_route.
    destruct (db_get bowl_id db) as [b|]; [|reflexivity]. simpl.
    destruct (negb _); reflexivity.
  - intros request ingredient_id bowl_id current_user.
    unfold bowls_ui.edit_ingredient_form. run_m. simpl.
    destruct (db_get ingredient_id db); reflexivity.
  - intros bowl_id current_user. run_route.
    destruct (db_get bowl_id db) as [b|]; [|reflexivity]. simpl.
    destruct (negb _); reflexivity.
Qed.
(** ** Overrides: write, read back, and nobody else's *)

Lemma for_override_spec (user_id ingredient_id : Z) (n : UserIngredientNutrition.t) :
  for_override user_id ingredient_id n = true
  <-> override_pair n = (user_id, ingredient_id).
Proof.
  unfold for_override, override_pair. rewrite andb_true_iff, !Z.eqb_eq.
  split; [intros [-> ->]; reflexivity | intros [= -> ->]; auto].
Qed.

Lemma for_override_other (user_id ingredient_id user_id' ingredient_id' : Z)
  (n : UserIngredientNutrition.t) :
  (user_id', ingredient_id') <> (user_id, ingredient_id) ->
  override_pair n = (user_id, ingredient_id) ->
  for_override user_id' ingredient_id' n = false.
Proof.
  intros Hne Hn. destruct (for_override user_id' ingredient_id' n) eqn:Hf; [|reflexivity].
  apply for_override_spec in Hf. congruence.
Qed.

(** After the write the invariant holds, the pair has exactly one
    override: the one it had, under the same id and with the four values
    assigned to it, or else a new one with the values given; and every
    other pair's overrides are the rows they were. *)
Lemma upsert_override_ok (user_id ingredient_id : Z) (v : Nutrition.t) (db : DB) :
  overrides_ok db ->
  let db' := upsert_override user_id ingredient_id v db in
  overrides_ok db'
  /\ (exists o : UserIngredientNutrition.t,
        select_all (for_override user_id ingredient_id) db' = [o]
        /\ o = match select_first (for_override user_id ingredient_id) db with
               | Some e =>
                   {| UserIngredientNutrition.id := UserIngredientNutrition.id e;
                      UserIngredientNutrition.user_id := user_id;
                      UserIngredientNutrition.ingredient_id := ingredient_id;
                      UserIngredientNutrition.calories :=
                        assign_float (UserIngredientNutrition.calories e)
                          (Nutrition.calories v);
                      UserIngredientNutrition.protein :=
                        assign_float (UserIngredientNutrition.protein e)
                          (Nutrition.protein v);
                      UserIngredientNutrition.fiber :=
                        assign_float (UserIngredientNutrition.fiber e)
                          (Nutrition.fiber v);
                      UserIngredientNutrition.sugar :=
                        assign_float (UserIngredientNutrition.sugar e)
                          (Nutrition.sugar v) |}
               | None =>
                   {| UserIngredientNutrition.id :=
                        stored_seq (useringredientnutrition db) + 1;
                      UserIngredientNutrition.user_id := user_id;
                      UserIngredientNutrition.ingredient_id := ingredient_id;
                      UserIngredientNutrition.calories := Nutrition.calories v;
                      UserIngredientNutrition.protein := Nutrition.protein v;
                      UserIngredientNutrition.fiber := Nutrition.fiber v;
                      UserIngredientNutrition.sugar := Nutrition.sugar v |}
               end)
  /\ (forall user_id' ingredient_id',
        (user_id', ingredient_id') <> (user_id, ingredient_id) ->
        select_all (for_override user_id' ingredient_id') db'
        = select_all (for_override user_id' ingredient_id') db).
Proof.
  intros [[Hnd Hle] Hpairs]. cbv zeta. unfold upsert_override.
  destruct (select_first (for_override user_id ingredient_id) db) as [e|] eqn:Hfirst.
  - destruct (select_first_Some _ _ _ Hfirst) as [He Hin].
    apply for_override_spec in He.
    set (e' := UserIngredientNutrition.with_values (Nutrition.calories v)
                 (Nutrition.protein v) (Nutrition.fiber v) (Nutrition.sugar v) e).
    assert (Hget : db_get (pk e') db = Some e) by exact (db_get_in e db Hnd Hin).
    assert (Hkey : override_pair (updated e e') = override_pair e) by reflexivity.
    assert (Hone : select_all (for_override user_id ingredient_id) db = [e]).
    { apply (filter_key_unique override_pair); [exact Hpairs | exact Hin |].
      intros x. rewrite for_override_spec, He. reflexivity. }
    split; [|split].
    + split; [apply keys_ok_update; split; assumption|].
      apply (NoDup_key_update override_pair); [|exact Hpairs].
      intros old Hold. rewrite Hget in Hold. injection Hold as <-. reflexivity.
    + exists (updated e e'). split; [|injection He as <- <-; reflexivity].
      destruct (unchanged e e') eqn:Hsame.
      * rewrite (db_update_unchanged e' e db Hget Hsame), (updated_unchanged e e' Hsame).
        exact Hone.
      * rewrite (select_all_update _ e' e db Hget Hsame), Hone.
        cbn [List.filter]. change (pk e') with (pk e). rewrite Z.eqb_refl.
        cbn [negb app].
        replace (for_override user_id ingredient_id (updated e e')) with true;
          [reflexivity|].
        symmetry. apply for_override_spec. rewrite Hkey. exact He.
    + intros user_id' ingredient_id' Hne. apply select_all_update_other.
      * intros x Hx Heq. change (pk e') with (pk e) in Heq.
        rewrite (NoDup_key_inj pk (rows db) x e Hnd Hx Hin Heq).
        apply (for_override_other user_id ingredient_id); assumption.
      * intros old Hold. rewrite Hget in Hold. injection Hold as <-.
        apply (for_override_other user_id ingredient_id); [exact Hne|].
        rewrite Hkey. exact He.
  - set (new := {| UserIngredientNutrition.id := 0;
                   UserIngredientNutrition.user_id := user_id;
                   UserIngredientNutrition.ingredient_id := ingredient_id;
                   UserIngredientNutrition.calories := Nutrition.calories v;
                   UserIngredientNutrition.protein := Nutrition.protein v;
                   UserIngredientNutrition.fiber := Nutrition.fiber v;
                   UserIngredientNutrition.sugar := Nutrition.sugar v |}).
    pose proof (select_first_None _ _ Hfirst) as Hnil. unfold select_all in Hnil.
    split; [|split].
    + split; [apply keys_ok_insert; split; assumption|].
      rewrite rows_insert, map_app.
      apply List.NoDup_app; [exact Hpairs | repeat constructor; intros [] |].
      intros k Hk [<-|[]]. apply in_map_iff in Hk as (x & Hx & Hin).
      change (override_pair x = (user_id, ingredient_id)) in Hx.
      apply for_override_spec in Hx.
      rewrite (filter_nil_inv _ _ x Hnil Hin) in Hx. discriminate.
    + eexists. unfold select_all. rewrite rows_insert, List.filter_app, Hnil.
      simpl. unfold for_override. simpl. rewrite !Z.eqb_refl. simpl.
      split; reflexivity.
    + intros user_id' ingredient_id' Hne. apply select_all_insert_other.
      apply (for_override_other user_id ingredient_id); [exact Hne | reflexivity].
Qed.
(** The write touches the override table only. *)
Lemma upsert_override_tables (user_id ingredient_id : Z) (v : Nutrition.t) (db : DB) :
  let db' := upsert_override user_id ingredient_id v db in
  user db' = user db /\ ingredient db' = ingredient db /\ bowl db' = bowl db
  /\ bowlingredient db' = bowlingredient db.
Proof.
  cbv zeta. unfold upsert_override.
  destruct (select_first _ db) as [e|]; [|repeat split; reflexivity].
  unfold db_update. destruct (db_get _ db) as [old|]; [|repeat split; reflexivity].
  destruct (unchanged old _); repeat split; reflexivity.
Qed.

Lemma get_ingredient_nutrition_ext (ingredient_id user_id : Z) (db db' : DB) :
  ingredient db' = ingredient db ->
  select_all (for_override user_id ingredient_id) db'
  = select_all (for_override user_id ingredient_id) db ->
  bowls_ui.get_ingredient_nutrition ingredient_id user_id db'
  = bowls_ui.get_ingredient_nutrition ingredient_id user_id db.
Proof.
  intros Hing Hov. unfold bowls_ui.get_ingredient_nutrition, select_first.
  change (fun n : UserIngredientNutrition.t =>
            (UserIngredientNutrition.user_id n =? user_id)
            && (UserIngredientNutrition.ingredient_id n =? ingredient_id))
    with (for_override user_id ingredient_id).
  rewrite Hov. unfold db_get, select_first, select_all, rows. simpl. rewrite Hing.
  reflexivity.
Qed.

(** The JSON override update: 404 and nothing written when the ingredient
    is unknown, else the upsert is committed. *)
Lemma update_nutrition_outcome (request : ingredients_api.UpdateNutritionRequest.t)
  (current_user : User.t) (db : DB) :
  run_request (ingredients_api.update_nutrition request current_user) db
  = match db_get (A := Ingredient.t)
            (ingredients_api.UpdateNutritionRequest.ingredient_id request) db with
    | None =>
        (inl (HTTPException status.HTTP_404_NOT_FOUND "Ingredient not found"), db)
    | Some g =>
        (inr {| ingredients_api.UpdateNutritionResponse.ingredient_id := Ingredient.id g;
                ingredients_api.UpdateNutritionResponse.updated := true |},
         upsert_override (User.id current_user)
           (ingredients_api.UpdateNutritionRequest.ingredient_id request)
           {| Nutrition.calories := ingredients_api.UpdateNutritionRequest.calories request;
              Nutrition.protein := ingredients_api.UpdateNutritionRequest.protein request;
              Nutrition.fiber := ingredients_api.UpdateNutritionRequest.fiber request;
              Nutrition.sugar := ingredients_api.UpdateNutritionRequest.sugar request |}
           db)
    end.
Proof.
  unfold ingredients_api.update_nutrition. run_m. simpl.
  destruct (db_get (A := Ingredient.t) _ db) as [g|]; [|reflexivity]. simpl.
  unfold upsert_override.
  change (fun n : UserIngredientNutrition.t =>
            (UserIngredientNutrition.user_id n =? User.id current_user)
            && (UserIngredientNutrition.ingredient_id n
                =? ingredients_api.UpdateNutritionRequest.ingredient_id request))
    with (for_override (User.id current_user)
            (ingredients_api.UpdateNutritionRequest.ingredient_id request)).
  destruct (select_first _ db); reflexivity.
Qed.

(** The HTML override update commits the same upsert before anything
    else; what follows can only add the working bowl. *)
Lemma update_ingredient_htmx_outcome (request : Request) (ingredient_id : Z)
  (bowl_id : option Z) (calories protein fiber sugar : float) (current_user : User.t)
  (db : DB) (g : Ingredient.t) :
  db_get ingredient_id db = Some g ->
  let db1 :=
    upsert_override (User.id current_user) ingredient_id
      {| Nutrition.calories := calories; Nutrition.protein := protein;
         Nutrition.fiber := fiber; Nutrition.sugar := sugar |} db in
  let db' :=
    snd (run_request
           (bowls_ui.update_ingredient_htmx request ingredient_id bowl_id calories
              protein fiber sugar current_user) db) in
  useringredientnutrition db' = useringredientnutrition db1
  /\ ingredient db' = ingredient db
  /\ bowlingredient db' = bowlingredient db
  /\ user db' = user db.
Proof.
  intros Hg. cbv zeta. run_route. unfold bowls_ui.get_or_create_unsaved_bowl.
  run_m. simpl. rewrite Hg. simpl.
  unfold upsert_override, for_override.
  repeat (unfold select_first, select_all, rows, db_get, db_update, db_insert; simpl;
          match goal with
          | |- context [match head ?l with _ => _ end] => destruct (head l)
          | |- context [if negb ?c then _ else _] => destruct (negb c)
          | |- context [if truthy ?b then _ else _] => destruct (truthy b)
          | |- context [if UserIngredientNutrition.unchanged ?a ?b then _ else _] =>
              destruct (UserIngredientNutrition.unchanged a b)
          end);
    simpl; repeat split; reflexivity.
Qed.
Lemma overrides_ok_ext (db db' : DB) :
  useringredientnutrition db' = useringredientnutrition db ->
  overrides_ok db -> overrides_ok db'.
Proof. unfold overrides_ok, keys_ok, rows. simpl. intros ->. auto. Qed.

Lemma select_all_override_ext (q : UserIngredientNutrition.t -> bool) (db db' : DB) :
  useringredientnutrition db' = useringredientnutrition db ->
  select_all q db' = select_all q db.
Proof. unfold select_all, rows. simpl. intros ->. reflexivity. Qed.

(** What the two override routes have in common. *)
Lemma override_routes_store (current_user : User.t) (ingredient_id : Z)
  (v : Nutrition.t) (db db' : DB) (g : Ingredient.t) :
  db_get ingredient_id db = Some g ->
  (db' = snd (run_request
                (ingredients_api.update_nutrition
                   {| ingredients_api.UpdateNutritionRequest.ingredient_id := ingredient_id;
                      ingredients_api.UpdateNutritionRequest.calories := Nutrition.calories v;
                      ingredients_api.UpdateNutritionRequest.protein := Nutrition.protein v;
                      ingredients_api.UpdateNutritionRequest.fiber := Nutrition.fiber v;
                      ingredients_api.UpdateNutritionRequest.sugar := Nutrition.sugar v |}
                   current_user) db)
   \/ exists request bowl_id,
        db' = snd (run_request
                     (bowls_ui.update_ingredient_htmx request ingredient_id bowl_id
                        (Nutrition.calories v) (Nutrition.protein v) (Nutrition.fiber v)
                        (Nutrition.sugar v) current_user) db)) ->
  useringredientnutrition db'
  = useringredientnutrition (upsert_override (User.id current_user) ingredient_id v db)
  /\ ingredient db' = ingredient db
  /\ bowlingredient db' = bowlingredient db.
Proof.
  intros Hg [->|(request & bowl_id & ->)].
  - rewrite update_nutrition_outcome. cbn [ingredients_api.UpdateNutritionRequest.ingredient_id].
    rewrite Hg. cbn [snd].
    destruct (upsert_override_tables (User.id current_user) ingredient_id v db)
      as (_ & Hing & _ & Hlines).
    destruct v. auto.
  - destruct (update_ingredient_htmx_outcome request ingredient_id bowl_id
                (Nutrition.calories v) (Nutrition.protein v) (Nutrition.fiber v)
                (Nutrition.sugar v) current_user db g Hg) as (Hov & Hing & Hlines & _).
    destruct v. auto.
Qed.

(** What the lookup of the pair finds after either route. *)
Lemma override_read_back (current_user : User.t) (ingredient_id : Z)
  (v : Nutrition.t) (db db' : DB) (g : Ingredient.t) :
  db_get ingredient_id db = Some g ->
  overrides_ok db ->
  (db' = snd (run_request
                (ingredients_api.update_nutrition
                   {| ingredients_api.UpdateNutritionRequest.ingredient_id := ingredient_id;
                      ingredients_api.UpdateNutritionRequest.calories := Nutrition.calories v;
                      ingredients_api.UpdateNutritionRequest.protein := Nutrition.protein v;
                      ingredients_api.UpdateNutritionRequest.fiber := Nutrition.fiber v;
                      ingredients_api.UpdateNutritionRequest.sugar := Nutrition.sugar v |}
                   current_user) db)
   \/ exists request bowl_id,
        db' = snd (run_request
                     (bowls_ui.update_ingredient_htmx request ingredient_id bowl_id
                        (Nutrition.calories v) (Nutrition.protein v) (Nutrition.fiber v)
                        (Nutrition.sugar v) current_user) db)) ->
  bowls_ui.get_ingredient_nutrition ingredient_id (User.id current_user) db'
  = written_over (Spec.override (User.id current_user) ingredient_id db) v.
Proof.
  intros Hg Hok Hroute.
  destruct (override_routes_store current_user ingredient_id v db db' g Hg Hroute)
    as (Hov & _).
  destruct (upsert_override_ok (User.id current_user) ingredient_id v db Hok)
    as (_ & (o & Hone & Ho) & _).
  unfold bowls_ui.get_ingredient_nutrition, Spec.override, select_first at 1.
  change (fun n : UserIngredientNutrition.t =>
            (UserIngredientNutrition.user_id n =? User.id current_user)
            && (UserIngredientNutrition.ingredient_id n =? ingredient_id))
    with (for_override (User.id current_user) ingredient_id).
  rewrite (select_all_override_ext _ _ _ Hov), Hone, Ho. cbn [head].
  destruct (select_first (for_override (User.id current_user) ingredient_id) db);
    [reflexivity | destruct v; reflexivity].
Qed.

(** The values found are the numbers written. *)
Lemma written_over_same_number (old : option UserIngredientNutrition.t)
  (v : Nutrition.t) :
  same_number (Nutrition.calories (written_over old v)) (Nutrition.calories v)
  /\ same_number (Nutrition.protein (written_over old v)) (Nutrition.protein v)
  /\ same_number (Nutrition.fiber (written_over old v)) (Nutrition.fiber v)
  /\ same_number (Nutrition.sugar (written_over old v)) (Nutrition.sugar v).
Proof.
  destruct old as [e|];
    cbn [written_over Nutrition.calories Nutrition.protein Nutrition.fiber
         Nutrition.sugar];
    repeat split; try apply assign_float_same_number; left; reflexivity.
Qed.

(** An override written through either route stays the only override of
    the pair, and the next lookup of that user and ingredient returns the
    values written over the ones the pair had: the numbers given, where at
    most the sign of a zero is the stored one; the lookups of every other
    user or ingredient return what they returned before. *)
Theorem override_written_is_read_back (current_user : User.t) (ingredient_id : Z)
  (v : Nutrition.t) (db db' : DB) (g : Ingredient.t) :
  db_get ingredient_id db = Some g ->
  overrides_ok db ->
  (db' = snd (run_request
                (ingredients_api.update_nutrition
                   {| ingredients_api.UpdateNutritionRequest.ingredient_id := ingredient_id;
                      ingredients_api.UpdateNutritionRequest.calories := Nutrition.calories v;
                      ingredients_api.UpdateNutritionRequest.protein := Nutrition.protein v;
                      ingredients_api.UpdateNutritionRequest.fiber := Nutrition.fiber v;
                      ingredients_api.UpdateNutritionRequest.sugar := Nutrition.sugar v |}
                   current_user) db)
   \/ exists request bowl_id,
        db' = snd (run_request
                     (bowls_ui.update_ingredient_htmx request ingredient_id bowl_id
                        (Nutrition.calories v) (Nutrition.protein v) (Nutrition.fiber v)
                        (Nutrition.sugar v) current_user) db)) ->
  let read := bowls_ui.get_ingredient_nutrition ingredient_id (User.id current_user) db' in
  overrides_ok db'
  /\ read = written_over (Spec.override (User.id current_user) ingredient_id db) v
  /\ (same_number (Nutrition.calories read) (Nutrition.calories v)
      /\ same_number (Nutrition.protein read) (Nutrition.protein v)
      /\ same_number (Nutrition.fiber read) (Nutrition.fiber v)
      /\ same_number (Nutrition.sugar read) (Nutrition.sugar v))
  /\ (forall user_id' ingredient_id',
        (user_id', ingredient_id') <> (User.id current_user, ingredient_id) ->
        bowls_ui.get_ingredient_nutrition ingredient_id' user_id' db'
        = bowls_ui.get_ingredient_nutrition ingredient_id' user_id' db).
Proof.
  intros Hg Hok Hroute.
  destruct (override_routes_store current_user ingredient_id v db db' g Hg Hroute)
    as (Hov & Hing & _).
  destruct (upsert_override_ok (User.id current_user) ingredient_id v db Hok)
    as (Hok' & _ & Hothers).
  cbv zeta.
  rewrite (override_read_back current_user ingredient_id v db db' g Hg Hok Hroute).
  split; [exact (overrides_ok_ext _ _ Hov Hok')|]. split; [reflexivity|]. split.
  - apply written_over_same_number.
  - intros user_id' ingredient_id' Hne.
    apply get_ingredient_nutrition_ext; [exact Hing|].
    rewrite (select_all_override_ext _ _ _ Hov). apply Hothers, Hne.
Qed.

(** Alice overrides blueberries (ingredient 5) through the JSON route. *)
Lemma override_written_is_read_back_witness :
  bowls_ui.get_ingredient_nutrition 5 1
    (snd (run_request
            (ingredients_api.update_nutrition
               {| ingredients_api.UpdateNutritionRequest.ingredient_id := 5;
                  ingredients_api.UpdateNutritionRequest.calories := 90;
                  ingredients_api.UpdateNutritionRequest.protein := 1;
                  ingredients_api.UpdateNutritionRequest.fiber := 4;
                  ingredients_api.UpdateNutritionRequest.sugar := 14 |}
               sample.alice) sample.db1))
  = {| Nutrition.calories := 90; Nutrition.protein := 1; Nutrition.fiber := 4;
       Nutrition.sugar := 14 |}.
Proof.
  assert (Hok : overrides_ok sample.db1).
  { split; [split|]; simpl.
    - repeat constructor; simpl; intuition lia.
    - repeat constructor; simpl; lia.
    - repeat constructor; simpl; intuition discriminate. }
  destruct (override_written_is_read_back sample.alice 5
              {| Nutrition.calories := 90; Nutrition.protein := 1; Nutrition.fiber := 4;
                 Nutrition.sugar := 14 |} sample.db1 _ _ eq_refl Hok (or_introl eq_refl))
    as (_ & Hread & _).
  exact Hread.
Defined.

(** The sign of a zero: Carol's blueberries have no sugar of their own
    ([0.0]); she then sends [-0.0], which the validation lets through and
    which equals the loaded value, so the column is not written and the
    lookup still answers [0.0]. *)
Example override_zero_keeps_its_sign :
  let minus_zero := PrimFloat.opp 0 in
  let request :=
    {| ingredients_api.UpdateNutritionRequest.ingredient_id := 5;
       ingredients_api.UpdateNutritionRequest.calories := 90;
       ingredients_api.UpdateNutritionRequest.protein := 1;
       ingredients_api.UpdateNutritionRequest.fiber := 4;
       ingredients_api.UpdateNutritionRequest.sugar := minus_zero |} in
  let db := db_update
              {| UserIngredientNutrition.id := 1;
                 UserIngredientNutrition.user_id := 2;
                 UserIngredientNutrition.ingredient_id := 5;
                 UserIngredientNutrition.calories := 90;
                 UserIngredientNutrition.protein := 1;
                 UserIngredientNutrition.fiber := 4;
                 UserIngredientNutrition.sugar := 0 |} sample.db3 in
  let db' := snd (run_request (ingredients_api.update_nutrition request sample.carol) db) in
  ingredients_api.UpdateNutritionRequest.valid request = true
  /\ Nutrition.sugar (bowls_ui.get_ingredient_nutrition 5 2 db') = 0%float
  /\ minus_zero <> 0%float.
Proof.
  cbv zeta. split; [reflexivity|]. split; [reflexivity|].
  intros Heq. apply (f_equal (fun x => PrimFloat.ltb (1 / x) 0)) in Heq.
  vm_compute in Heq. discriminate Heq.
Qed.
(** ** The aggregate reads three tables *)

Lemma db_get_ingredient_ext (ingredient_id : Z) (db db' : DB) :
  ingredient db' = ingredient db ->
  db_get (A := Ingredient.t) ingredient_id db' = db_get ingredient_id db.
Proof. intros H. unfold db_get, select_first, select_all, rows. simpl. rewrite H. reflexivity. Qed.

Lemma loop_body_ext (user_id : Z) (db db' : DB) :
  ingredient db' = ingredient db ->
  (forall ingredient_id,
      select_all (for_override user_id ingredient_id) db'
      = select_all (for_override user_id ingredient_id) db) ->
  forall st bi, bowls_ui.loop_body user_id db' st bi = bowls_ui.loop_body user_id db st bi.
Proof.
  intros Hing Hov st bi. unfold bowls_ui.loop_body.
  rewrite (db_get_ingredient_ext _ _ _ Hing).
  rewrite (get_ingredient_nutrition_ext _ _ _ _ Hing (Hov _)). reflexivity.
Qed.

Lemma fold_left_pointwise {A B : Type} (f g : A -> B -> A) (l : list B) :
  (forall a b, f a b = g a b) -> forall a, fold_left f l a = fold_left g l a.
Proof.
  intros Hfg. induction l as [|b l IH]; intros a; simpl; [reflexivity|].
  rewrite Hfg. apply IH.
Qed.

Lemma lines_ext (bowl_id : Z) (db db' : DB) :
  bowlingredient db' = bowlingredient db ->
  Spec.lines bowl_id db' = Spec.lines bowl_id db.
Proof. intros H. unfold Spec.lines, select_all, rows. simpl. rewrite H. reflexivity. Qed.

(** The aggregate of a bowl for a user is a function of the catalog, the
    bowl's lines and the user's overrides. *)
Lemma calculate_nutrition_ext (bowl_id user_id : Z) (db db' : DB) :
  ingredient db' = ingredient db ->
  Spec.lines bowl_id db' = Spec.lines bowl_id db ->
  (forall ingredient_id,
      select_all (for_override user_id ingredient_id) db'
      = select_all (for_override user_id ingredient_id) db) ->
  bowls_ui.calculate_nutrition bowl_id user_id db'
  = bowls_ui.calculate_nutrition bowl_id user_id db.
Proof.
  intros Hing Hlines Hov. unfold bowls_ui.calculate_nutrition.
  unfold Spec.lines in Hlines. rewrite Hlines.
  rewrite (fold_left_pointwise _ _ _ (loop_body_ext user_id db db' Hing Hov)).
  reflexivity.
Qed.

(** An override written by one user, through either route, changes the
    aggregate of no bowl as any other user sees it: list, totals and tags
    stay what they were. *)
Theorem override_leaves_other_aggregates (current_user : User.t) (ingredient_id : Z)
  (v : Nutrition.t) (db db' : DB) (g : Ingredient.t) :
  db_get ingredient_id db = Some g ->
  overrides_ok db ->
  (db' = snd (run_request
                (ingredients_api.update_nutrition
                   {| ingredients_api.UpdateNutritionRequest.ingredient_id := ingredient_id;
                      ingredients_api.UpdateNutritionRequest.calories := Nutrition.calories v;
                      ingredients_api.UpdateNutritionRequest.protein := Nutrition.protein v;
                      ingredients_api.UpdateNutritionRequest.fiber := Nutrition.fiber v;
                      ingredients_api.UpdateNutritionRequest.sugar := Nutrition.sugar v |}
                   current_user) db)
   \/ exists request bowl_id,
        db' = snd (run_request
                     (bowls_ui.update_ingredient_htmx request ingredient_id bowl_id
                        (Nutrition.calories v) (Nutrition.protein v) (Nutrition.fiber v)
                        (Nutrition.sugar v) current_user) db)) ->
  forall bowl_id user_id,
    user_id <> User.id current_user ->
    bowls_ui.calculate_nutrition bowl_id user_id db'
    = bowls_ui.calculate_nutrition bowl_id user_id db.
Proof.
  intros Hg Hok Hroute bowl_id user_id Hne.
  destruct (override_routes_store current_user ingredient_id v db db' g Hg Hroute)
    as (Hov & Hing & Hlines).
  destruct (upsert_override_ok (User.id current_user) ingredient_id v db Hok)
    as (_ & _ & Hothers).
  apply calculate_nutrition_ext; [exact Hing | apply lines_ext, Hlines |].
  intros i. rewrite (select_all_override_ext _ _ _ Hov).
  apply Hothers. intros Heq. apply Hne. congruence.
Qed.

(** Carol overrides bananas through the HTML route; the bowl Alice owns
    reads as before. *)
Lemma override_leaves_other_aggregates_witness :
  bowls_ui.calculate_nutrition 1 1
    (snd (run_request
            (bowls_ui.update_ingredient_htmx (sample.request_of "carol") 4 None 1 1 1 1
               sample.carol) sample.db1))
  = bowls_ui.calculate_nutrition 1 1 sample.db1.
Proof.
  assert (Hok : overrides_ok sample.db1).
  { split; [split|]; simpl.
    - repeat constructor; simpl; intuition lia.
    - repeat constructor; simpl; lia.
    - repeat constructor; simpl; intuition discriminate. }
  apply (override_leaves_other_aggregates sample.carol 4
            {| Nutrition.calories := 1; Nutrition.protein := 1; Nutrition.fiber := 1;
               Nutrition.sugar := 1 |} sample.db1 _ _ eq_refl Hok).
  - right. eexists _, _. reflexivity.
  - simpl. lia.
Defined.
(** ** Removing a line *)

Lemma without_line_absent (bowl_id ingredient_id : Z) (db : DB) :
  select_first (for_pair bowl_id ingredient_id) db = None ->
  without_line bowl_id ingredient_id db = db.
Proof.
  intros Hnone. apply select_first_None in Hnone. unfold without_line.
  assert (Hall : List.filter (fun bi => negb (for_pair bowl_id ingredient_id bi))
                   (rows (A := BowlIngredient.t) db) = rows db).
  { unfold select_all in Hnone.
    induction (rows (A := BowlIngredient.t) db) as [|x l IH]; simpl in *; [reflexivity|].
    destruct (for_pair bowl_id ingredient_id x); simpl; [discriminate|].
    f_equal. apply IH, Hnone. }
  rewrite Hall. destruct db as [u g b [l s] o]. reflexivity.
Qed.

(** With one line per pair, the DELETE of the line found is the removal of
    the pair. *)
Lemma without_line_present (bowl_id ingredient_id : Z) (db : DB)
  (e : BowlIngredient.t) :
  lines_ok db ->
  select_first (for_pair bowl_id ingredient_id) db = Some e ->
  db_delete e db = without_line bowl_id ingredient_id db.
Proof.
  intros [[Hkeys _] Hpairs] Hsome.
  apply select_first_Some in Hsome as [He Hin].
  unfold db_delete, without_line. f_equal. f_equal.
  apply List.filter_ext_in. intros x Hx. f_equal.
  destruct (Z.eqb_spec (pk x) (pk e)) as [Heq|Hne].
  - rewrite (NoDup_key_inj pk _ x e Hkeys Hx Hin Heq). symmetry. exact He.
  - destruct (for_pair bowl_id ingredient_id x) eqn:Hp; [|reflexivity].
    exfalso. apply Hne. f_equal.
    apply (NoDup_key_inj line_pair _ x e Hpairs Hx Hin).
    apply for_pair_spec in Hp, He. congruence.
Qed.

Lemma without_line_ok (bowl_id ingredient_id : Z) (db : DB) :
  lines_ok db ->
  lines_ok (without_line bowl_id ingredient_id db)
  /\ select_all (for_pair bowl_id ingredient_id) (without_line bowl_id ingredient_id db)
     = [].
Proof.
  intros [[Hkeys Hle] Hpairs]. unfold lines_ok, keys_ok, without_line, select_all.
  rewrite rows_set_table, table_set_table. cbn [stored_rows stored_seq].
  repeat split.
  - apply NoDup_map_filter, Hkeys.
  - apply List.Forall_forall. intros x Hx. apply filter_In in Hx as [Hx _].
    rewrite List.Forall_forall in Hle. apply Hle, Hx.
  - apply NoDup_map_filter, Hpairs.
  - apply filter_none. intros x Hx. apply filter_In in Hx as [_ Hx].
    apply negb_true_iff, Hx.
Qed.

(** Removal by the bowl's owner.  Both routes commit the same store: the one
    without the pair's line, every other line, in its place, and every other
    table as before; the line invariant holds in it.  When the bowl has no
    such line the store is left as it is, and there the routes part: the
    JSON route fails with 404 "Ingredient not found in bowl", the HTML route
    answers with the bowl section as if it had removed something. *)
Theorem remove_drops_the_line_only (request : Request) (bowl_id ingredient_id : Z)
  (current_user : User.t) (db : DB) (b : Bowl.t) :
  db_get bowl_id db = Some b ->
  Bowl.user_id b = User.id current_user ->
  lines_ok db ->
  let db' := without_line bowl_id ingredient_id db in
  run_request
    (bowls_api.remove_ingredient
       {| bowls_api.RemoveIngredientRequest.bowl_id := bowl_id;
          bowls_api.RemoveIngredientRequest.ingredient_id := ingredient_id |}
       current_user) db
  = (match select_first (for_pair bowl_id ingredient_id) db with
     | Some _ => inr {| bowls_api.RemoveIngredientResponse.bowl_id := bowl_id |}
     | None => inl (HTTPException status.HTTP_404_NOT_FOUND "Ingredient not found in bowl")
     end, db')
  /\ run_request
       (bowls_ui.remove_ingredient_from_bowl request bowl_id ingredient_id current_user) db
     = (inr (TemplateResponse "bowl_section.html"
               (bowls_ui.bowl_section_context request b
                  (bowls_ui.calculate_nutrition bowl_id (User.id current_user) db'))),
        db')
  /\ lines_ok db'
  /\ select_all (for_pair bowl_id ingredient_id) db' = []
  /\ (select_first (for_pair bowl_id ingredient_id) db = None -> db' = db).
Proof.
  intros Hget Howner Hok db'.
  destruct (without_line_ok bowl_id ingredient_id db Hok) as [Hok' Hnone].
  fold db' in Hok', Hnone.
  assert (Hcase : match select_first (for_pair bowl_id ingredient_id) db with
                  | Some e => db_delete e db = db'
                  | None => db = db'
                  end).
  { destruct (select_first (for_pair bowl_id ingredient_id) db) as [e|] eqn:Hfirst.
    - apply without_line_present; assumption.
    - symmetry. apply without_line_absent, Hfirst. }
  assert (Habsent : select_first (for_pair bowl_id ingredient_id) db = None -> db' = db).
  { intros Hfirst. apply without_line_absent, Hfirst. }
  clearbody db'.
  split; [|split; [|split; [exact Hok'|split; [exact Hnone|exact Habsent]]]].
  - run_route. rewrite Hget. simpl. rewrite Howner, Z.eqb_refl. simpl.
    change (fun bi : BowlIngredient.t =>
              (BowlIngredient.bowl_id bi =? bowl_id)
              && (BowlIngredient.ingredient_id bi =? ingredient_id))
      with (for_pair bowl_id ingredient_id).
    destruct (select_first (for_pair bowl_id ingredient_id) db) as [e|];
      simpl; rewrite <- Hcase; reflexivity.
  - run_route. rewrite Hget. simpl. rewrite Howner, Z.eqb_refl. simpl.
    change (fun bi : BowlIngredient.t =>
              (BowlIngredient.bowl_id bi =? bowl_id)
              && (BowlIngredient.ingredient_id bi =? ingredient_id))
      with (for_pair bowl_id ingredient_id).
    destruct (select_first (for_pair bowl_id ingredient_id) db) as [e|];
      simpl; rewrite <- Hcase; reflexivity.
Qed.

(** Alice takes the bananas out of her bowl 1. *)
Lemma remove_drops_the_line_only_witness :
  run_request
    (bowls_api.remove_ingredient
       {| bowls_api.RemoveIngredientRequest.bowl_id := 1;
          bowls_api.RemoveIngredientRequest.ingredient_id := 4 |}
       sample.alice) sample.db1
  = (inr {| bowls_api.RemoveIngredientResponse.bowl_id := 1 |},
     without_line 1 4 sample.db1).
Proof.
  assert (Hok : lines_ok sample.db1).
  { split; [split|]; simpl.
    - repeat constructor; simpl; intuition lia.
    - repeat constructor; simpl; lia.
    - repeat constructor; simpl; intuition discriminate. }
  destruct (remove_drops_the_line_only (sample.request_of "alice") 1 4 sample.alice
              sample.db1 _ eq_refl eq_refl Hok) as (Hapi & _).
  exact Hapi.
Defined.
(** ** Saving a bowl *)

(** A write to the bowls is not seen by the aggregation. *)
Lemma calculate_nutrition_bowl_write (bowl_id user_id : Z) (db db' : DB) :
  ingredient db' = ingredient db ->
  bowlingredient db' = bowlingredient db ->
  useringredientnutrition db' = useringredientnutrition db ->
  bowls_ui.calculate_nutrition bowl_id user_id db'
  = bowls_ui.calculate_nutrition bowl_id user_id db.
Proof.
  intros Hing Hlines Hov.
  apply calculate_nutrition_ext; [exact Hing | apply lines_ext, Hlines |].
  intros i. apply select_all_override_ext, Hov.
Qed.

Lemma save_bowl_outcome (bowl_id : Z) (current_user : User.t) (db : DB) (b : Bowl.t) :
  db_get bowl_id db = Some b ->
  Bowl.user_id b = User.id current_user ->
  run_request
    (bowls_api.save_bowl {| bowls_api.SaveBowlRequest.bowl_id := bowl_id |} current_user) db
  = (inr {| bowls_api.SaveBowlResponse.bowl_id := bowl_id;
            bowls_api.SaveBowlResponse.saved := true |},
     db_update (Bowl.with_saved true b) db).
Proof.
  intros Hget Howner.
  destruct (db_get_Some _ _ _ Hget) as [Hid _]. simpl in Hid. subst bowl_id.
  run_route. rewrite Hget. simpl. rewrite <- Howner, Z.eqb_refl. reflexivity.
Qed.

Lemma save_bowl_htmx_outcome (request : Request) (bowl_id : Z) (current_user : User.t)
  (db : DB) (b : Bowl.t) :
  db_get bowl_id db = Some b ->
  Bowl.user_id b = User.id current_user ->
  let saved := Bowl.with_saved true b in
  let db' := db_update saved db in
  run_request (bowls_ui.save_bowl_htmx request bowl_id current_user) db
  = (inr (HTMLResponse
            (Concat
               (Render "bowl_section.html"
                  (bowls_ui.bowl_section_context request saved
                     (bowls_ui.calculate_nutrition bowl_id (User.id current_user) db')))
               (Concat (Text (oob_div "saved-bowls"))
                  (Concat
                     (Render "saved_bowls.html"
                        {[ "request" := VRequest request;
                           "bowls" :=
                             VBowls (bowls_ui.get_saved_bowls (User.id current_user) db') ]})
                     (Text "</div>"))))), db').
Proof.
  intros Hget Howner. cbv zeta.
  destruct (db_get_Some _ _ _ Hget) as [Hid _]. simpl in Hid. subst bowl_id.
  pose proof (db_get_update (Bowl.with_saved true b) b db Hget) as Hupd.
  unfold bowls_ui.save_bowl_htmx, bowls_ui.verify_bowl_access.
  run_session. run_flushes. rewrite Hget, <- Howner, Z.eqb_refl. cbn [negb].
  run_flushes. rewrite Hupd. reflexivity.
Qed.

(** Where the saved bowl goes: a bowl that was saved already is not
    written and keeps its place; one that was not is written, and the
    user's saved bowls are then the ones there were, followed by it. *)
Lemma saved_bowls_after_save (bowl_id : Z) (db : DB) (b : Bowl.t) :
  db_get bowl_id db = Some b ->
  keys_ok (A := Bowl.t) db ->
  bowls_ui.get_saved_bowls (Bowl.user_id b) (db_update (Bowl.with_saved true b) db)
  = if Bowl.saved b then bowls_ui.get_saved_bowls (Bowl.user_id b) db
    else bowls_ui.get_saved_bowls (Bowl.user_id b) db ++ [Bowl.with_saved true b].
Proof.
  intros Hget [Hnd _].
  destruct (db_get_Some _ _ _ Hget) as [Hid Hin]. simpl in Hid. subst bowl_id.
  assert (Hget' : db_get (pk (Bowl.with_saved true b)) db = Some b) by exact Hget.
  destruct (Bowl.saved b) eqn:Hsaved.
  - rewrite (db_update_unchanged _ b db Hget'); [reflexivity|].
    unfold unchanged, Bowl_Table, Bowl.unchanged, Bowl.with_saved.
    cbn [Bowl.name Bowl.user_id Bowl.saved].
    rewrite String.eqb_refl, Z.eqb_refl, Hsaved. reflexivity.
  - unfold bowls_ui.get_saved_bowls. rewrite (select_all_update _ _ b db Hget').
    + f_equal.
      * apply filter_all. intros x Hx. apply filter_In in Hx as [Hx Hq].
        apply negb_true_iff, Z.eqb_neq. intros Heq.
        rewrite (NoDup_key_inj pk (rows db) x b Hnd Hx Hin Heq) in Hq.
        rewrite Hsaved, andb_false_r in Hq. discriminate Hq.
      * unfold updated, Bowl_Table, Bowl.updated, Bowl.with_saved.
        cbn [Bowl.name Bowl.user_id Bowl.saved Bowl.id].
        rewrite Z.eqb_refl. reflexivity.
    + unfold unchanged, Bowl_Table, Bowl.unchanged, Bowl.with_saved.
      cbn [Bowl.name Bowl.user_id Bowl.saved].
      rewrite Hsaved, andb_false_r. reflexivity.
Qed.



(** The saved bowls come in the order they were saved in, not the one
    they were created in: Alice creates two bowls and saves the second
    before the first. *)
Example saved_bowls_order :
  let created :=
    snd (run_request
           (bowls_api.create_bowl {| bowls_api.CreateBowlRequest.name := "Lunch" |}
              sample.alice)
           (snd (run_request
                   (bowls_api.create_bowl {| bowls_api.CreateBowlRequest.name := "Dinner" |}
                      sample.alice) sample.db0))) in
  let saved :=
    snd (run_request
           (bowls_ui.save_bowl_htmx (sample.request_of "alice") 1 sample.alice)
           (snd (run_request
                   (bowls_ui.save_bowl_htmx (sample.request_of "alice") 2 sample.alice)
                   created))) in
  map Bowl.id (rows (A := Bowl.t) created) = [1; 2]
  /\ map Bowl.id (bowls_ui.get_saved_bowls 1 saved) = [2; 1].
Proof. split; reflexivity. Qed.

(** ** Deleting a bowl, and resetting the working bowl *)

(** What is left when a bowl is taken out. *)
Lemma without_bowl_frame (bowl_id : Z) (db : DB) :
  let db' := without_bowl bowl_id db in
  db_get (A := Bowl.t) bowl_id db' = None
  /\ Spec.lines bowl_id db' = []
  /\ (forall j, j <> bowl_id ->
        db_get (A := Bowl.t) j db' = db_get j db
        /\ Spec.lines j db' = Spec.lines j db
        /\ forall user_id,
             bowls_ui.calculate_nutrition j user_id db'
             = bowls_ui.calculate_nutrition j user_id db)
  /\ (forall p : Bowl.t -> bool,
        select_all p db'
        = List.filter (fun x => negb (Bowl.id x =? bowl_id)) (select_all p db)).
Proof.
  cbv zeta.
  assert (Hlines : forall j, j <> bowl_id ->
             Spec.lines j (without_bowl bowl_id db) = Spec.lines j db).
  { intros j Hj. unfold Spec.lines, select_all, without_bowl, rows. simpl.
    rewrite filter_twice. apply List.filter_ext. intros x.
    destruct (Z.eqb_spec (BowlIngredient.bowl_id x) bowl_id) as [->|];
      destruct (Z.eqb_spec bowl_id j); simpl; try reflexivity; try congruence. }
  repeat apply conj.
  - unfold db_get, select_first, select_all, without_bowl, rows. simpl.
    rewrite filter_twice, filter_none; [reflexivity|].
    intros x _. destruct (Z.eqb_spec (Bowl.id x) bowl_id); reflexivity.
  - unfold Spec.lines, select_all, without_bowl, rows. simpl.
    rewrite filter_twice, filter_none; [reflexivity|].
    intros x _. destruct (BowlIngredient.bowl_id x =? bowl_id); reflexivity.
  - intros j Hj. repeat apply conj.
    + unfold db_get, select_first, select_all, without_bowl, rows. simpl.
      rewrite filter_twice. f_equal. apply List.filter_ext. intros x.
      destruct (Z.eqb_spec (Bowl.id x) bowl_id) as [->|];
        destruct (Z.eqb_spec bowl_id j); simpl; try reflexivity; try congruence.
    + apply Hlines, Hj.
    + intros user_id. apply calculate_nutrition_ext; [reflexivity | apply Hlines, Hj |].
      intros i. reflexivity.
  - intros p. unfold select_all, without_bowl, rows. simpl.
    rewrite !filter_twice. apply List.filter_ext. intros x. apply andb_comm.
Qed.
(** Deletion by the bowl's owner.  The HTML route commits the store
    without the bowl and its lines, users, catalog, overrides and the
    lines of other bowls as they were, and answers with the user's saved
    bowls without the deleted one.  The JSON route commits that store too
    when the bowl has no line; when it has one, the commit sends the bowl's
    DELETE first, the route fails on the foreign key of the lines and
    nothing is deleted.  In the store without the bowl every other bowl is
    found as before, with the same lines and the same aggregate for every
    user. *)
Theorem delete_takes_out_that_bowl_only (request : Request) (bowl_id : Z)
  (current_user : User.t) (db : DB) (b : Bowl.t) :
  db_get bowl_id db = Some b ->
  Bowl.user_id b = User.id current_user ->
  keys_ok (A := BowlIngredient.t) db ->
  let db' := without_bowl bowl_id db in
  run_request (bowls_ui.delete_bowl request bowl_id current_user) db
  = (inr (TemplateResponse "saved_bowls.html"
            {[ "request" := VRequest request;
               "bowls" :=
                 VBowls (List.filter (fun x => negb (Bowl.id x =? bowl_id))
                           (bowls_ui.get_saved_bowls (User.id current_user) db)) ]}),
     db')
  /\ run_request (bowls_api.delete_bowl bowl_id current_user) db
     = match Spec.lines bowl_id db with
       | [] => (inr tt, db')
       | _ :: _ => (inl (IntegrityError "bowlingredient_bowl_id_fkey"), db)
       end
  /\ (forall j, j <> bowl_id ->
        db_get (A := Bowl.t) j db' = db_get j db
        /\ Spec.lines j db' = Spec.lines j db
        /\ forall user_id,
             bowls_ui.calculate_nutrition j user_id db'
             = bowls_ui.calculate_nutrition j user_id db).
Proof.
  intros Hget Howner Hkeys db'.
  pose proof (ui_delete_bowl_outcome request bowl_id current_user db b Hget Howner) as Hui.
  cbv zeta in Hui.
  destruct (db_get_Some _ _ _ Hget) as [Hid _]. simpl in Hid.
  pose proof (delete_cascade db b Hkeys) as Hcascade. rewrite Hid in Hcascade.
  rewrite Hcascade in Hui. fold db' in Hui.
  destruct (without_bowl_frame bowl_id db) as (_ & _ & Hothers & Hsel).
  split; [|split; [|exact Hothers]].
  - rewrite Hui. unfold bowls_ui.get_saved_bowls. unfold db'. rewrite Hsel. reflexivity.
  - apply (api_delete_bowl_outcome bowl_id current_user db b Hget Howner).
Qed.

(** Alice deletes her bowl 1, which has two lines: the HTML route takes it
    out, the JSON route fails and leaves the store. *)
Lemma delete_takes_out_that_bowl_only_witness :
  snd (run_request (bowls_ui.delete_bowl (sample.request_of "alice") 1 sample.alice)
         sample.db1)
  = without_bowl 1 sample.db1
  /\ run_request (bowls_api.delete_bowl 1 sample.alice) sample.db1
     = (inl (IntegrityError "bowlingredient_bowl_id_fkey"), sample.db1).
Proof.
  assert (Hkeys : keys_ok (A := BowlIngredient.t) sample.db1).
  { split; simpl; repeat constructor; simpl; intuition lia. }
  destruct (delete_takes_out_that_bowl_only (sample.request_of "alice") 1 sample.alice
              sample.db1 _ eq_refl eq_refl Hkeys) as (Hui & Hapi & _).
  split; [rewrite Hui; reflexivity | exact Hapi].
Defined.

Lemma filter_head_out {A : Type} (key : A -> Z) (w : A) (m : list A) :
  List.NoDup (map key (w :: m)) ->
  List.filter (fun x => negb (key x =? key w)) (w :: m) = m.
Proof.
  intros Hnd. simpl. rewrite Z.eqb_refl. simpl.
  apply NoDup_cons_iff in Hnd as [Hw _].
  apply filter_all. intros x Hx. apply negb_true_iff, Z.eqb_neq.
  intros Heq. apply Hw. rewrite <- Heq. apply in_map, Hx.
Qed.

(** The reset marks the lines of the user's first unsaved bowl, then the
    bowl, and commits: the bowl's DELETE goes first. *)
Lemma reset_bowl_outcome (request : Request) (current_user : User.t) (db : DB) :
  run_request (bowls_ui.reset_bowl request current_user) db
  = match select_first (working (User.id current_user)) db with
    | None =>
        (inr (TemplateResponse "empty_bowl.html" {[ "request" := VRequest request ]}), db)
    | Some w =>
        match Spec.lines (Bowl.id w) db with
        | [] =>
            (inr (TemplateResponse "empty_bowl.html" {[ "request" := VRequest request ]}),
             without_bowl (Bowl.id w) db)
        | _ :: _ => (inl (IntegrityError "bowlingredient_bowl_id_fkey"), db)
        end
    end.
Proof.
  unfold bowls_ui.reset_bowl, run_request. run_session. rewrite autoflush_nothing.
  cbn [pending].
  change (fun b : Bowl.t =>
            (Bowl.user_id b =? User.id current_user) && Bool.eqb (Bowl.saved b) false)
    with (working (User.id current_user)).
  destruct (select_first (working (User.id current_user)) db) as [w|]; [|reflexivity].
  rewrite autoflush_nothing. cbn [pending].
  rewrite (for_each_marks a_BowlIngredient); [|reflexivity].
  cbn [committed pending deleted app].
  change (object w) with (a_Bowl w).
  rewrite autoflush_marked, unit_of_work_lines_bowl.
  cbn [emit_deletes]. rewrite emit_delete_bowl.
  change (select_all (fun bi : BowlIngredient.t => BowlIngredient.bowl_id bi =? Bowl.id w) db)
    with (Spec.lines (Bowl.id w) db).
  destruct (Spec.lines (Bowl.id w) db) as [|x l] eqn:Hlines; [|reflexivity].
  cbn [map emit_deletes pending committed].
  rewrite delete_bowl_without_lines; [reflexivity | exact Hlines].
Qed.

(** Resetting.  Without an unsaved bowl of the user the route answers
    with the empty bowl and writes nothing.  Otherwise it is about the
    first one: when that bowl has no line the route answers with the empty
    bowl and takes that bowl out of the store, and nothing else: the
    user's further unsaved bowls, every saved bowl and every other user's
    bowls stay.  When it has a line the commit sends the bowl's DELETE
    first, the route fails on the foreign key of the lines and nothing is
    deleted. *)
Theorem reset_takes_out_first_working_bowl (request : Request) (current_user : User.t)
  (db : DB) :
  keys_ok (A := Bowl.t) db ->
  let answer :=
    TemplateResponse "empty_bowl.html" {[ "request" := VRequest request ]} in
  match select_first (working (User.id current_user)) db with
  | None => run_request (bowls_ui.reset_bowl request current_user) db = (inr answer, db)
  | Some w =>
      match Spec.lines (Bowl.id w) db with
      | [] =>
          let db' := without_bowl (Bowl.id w) db in
          run_request (bowls_ui.reset_bowl request current_user) db = (inr answer, db')
          /\ select_all (working (User.id current_user)) db'
             = tail (select_all (working (User.id current_user)) db)
          /\ (forall user_id,
                bowls_ui.get_saved_bowls user_id db' = bowls_ui.get_saved_bowls user_id db)
          /\ (forall user_id, user_id <> User.id current_user ->
                select_all (working user_id) db' = select_all (working user_id) db)
      | _ :: _ =>
          run_request (bowls_ui.reset_bowl request current_user) db
          = (inl (IntegrityError "bowlingredient_bowl_id_fkey"), db)
      end
  end.
Proof.
  intros Hbowls answer. rewrite reset_bowl_outcome.
  destruct (select_first (working (User.id current_user)) db) as [w|] eqn:Hfirst;
    [|reflexivity].
  destruct (Spec.lines (Bowl.id w) db) as [|x l]; [|reflexivity].
  destruct (without_bowl_frame (Bowl.id w) db) as (_ & _ & _ & Hfilter).
  pose proof (select_first_Some _ _ _ Hfirst) as [Hw Hin].
  apply working_spec in Hw as [Hu Hs].
  cbv zeta. repeat apply conj.
  - reflexivity.
  - unfold select_first in Hfirst.
    destruct (select_all (working (User.id current_user)) db) as [|w' m] eqn:Hsel;
      [discriminate Hfirst|].
    injection Hfirst as ->.
    rewrite Hfilter, Hsel. apply (filter_head_out Bowl.id).
    pose proof (NoDup_map_filter Bowl.id (working (User.id current_user)) _
                  (proj1 Hbowls)) as Hnd.
    unfold select_all in Hsel. rewrite Hsel in Hnd. exact Hnd.
  - intros user_id. unfold bowls_ui.get_saved_bowls. rewrite Hfilter. apply filter_all.
    intros y Hy. apply filter_In in Hy as [Hy Hp].
    apply negb_true_iff, Z.eqb_neq. intros Heq.
    rewrite (NoDup_key_inj (pk (A := Bowl.t)) _ y w (proj1 Hbowls) Hy Hin Heq) in Hp.
    rewrite Hs in Hp. rewrite andb_false_r in Hp. discriminate Hp.
  - intros user_id Hne. rewrite Hfilter. apply filter_all.
    intros y Hy. apply filter_In in Hy as [Hy Hp].
    apply working_spec in Hp as [Huy _].
    apply negb_true_iff, Z.eqb_neq. intros Heq.
    rewrite (NoDup_key_inj (pk (A := Bowl.t)) _ y w (proj1 Hbowls) Hy Hin Heq) in Huy.
    congruence.
Qed.

(** Alice resets while her bowl 1 has two lines: the route fails and the
    bowl is still there. *)
Lemma reset_takes_out_first_working_bowl_witness :
  run_request (bowls_ui.reset_bowl (sample.request_of "alice") sample.alice) sample.db1
  = (inl (IntegrityError "bowlingredient_bowl_id_fkey"), sample.db1).
Proof.
  assert (Hbowls : keys_ok (A := Bowl.t) sample.db1).
  { split; simpl; repeat constructor; simpl; intuition lia. }
  exact (reset_takes_out_first_working_bowl (sample.request_of "alice") sample.alice
           sample.db1 Hbowls).
Defined.

(** With no line in her bowl the reset answers, and the bowl is gone. *)
Example reset_of_a_bowl_without_lines :
  run_request (bowls_ui.reset_bowl (sample.request_of "alice") sample.alice) sample.db2
  = (inr (TemplateResponse "empty_bowl.html"
            {[ "request" := VRequest (sample.request_of "alice") ]}),
     without_bowl 1 sample.db2)
  /\ db_get (A := Bowl.t) 1 (without_bowl 1 sample.db2) = None.
Proof. split; reflexivity. Qed.

(** ** Creating bowls *)

(** What [get_or_create_unsaved_bowl] returns and commits. *)
Lemma get_or_create_unsaved_bowl_outcome (user_id : Z) (db : DB) :
  keys_ok (A := Bowl.t) db ->
  let new :=
    {| Bowl.id := 0; Bowl.name := "My Bowl"; Bowl.user_id := user_id;
       Bowl.saved := false |} in
  run_request (bowls_ui.get_or_create_unsaved_bowl user_id) db
  = match select_first (working user_id) db with
    | Some w => (inr w, db)
    | None => (inr (fst (db_insert new db)), snd (db_insert new db))
    end.
Proof.
  intros Hkeys new.
  unfold bowls_ui.get_or_create_unsaved_bowl. run_m. simpl.
  change (fun b : Bowl.t => (Bowl.user_id b =? user_id) && Bool.eqb (Bowl.saved b) false)
    with (working user_id).
  destruct (select_first (working user_id) db) as [w|]; [reflexivity|].
  pose proof (db_get_insert new db Hkeys) as Hget.
  simpl in Hget. simpl. rewrite Hget. reflexivity.
Qed.


(** ** An ingredient the catalog does not have *)

(** Every route that takes an ingredient id answers an id the catalog does
    not have with 404 "Ingredient not found" (the JSON add after its bowl
    check passed), and writes no line and no override.  The HTML add,
    called without a bowl id, has by then created and committed the user's
    working bowl if there was none: that bowl stays. *)
Theorem unknown_ingredient_is_not_found (ingredient_id : Z) (current_user : User.t)
  (db : DB) :
  db_get (A := Ingredient.t) ingredient_id db = None ->
  keys_ok (A := Bowl.t) db ->
  let not_found := HTTPException status.HTTP_404_NOT_FOUND "Ingredient not found" in
  (forall calories protein fiber sugar,
      run_request
        (ingredients_api.update_nutrition
           {| ingredients_api.UpdateNutritionRequest.ingredient_id := ingredient_id;
              ingredients_api.UpdateNutritionRequest.calories := calories;
              ingredients_api.UpdateNutritionRequest.protein := protein;
              ingredients_api.UpdateNutritionRequest.fiber := fiber;
              ingredients_api.UpdateNutritionRequest.sugar := sugar |} current_user) db
      = (inl not_found, db))
  /\ (forall request bowl_id calories protein fiber sugar,
        run_request
          (bowls_ui.update_ingredient_htmx request ingredient_id bowl_id
             calories protein fiber sugar current_user) db
        = (inl not_found, db))
  /\ (forall bowl_id quantity b,
        db_get bowl_id db = Some b ->
        Bowl.user_id b = User.id current_user ->
        run_request
          (bowls_api.add_ingredient
             {| bowls_api.AddIngredientRequest.bowl_id := bowl_id;
                bowls_api.AddIngredientRequest.ingredient_id := ingredient_id;
                bowls_api.AddIngredientRequest.quantity := quantity |} current_user) db
        = (inl not_found, db))
  /\ (forall request bowl_id quantity b,
        db_get bowl_id db = Some b ->
        Bowl.user_id b = User.id current_user ->
        bowl_id <> 0 ->
        run_request
          (bowls_ui.add_ingredient_to_bowl request (Some bowl_id) ingredient_id quantity
             current_user) db
        = (inl not_found, db))
  /\ (forall request quantity,
        run_request
          (bowls_ui.add_ingredient_to_bowl request None ingredient_id quantity
             current_user) db
        = (inl not_found,
           snd (run_request
                  (bowls_ui.get_or_create_unsaved_bowl (User.id current_user)) db)))
  /\ (select_first (working (User.id current_user)) db = None ->
      exists new : Bowl.t,
        rows (snd (run_request
                     (bowls_ui.get_or_create_unsaved_bowl (User.id current_user)) db))
        = rows db ++ [new]).
Proof.
  intros Hnone Hkeys not_found.
  split; [|split; [|split; [|split; [|split]]]].
  - intros. rewrite update_nutrition_outcome. simpl. rewrite Hnone. reflexivity.
  - intros. run_route. rewrite Hnone. reflexivity.
  - intros bowl_id quantity b Hget Howner.
    unfold bowls_api.add_ingredient, bowls_api.verify_ingredient_exists. run_route.
    rewrite Hget. simpl. rewrite Howner, Z.eqb_refl. simpl.
    rewrite Hnone. reflexivity.
  - intros request bowl_id quantity b Hget Howner Hnz.
    run_route. unfold truthy. simpl.
    destruct (Z.eqb_spec bowl_id 0) as [|_]; [contradiction|]. simpl.
    rewrite Hget. simpl. rewrite Howner, Z.eqb_refl. simpl.
    rewrite Hnone. reflexivity.
  - intros request quantity.
    rewrite (get_or_create_unsaved_bowl_outcome _ _ Hkeys).
    pose proof (db_get_insert
                  {| Bowl.id := 0; Bowl.name := "My Bowl";
                     Bowl.user_id := User.id current_user; Bowl.saved := false |}
                  db Hkeys) as Hnew.
    run_route. unfold bowls_ui.get_or_create_unsaved_bowl. run_m. simpl.
    change (fun b : Bowl.t =>
              (Bowl.user_id b =? User.id current_user) && Bool.eqb (Bowl.saved b) false)
      with (working (User.id current_user)).
    destruct (select_first (working (User.id current_user)) db) as [w|]; simpl.
    + rewrite Hnone. reflexivity.
    + simpl in Hnew. rewrite Hnew. simpl.
      match goal with
      | |- context [db_get (A := Ingredient.t) ingredient_id ?d] =>
          rewrite (db_get_ingredient_ext ingredient_id db d eq_refl)
      end.
      rewrite Hnone. reflexivity.
  - intros Hfirst. rewrite (get_or_create_unsaved_bowl_outcome _ _ Hkeys), Hfirst.
    eexists. apply rows_insert.
Qed.

(** Alice, on the seeded store without any bowl, adds an ingredient the
    catalog does not have: 404, and bowl 1 now exists. *)
Lemma unknown_ingredient_is_not_found_witness :
  run_request
    (bowls_ui.add_ingredient_to_bowl (sample.request_of "alice") None 77 1 sample.alice)
    sample.db0
  = (inl (HTTPException status.HTTP_404_NOT_FOUND "Ingredient not found"),
     snd (run_request (bowls_ui.get_or_create_unsaved_bowl 1) sample.db0)).
Proof.
  assert (Hkeys : keys_ok (A := Bowl.t) sample.db0).
  { split; simpl; constructor. }
  destruct (unknown_ingredient_is_not_found 77 sample.alice sample.db0 eq_refl Hkeys)
    as (_ & _ & _ & _ & Hadd & _).
  apply Hadd.
Defined.
(** ** Registering, logging in, and being recognised *)

(** [prepare_home_context] only reads. *)
Lemma prepare_home_context_reads (request : Request) (user : User.t) (db : DB) :
  exists context,
    run_request (bowls_ui.prepare_home_context request user) db = (inr context, db)
    /\ context !! "user" = Some (VUser user).
Proof.
  unfold bowls_ui.prepare_home_context. run_m. simpl.
  destruct (select_first _ db); simpl; eexists; (split; [reflexivity|]);
    reflexivity.
Qed.

(** What [login] answers for a stored user. *)
Lemma login_outcome (sha256_hexdigest : string -> string) (request : Request)
  (u : User.t) (password : string) (db : DB) :
  List.NoDup (map User.username (rows db)) ->
  In u (rows db) ->
  exists context,
    run_request (bowls_ui.prepare_home_context request u) db = (inr context, db)
    /\ run_request (bowls_ui.login sha256_hexdigest request (User.username u) password) db
       = (inr (if String.eqb (sha256_hexdigest password) (User.password_hash u)
               then set_cookie (TemplateResponse "home_content.html" context)
                      "username" (User.username u)
               else TemplateResponse "login.html"
                      {[ "request" := VRequest request;
                         "error" := VStr "Invalid username or password" ]}), db).
Proof.
  intros Hnd Hin.
  destruct (prepare_home_context_reads request u db) as (context & Hctx & _).
  exists context. split; [exact Hctx|].
  pose proof (select_first_username db u Hnd Hin) as Hfind.
  unfold bowls_ui.login, try_except, auth.verify_password, auth.hash_password.
  unfold run_request in *.
  unfold mbind at 1, M_bind at 1. unfold session.exec_first at 1, query at 1.
  unfold mbind at 1, M_bind at 1. rewrite autoflush_nothing.
  cbn [pending]. rewrite Hfind.
  destruct (String.eqb (sha256_hexdigest password) (User.password_hash u));
    cbn [negb]; [|reflexivity].
  unfold mbind at 1, M_bind at 1.
  destruct (bowls_ui.prepare_home_context request u
              {| committed := db; pending := db; deleted := [] |})
    as [[e|c] s] eqn:Hrun; cbn [fst snd] in Hctx; [discriminate Hctx|].
  injection Hctx as -> Hs. unfold mret, M_ret. cbn [committed]. rewrite Hs. reflexivity.
Qed.

Lemma get_current_user_found (request : Request) (name : string) (u : User.t) (db : DB) :
  name <> "" ->
  cookies request !! "username" = Some name ->
  select_first (fun v => String.eqb (User.username v) name) db = Some u ->
  run_request (auth.get_current_user request) db = (inr u, db).
Proof.
  intros Hne Hcookie Hfind. unfold auth.get_current_user. rewrite Hcookie.
  destruct name as [|c rest] eqn:Hname; [congruence|].
  rewrite <- Hname in *. run_m. simpl. rewrite Hfind. reflexivity.
Qed.

(** A user registered through the JSON route can log in with the same
    password, gets the "username" cookie, and is the user that cookie
    resolves to afterwards; a password with another digest is turned away
    with the login form. *)
Theorem registered_user_can_log_in (sha256_hexdigest : string -> string)
  (r : auth_api.RegisterRequest.t) (request : Request) (db : DB) :
  users_ok db ->
  keys_ok (A := User.t) db ->
  auth_api.RegisterRequest.valid r = true ->
  select_first
    (fun u => String.eqb (User.username u) (auth_api.RegisterRequest.username r)) db
  = None ->
  let username := auth_api.RegisterRequest.username r in
  exists (u : User.t) (db' : DB) (context : gmap string Value),
    run_request (auth_api.register sha256_hexdigest r) db
    = (inr ({| auth_api.RegisterResponse.user_id := User.id u;
               auth_api.RegisterResponse.username := username;
               auth_api.RegisterResponse.name := username |},
            ("username", username)), db')
    /\ rows db' = rows db ++ [u]
    /\ User.username u = username
    /\ run_request (bowls_ui.prepare_home_context request u) db' = (inr context, db')
    /\ run_request
         (bowls_ui.login sha256_hexdigest request username
            (auth_api.RegisterRequest.password r)) db'
       = (inr (set_cookie (TemplateResponse "home_content.html" context)
                 "username" username), db')
    /\ (forall request' : Request,
          cookies request' !! "username" = Some username ->
          run_request (auth.get_current_user request') db' = (inr u, db'))
    /\ (forall password : string,
          sha256_hexdigest password
          <> sha256_hexdigest (auth_api.RegisterRequest.password r) ->
          run_request (bowls_ui.login sha256_hexdigest request username password) db'
          = (inr (TemplateResponse "login.html"
                    {[ "request" := VRequest request;
                       "error" := VStr "Invalid username or password" ]}), db')).
Proof.
  intros Hok Hkeys Hvalid Hfree. cbv zeta.
  set (username := auth_api.RegisterRequest.username r) in *.
  set (new := {| User.id := 0; User.username := username;
                 User.password_hash :=
                   auth.hash_password sha256_hexdigest (auth_api.RegisterRequest.password r);
                 User.name := username |}).
  assert (Hne : username <> "").
  { unfold auth_api.RegisterRequest.valid in Hvalid. fold username in Hvalid.
    clearbody username. destruct username; [discriminate Hvalid | discriminate]. }
  pose proof (users_ok_insert new db Hok Hne Hfree) as [_ Hnd'].
  pose proof (db_get_insert new db Hkeys) as Hget.
  pose proof (rows_insert new db) as Hrows.
  assert (Hreg : run_request (auth_api.register sha256_hexdigest r) db
                 = (inr ({| auth_api.RegisterResponse.user_id :=
                              User.id (fst (db_insert new db));
                            auth_api.RegisterResponse.username := username;
                            auth_api.RegisterResponse.name := username |},
                         ("username", username)), snd (db_insert new db))).
  { unfold auth_api.register. run_m. simpl. fold username. rewrite Hfree. simpl.
    simpl in Hget. rewrite Hget. reflexivity. }
  set (u := fst (db_insert new db)) in *.
  set (db' := snd (db_insert new db)) in *.
  assert (Hin : In u (rows db')).
  { rewrite Hrows. apply in_or_app. right. left. reflexivity. }
  destruct (login_outcome sha256_hexdigest request u (auth_api.RegisterRequest.password r)
              db' Hnd' Hin) as (context & Hctx & Hlogin).
  exists u, db', context.
  split; [|split; [exact Hrows|split; [reflexivity|split; [exact Hctx|split; [|split]]]]].
  - exact Hreg.
  - change (User.username u) with username in Hlogin.
    change (User.password_hash u)
      with (sha256_hexdigest (auth_api.RegisterRequest.password r)) in Hlogin.
    rewrite String.eqb_refl in Hlogin. exact Hlogin.
  - intros request' Hcookie.
    apply (get_current_user_found request' username u db' Hne Hcookie).
    exact (select_first_username db' u Hnd' Hin).
  - intros password Hp.
    destruct (login_outcome sha256_hexdigest request u password db' Hnd' Hin)
      as (context' & _ & Hlogin').
    change (User.username u) with username in Hlogin'.
    change (User.password_hash u)
      with (sha256_hexdigest (auth_api.RegisterRequest.password r)) in Hlogin'.
    destruct (String.eqb_spec (sha256_hexdigest password)
                (sha256_hexdigest (auth_api.RegisterRequest.password r)));
      [contradiction | exact Hlogin'].
Qed.

(** Dave registers on the seeded store, and his cookie is then his. *)
Lemma registered_user_can_log_in_witness :
  exists (u : User.t) (db' : DB),
    User.username u = "dave"
    /\ run_request (auth.get_current_user (sample.request_of "dave")) db' = (inr u, db').
Proof.
  assert (Hok : users_ok sample.db0).
  { split.
    - repeat constructor; discriminate.
    - repeat constructor; simpl; intuition discriminate. }
  assert (Hkeys : keys_ok (A := User.t) sample.db0).
  { split; simpl; repeat constructor; simpl; intuition lia. }
  destruct (registered_user_can_log_in (fun s => s)
              {| auth_api.RegisterRequest.username := "dave";
                 auth_api.RegisterRequest.password := "s3cret" |}
              (sample.request_of "") sample.db0 Hok Hkeys eq_refl eq_refl)
    as (u & db' & context & _ & _ & Hname & _ & _ & Hcookie & _).
  exists u, db'. split.
  - exact Hname.
  - apply Hcookie. reflexivity.
Defined.
(** ** The password rule of the two registrations *)

(** A password without a punctuation character, for a username nobody has:
    the HTML registration turns it away with status 400 and stores
    nothing; the JSON registration, whose request model asks for six
    characters and nothing more, stores the user. *)
Theorem special_character_rule_is_html_only (sha256_hexdigest : string -> string)
  (request : Request) (name username password : string) (db : DB) :
  keys_ok (A := User.t) db ->
  select_first (fun u => String.eqb (User.username u) username) db = None ->
  Py.any Py.is_punctuation password = false ->
  (exists context,
      run_request (bowls_ui.register_htmx sha256_hexdigest request name username password) db
      = (inr (TemplateResponseStatus "register.html" context status.HTTP_400_BAD_REQUEST),
         db))
  /\ (auth_api.RegisterRequest.valid
        {| auth_api.RegisterRequest.username := username;
           auth_api.RegisterRequest.password := password |} = true ->
      exists u : User.t,
        run_request
          (auth_api.register sha256_hexdigest
             {| auth_api.RegisterRequest.username := username;
                auth_api.RegisterRequest.password := password |}) db
        = (inr ({| auth_api.RegisterResponse.user_id := User.id u;
                   auth_api.RegisterResponse.username := username;
                   auth_api.RegisterResponse.name := username |},
                ("username", username)),
           set_table {| stored_rows := rows db ++ [u]; stored_seq := User.id u |} db)
        /\ User.username u = username
        /\ User.password_hash u = sha256_hexdigest password).
Proof.
  intros Hkeys Hfree Hplain. split.
  - unfold bowls_ui.register_htmx, try_except. run_m. simpl. rewrite Hfree. simpl.
    destruct (_ || _); simpl; [eexists; reflexivity|].
    destruct (Nat.ltb _ 6); simpl; [eexists; reflexivity|].
    rewrite Hplain. simpl. eexists; reflexivity.
  - intros _.
    pose proof (db_get_insert
                  {| User.id := 0; User.username := username;
                     User.password_hash := auth.hash_password sha256_hexdigest password;
                     User.name := username |} db Hkeys) as Hget.
    exists {| User.id := stored_seq (user db) + 1; User.username := username;
              User.password_hash := sha256_hexdigest password; User.name := username |}.
    split; [|split].
    + unfold auth_api.register. run_m. simpl. rewrite Hfree. simpl.
      simpl in Hget. rewrite Hget. reflexivity.
    + reflexivity.
    + reflexivity.
Qed.

(** "secret" has six characters and no punctuation. *)
Lemma special_character_rule_is_html_only_witness :
  exists context,
    run_request
      (bowls_ui.register_htmx (fun s => s) (sample.request_of "") "Dave" "dave" "secret")
      sample.db0
    = (inr (TemplateResponseStatus "register.html" context status.HTTP_400_BAD_REQUEST),
       sample.db0).
Proof.
  assert (Hkeys : keys_ok (A := User.t) sample.db0).
  { split; simpl; repeat constructor; simpl; intuition lia. }
  destruct (special_character_rule_is_html_only (fun s => s) (sample.request_of "")
              "Dave" "dave" "secret" sample.db0 Hkeys eq_refl eq_refl) as [Hhtml _].
  exact Hhtml.
Defined.
(** ** Seeding the catalog *)

Lemma seed_ingredients_from_run (data : list Ingredient.t) (db : DB) :
  run_request (seed.seed_ingredients_from data) db
  = (inr tt, seed_all data db).
Proof.
  unfold seed.seed_ingredients_from, run_request, seed_all.
  unfold mbind at 1, M_bind at 1.
  rewrite (for_each_fold seed_step).
  - reflexivity.
  - intros x c p. unfold seed.seed_ingredient, seed_step. run_m. simpl.
    change (fun g : Ingredient.t =>
              String.eqb (Ingredient.name g) (Ingredient.name x)) with (named x).
    destruct (select_first (named x) p); reflexivity.
Qed.

Lemma seed_step_keys_ok (d : Ingredient.t) (db : DB) :
  keys_ok (A := Ingredient.t) db -> keys_ok (A := Ingredient.t) (seed_step d db).
Proof.
  intros Hkeys. unfold seed_step.
  destruct (select_first (named d) db); [apply keys_ok_update | apply keys_ok_insert];
    exact Hkeys.
Qed.

Lemma named_spec (d g : Ingredient.t) :
  named d g = true <-> Ingredient.name g = Ingredient.name d.
Proof. unfold named. apply String.eqb_eq. Qed.

(** No turn of the loop gives a name to a second row. *)
Lemma seed_step_names_ok (d : Ingredient.t) (db : DB) :
  keys_ok (A := Ingredient.t) db -> names_ok db -> names_ok (seed_step d db).
Proof.
  intros [Hnd _] Hnames. unfold names_ok, seed_step.
  destruct (select_first (named d) db) as [e|] eqn:Hfirst.
  - apply select_first_Some in Hfirst as [_ Hin].
    apply (NoDup_key_update Ingredient.name); [|exact Hnames].
    intros old Hold.
    change (db_get (pk e) db = Some old) in Hold.
    rewrite (db_get_in e db Hnd Hin) in Hold. injection Hold as <-. reflexivity.
  - apply select_first_None in Hfirst. unfold select_all in Hfirst.
    rewrite rows_insert, map_app.
    apply List.NoDup_app; [exact Hnames | repeat constructor; intros [] |].
    intros k Hk [<-|[]]. apply in_map_iff in Hk as (x & Hx & Hin).
    change (Ingredient.name x = Ingredient.name d) in Hx. apply named_spec in Hx.
    rewrite (filter_nil_inv _ _ x Hfirst Hin) in Hx. discriminate.
Qed.

(** A float that equals itself, once assigned, is what the column equals. *)
Lemma assign_float_settled (old new : float) :
  PrimFloat.eqb new new = true -> PrimFloat.eqb new (assign_float old new) = true.
Proof.
  intros Hself. unfold assign_float.
  destruct (PrimFloat.eqb new old) eqn:Heq; assumption.
Qed.

Lemma optional_str_eqb_refl (a : option string) : optional_str_eqb a a = true.
Proof. destruct a as [x|]; simpl; [apply String.eqb_refl | reflexivity]. Qed.

(** A turn of the loop leaves the catalog with its ingredient. *)
Lemma seed_step_seeds (d : Ingredient.t) (db : DB) :
  keys_ok (A := Ingredient.t) db ->
  names_ok db ->
  Ingredient.unchanged d d = true ->
  seeded d (seed_step d db).
Proof.
  intros [Hnd _] Hnames Hself. unfold seeded, seed_step.
  destruct (select_first (named d) db) as [e|] eqn:Hfirst.
  - pose proof (select_first_Some _ _ _ Hfirst) as [Hq Hin].
    assert (Hget : db_get (pk (seed_values d e)) db = Some e)
      by exact (db_get_in e db Hnd Hin).
    assert (Hone : select_all (named d) db = [e]).
    { apply (filter_key_unique Ingredient.name); [exact Hnames | exact Hin |].
      intros x. rewrite named_spec. apply named_spec in Hq. rewrite Hq. reflexivity. }
    destruct (unchanged e (seed_values d e)) eqn:Hsame.
    + rewrite (db_update_unchanged _ e db Hget Hsame).
      exists e. split; [exact Hfirst | exact Hsame].
    + exists (updated e (seed_values d e)). split.
      * unfold select_first. rewrite (select_all_update _ _ e db Hget Hsame), Hone.
        cbn [List.filter]. change (pk (seed_values d e)) with (pk e).
        rewrite Z.eqb_refl. cbn [negb app].
        assert (Hn : named d (updated e (seed_values d e)) = true) by exact Hq.
        rewrite Hn. reflexivity.
      * unfold Ingredient.unchanged in Hself |- *.
        repeat (apply andb_prop in Hself as [Hself ?]).
        unfold updated, Ingredient_Table, Ingredient.updated, seed_values.
        cbn [Ingredient.name Ingredient.calories Ingredient.protein Ingredient.fiber
             Ingredient.sugar Ingredient.icon_filename Ingredient.bowl_image_filename
             Ingredient.is_drizzle].
        rewrite String.eqb_refl, !assign_float_settled, !optional_str_eqb_refl,
          Bool.eqb_reflx by assumption.
        reflexivity.
  - exists (fst (db_insert d db)). split.
    + apply select_first_None in Hfirst.
      unfold select_first, select_all in *. rewrite rows_insert, List.filter_app, Hfirst.
      cbn [List.filter app]. unfold named at 1. simpl. rewrite String.eqb_refl.
      reflexivity.
    + unfold Ingredient.unchanged in Hself |- *.
      repeat (apply andb_prop in Hself as [Hself ?]).
      unfold seed_values.
      cbn [fst db_insert set_pk Ingredient_Table Ingredient.name Ingredient.calories
           Ingredient.protein Ingredient.fiber Ingredient.sugar Ingredient.icon_filename
           Ingredient.bowl_image_filename Ingredient.is_drizzle].
      rewrite String.eqb_refl, !optional_str_eqb_refl, Bool.eqb_reflx.
      repeat (apply andb_true_intro; split); try reflexivity; assumption.
Qed.

(** A turn for another name does not disturb it. *)
Lemma seed_step_keeps_seeded (d d' : Ingredient.t) (db : DB) :
  keys_ok (A := Ingredient.t) db ->
  Ingredient.name d' <> Ingredient.name d ->
  seeded d db -> seeded d (seed_step d' db).
Proof.
  intros [Hnd _] Hne (e & Hfirst & Hvalues). exists e. split; [|exact Hvalues].
  unfold seed_step.
  destruct (select_first (named d') db) as [e'|] eqn:Hfirst'.
  - apply select_first_Some in Hfirst' as [Hq' Hin'].
    apply named_spec in Hq'.
    unfold select_first. rewrite select_all_update_other; [exact Hfirst| |].
    + intros x Hx Hpk. change (pk x = pk e') in Hpk.
      rewrite (NoDup_key_inj (pk (A := Ingredient.t)) _ x e' Hnd Hx Hin' Hpk).
      unfold named. apply String.eqb_neq. congruence.
    + intros old _. unfold named. apply String.eqb_neq. simpl. congruence.
  - unfold select_first. rewrite select_all_insert_other; [exact Hfirst|].
    unfold named. simpl. apply String.eqb_neq. exact Hne.
Qed.

(** A turn for an ingredient the catalog has changes nothing. *)
Lemma seed_step_fixed (d : Ingredient.t) (db : DB) :
  keys_ok (A := Ingredient.t) db -> seeded d db -> seed_step d db = db.
Proof.
  intros [Hnd _] (e & Hfirst & Hvalues). unfold seed_step. rewrite Hfirst.
  apply select_first_Some in Hfirst as [_ Hin].
  apply (db_update_unchanged _ e); [exact (db_get_in e db Hnd Hin) | exact Hvalues].
Qed.

(** No turn removes or renumbers or renames a row. *)
Lemma seed_step_keeps_rows (d : Ingredient.t) (db : DB) (g : Ingredient.t) :
  keys_ok (A := Ingredient.t) db ->
  In g (rows db) ->
  exists g',
    In g' (rows (seed_step d db))
    /\ Ingredient.id g' = Ingredient.id g /\ Ingredient.name g' = Ingredient.name g.
Proof.
  intros [Hnd _] Hin. unfold seed_step.
  destruct (select_first (named d) db) as [e|] eqn:Hfirst.
  - apply select_first_Some in Hfirst as [_ Hine].
    assert (Hget : db_get (pk (seed_values d e)) db = Some e)
      by exact (db_get_in e db Hnd Hine).
    destruct (Z.eq_dec (Ingredient.id g) (Ingredient.id e)) as [Heq|Hne].
    + exists (updated e (seed_values d e)). split.
      * apply (in_rows_update _ e _ db Hnd Hget). right. reflexivity.
      * rewrite (NoDup_key_inj (pk (A := Ingredient.t)) _ g e Hnd Hin Hine Heq). auto.
    + exists g. split; [|auto].
      apply (in_rows_update _ e _ db Hnd Hget). left. split; [exact Hin | exact Hne].
  - exists g. split; [|auto]. rewrite rows_insert. apply in_or_app. left. exact Hin.
Qed.

Lemma seed_step_other_tables (d : Ingredient.t) (db : DB) :
  user (seed_step d db) = user db
  /\ bowl (seed_step d db) = bowl db
  /\ bowlingredient (seed_step d db) = bowlingredient db
  /\ useringredientnutrition (seed_step d db) = useringredientnutrition db.
Proof.
  unfold seed_step. destruct (select_first (named d) db) as [e|];
    [|repeat split; reflexivity].
  unfold db_update. destruct (db_get _ db) as [old|]; [|repeat split; reflexivity].
  destruct (unchanged old _); repeat split; reflexivity.
Qed.

Lemma seed_all_keys_ok (data : list Ingredient.t) (db : DB) :
  keys_ok (A := Ingredient.t) db -> keys_ok (A := Ingredient.t) (seed_all data db).
Proof.
  revert db. induction data as [|a data IH]; intros db Hkeys; simpl; [exact Hkeys|].
  apply IH, seed_step_keys_ok, Hkeys.
Qed.

Lemma seed_all_keeps_seeded (d : Ingredient.t) (data : list Ingredient.t) (db : DB) :
  keys_ok (A := Ingredient.t) db ->
  ~ In (Ingredient.name d) (map Ingredient.name data) ->
  seeded d db -> seeded d (seed_all data db).
Proof.
  revert db. induction data as [|a data IH]; intros db Hkeys Hnot Hd; simpl; [exact Hd|].
  apply IH.
  - apply seed_step_keys_ok, Hkeys.
  - intros Hin. apply Hnot. right. exact Hin.
  - apply seed_step_keeps_seeded; [exact Hkeys | | exact Hd].
    intros Heq. apply Hnot. left. exact Heq.
Qed.

Lemma seed_all_seeds (data : list Ingredient.t) (db : DB) :
  keys_ok (A := Ingredient.t) db ->
  names_ok db ->
  List.NoDup (map Ingredient.name data) ->
  (forall d, In d data -> Ingredient.unchanged d d = true) ->
  forall d, In d data -> seeded d (seed_all data db).
Proof.
  revert db.
  induction data as [|a data IH]; intros db Hkeys Hnames Hnd Hself d Hin; [contradiction|].
  simpl in Hnd. apply NoDup_cons_iff in Hnd as [Ha Hnd]. simpl.
  destruct Hin as [->|Hin].
  - apply seed_all_keeps_seeded; [apply seed_step_keys_ok, Hkeys | exact Ha |].
    apply seed_step_seeds; [exact Hkeys | exact Hnames |]. apply Hself. left. reflexivity.
  - apply IH; [apply seed_step_keys_ok, Hkeys | apply seed_step_names_ok; assumption
               | exact Hnd | | exact Hin].
    intros x Hx. apply Hself. right. exact Hx.
Qed.

Lemma seed_all_fixed (data : list Ingredient.t) (db : DB) :
  keys_ok (A := Ingredient.t) db ->
  (forall d, In d data -> seeded d db) ->
  seed_all data db = db.
Proof.
  intros Hkeys. induction data as [|a data IH]; intros Hall; simpl; [reflexivity|].
  rewrite seed_step_fixed; [|exact Hkeys|apply Hall; left; reflexivity].
  apply IH. intros d Hd. apply Hall. right. exact Hd.
Qed.

Lemma seed_all_keeps_rows (data : list Ingredient.t) (db : DB) (g : Ingredient.t) :
  keys_ok (A := Ingredient.t) db ->
  In g (rows db) ->
  exists g',
    In g' (rows (seed_all data db))
    /\ Ingredient.id g' = Ingredient.id g /\ Ingredient.name g' = Ingredient.name g.
Proof.
  revert db g. induction data as [|a data IH]; intros db g Hkeys Hin; simpl.
  - exists g. auto.
  - destruct (seed_step_keeps_rows a db g Hkeys Hin) as (g1 & Hin1 & Hid1 & Hname1).
    destruct (IH (seed_step a db) g1 (seed_step_keys_ok a db Hkeys) Hin1)
      as (g2 & Hin2 & Hid2 & Hname2).
    exists g2. split; [exact Hin2|]. split; congruence.
Qed.

Lemma seed_all_other_tables (data : list Ingredient.t) (db : DB) :
  user (seed_all data db) = user db
  /\ bowl (seed_all data db) = bowl db
  /\ bowlingredient (seed_all data db) = bowlingredient db
  /\ useringredientnutrition (seed_all data db) = useringredientnutrition db.
Proof.
  revert db. induction data as [|a data IH]; intros db; simpl; [auto|].
  destruct (IH (seed_step a db)) as (-> & -> & -> & ->). apply seed_step_other_tables.
Qed.

Lemma INGREDIENTS_names : List.NoDup (map Ingredient.name seed.INGREDIENTS).
Proof. repeat constructor; simpl; intuition discriminate. Qed.

(** No value of [INGREDIENTS] is a NaN. *)
Lemma INGREDIENTS_numbers (d : Ingredient.t) :
  In d seed.INGREDIENTS -> Ingredient.unchanged d d = true.
Proof.
  intros Hd. repeat (destruct Hd as [<-|Hd]; [reflexivity|]). destruct Hd.
Qed.

(** [==] read from the stored side. *)
Lemma same_number_of_eqb (stored assigned : float) :
  PrimFloat.eqb assigned stored = true -> same_number stored assigned.
Proof.
  intros Heq. destruct (float_eqb_cases assigned stored Heq) as [->|[Ha Hs]];
    [left; reflexivity | right; split; assumption].
Qed.

(** Seeding.  On a catalog with distinct ids and distinct names,
    [seed_ingredients] succeeds; afterwards every entry of [INGREDIENTS]
    is in the catalog under its name, with its numbers (a zero of the
    catalog may keep its sign), file names and drizzle flag; every row the
    catalog had is still there under the same id and name, so the lines of
    bowls still refer to what they referred to; users, bowls, lines and
    overrides are not touched; and seeding again changes nothing. *)
Theorem seed_ingredients_idempotent (db : DB) :
  keys_ok (A := Ingredient.t) db ->
  names_ok db ->
  exists db1 : DB,
    run_request seed.seed_ingredients db = (inr tt, db1)
    /\ (forall d, In d seed.INGREDIENTS ->
          exists g,
            select_first (named d) db1 = Some g
            /\ same_number (Ingredient.calories g) (Ingredient.calories d)
            /\ same_number (Ingredient.protein g) (Ingredient.protein d)
            /\ same_number (Ingredient.fiber g) (Ingredient.fiber d)
            /\ same_number (Ingredient.sugar g) (Ingredient.sugar d)
            /\ Ingredient.icon_filename g = Ingredient.icon_filename d
            /\ Ingredient.bowl_image_filename g = Ingredient.bowl_image_filename d
            /\ Ingredient.is_drizzle g = Ingredient.is_drizzle d)
    /\ (forall g, In g (rows db) ->
          exists g',
            In g' (rows db1)
            /\ Ingredient.id g' = Ingredient.id g
            /\ Ingredient.name g' = Ingredient.name g)
    /\ (user db1 = user db /\ bowl db1 = bowl db
        /\ bowlingredient db1 = bowlingredient db
        /\ useringredientnutrition db1 = useringredientnutrition db)
    /\ run_request seed.seed_ingredients db1 = (inr tt, db1).
Proof.
  intros Hkeys Hnames. unfold seed.seed_ingredients.
  exists (seed_all seed.INGREDIENTS db).
  pose proof (seed_all_seeds seed.INGREDIENTS db Hkeys Hnames INGREDIENTS_names
                INGREDIENTS_numbers) as Hseeded.
  pose proof (seed_all_keys_ok seed.INGREDIENTS db Hkeys) as Hkeys1.
  split; [apply seed_ingredients_from_run|]. split; [|split; [|split]].
  - intros d Hd. destruct (Hseeded d Hd) as (e & Hfirst & Hvalues).
    exists e. split; [exact Hfirst|].
    unfold Ingredient.unchanged, seed_values in Hvalues.
    cbn [Ingredient.name Ingredient.calories Ingredient.protein Ingredient.fiber
         Ingredient.sugar Ingredient.icon_filename Ingredient.bowl_image_filename
         Ingredient.is_drizzle] in Hvalues.
    apply andb_prop in Hvalues as [Hvalues Hdrizzle].
    apply andb_prop in Hvalues as [Hvalues Himage].
    apply andb_prop in Hvalues as [Hvalues Hicon].
    apply andb_prop in Hvalues as [Hvalues Hsugar].
    apply andb_prop in Hvalues as [Hvalues Hfiber].
    apply andb_prop in Hvalues as [Hvalues Hprotein].
    apply andb_prop in Hvalues as [_ Hcalories].
    apply optional_str_eqb_eq in Himage, Hicon. apply Bool.eqb_prop in Hdrizzle.
    repeat split; try (apply same_number_of_eqb; assumption); congruence.
  - intros g Hg. apply seed_all_keeps_rows; assumption.
  - apply seed_all_other_tables.
  - rewrite seed_ingredients_from_run. f_equal.
    apply seed_all_fixed; assumption.
Qed.

(** Seeding an empty catalog, and seeding it again. *)
Lemma seed_ingredients_idempotent_witness :
  exists db1 : DB,
    run_request seed.seed_ingredients
      {| user := user sample.db0;
         ingredient := {| stored_rows := []; stored_seq := 0 |};
         bowl := bowl sample.db0; bowlingredient := bowlingredient sample.db0;
         useringredientnutrition := useringredientnutrition sample.db0 |}
    = (inr tt, db1)
    /\ run_request seed.seed_ingredients db1 = (inr tt, db1).
Proof.
  destruct (seed_ingredients_idempotent
              {| user := user sample.db0;
                 ingredient := {| stored_rows := []; stored_seq := 0 |};
                 bowl := bowl sample.db0; bowlingredient := bowlingredient sample.db0;
                 useringredientnutrition := useringredientnutrition sample.db0 |})
    as (db1 & Hrun & _ & _ & _ & Hagain).
  - split; simpl; constructor.
  - constructor.
  - exists db1. split; assumption.
Defined.

(** The seeded store of the examples is what seeding an empty catalog
    gives. *)
Example seed_ingredients_on_empty :
  run_request seed.seed_ingredients
    {| user := user sample.db0;
       ingredient := {| stored_rows := []; stored_seq := 0 |};
       bowl := bowl sample.db0; bowlingredient := bowlingredient sample.db0;
       useringredientnutrition := useringredientnutrition sample.db0 |}
  = (inr tt, sample.db0).
Proof. vm_compute. reflexivity. Qed.

(** A name the catalog has twice: the seeding rewrites the row it finds,
    which then lies behind the other one, so the next seeding finds and
    rewrites the other one.  Seeding again does change the store here. *)
Example seed_ingredients_with_a_name_twice :
  let honey (id : Z) := seed.row id "Honey" 60 0 0 16 None None true in
  let db :=
    {| user := user sample.db0;
       ingredient := {| stored_rows := [honey 1; honey 2]; stored_seq := 2 |};
       bowl := bowl sample.db0; bowlingredient := bowlingredient sample.db0;
       useringredientnutrition := useringredientnutrition sample.db0 |} in
  let db1 := snd (run_request seed.seed_ingredients db) in
  let db2 := snd (run_request seed.seed_ingredients db1) in
  map Ingredient.id (List.filter (named (honey 0)) (rows db1)) = [2; 1]
  /\ map Ingredient.id (List.filter (named (honey 0)) (rows db2)) = [1; 2].
Proof. split; vm_compute; reflexivity. Qed.

(** The sign of a zero: a catalog whose honey has [-0.0] protein.  The
    seeding assigns [0.0], which equals the loaded value, so the UPDATE it
    sends for the calories leaves the protein column as it is. *)
Example seed_ingredients_keeps_the_sign_of_a_zero :
  let minus_zero := PrimFloat.opp 0 in
  let honey := seed.row 1 "Honey" 60 minus_zero 0 17 None None true in
  let db :=
    {| user := user sample.db0;
       ingredient := {| stored_rows := [honey]; stored_seq := 1 |};
       bowl := bowl sample.db0; bowlingredient := bowlingredient sample.db0;
       useringredientnutrition := useringredientnutrition sample.db0 |} in
  let db1 := snd (run_request seed.seed_ingredients db) in
  (Ingredient.calories <$> select_first (named honey) db1) = Some 64%float
  /\ (Ingredient.protein <$> select_first (named honey) db1) = Some minus_zero
  /\ minus_zero <> 0%float.
Proof.
  cbv zeta. split; [vm_compute; reflexivity|]. split; [vm_compute; reflexivity|].
  intros Heq. apply (f_equal (fun x => PrimFloat.ltb (1 / x) 0)) in Heq.
  vm_compute in Heq. discriminate Heq.
Qed.

(** ** The constraints hold after every call *)

(** *** What each kind of write needs *)

Lemma has_key_get {A : Type} `{Table A} (i : Z) (db : DB) (r : A) :
  db_get i db = Some r -> has_key i db.
Proof.
  intros Hget. apply db_get_Some in Hget as [<- Hin]. apply in_map, Hin.
Qed.

Lemma refs_ok_change (db db' : DB) :
  refs_ok db ->
  (forall i, has_key (A := User.t) i db -> has_key (A := User.t) i db') ->
  (forall i, has_key (A := Ingredient.t) i db -> has_key (A := Ingredient.t) i db') ->
  (forall b : Bowl.t, In b (rows db') ->
     In b (rows db) \/ has_key (A := User.t) (Bowl.user_id b) db') ->
  (forall bi : BowlIngredient.t, In bi (rows db') ->
     has_key (A := Bowl.t) (BowlIngredient.bowl_id bi) db'
     /\ (In bi (rows db)
         \/ has_key (A := Ingredient.t) (BowlIngredient.ingredient_id bi) db')) ->
  (forall n : UserIngredientNutrition.t, In n (rows db') ->
     In n (rows db)
     \/ (has_key (A := User.t) (UserIngredientNutrition.user_id n) db'
         /\ has_key (A := Ingredient.t) (UserIngredientNutrition.ingredient_id n) db')) ->
  refs_ok db'.
Proof.
  intros (Hb & Hl & Ho) Husers Hings Hbowls Hlines Hovs.
  rewrite List.Forall_forall in Hb, Hl, Ho.
  repeat split; apply List.Forall_forall.
  - intros b Hin. destruct (Hbowls b Hin) as [Hold|Hnew]; [|exact Hnew].
    apply Husers, Hb, Hold.
  - intros bi Hin. destruct (Hlines bi Hin) as [Hbowl [Hold|Hnew]].
    + split; [exact Hbowl|]. apply Hings, (Hl bi Hold).
    + split; assumption.
  - intros n Hin. destruct (Hovs n Hin) as [Hold|Hnew]; [|exact Hnew].
    destruct (Ho n Hold). split; [apply Husers | apply Hings]; assumption.
Qed.

Section Frame.
Context {A : Type} `{Table A}.

(** What is said of one table holds as long as that table is the same. *)
Lemma has_key_table (i : Z) (db db' : DB) :
  table (A := A) db' = table db -> has_key (A := A) i db -> has_key (A := A) i db'.
Proof. unfold has_key, rows. intros ->. auto. Qed.

Lemma in_rows_table (x : A) (db db' : DB) :
  table (A := A) db' = table db -> In x (rows db') -> In x (rows db).
Proof. unfold rows. intros ->. auto. Qed.

Lemma keys_ok_table (db db' : DB) :
  table (A := A) db' = table db -> keys_ok (A := A) db -> keys_ok (A := A) db'.
Proof. unfold keys_ok, rows. intros ->. auto. Qed.

End Frame.

Lemma users_ok_table (db db' : DB) : user db' = user db -> users_ok db -> users_ok db'.
Proof. unfold users_ok, rows. simpl. intros ->. auto. Qed.

(** The tables a write does not name are the ones they were. *)
Ltac frame_tables :=
  unfold upsert_line, upsert_override, seed_step, db_update;
  repeat match goal with
         | |- context [match select_first ?q ?d with _ => _ end] =>
             destruct (select_first q d)
         | |- context [match db_get ?i ?d with _ => _ end] => destruct (db_get i d)
         | |- context [if unchanged ?a ?b then _ else _] => destruct (unchanged a b)
         end;
  repeat split; reflexivity.

(** A bowl rewritten under its id, for a user the store has. *)
Lemma store_ok_bowl_update (b : Bowl.t) (db : DB) :
  store_ok db ->
  has_key (A := User.t) (Bowl.user_id b) db ->
  store_ok (db_update b db).
Proof.
  intros [Hu Hun Hi Hb Hl Ho Hr] Huser.
  set (db' := db_update b db).
  assert (Htables : user db' = user db /\ ingredient db' = ingredient db
                    /\ bowlingredient db' = bowlingredient db
                    /\ useringredientnutrition db' = useringredientnutrition db).
  { unfold db'. frame_tables. }
  destruct Htables as (Htu & Hti & Htl & Hto).
  assert (Hku : forall i, has_key (A := User.t) i db -> has_key (A := User.t) i db')
    by (intros i; apply has_key_table; exact Htu).
  split.
  - apply (keys_ok_table db); assumption.
  - apply (users_ok_table db); assumption.
  - apply (keys_ok_table db); assumption.
  - apply keys_ok_update, Hb.
  - apply (lines_ok_ext db); assumption.
  - apply (overrides_ok_ext db); assumption.
  - apply (refs_ok_change db); [exact Hr | exact Hku | | | |].
    + intros i. apply has_key_table. exact Hti.
    + intros x Hx. apply in_rows_update_inv in Hx as [Hx|(old & _ & ->)];
        [left; exact Hx | right; apply Hku, Huser].
    + intros bi Hbi.
      assert (Hold : In bi (rows db))
        by (apply (in_rows_table (A := BowlIngredient.t) bi db db'); assumption).
      split; [|left; exact Hold].
      apply (has_key_update (A := Bowl.t)).
      destruct Hr as (_ & Hlines & _). rewrite List.Forall_forall in Hlines.
      apply (Hlines bi Hold).
    + intros n Hn. left.
      apply (in_rows_table (A := UserIngredientNutrition.t) n db db'); assumption.
Qed.

(** A new bowl, for a user the store has. *)
Lemma store_ok_bowl_insert (b : Bowl.t) (db : DB) :
  store_ok db ->
  has_key (A := User.t) (Bowl.user_id b) db ->
  store_ok (snd (db_insert b db)).
Proof.
  intros [Hu Hun Hi Hb Hl Ho Hr] Huser. split; try assumption.
  - apply keys_ok_insert, Hb.
  - apply (refs_ok_change db);
      [exact Hr | intros i Hk; exact Hk | intros i Hk; exact Hk | | |
       intros n Hn; left; exact Hn].
    + intros x Hx. rewrite rows_insert in Hx. apply in_app_or in Hx as [Hx|[<-|[]]];
        [left; exact Hx | right; exact Huser].
    + intros bi Hbi. split; [|left; exact Hbi].
      unfold has_key. rewrite rows_insert, map_app. apply in_or_app. left.
      destruct Hr as (_ & Hlines & _). rewrite List.Forall_forall in Hlines.
      apply (Hlines bi Hbi).
Qed.

(** A line written for a bowl and an ingredient the store has. *)
Lemma store_ok_upsert_line (bowl_id ingredient_id : Z) (quantity : float) (db : DB) :
  store_ok db ->
  has_key (A := Bowl.t) bowl_id db ->
  has_key (A := Ingredient.t) ingredient_id db ->
  store_ok (upsert_line bowl_id ingredient_id quantity db).
Proof.
  intros [Hu Hun Hi Hb Hl Ho Hr] Hbowl Hing.
  set (db' := upsert_line bowl_id ingredient_id quantity db).
  assert (Htables : user db' = user db /\ ingredient db' = ingredient db
                    /\ bowl db' = bowl db
                    /\ useringredientnutrition db' = useringredientnutrition db).
  { unfold db'. frame_tables. }
  destruct Htables as (Htu & Hti & Htb & Hto).
  split.
  - apply (keys_ok_table db); assumption.
  - apply (users_ok_table db); assumption.
  - apply (keys_ok_table db); assumption.
  - apply (keys_ok_table db); assumption.
  - apply upsert_line_ok, Hl.
  - apply (overrides_ok_ext db); assumption.
  - assert (Hkb : forall i, has_key (A := Bowl.t) i db -> has_key (A := Bowl.t) i db')
      by (intros i; apply has_key_table; exact Htb).
    assert (Hki : forall i, has_key (A := Ingredient.t) i db ->
                            has_key (A := Ingredient.t) i db')
      by (intros i; apply has_key_table; exact Hti).
    apply (refs_ok_change db); auto.
    + intros i. apply has_key_table. exact Htu.
    + intros b Hin. left. apply (in_rows_table (A := Bowl.t) b db db'); [exact Htb | exact Hin].
    + intros bi Hbi. destruct Hr as (_ & Hlines & _).
      rewrite List.Forall_forall in Hlines. unfold db', upsert_line in Hbi.
      destruct (select_first (for_pair bowl_id ingredient_id) db) as [e|] eqn:Hfirst.
      * apply select_first_Some in Hfirst as [He Hine].
        apply for_pair_spec in He. injection He as Heb Hei.
        apply in_rows_update_inv in Hbi as [Hbi|(old & _ & ->)].
        -- split; [apply Hkb, (Hlines bi Hbi) | left; exact Hbi].
        -- simpl. rewrite Heb, Hei. split; [apply Hkb, Hbowl | right; apply Hki, Hing].
      * rewrite rows_insert in Hbi. apply in_app_or in Hbi as [Hbi|[<-|[]]].
        -- split; [apply Hkb, (Hlines bi Hbi) | left; exact Hbi].
        -- simpl. split; [apply Hkb, Hbowl | right; apply Hki, Hing].
    + intros n Hn. left. apply (in_rows_table (A := UserIngredientNutrition.t) n db db'); [exact Hto | exact Hn].
Qed.
(** A line taken out. *)
Lemma store_ok_line_delete (e : BowlIngredient.t) (db : DB) :
  store_ok db -> store_ok (db_delete e db).
Proof.
  intros [Hu Hun Hi Hb Hl Ho Hr]. split; try assumption.
  - apply lines_ok_delete, Hl.
  - apply (refs_ok_change db);
      [exact Hr | intros i Hk; exact Hk | intros i Hk; exact Hk |
       intros b Hin; left; exact Hin | | intros n Hn; left; exact Hn].
    intros bi Hbi. apply in_rows_delete in Hbi as [Hbi _].
    destruct Hr as (_ & Hlines & _). rewrite List.Forall_forall in Hlines.
    split; [apply (Hlines bi Hbi) | left; exact Hbi].
Qed.

(** A bowl taken out with its lines. *)
Lemma store_ok_without_bowl (bowl_id : Z) (db : DB) :
  store_ok db -> store_ok (without_bowl bowl_id db).
Proof.
  intros [Hu Hun Hi [Hbnd Hble] [[Hlnd Hlle] Hpairs] Ho Hr]. split; try assumption.
  - split.
    + apply (NoDup_map_filter Bowl.id), Hbnd.
    + apply List.Forall_forall. intros x Hx. apply filter_In in Hx as [Hx _].
      rewrite List.Forall_forall in Hble. apply Hble, Hx.
  - split; [split|].
    + apply (NoDup_map_filter BowlIngredient.id), Hlnd.
    + apply List.Forall_forall. intros x Hx. apply filter_In in Hx as [Hx _].
      rewrite List.Forall_forall in Hlle. apply Hlle, Hx.
    + apply (NoDup_map_filter line_pair), Hpairs.
  - apply (refs_ok_change db);
      [exact Hr | intros i Hk; exact Hk | intros i Hk; exact Hk | | |
       intros n Hn; left; exact Hn].
    + intros b Hin. left. apply filter_In in Hin as [Hin _]. exact Hin.
    + intros bi Hbi. apply filter_In in Hbi as [Hbi Hne].
      split; [|left; exact Hbi].
      destruct Hr as (_ & Hlines & _). rewrite List.Forall_forall in Hlines.
      destruct (Hlines bi Hbi) as [Hkey _].
      apply in_map_iff in Hkey as (x & Hid & Hx).
      apply in_map_iff. exists x. split; [exact Hid|].
      apply filter_In. split; [exact Hx|]. simpl in Hid. rewrite Hid. exact Hne.
Qed.

(** An override written for a user and an ingredient the store has. *)
Lemma store_ok_upsert_override (user_id ingredient_id : Z) (v : Nutrition.t) (db : DB) :
  store_ok db ->
  has_key (A := User.t) user_id db ->
  has_key (A := Ingredient.t) ingredient_id db ->
  store_ok (upsert_override user_id ingredient_id v db).
Proof.
  intros [Hu Hun Hi Hb Hl Ho Hr] Huser Hing.
  set (db' := upsert_override user_id ingredient_id v db).
  assert (Htables : user db' = user db /\ ingredient db' = ingredient db
                    /\ bowl db' = bowl db /\ bowlingredient db' = bowlingredient db).
  { unfold db'. frame_tables. }
  destruct Htables as (Htu & Hti & Htb & Htl).
  assert (Hku : forall i, has_key (A := User.t) i db -> has_key (A := User.t) i db')
    by (intros i; apply has_key_table; exact Htu).
  assert (Hki : forall i, has_key (A := Ingredient.t) i db ->
                          has_key (A := Ingredient.t) i db')
    by (intros i; apply has_key_table; exact Hti).
  split.
  - apply (keys_ok_table db); assumption.
  - apply (users_ok_table db); assumption.
  - apply (keys_ok_table db); assumption.
  - apply (keys_ok_table db); assumption.
  - apply (lines_ok_ext db); assumption.
  - apply upsert_override_ok, Ho.
  - apply (refs_ok_change db); auto.
    + intros b Hin. left. apply (in_rows_table (A := Bowl.t) b db db'); assumption.
    + intros bi Hbi.
      assert (Hold : In bi (rows db))
        by (apply (in_rows_table (A := BowlIngredient.t) bi db db'); assumption).
      destruct Hr as (_ & Hlines & _). rewrite List.Forall_forall in Hlines.
      split; [|left; exact Hold].
      apply (has_key_table (A := Bowl.t) _ db db'); [exact Htb | apply (Hlines bi Hold)].
    + intros n Hn. unfold db', upsert_override in Hn.
      destruct (select_first (for_override user_id ingredient_id) db) as [e|] eqn:Hfirst.
      * apply select_first_Some in Hfirst as [He Hine].
        apply for_override_spec in He. injection He as Heu Hei.
        apply in_rows_update_inv in Hn as [Hn|(old & _ & ->)]; [left; exact Hn|].
        right. simpl. rewrite Heu, Hei. split; [apply Hku, Huser | apply Hki, Hing].
      * rewrite rows_insert in Hn. apply in_app_or in Hn as [Hn|[<-|[]]];
          [left; exact Hn|].
        right. simpl. split; [apply Hku, Huser | apply Hki, Hing].
Qed.

(** A new user under a username that is not empty and not taken. *)
Lemma store_ok_user_insert (u : User.t) (db : DB) :
  store_ok db ->
  User.username u <> "" ->
  select_first (fun v => String.eqb (User.username v) (User.username u)) db = None ->
  store_ok (snd (db_insert u db)).
Proof.
  intros [Hu Hun Hi Hb Hl Ho Hr] Hne Hfree. split; try assumption.
  - apply keys_ok_insert, Hu.
  - apply users_ok_insert; assumption.
  - apply (refs_ok_change db);
      [exact Hr | | intros i Hk; exact Hk | intros b Hin; left; exact Hin | |
       intros n Hn; left; exact Hn].
    + intros i Hk. unfold has_key. rewrite rows_insert, map_app. apply in_or_app.
      left. exact Hk.
    + intros bi Hbi. destruct Hr as (_ & Hlines & _).
      rewrite List.Forall_forall in Hlines.
      split; [apply (Hlines bi Hbi) | left; exact Hbi].
Qed.

(** A turn of the seeding loop, and the loop. *)
Lemma store_ok_seed_step (d : Ingredient.t) (db : DB) :
  store_ok db -> store_ok (seed_step d db).
Proof.
  intros [Hu Hun Hi Hb Hl Ho Hr].
  destruct (seed_step_other_tables d db) as (Htu & Htb & Htl & Hto).
  assert (Hki : forall i, has_key (A := Ingredient.t) i db ->
                          has_key (A := Ingredient.t) i (seed_step d db)).
  { intros i Hk. apply in_map_iff in Hk as (g & <- & Hg).
    destruct (seed_step_keeps_rows d db g Hi Hg) as (g' & Hin' & Hid' & _).
    apply in_map_iff. exists g'. auto. }
  split.
  - apply (keys_ok_table db); assumption.
  - apply (users_ok_table db); assumption.
  - apply seed_step_keys_ok, Hi.
  - apply (keys_ok_table db); assumption.
  - apply (lines_ok_ext db); assumption.
  - apply (overrides_ok_ext db); assumption.
  - apply (refs_ok_change db); auto.
    + intros i. apply has_key_table. exact Htu.
    + intros b Hin. left.
      apply (in_rows_table (A := Bowl.t) b db (seed_step d db)); assumption.
    + intros bi Hbi.
      assert (Hold : In bi (rows db))
        by (apply (in_rows_table (A := BowlIngredient.t) bi db (seed_step d db));
            assumption).
      destruct Hr as (_ & Hlines & _). rewrite List.Forall_forall in Hlines.
      split; [|left; exact Hold].
      apply (has_key_table (A := Bowl.t) _ db (seed_step d db));
        [exact Htb | apply (Hlines bi Hold)].
    + intros n Hn. left.
      apply (in_rows_table (A := UserIngredientNutrition.t) n db (seed_step d db));
        assumption.
Qed.

Lemma store_ok_seed_all (data : list Ingredient.t) (db : DB) :
  store_ok db -> store_ok (seed_all data db).
Proof.
  revert db. induction data as [|a data IH]; intros db Hok; simpl; [exact Hok|].
  apply IH, store_ok_seed_step, Hok.
Qed.
(** *** What each handler commits *)

Lemma run_answered {A : Type} (h : M A) (db : DB) :
  snd (run_request (answered h) db) = snd (run_request h db).
Proof.
  unfold answered, run_request, mbind, M_bind.
  destruct (h {| committed := db; pending := db; deleted := [] |}) as [[e|a] s];
    reflexivity.
Qed.

Lemma run_validated {A : Type} (ok : bool) (field : string) (h : M A) (db : DB) :
  snd (run_request (validated ok field h) db)
  = if ok then snd (run_request h db) else db.
Proof. destruct ok; reflexivity. Qed.

Lemma keeps_ok_refl (db : DB) : store_ok db -> keeps_ok db db.
Proof. intros Hok. split; auto. Qed.

Lemma keeps_ok_users (db db' : DB) :
  store_ok db' -> user db' = user db -> keeps_ok db db'.
Proof. intros Hok Hu. split; [exact Hok|]. unfold rows. simpl. rewrite Hu. auto. Qed.

Lemma owner_has_key (b : Bowl.t) (db : DB) :
  store_ok db -> In b (rows db) -> has_key (A := User.t) (Bowl.user_id b) db.
Proof.
  intros [_ _ _ _ _ _ (Hb & _)] Hin. rewrite List.Forall_forall in Hb. apply Hb, Hin.
Qed.

(** The JSON add, once the bowl check passed. *)
Lemma add_ingredient_owner (bowl_id ingredient_id : Z) (quantity : float)
  (current_user : User.t) (db : DB) (b : Bowl.t) :
  db_get bowl_id db = Some b ->
  Bowl.user_id b = User.id current_user ->
  snd (run_request
         (bowls_api.add_ingredient
            {| bowls_api.AddIngredientRequest.bowl_id := bowl_id;
               bowls_api.AddIngredientRequest.ingredient_id := ingredient_id;
               bowls_api.AddIngredientRequest.quantity := quantity |} current_user) db)
  = match db_get (A := Ingredient.t) ingredient_id db with
    | Some _ => upsert_line bowl_id ingredient_id quantity db
    | None => db
    end.
Proof.
  intros Hget Howner.
  unfold bowls_api.add_ingredient, bowls_api.verify_ingredient_exists. run_route.
  rewrite Hget. simpl. rewrite Howner, Z.eqb_refl. simpl.
  destruct (db_get (A := Ingredient.t) ingredient_id db) as [g|]; [|reflexivity].
  simpl. unfold upsert_line.
  change (fun bi : BowlIngredient.t =>
            (BowlIngredient.bowl_id bi =? bowl_id)
            && (BowlIngredient.ingredient_id bi =? ingredient_id))
    with (for_pair bowl_id ingredient_id).
  destruct (select_first _ db); reflexivity.
Qed.

(** The HTML add, for the bowl it resolved and the store it resolved it in. *)
Lemma add_ingredient_to_bowl_store (request : Request) (bowl_id : option Z)
  (ingredient_id : Z) (quantity : float) (current_user : User.t) (db : DB) :
  keys_ok (A := Bowl.t) db ->
  let run := run_request
               (bowls_ui.add_ingredient_to_bowl request bowl_id ingredient_id quantity
                  current_user) db in
  if truthy bowl_id then
    match db_get (default 0 bowl_id) db with
    | Some b =>
        if Bowl.user_id b =? User.id current_user then
          snd run = match db_get (A := Ingredient.t) ingredient_id db with
                    | Some _ => upsert_line (default 0 bowl_id) ingredient_id quantity db
                    | None => db
                    end
        else snd run = db
    | None => snd run = db
    end
  else
    let created := run_request (bowls_ui.get_or_create_unsaved_bowl (User.id current_user)) db in
    exists w, fst created = inr w
      /\ snd run = match db_get (A := Ingredient.t) ingredient_id db with
                   | Some _ => upsert_line (Bowl.id w) ingredient_id quantity (snd created)
                   | None => snd created
                   end.
Proof.
  intros Hkeys. cbv zeta.
  destruct (truthy bowl_id) eqn:Htruthy.
  - destruct bowl_id as [i|]; [|discriminate]. simpl. simpl in Htruthy.
    destruct (db_get (A := Bowl.t) i db) as [b|] eqn:Hget.
    + destruct (Z.eqb_spec (Bowl.user_id b) (User.id current_user)) as [Howner|Hne].
      * apply db_get_Some in Hget as Hid. destruct Hid as [Hid _]. simpl in Hid.
        run_route. rewrite Htruthy. simpl. rewrite Hget. simpl.
        rewrite Howner, Z.eqb_refl. simpl.
        destruct (db_get (A := Ingredient.t) ingredient_id db) as [g|]; [|reflexivity].
        simpl. unfold upsert_line. rewrite Hid.
        change (fun bi : BowlIngredient.t =>
                  (BowlIngredient.bowl_id bi =? i)
                  && (BowlIngredient.ingredient_id bi =? ingredient_id))
          with (for_pair i ingredient_id).
        destruct (select_first _ db); reflexivity.
      * apply Z.eqb_neq in Hne. run_route. rewrite Htruthy. simpl. rewrite Hget. simpl.
        rewrite Hne. reflexivity.
    + run_route. rewrite Htruthy. simpl. rewrite Hget. reflexivity.
  - rewrite (get_or_create_unsaved_bowl_outcome _ _ Hkeys).
    pose proof (db_get_insert
                  {| Bowl.id := 0; Bowl.name := "My Bowl";
                     Bowl.user_id := User.id current_user; Bowl.saved := false |}
                  db Hkeys) as Hnew.
    run_route. rewrite Htruthy. unfold bowls_ui.get_or_create_unsaved_bowl. run_m. simpl.
    change (fun b : Bowl.t =>
              (Bowl.user_id b =? User.id current_user) && Bool.eqb (Bowl.saved b) false)
      with (working (User.id current_user)).
    destruct (select_first (working (User.id current_user)) db) as [w|]; simpl.
    + exists w. split; [reflexivity|].
      destruct (db_get (A := Ingredient.t) ingredient_id db) as [g|]; [|reflexivity].
      simpl. unfold upsert_line.
      change (fun bi : BowlIngredient.t =>
                (BowlIngredient.bowl_id bi =? Bowl.id w)
                && (BowlIngredient.ingredient_id bi =? ingredient_id))
        with (for_pair (Bowl.id w) ingredient_id).
      destruct (select_first _ db); reflexivity.
    + simpl in Hnew. rewrite Hnew. simpl.
      eexists. split; [reflexivity|].
      match goal with
      | |- context [db_get (A := Ingredient.t) ingredient_id ?d] =>
          rewrite (db_get_ingredient_ext ingredient_id db d eq_refl)
      end.
      destruct (db_get (A := Ingredient.t) ingredient_id db) as [g|]; [|reflexivity].
      simpl. unfold upsert_line, for_pair, select_first, select_all, rows, db_update,
        db_insert. simpl.
      match goal with
      | |- context [match head ?l with _ => _ end] => destruct (head l)
      end; reflexivity.
Qed.
(** Both removals, once the bowl check passed. *)
Lemma remove_routes_store (request : Request) (bowl_id ingredient_id : Z)
  (current_user : User.t) (db : DB) (b : Bowl.t) :
  db_get bowl_id db = Some b ->
  Bowl.user_id b = User.id current_user ->
  let db' :=
    match select_first (for_pair bowl_id ingredient_id) db with
    | Some e => db_delete e db
    | None => db
    end in
  snd (run_request
         (bowls_api.remove_ingredient
            {| bowls_api.RemoveIngredientRequest.bowl_id := bowl_id;
               bowls_api.RemoveIngredientRequest.ingredient_id := ingredient_id |}
            current_user) db) = db'
  /\ snd (run_request
            (bowls_ui.remove_ingredient_from_bowl request bowl_id ingredient_id
               current_user) db) = db'.
Proof.
  intros Hget Howner. cbv zeta. split.
  - run_route. rewrite Hget. simpl. rewrite Howner, Z.eqb_refl. simpl.
    change (fun bi : BowlIngredient.t =>
              (BowlIngredient.bowl_id bi =? bowl_id)
              && (BowlIngredient.ingredient_id bi =? ingredient_id))
      with (for_pair bowl_id ingredient_id).
    destruct (select_first (for_pair bowl_id ingredient_id) db); reflexivity.
  - run_route. rewrite Hget. simpl. rewrite Howner, Z.eqb_refl. simpl.
    change (fun bi : BowlIngredient.t =>
              (BowlIngredient.bowl_id bi =? bowl_id)
              && (BowlIngredient.ingredient_id bi =? ingredient_id))
      with (for_pair bowl_id ingredient_id).
    destruct (select_first (for_pair bowl_id ingredient_id) db); reflexivity.
Qed.

(** The bowl view writes only when it has to create the working bowl. *)
Lemma get_bowl_view_store (request : Request) (bowl_id : option Z)
  (current_user : User.t) (db : DB) :
  snd (run_request (bowls_ui.get_bowl_view request bowl_id current_user) db)
  = if truthy bowl_id then db
    else snd (run_request (bowls_ui.get_or_create_unsaved_bowl (User.id current_user)) db).
Proof.
  run_route. unfold bowls_ui.get_or_create_unsaved_bowl. run_m. simpl.
  destruct (truthy bowl_id); simpl.
  - destruct (db_get (A := Bowl.t) _ db) as [b|]; [|reflexivity]. simpl.
    destruct (negb _); reflexivity.
  - destruct (select_first (A := Bowl.t) _ db) as [w|]; [reflexivity|]. simpl.
    match goal with
    | |- context [match db_get ?i ?d with _ => _ end] =>
        destruct (db_get (A := Bowl.t) i d)
    end; reflexivity.
Qed.

Lemma get_or_create_unsaved_bowl_store (user_id : Z) (db : DB) :
  snd (run_request (bowls_ui.get_or_create_unsaved_bowl user_id) db)
  = match select_first (working user_id) db with
    | Some _ => db
    | None =>
        snd (db_insert
               {| Bowl.id := 0; Bowl.name := "My Bowl"; Bowl.user_id := user_id;
                  Bowl.saved := false |} db)
    end.
Proof.
  unfold bowls_ui.get_or_create_unsaved_bowl. run_m. simpl.
  change (fun b : Bowl.t => (Bowl.user_id b =? user_id) && Bool.eqb (Bowl.saved b) false)
    with (working user_id).
  destruct (select_first (working user_id) db) as [w|]; [reflexivity|]. simpl.
  match goal with
  | |- context [match db_get ?i ?d with _ => _ end] =>
      destruct (db_get (A := Bowl.t) i d)
  end; reflexivity.
Qed.

Lemma create_bowl_store (request : bowls_api.CreateBowlRequest.t)
  (current_user : User.t) (db : DB) :
  snd (run_request (bowls_api.create_bowl request current_user) db)
  = snd (db_insert
           {| Bowl.id := 0;
              Bowl.name := Py.strip (bowls_api.CreateBowlRequest.name request);
              Bowl.user_id := User.id current_user; Bowl.saved := false |} db).
Proof.
  unfold bowls_api.create_bowl. run_m. simpl.
  match goal with
  | |- context [match db_get ?i ?d with _ => _ end] =>
      destruct (db_get (A := Bowl.t) i d)
  end; reflexivity.
Qed.

(** The two renames and the two saves rewrite the bowl under its id, or
    nothing. *)
Lemma bowl_rewrites_store (request : Request) (bowl_id : Z) (current_user : User.t)
  (db : DB) (b : Bowl.t) :
  db_get bowl_id db = Some b ->
  Bowl.user_id b = User.id current_user ->
  (forall r, snd (run_request (bowls_api.update_bowl r bowl_id current_user) db)
             = db_update
                 (Bowl.with_name (Py.strip (bowls_api.CreateBowlRequest.name r)) b) db)
  /\ (forall name,
        snd (run_request (bowls_ui.update_bowl_name request bowl_id name current_user) db)
        = db_update (Bowl.with_name (cleaned_name name) b) db)
  /\ snd (run_request
            (bowls_api.save_bowl {| bowls_api.SaveBowlRequest.bowl_id := bowl_id |}
               current_user) db)
     = db_update (Bowl.with_saved true b) db
  /\ snd (run_request (bowls_ui.save_bowl_htmx request bowl_id current_user) db)
     = db_update (Bowl.with_saved true b) db.
Proof.
  intros Hget Howner. repeat apply conj.
  - intros r. rewrite (update_bowl_outcome r bowl_id current_user db b Hget Howner).
    reflexivity.
  - intros name.
    rewrite (update_bowl_name_outcome request bowl_id name current_user db b Hget Howner).
    reflexivity.
  - rewrite (save_bowl_outcome bowl_id current_user db b Hget Howner). reflexivity.
  - rewrite (save_bowl_htmx_outcome request bowl_id current_user db b Hget Howner).
    reflexivity.
Qed.

(** Registration stores a user or nothing. *)
Lemma register_store (sha256_hexdigest : string -> string)
  (r : auth_api.RegisterRequest.t) (db : DB) :
  snd (run_request (auth_api.register sha256_hexdigest r) db)
  = match select_first
            (fun u => String.eqb (User.username u) (auth_api.RegisterRequest.username r))
            db with
    | Some _ => db
    | None =>
        snd (db_insert
               {| User.id := 0; User.username := auth_api.RegisterRequest.username r;
                  User.password_hash :=
                    auth.hash_password sha256_hexdigest
                      (auth_api.RegisterRequest.password r);
                  User.name := auth_api.RegisterRequest.username r |} db)
    end.
Proof.
  unfold auth_api.register. run_m. simpl.
  destruct (select_first _ db); [reflexivity|]. simpl.
  match goal with
  | |- context [match db_get ?i ?d with _ => _ end] =>
      destruct (db_get (A := User.t) i d)
  end; reflexivity.
Qed.

Lemma register_htmx_store (sha256_hexdigest : string -> string) (request : Request)
  (name username password : string) (db : DB) :
  let db' :=
    snd (run_request
           (bowls_ui.register_htmx sha256_hexdigest request name username password) db) in
  db' = db
  \/ (username <> ""
      /\ select_first (fun u => String.eqb (User.username u) username) db = None
      /\ db' = snd (db_insert
                      {| User.id := 0; User.username := username;
                         User.password_hash :=
                           auth.hash_password sha256_hexdigest password;
                         User.name := Py.strip name |} db)).
Proof.
  cbv zeta.
  unfold bowls_ui.register_htmx, bowls_ui.prepare_home_context, try_except.
  run_m. simpl.
  destruct (select_first _ db) as [existing|] eqn:Hnone; simpl; [left; reflexivity|].
  destruct (String.eqb_spec (Py.strip username) "") as [|Hstrip]; simpl;
    [left; reflexivity|].
  destruct (_ || _); simpl; [left; reflexivity|].
  destruct (Nat.ltb _ 6); simpl; [left; reflexivity|].
  destruct (negb _); simpl; [left; reflexivity|].
  right. split; [exact (strip_nonempty username Hstrip)|]. split; [reflexivity|].
  unfold db_insert. simpl.
  repeat match goal with
         | |- context [match db_get ?i ?d with _ => _ end] => destruct (db_get i d); simpl
         | |- context [match select_first ?q ?d with _ => _ end] =>
             destruct (select_first q d); simpl
         end;
    reflexivity.
Qed.

(** The override form writes the override, and after it the working bowl
    when it has to create one. *)
Lemma update_ingredient_htmx_store (request : Request) (ingredient_id : Z)
  (bowl_id : option Z) (calories protein fiber sugar : float) (current_user : User.t)
  (db : DB) :
  let db1 :=
    upsert_override (User.id current_user) ingredient_id
      {| Nutrition.calories := calories; Nutrition.protein := protein;
         Nutrition.fiber := fiber; Nutrition.sugar := sugar |} db in
  snd (run_request
         (bowls_ui.update_ingredient_htmx request ingredient_id bowl_id calories
            protein fiber sugar current_user) db)
  = match db_get (A := Ingredient.t) ingredient_id db with
    | None => db
    | Some _ =>
        if truthy bowl_id then db1
        else snd (run_request
                    (bowls_ui.get_or_create_unsaved_bowl (User.id current_user)) db1)
    end.
Proof.
  cbv zeta. run_route. unfold bowls_ui.get_or_create_unsaved_bowl. run_m. simpl.
  destruct (db_get (A := Ingredient.t) ingredient_id db) as [g|]; [|reflexivity].
  simpl. unfold upsert_override, for_override.
  destruct (select_first (A := UserIngredientNutrition.t) _ db); simpl.
  all: destruct (truthy bowl_id); simpl.
  1, 3: match goal with
        | |- context [db_get (A := Bowl.t) ?i ?d] =>
            destruct (db_get (A := Bowl.t) i d) as [b|]
        end; simpl; [destruct (negb _)|]; reflexivity.
  all: repeat (unfold select_first, select_all, rows, db_get, db_update, db_insert; simpl;
          match goal with
          | |- context [match head ?l with _ => _ end] => destruct (head l)
          end);
    simpl; reflexivity.
Qed.
(** *** Every call is a few elementary writes *)

Section Writes.
Variables creating seeding : bool.
Variable current_user : User.t.

Lemma get_or_create_writes (db : DB) :
  In current_user (rows db) ->
  write creating seeding current_user db (snd (run_request (bowls_ui.get_or_create_unsaved_bowl (User.id current_user)) db)).
Proof.
  intros Hin. rewrite get_or_create_unsaved_bowl_store.
  destruct (select_first (working (User.id current_user)) db) eqn:Hfirst;
    [apply write_nothing | apply write_working_bowl; assumption].
Qed.

Lemma remove_writes (db : DB) (b : Bowl.t) (ingredient_id : Z) :
  lines_ok db ->
  In b (rows db) ->
  Bowl.user_id b = User.id current_user ->
  write creating seeding current_user db match select_first (for_pair (Bowl.id b) ingredient_id) db with
       | Some e => db_delete e db
       | None => db
       end.
Proof.
  intros Hlines Hin Howner.
  replace (match select_first (for_pair (Bowl.id b) ingredient_id) db with
           | Some e => db_delete e db
           | None => db
           end) with (without_line (Bowl.id b) ingredient_id db).
  - apply write_line_removed; assumption.
  - destruct (select_first (for_pair (Bowl.id b) ingredient_id) db) as [e|] eqn:Hfirst.
    + symmetry. apply without_line_present; assumption.
    + apply without_line_absent, Hfirst.
Qed.

Lemma add_writes (db : DB) (b : Bowl.t) (ingredient_id : Z) (quantity : float) :
  In b (rows db) ->
  Bowl.user_id b = User.id current_user ->
  write creating seeding current_user db match db_get (A := Ingredient.t) ingredient_id db with
       | Some _ => upsert_line (Bowl.id b) ingredient_id quantity db
       | None => db
       end.
Proof.
  intros Hin Howner.
  destruct (db_get (A := Ingredient.t) ingredient_id db) as [g|] eqn:Hg;
    [|apply write_nothing].
  apply db_get_Some in Hg as [<- Hing]. apply write_line; assumption.
Qed.

(** The bowl-scoped routes. *)
Lemma serve_writes (r : Route) (db : DB) :
  store_ok db ->
  In current_user (rows db) ->
  write creating seeding current_user db (snd (run_request (serve r current_user) db)).
Proof.
  intros Hok Hin.
  destruct (request_valid r) eqn:Hvalid;
    [|rewrite (serve_invalid r current_user db Hvalid); apply write_nothing].
  destruct (checked_bowl_id r) as [bowl_id|] eqn:Hchecked.
  - destruct (db_get (A := Bowl.t) bowl_id db) as [b|] eqn:Hget;
      [|rewrite (serve_no_bowl r current_user db bowl_id Hchecked Hvalid Hget);
        apply write_nothing].
    destruct (Z.eq_dec (Bowl.user_id b) (User.id current_user)) as [Howner|Hne];
      [|destruct (serve_not_owner r current_user db bowl_id b Hchecked Hvalid Hget Hne)
          as [detail ->]; apply write_nothing].
    pose proof (db_get_Some _ _ _ Hget) as [Hid Hinb]. simpl in Hid.
    destruct (bowl_rewrites_store (sample.request_of "") bowl_id current_user db b
                Hget Howner) as (Hrename & _ & Hsave & _).
    unfold serve. rewrite Hvalid. unfold validated.
    destruct r; simpl in Hchecked;
      try (destruct (truthy bowl_id0) eqn:Htruthy; [|discriminate Hchecked];
           destruct bowl_id0 as [i|]; [|discriminate Hchecked]);
      injection Hchecked as Hchecked; subst; rewrite ?run_answered.
    + (* api_get_bowl *)
      replace (snd (run_request (bowls_api.get_bowl (Bowl.id b) current_user) db)) with db;
        [apply write_nothing|].
      run_route. rewrite Hget. simpl. rewrite Howner, Z.eqb_refl. reflexivity.
    + (* api_update_bowl *)
      rewrite Hrename. apply write_renamed; assumption.
    + (* api_save_bowl *)
      destruct request as [j]. cbn [bowls_api.SaveBowlRequest.bowl_id] in *.
      rewrite Hsave. apply write_saved; assumption.
    + (* api_add_ingredient *)
      destruct request as [j i q].
      cbn [bowls_api.AddIngredientRequest.bowl_id] in *.
      rewrite (add_ingredient_owner j i q current_user db b Hget Howner), <- Hid.
      apply add_writes; assumption.
    + (* api_remove_ingredient *)
      destruct request as [j i].
      cbn [bowls_api.RemoveIngredientRequest.bowl_id] in *.
      destruct (remove_routes_store (sample.request_of "") j i current_user db b
                  Hget Howner) as [-> _].
      rewrite <- Hid. apply remove_writes; [apply (ok_lines db Hok) | |]; assumption.
    + (* api_delete_bowl *)
      rewrite (api_delete_bowl_outcome (Bowl.id b) current_user db b Hget Howner).
      destruct (Spec.lines (Bowl.id b) db); [|apply write_nothing].
      cbn [snd]. apply write_bowl_removed; assumption.
    + (* ui_get_bowl_view *)
      rewrite get_bowl_view_store, Htruthy. apply write_nothing.
    + (* ui_delete_bowl *)
      pose proof (ui_delete_bowl_outcome request (Bowl.id b) current_user db b
                    Hget Howner) as Hui.
      cbv zeta in Hui. rewrite Hui.
      cbn [snd]. rewrite (delete_cascade db b (proj1 (ok_lines db Hok))).
      apply write_bowl_removed; assumption.
    + (* ui_add_ingredient_to_bowl *)
      pose proof (add_ingredient_to_bowl_store request (Some (Bowl.id b)) ingredient_id
                    quantity current_user db (ok_bowl_keys db Hok)) as Hadd.
      cbv zeta in Hadd. rewrite Htruthy in Hadd. simpl in Hadd.
      rewrite Hget, Howner, Z.eqb_refl in Hadd. rewrite Hadd.
      apply add_writes; assumption.
    + (* ui_remove_ingredient_from_bowl *)
      destruct (remove_routes_store request (Bowl.id b) ingredient_id current_user db b
                  Hget Howner) as [_ ->].
      apply remove_writes; [apply (ok_lines db Hok) | |]; assumption.
    + (* ui_edit_bowl_name_form *)
      replace (snd (run_request
                      (bowls_ui.edit_bowl_name_form request (Bowl.id b) current_user) db))
        with db; [apply write_nothing|].
      run_route. rewrite Hget. simpl. rewrite Howner, Z.eqb_refl. reflexivity.
    + (* ui_update_bowl_name *)
      destruct (bowl_rewrites_store request (Bowl.id b) current_user db b Hget Howner)
        as (_ & -> & _).
      apply write_renamed; assumption.
    + (* ui_save_bowl_htmx *)
      destruct (bowl_rewrites_store request (Bowl.id b) current_user db b Hget Howner)
        as (_ & _ & _ & ->).
      apply write_saved; assumption.
  - unfold serve. rewrite Hvalid. unfold validated.
    destruct r; simpl in Hchecked; try discriminate Hchecked; rewrite run_answered.
    + (* ui_get_bowl_view, no bowl id *)
      rewrite get_bowl_view_store.
      destruct (truthy bowl_id) eqn:Htruthy;
        [apply write_nothing | apply get_or_create_writes; assumption].
    + (* ui_add_ingredient_to_bowl, no bowl id *)
      destruct (truthy bowl_id) eqn:Htruthy;
        [destruct bowl_id; discriminate|].
      pose proof (add_ingredient_to_bowl_store request bowl_id ingredient_id
                    quantity current_user db (ok_bowl_keys db Hok)) as Hadd.
      cbv zeta in Hadd. rewrite Htruthy in Hadd. destruct Hadd as (w & Hw & ->).
      pose proof (get_or_create_writes db Hin) as Hcreate.
      pose proof (get_or_create_unsaved_bowl_outcome (User.id current_user) db
                    (ok_bowl_keys db Hok)) as Hcreated.
      cbv zeta in Hcreated.
      set (db1 := snd (run_request
                         (bowls_ui.get_or_create_unsaved_bowl (User.id current_user)) db))
        in *.
      assert (Hing : ingredient db1 = ingredient db).
      { unfold db1. rewrite get_or_create_unsaved_bowl_store.
        destruct (select_first _ db); reflexivity. }
      assert (Hwin : In w (rows db1) /\ Bowl.user_id w = User.id current_user).
      { unfold db1. rewrite Hcreated in Hw |- *.
        destruct (select_first (working (User.id current_user)) db) as [w0|] eqn:Hfirst.
        - injection Hw as ->. apply select_first_Some in Hfirst as [Hwork Hinw].
          apply working_spec in Hwork as [Hu _]. auto.
        - injection Hw as <-. cbn [snd]. split; [|reflexivity].
          rewrite rows_insert. apply in_or_app. right. left. reflexivity. }
      destruct Hwin as [Hwin Hwowner].
      apply (write_then _ _ _ db db1); [exact Hcreate|].
      rewrite <- (db_get_ingredient_ext ingredient_id db db1 Hing).
      apply add_writes; assumption.
Qed.

End Writes.

(** The pages write nothing. *)
Lemma pages_read (sha256_hexdigest : string -> string) (current_user : User.t) (db : DB) :
  (forall request, snd (run_request (bowls_ui.home request) db) = db)
  /\ (forall request, snd (run_request (bowls_ui.login_form request) db) = db)
  /\ (forall request, snd (run_request (bowls_ui.register_form request) db) = db)
  /\ (forall request username password,
        snd (run_request (bowls_ui.login sha256_hexdigest request username password) db)
        = db)
  /\ (forall request, snd (run_request (bowls_ui.logout request) db) = db)
  /\ (forall request,
        snd (run_request (bowls_ui.get_saved_bowls_view request current_user) db) = db)
  /\ (forall request ingredient_id bowl_id,
        snd (run_request
               (bowls_ui.edit_ingredient_form request ingredient_id bowl_id current_user)
               db) = db).
Proof.
  repeat apply conj; intros.
  - unfold bowls_ui.home, bowls_ui.prepare_home_context, auth.get_optional_user.
    destruct (cookies request !! "username") as [[|c u]|]; try reflexivity.
    run_m. simpl. destruct (select_first _ db); [|reflexivity].
    simpl. destruct (select_first _ db); reflexivity.
  - unfold bowls_ui.login_form, try_except, auth.get_optional_user.
    destruct (cookies request !! "username") as [[|c u]|]; run_m; simpl;
      try (destruct (select_first _ db); simpl);
      try (destruct (bool_decide _)); reflexivity.
  - unfold bowls_ui.register_form, try_except, auth.get_optional_user.
    destruct (cookies request !! "username") as [[|c u]|]; run_m; simpl;
      try (destruct (select_first _ db); simpl);
      try (destruct (bool_decide _)); reflexivity.
  - unfold bowls_ui.login, bowls_ui.prepare_home_context, try_except. run_m. simpl.
    destruct (select_first _ db) as [u|]; [|reflexivity]. simpl.
    destruct (negb _); [reflexivity|]. simpl.
    destruct (select_first _ db); reflexivity.
  - reflexivity.
  - reflexivity.
  - unfold bowls_ui.edit_ingredient_form. run_m. simpl.
    destruct (db_get ingredient_id db); reflexivity.
Qed.

Lemma handle_writes (sha256_hexdigest : string -> string) (c : Call)
  (current_user : User.t) (db : DB) :
  store_ok db ->
  (authenticated c = true -> In current_user (rows db)) ->
  write (is_create c) (is_seed c) current_user db
    (snd (run_request (handle sha256_hexdigest c current_user) db)).
Proof.
  intros Hok Hauth.
  destruct (pages_read sha256_hexdigest current_user db)
    as (Hhome & Hlogin_form & Hregister_form & Hlogin & Hlogout & Hsaved & Hedit).
  destruct c; cbn [handle is_create is_seed]; rewrite ?run_validated, ?run_answered.
  - (* the bowl-scoped routes *)
    apply serve_writes; [exact Hok | apply Hauth; reflexivity].
  - (* api_create_bowl *)
    destruct (bowls_api.CreateBowlRequest.valid request); [|apply write_nothing].
    rewrite create_bowl_store.
    apply (write_created_bowl true false current_user db
             (Py.strip (bowls_api.CreateBowlRequest.name request)) eq_refl).
    apply Hauth. reflexivity.
  - (* api_update_nutrition *)
    destruct (ingredients_api.UpdateNutritionRequest.valid request); [|apply write_nothing].
    rewrite update_nutrition_outcome.
    destruct (db_get (A := Ingredient.t) _ db) as [g|] eqn:Hg; [|apply write_nothing].
    cbn [snd]. apply db_get_Some in Hg as [<- Hing].
    apply write_override; [apply Hauth; reflexivity | exact Hing].
  - (* api_register *)
    destruct (auth_api.RegisterRequest.valid request) eqn:Hvalid; [|apply write_nothing].
    rewrite register_store.
    destruct (select_first _ db) as [existing|] eqn:Hfree; [apply write_nothing|].
    apply write_user; [|exact Hfree].
    unfold auth_api.RegisterRequest.valid in Hvalid. simpl.
    destruct (auth_api.RegisterRequest.username request);
      [discriminate Hvalid | discriminate].
  - rewrite Hhome. apply write_nothing.
  - rewrite Hlogin_form. apply write_nothing.
  - rewrite Hregister_form. apply write_nothing.
  - (* ui_register_htmx *)
    destruct (register_htmx_store sha256_hexdigest request name username password db)
      as [->|(Hne & Hfree & ->)]; [apply write_nothing|].
    apply write_user; assumption.
  - rewrite Hlogin. apply write_nothing.
  - rewrite Hlogout. apply write_nothing.
  - rewrite Hsaved. apply write_nothing.
  - (* ui_reset_bowl *)
    rewrite (reset_bowl_outcome request current_user db).
    destruct (select_first (working (User.id current_user)) db) as [w|] eqn:Hfirst;
      [|apply write_nothing].
    destruct (Spec.lines (Bowl.id w) db); [|apply write_nothing].
    cbn [snd]. apply select_first_Some in Hfirst as [Hwork Hinw].
    apply working_spec in Hwork as [Hu _]. apply write_bowl_removed; assumption.
  - rewrite Hedit. apply write_nothing.
  - (* ui_update_ingredient_htmx *)
    rewrite update_ingredient_htmx_store.
    destruct (db_get (A := Ingredient.t) ingredient_id db) as [g|] eqn:Hg;
      [|apply write_nothing].
    assert (Hin : In current_user (rows db)) by (apply Hauth; reflexivity).
    apply db_get_Some in Hg as [<- Hing].
    set (db1 := upsert_override _ _ _ db).
    assert (Hw1 : write false false current_user db db1)
      by (apply write_override; assumption).
    destruct (truthy bowl_id); [exact Hw1|].
    apply (write_then _ _ _ db db1); [exact Hw1|].
    apply get_or_create_writes.
    assert (Hu1 : user db1 = user db).
    { apply upsert_override_tables. }
    unfold rows. simpl. rewrite Hu1. exact Hin.
  - (* seed_call *)
    unfold seed.seed_ingredients. rewrite seed_ingredients_from_run. cbn [snd].
    apply write_seeded. reflexivity.
Qed.

(** *** What the elementary writes keep *)

Lemma has_key_in {A : Type} `{Table A} (r : A) (db : DB) :
  In r (rows db) -> has_key (pk r) db.
Proof. apply in_map. Qed.

Lemma write_keeps_ok (creating seeding : bool) (u : User.t) (db db' : DB) :
  write creating seeding u db db' -> store_ok db -> keeps_ok db db'.
Proof.
  intros Hw. induction Hw as [db | db Hin Hnone | db name _ Hin | db b name Hin Howner
                              | db b Hin Howner | db b g quantity Hin Howner Hing
                              | db b ingredient_id Hin Howner | db b Hin Howner
                              | db g v Hin Hing | db new Hne Hfree | db data _
                              | db db1 db2 _ IH1 _ IH2]; intros Hok.
  - apply keeps_ok_refl, Hok.
  - apply keeps_ok_users; [|reflexivity].
    apply store_ok_bowl_insert; [exact Hok | exact (has_key_in u db Hin)].
  - apply keeps_ok_users; [|reflexivity].
    apply store_ok_bowl_insert; [exact Hok | exact (has_key_in u db Hin)].
  - apply keeps_ok_users; [|frame_tables].
    apply store_ok_bowl_update; [exact Hok | apply (owner_has_key b db Hok Hin)].
  - apply keeps_ok_users; [|frame_tables].
    apply store_ok_bowl_update; [exact Hok | apply (owner_has_key b db Hok Hin)].
  - apply keeps_ok_users.
    + apply store_ok_upsert_line;
        [exact Hok | exact (has_key_in b db Hin) | exact (has_key_in g db Hing)].
    + frame_tables.
  - apply keeps_ok_users; [|reflexivity].
    destruct (select_first (for_pair (Bowl.id b) ingredient_id) db) as [e|] eqn:Hfirst.
    + rewrite <- (without_line_present _ _ db e (ok_lines db Hok) Hfirst).
      apply store_ok_line_delete, Hok.
    + rewrite (without_line_absent _ _ db Hfirst). exact Hok.
  - apply keeps_ok_users; [|reflexivity]. apply store_ok_without_bowl, Hok.
  - apply keeps_ok_users.
    + apply store_ok_upsert_override;
        [exact Hok | exact (has_key_in u db Hin) | exact (has_key_in g db Hing)].
    + frame_tables.
  - split.
    + apply store_ok_user_insert; assumption.
    + intros x Hx. rewrite rows_insert. apply in_or_app. left. exact Hx.
  - apply keeps_ok_users; [apply store_ok_seed_all, Hok | apply seed_all_other_tables].
  - destruct (IH1 Hok) as [Hok1 Hin1]. destruct (IH2 Hok1) as [Hok2 Hin2].
    split; [exact Hok2 | auto].
Qed.

Lemma handle_keeps_ok (sha256_hexdigest : string -> string) (c : Call)
  (current_user : User.t) (db : DB) :
  store_ok db ->
  (authenticated c = true -> In current_user (rows db)) ->
  keeps_ok db (snd (run_request (handle sha256_hexdigest c current_user) db)).
Proof.
  intros Hok Hauth.
  exact (write_keeps_ok _ _ _ _ _ (handle_writes sha256_hexdigest c current_user db Hok Hauth)
           Hok).
Qed.

Lemma store_ok_empty :
  store_ok
    {| user := {| stored_rows := []; stored_seq := 0 |};
       ingredient := {| stored_rows := []; stored_seq := 0 |};
       bowl := {| stored_rows := []; stored_seq := 0 |};
       bowlingredient := {| stored_rows := []; stored_seq := 0 |};
       useringredientnutrition := {| stored_rows := []; stored_seq := 0 |} |}.
Proof. repeat split; simpl; constructor. Qed.

(** The declared constraints never break.  Primary keys, unique non-empty
    usernames, the five foreign keys of models.py, one line per bowl and
    ingredient, one override per user and ingredient: if they hold, they
    hold after any handler and after the seeding script, whatever the
    request and whether the call answers or raises, and the store has the
    users it had.  So they hold in every store the application reaches
    from the empty one. *)
Theorem every_call_keeps_store_ok (sha256_hexdigest : string -> string) :
  (forall (c : Call) (current_user : User.t) (db : DB),
      store_ok db ->
      (authenticated c = true -> In current_user (rows db)) ->
      let db' := snd (run_request (handle sha256_hexdigest c current_user) db) in
      store_ok db' /\ forall u : User.t, In u (rows db) -> In u (rows db'))
  /\ (forall db0 db : DB,
        store_ok db0 -> reachable sha256_hexdigest db0 db -> store_ok db)
  /\ store_ok
       {| user := {| stored_rows := []; stored_seq := 0 |};
          ingredient := {| stored_rows := []; stored_seq := 0 |};
          bowl := {| stored_rows := []; stored_seq := 0 |};
          bowlingredient := {| stored_rows := []; stored_seq := 0 |};
          useringredientnutrition := {| stored_rows := []; stored_seq := 0 |} |}.
Proof.
  split; [|split].
  - intros c current_user db Hok Hauth. exact (handle_keeps_ok _ c current_user db Hok Hauth).
  - intros db0 db Hok0 Hreach. induction Hreach as [|db c current_user _ IH Hauth].
    + exact Hok0.
    + exact (proj1 (handle_keeps_ok _ c current_user db IH Hauth)).
  - exact store_ok_empty.
Qed.
(** *** What a call leaves alone *)

Lemma select_all_table {A : Type} `{Table A} (p : A -> bool) (db db' : DB) :
  table (A := A) db' = table db -> select_all p db' = select_all p db.
Proof. unfold select_all, rows. intros ->. reflexivity. Qed.

Lemma same_for_tables (user_id : Z) (db db' : DB) :
  bowl db' = bowl db ->
  bowlingredient db' = bowlingredient db ->
  useringredientnutrition db' = useringredientnutrition db ->
  same_for user_id db db'.
Proof.
  intros Hb Hl Ho. split; [|split].
  - apply (select_all_table (A := Bowl.t)). exact Hb.
  - intros b _. apply lines_ext, Hl.
  - apply (select_all_table (A := UserIngredientNutrition.t)). exact Ho.
Qed.

(** A bowl of another user is not the bowl [b]. *)
Lemma other_bowl_id (db : DB) (b x : Bowl.t) :
  keys_ok (A := Bowl.t) db ->
  In b (rows db) -> In x (rows db) ->
  Bowl.user_id x <> Bowl.user_id b -> Bowl.id x <> Bowl.id b.
Proof.
  intros [Hnd _] Hb Hx Hne Hid. apply Hne.
  rewrite (NoDup_key_inj (pk (A := Bowl.t)) _ x b Hnd Hx Hb Hid). reflexivity.
Qed.

Lemma bowl_update_same_for (user_id : Z) (db : DB) (b b' : Bowl.t) :
  keys_ok (A := Bowl.t) db ->
  In b (rows db) ->
  Bowl.id b' = Bowl.id b ->
  Bowl.user_id b' = Bowl.user_id b ->
  Bowl.user_id b <> user_id ->
  same_for user_id db (db_update b' db).
Proof.
  intros Hkeys Hin Hid Howner Hne. split; [|split].
  - unfold bowls_of. apply select_all_update_other.
    + intros x Hx Hpk. apply Z.eqb_neq. simpl in Hpk. rewrite Hid in Hpk.
      rewrite (NoDup_key_inj (pk (A := Bowl.t)) _ x b (proj1 Hkeys) Hx Hin Hpk).
      exact Hne.
    + intros old _. apply Z.eqb_neq. simpl. congruence.
  - intros x _. apply lines_ext. frame_tables.
  - apply (select_all_table (A := UserIngredientNutrition.t)). frame_tables.
Qed.

Lemma write_same_for (creating seeding : bool) (u : User.t) (db db' : DB) :
  write creating seeding u db db' ->
  store_ok db ->
  forall other, other <> User.id u -> same_for other db db'.
Proof.
  intros Hw.
  induction Hw as [db | db Hin Hnone | db name _ Hin | db b name Hin Howner
                   | db b Hin Howner | db b g quantity Hin Howner Hing
                   | db b ingredient_id Hin Howner | db b Hin Howner
                   | db g v Hin Hing | db new Hne Hfree | db data _
                   | db db1 db2 Hw1 IH1 Hw2 IH2]; intros Hok other Hother.
  - apply same_for_tables; reflexivity.
  - split; [|split; [intros x _|]; reflexivity].
    unfold bowls_of. apply select_all_insert_other.
    simpl. apply Z.eqb_neq. congruence.
  - split; [|split; [intros x _|]; reflexivity].
    unfold bowls_of. apply select_all_insert_other.
    simpl. apply Z.eqb_neq. congruence.
  - apply (bowl_update_same_for other db b); try reflexivity;
      [apply (ok_bowl_keys db Hok) | exact Hin | congruence].
  - apply (bowl_update_same_for other db b); try reflexivity;
      [apply (ok_bowl_keys db Hok) | exact Hin | congruence].
  - assert (Htables : bowl (upsert_line (Bowl.id b) (Ingredient.id g) quantity db) = bowl db
                      /\ useringredientnutrition
                           (upsert_line (Bowl.id b) (Ingredient.id g) quantity db)
                         = useringredientnutrition db).
    { frame_tables. }
    destruct Htables as [Htb Hto].
    split; [|split].
    + apply (select_all_table (A := Bowl.t)). exact Htb.
    + intros x Hx. apply filter_In in Hx as [Hx Hxo]. apply Z.eqb_eq in Hxo.
      assert (Hid : Bowl.id x <> Bowl.id b).
      { apply (other_bowl_id db b x (ok_bowl_keys db Hok) Hin Hx). congruence. }
      destruct (ok_lines db Hok) as [[Hnd _] _].
      unfold Spec.lines, upsert_line.
      destruct (select_first (for_pair (Bowl.id b) (Ingredient.id g)) db) as [e|]
        eqn:Hfirst.
      * apply select_first_Some in Hfirst as [He Hine].
        apply for_pair_spec in He. injection He as Heb _.
        apply select_all_update_other.
        -- intros y Hy Hpk. simpl in Hpk.
           rewrite (NoDup_key_inj (pk (A := BowlIngredient.t)) _ y e Hnd Hy Hine Hpk).
           rewrite Heb. apply Z.eqb_neq. congruence.
        -- intros old _. simpl. rewrite Heb. apply Z.eqb_neq. congruence.
      * apply select_all_insert_other. simpl. apply Z.eqb_neq. congruence.
    + apply (select_all_table (A := UserIngredientNutrition.t)). exact Hto.
  - split; [reflexivity|split; [|reflexivity]].
    intros x Hx. apply filter_In in Hx as [Hx Hxo]. apply Z.eqb_eq in Hxo.
    assert (Hid : Bowl.id x <> Bowl.id b).
    { apply (other_bowl_id db b x (ok_bowl_keys db Hok) Hin Hx). congruence. }
    unfold Spec.lines, select_all, without_line. rewrite rows_set_table.
    cbn [stored_rows]. rewrite filter_twice. apply List.filter_ext. intros y.
    unfold for_pair.
    destruct (Z.eqb_spec (BowlIngredient.bowl_id y) (Bowl.id x)) as [->|];
      [|apply andb_false_r].
    destruct (Z.eqb_spec (Bowl.id x) (Bowl.id b)); [contradiction | reflexivity].
  - destruct (without_bowl_frame (Bowl.id b) db) as (_ & _ & Hothers & Hsel).
    split; [|split; [|reflexivity]].
    + unfold bowls_of. rewrite Hsel. apply filter_all.
      intros x Hx. apply filter_In in Hx as [Hx Hxo]. apply Z.eqb_eq in Hxo.
      apply negb_true_iff, Z.eqb_neq.
      apply (other_bowl_id db b x (ok_bowl_keys db Hok) Hin Hx). congruence.
    + intros x Hx. apply filter_In in Hx as [Hx Hxo]. apply Z.eqb_eq in Hxo.
      apply Hothers. apply (other_bowl_id db b x (ok_bowl_keys db Hok) Hin Hx).
      congruence.
  - assert (Htables : bowl (upsert_override (User.id u) (Ingredient.id g) v db) = bowl db
                      /\ bowlingredient (upsert_override (User.id u) (Ingredient.id g) v db)
                         = bowlingredient db).
    { frame_tables. }
    destruct Htables as [Htb Htl].
    split; [|split].
    + apply (select_all_table (A := Bowl.t)). exact Htb.
    + intros x _. apply lines_ext, Htl.
    + destruct (ok_overrides db Hok) as [[Hnd _] _].
      unfold overrides_of, upsert_override.
      destruct (select_first (for_override (User.id u) (Ingredient.id g)) db) as [e|]
        eqn:Hfirst.
      * apply select_first_Some in Hfirst as [He Hine].
        apply for_override_spec in He. injection He as Heu _.
        apply select_all_update_other.
        -- intros y Hy Hpk. simpl in Hpk.
           rewrite (NoDup_key_inj (pk (A := UserIngredientNutrition.t)) _ y e Hnd Hy Hine
                      Hpk).
           rewrite Heu. apply Z.eqb_neq. congruence.
        -- intros old _. simpl. rewrite Heu. apply Z.eqb_neq. congruence.
      * apply select_all_insert_other. simpl. apply Z.eqb_neq. congruence.
  - apply same_for_tables; reflexivity.
  - destruct (seed_all_other_tables data db) as (_ & Hb & Hl & Ho).
    apply same_for_tables; assumption.
  - destruct (write_keeps_ok _ _ _ _ _ Hw1 Hok) as [Hok1 _].
    destruct (IH1 Hok other Hother) as (Hb1 & Hl1 & Ho1).
    destruct (IH2 Hok1 other Hother) as (Hb2 & Hl2 & Ho2).
    split; [|split].
    + rewrite Hb2. exact Hb1.
    + intros x Hx. rewrite Hl2; [apply Hl1, Hx | rewrite Hb1; exact Hx].
    + rewrite Ho2. exact Ho1.
Qed.

Lemma write_catalog (creating : bool) (u : User.t) (db db' : DB) :
  write creating false u db db' -> ingredient db' = ingredient db.
Proof.
  intros Hw. remember false as seeding eqn:Hs.
  induction Hw; subst; try discriminate; try (frame_tables; fail).
  rewrite IHHw2, IHHw1; reflexivity.
Qed.

Lemma for_override_of (user_id ingredient_id : Z) (db : DB) :
  select_all (for_override user_id ingredient_id) db
  = List.filter (fun n => UserIngredientNutrition.ingredient_id n =? ingredient_id)
      (overrides_of user_id db).
Proof. unfold overrides_of, select_all. rewrite filter_twice. reflexivity. Qed.
(** A call made for one user leaves what another user owns as it is: the
    other user's bowls, the lines of those bowls, and the other user's
    overrides are the same rows in the same order afterwards; and unless
    the call is the seeding of the catalog, every bowl of the other user
    aggregates, for its owner, to what it aggregated before. *)
Theorem no_call_touches_what_others_own (sha256_hexdigest : string -> string) (c : Call)
  (current_user : User.t) (db : DB) :
  store_ok db ->
  (authenticated c = true -> In current_user (rows db)) ->
  let db' := snd (run_request (handle sha256_hexdigest c current_user) db) in
  forall other : Z,
    other <> User.id current_user ->
    bowls_of other db' = bowls_of other db
    /\ overrides_of other db' = overrides_of other db
    /\ forall b, In b (bowls_of other db) ->
         Spec.lines (Bowl.id b) db' = Spec.lines (Bowl.id b) db
         /\ (is_seed c = false ->
             bowls_ui.calculate_nutrition (Bowl.id b) other db'
             = bowls_ui.calculate_nutrition (Bowl.id b) other db).
Proof.
  intros Hok Hauth db' other Hother.
  pose proof (handle_writes sha256_hexdigest c current_user db Hok Hauth) as Hw.
  fold db' in Hw.
  destruct (write_same_for _ _ _ _ _ Hw Hok other Hother) as (Hb & Hl & Ho).
  split; [exact Hb|]. split; [exact Ho|].
  intros b Hin. split; [apply Hl, Hin|].
  intros Hseed. rewrite Hseed in Hw.
  apply calculate_nutrition_ext.
  - apply (write_catalog _ _ _ _ Hw).
  - apply Hl, Hin.
  - intros i. rewrite !for_override_of, Ho. reflexivity.
Qed.

(** Alice deletes her bowl 1; Carol's bowl 2 is as it was. *)
Lemma no_call_touches_what_others_own_witness :
  bowls_of 2
    (snd (run_request
            (handle (fun s => s)
               (bowl_call (ui_delete_bowl (sample.request_of "alice") 1)) sample.alice)
            sample.db3))
  = bowls_of 2 sample.db3.
Proof.
  assert (Hok : store_ok sample.db3) by store_ok_by_computation.
  refine (proj1 (no_call_touches_what_others_own (fun s => s)
                   (bowl_call (ui_delete_bowl (sample.request_of "alice") 1))
                   sample.alice sample.db3 Hok _ 2 _)).
  - intros _. simpl. auto.
  - simpl. lia.
Defined.

(** *** One unsaved bowl per user *)

Lemma filter_map_length {A : Type} (p : A -> bool) (f : A -> A) (l : list A) :
  (forall x, In x l -> p (f x) = true -> p x = true) ->
  (length (List.filter p (map f l)) <= length (List.filter p l))%nat.
Proof.
  induction l as [|x l IH]; intros Hall; simpl; [lia|].
  assert (IH' := IH (fun y Hy => Hall y (or_intror Hy))).
  destruct (p (f x)) eqn:Hpf.
  - rewrite (Hall x (or_introl eq_refl) Hpf). simpl. lia.
  - destruct (p x); simpl; lia.
Qed.

Lemma filter_length_le {A : Type} (p : A -> bool) (l : list A) :
  (length (List.filter p l) <= length l)%nat.
Proof. induction l as [|x l IH]; simpl; [lia|]. destruct (p x); simpl; lia. Qed.

Lemma filter_length_lt {A : Type} (p : A -> bool) (l : list A) (x : A) :
  In x l -> p x = false -> (length (List.filter p l) < length l)%nat.
Proof.
  induction l as [|y l IH]; simpl; [contradiction|].
  intros [->|Hin] Hp.
  - rewrite Hp. pose proof (filter_length_le p l). lia.
  - specialize (IH Hin Hp). destruct (p y); simpl; lia.
Qed.

Lemma one_working_table (db db' : DB) :
  bowl db' = bowl db -> one_working db -> one_working db'.
Proof.
  intros Hb Hone user_id. specialize (Hone user_id).
  unfold select_all, rows in *. simpl in *. rewrite Hb. exact Hone.
Qed.

Lemma one_working_update (db : DB) (b b' : Bowl.t) :
  keys_ok (A := Bowl.t) db ->
  In b (rows db) ->
  Bowl.id b' = Bowl.id b ->
  (forall user_id, working user_id b' = true -> working user_id b = true) ->
  one_working db -> one_working (db_update b' db).
Proof.
  intros [Hnd _] Hin Hid Hwork Hone user_id.
  specialize (Hone user_id).
  assert (Hget : db_get (pk b') db = Some b).
  { change (pk b') with (Bowl.id b'). rewrite Hid. exact (db_get_in b db Hnd Hin). }
  destruct (unchanged b b') eqn:Hsame;
    [rewrite (db_update_unchanged b' b db Hget Hsame); exact Hone|].
  rewrite (select_all_update _ b' b db Hget Hsame), length_app.
  destruct (working user_id (updated b b')) eqn:Hw; cbn [length].
  - assert (Hb : In b (select_all (working user_id) db)).
    { apply filter_In. split; [exact Hin | apply Hwork, Hw]. }
    assert (Hout : (fun x : Bowl.t => negb (pk x =? pk b')) b = false).
    { change (negb (Bowl.id b =? Bowl.id b') = false). rewrite Hid, Z.eqb_refl.
      reflexivity. }
    pose proof (filter_length_lt (fun x : Bowl.t => negb (pk x =? pk b')) _ b Hb Hout).
    lia.
  - pose proof (filter_length_le (fun x : Bowl.t => negb (pk x =? pk b'))
                  (select_all (working user_id) db)). lia.
Qed.

Lemma write_one_working (seeding : bool) (u : User.t) (db db' : DB) :
  write false seeding u db db' -> store_ok db -> one_working db -> one_working db'.
Proof.
  intros Hw. remember false as creating eqn:Hc.
  induction Hw as [db | db Hin Hnone | db name Hcreating Hin | db b name Hin Howner
                   | db b Hin Howner | db b g quantity Hin Howner Hing
                   | db b ingredient_id Hin Howner | db b Hin Howner
                   | db g v Hin Hing | db new Hne Hfree | db data _
                   | db db1 db2 Hw1 IH1 Hw2 IH2]; intros Hok Hone; subst.
  - exact Hone.
  - intros user_id. unfold select_all. rewrite rows_insert, List.filter_app, length_app.
    apply select_first_None in Hnone. specialize (Hone user_id).
    unfold select_all in Hone, Hnone. cbn [List.filter]. unfold working at 2. simpl.
    destruct (Z.eqb_spec (User.id u) user_id) as [<-|]; simpl.
    + rewrite Hnone. simpl. lia.
    + lia.
  - discriminate Hcreating.
  - apply (one_working_update db b); auto. apply (ok_bowl_keys db Hok).
  - apply (one_working_update db b); auto; [apply (ok_bowl_keys db Hok)|].
    intros user_id. unfold working. simpl. rewrite andb_false_r. discriminate.
  - apply (one_working_table db); [|exact Hone]. frame_tables.
  - apply (one_working_table db); [reflexivity | exact Hone].
  - intros user_id. destruct (without_bowl_frame (Bowl.id b) db) as (_ & _ & _ & Hsel).
    rewrite Hsel. etransitivity; [apply filter_length_le | apply Hone].
  - apply (one_working_table db); [|exact Hone]. frame_tables.
  - apply (one_working_table db); [reflexivity | exact Hone].
  - apply (one_working_table db); [|exact Hone]. apply seed_all_other_tables.
  - destruct (write_keeps_ok _ _ _ _ _ Hw1 Hok) as [Hok1 _]. auto.
Qed.

(** No call but the JSON create gives a user a second unsaved bowl: if no
    user has two before, none has two after.  (The JSON create adds one
    whenever it is called.) *)
Theorem only_create_bowl_adds_unsaved_bowls (sha256_hexdigest : string -> string)
  (c : Call) (current_user : User.t) (db : DB) :
  store_ok db ->
  (authenticated c = true -> In current_user (rows db)) ->
  is_create c = false ->
  one_working db ->
  one_working (snd (run_request (handle sha256_hexdigest c current_user) db)).
Proof.
  intros Hok Hauth Hcreate Hone.
  pose proof (handle_writes sha256_hexdigest c current_user db Hok Hauth) as Hw.
  rewrite Hcreate in Hw. exact (write_one_working _ _ _ _ Hw Hok Hone).
Qed.

(** Carol, whose only bowl is saved, opens the bowl view: she gets one
    unsaved bowl, and Alice still has one. *)
Lemma only_create_bowl_adds_unsaved_bowls_witness :
  one_working
    (snd (run_request
            (handle (fun s => s)
               (bowl_call (ui_get_bowl_view (sample.request_of "carol") None))
               sample.carol) sample.db3)).
Proof.
  assert (Hok : store_ok sample.db3) by store_ok_by_computation.
  apply (only_create_bowl_adds_unsaved_bowls (fun s => s) _ sample.carol sample.db3 Hok).
  - intros _. simpl. auto.
  - reflexivity.
  - intros user_id. unfold select_all, working. simpl.
    rewrite !andb_false_r.
    match goal with |- context [if ?c then _ else _] => destruct c end; simpl; lia.
Defined.
(** ** What the constraints give the aggregation *)

Lemma has_key_found {A : Type} `{Table A} (i : Z) (db : DB) :
  has_key i db -> exists r, db_get i db = Some r.
Proof.
  unfold has_key, db_get, select_first, select_all.
  induction (rows db) as [|x l IH]; simpl; [contradiction|].
  intros [Hx|Hin].
  - rewrite Hx, Z.eqb_refl. simpl. eauto.
  - destruct (pk x =? i); simpl; [eauto | apply IH, Hin].
Qed.

Lemma retained_all (db : DB) (l : list BowlIngredient.t) :
  (forall bi, In bi l ->
     has_key (A := Ingredient.t) (BowlIngredient.ingredient_id bi) db) ->
  map fst (Spec.retained db l) = l
  /\ List.Forall
       (fun line => Ingredient.id (snd line) = BowlIngredient.ingredient_id (fst line))
       (Spec.retained db l).
Proof.
  induction l as [|bi l IH]; intros Hall; simpl; [split; constructor|].
  destruct (has_key_found _ db (Hall bi (or_introl eq_refl))) as [g Hg].
  rewrite Hg. destruct IH as [IHl IHr]; [intros x Hx; apply Hall; right; exact Hx|].
  simpl. rewrite IHl. split; [reflexivity|]. constructor; [|exact IHr].
  apply db_get_Some in Hg as [Hid _]. exact Hid.
Qed.

(** In a store that meets the constraints the aggregation skips no line:
    the list it returns has one entry per line of the bowl, in storage
    order, under the line's ingredient id and quantity, and no ingredient
    twice. *)
Theorem aggregate_lists_every_line (bowl_id user_id : Z) (db : DB) :
  store_ok db ->
  let listed := BowlData.ingredients (bowls_ui.calculate_nutrition bowl_id user_id db) in
  map Line.id listed = map BowlIngredient.ingredient_id (Spec.lines bowl_id db)
  /\ map Line.quantity listed = map BowlIngredient.quantity (Spec.lines bowl_id db)
  /\ List.NoDup (map Line.id listed).
Proof.
  intros Hok. cbv zeta.
  destruct (calculate_nutrition_fields bowl_id user_id db) as (Hlist & _).
  cbv zeta in Hlist. rewrite Hlist. clear Hlist.
  destruct (ok_refs db Hok) as (_ & Hrefs & _). rewrite List.Forall_forall in Hrefs.
  destruct (retained_all db (Spec.lines bowl_id db)) as [Hfst Hsnd].
  { intros bi Hbi. apply filter_In in Hbi as [Hbi _]. apply (Hrefs bi Hbi). }
  assert (Hids : map Line.id
                   (map (Spec.reported user_id db)
                      (Spec.retained db (Spec.lines bowl_id db)))
                 = map BowlIngredient.ingredient_id (Spec.lines bowl_id db)).
  { rewrite <- Hfst at 2. rewrite !map_map.
    apply map_ext_in. intros [bi g] Hin. rewrite List.Forall_forall in Hsnd.
    exact (Hsnd (bi, g) Hin). }
  split; [exact Hids|]. split.
  - rewrite <- Hfst at 2. rewrite !map_map. apply map_ext. intros [bi g]. reflexivity.
  - rewrite Hids. clear Hfst Hsnd Hids. destruct (ok_lines db Hok) as [_ Hpairs].
    pose proof (NoDup_map_filter line_pair
                  (fun bi => BowlIngredient.bowl_id bi =? bowl_id) _ Hpairs) as Hnd.
    fold (select_all (A := BowlIngredient.t)
            (fun bi => BowlIngredient.bowl_id bi =? bowl_id) db) in Hnd.
    change (select_all (fun bi : BowlIngredient.t => BowlIngredient.bowl_id bi =? bowl_id) db)
      with (Spec.lines bowl_id db) in Hnd.
    assert (Hall : forall bi, In bi (Spec.lines bowl_id db) ->
                              BowlIngredient.bowl_id bi = bowl_id).
    { intros bi Hbi. apply filter_In in Hbi as [_ Hb]. apply Z.eqb_eq, Hb. }
    induction (Spec.lines bowl_id db) as [|bi l IH]; simpl; [constructor|].
    simpl in Hnd. apply NoDup_cons_iff in Hnd as [Hbi Hnd].
    constructor.
    + intros Hin. apply Hbi. apply in_map_iff in Hin as (x & Hx & Hinx).
      apply in_map_iff. exists x. split; [|exact Hinx].
      unfold line_pair. rewrite Hx. f_equal.
      rewrite (Hall x (or_intror Hinx)), (Hall bi (or_introl eq_refl)). reflexivity.
    + apply IH; [exact Hnd|]. intros x Hx. apply Hall. right. exact Hx.
Qed.

(** Alice's bowl 1 in the sample store lists its bananas. *)
Lemma aggregate_lists_every_line_witness :
  map Line.id (BowlData.ingredients (bowls_ui.calculate_nutrition 1 1 sample.db3)) = [4].
Proof.
  assert (Hok : store_ok sample.db3) by store_ok_by_computation.
  exact (proj1 (aggregate_lists_every_line 1 1 _ Hok)).
Defined.
(** ** The bowl view after a write *)

Lemma listed_entries (bowl_id user_id : Z) (db : DB) :
  BowlData.ingredients (bowls_ui.calculate_nutrition bowl_id user_id db)
  = flat_map (entry user_id db) (Spec.lines bowl_id db).
Proof.
  destruct (calculate_nutrition_fields bowl_id user_id db) as (Hlist & _).
  cbv zeta in Hlist. rewrite Hlist. clear Hlist.
  induction (Spec.lines bowl_id db) as [|bi l IH]; simpl; [reflexivity|].
  unfold entry at 1. destruct (db_get (BowlIngredient.ingredient_id bi) db); simpl.
  - rewrite IH. reflexivity.
  - exact IH.
Qed.

(** An entry is about the ingredient of its line. *)
Lemma entries_filter (p : Z -> bool) (user_id : Z) (db : DB)
  (l : list BowlIngredient.t) :
  List.filter (fun e => p (Line.id e)) (flat_map (entry user_id db) l)
  = flat_map (entry user_id db)
      (List.filter (fun bi => p (BowlIngredient.ingredient_id bi)) l).
Proof.
  induction l as [|bi l IH]; [reflexivity|].
  cbn [flat_map List.filter]. rewrite List.filter_app, IH.
  assert (Hentry : List.filter (fun e => p (Line.id e)) (entry user_id db bi)
                   = if p (BowlIngredient.ingredient_id bi)
                     then entry user_id db bi else []).
  { unfold entry.
    destruct (db_get (BowlIngredient.ingredient_id bi) db) as [g|] eqn:Hg.
    - pose proof (db_get_Some _ _ _ Hg) as [Hid _]. cbn [List.filter].
      change (Line.id (Spec.reported user_id db (bi, g))) with (pk g).
      rewrite Hid. destruct (p (BowlIngredient.ingredient_id bi)); reflexivity.
    - destruct (p (BowlIngredient.ingredient_id bi)); reflexivity. }
  rewrite Hentry. destruct (p (BowlIngredient.ingredient_id bi)); reflexivity.
Qed.

(** Entries are computed from the catalog and the user's overrides. *)
Lemma entry_ext (user_id : Z) (db db' : DB) (bi : BowlIngredient.t) :
  ingredient db' = ingredient db ->
  useringredientnutrition db' = useringredientnutrition db ->
  entry user_id db' bi = entry user_id db bi.
Proof.
  intros Hing Hov. unfold entry. rewrite (db_get_ingredient_ext _ _ _ Hing).
  destruct (db_get (BowlIngredient.ingredient_id bi) db) as [g|]; [|reflexivity].
  unfold Spec.reported, Spec.raw, Spec.per_unit, Spec.override, select_first, select_all,
    rows. simpl. rewrite Hov. reflexivity.
Qed.

Lemma flat_map_entry_ext (user_id : Z) (db db' : DB) (l : list BowlIngredient.t) :
  ingredient db' = ingredient db ->
  useringredientnutrition db' = useringredientnutrition db ->
  flat_map (entry user_id db') l = flat_map (entry user_id db) l.
Proof.
  intros Hing Hov. apply flat_map_ext. intros bi. apply entry_ext; assumption.
Qed.

(** Within one bowl, the lines about an ingredient are the lines of the
    pair. *)
Lemma lines_about (bowl_id ingredient_id : Z) (db : DB) :
  List.filter (fun bi => BowlIngredient.ingredient_id bi =? ingredient_id)
    (Spec.lines bowl_id db)
  = select_all (for_pair bowl_id ingredient_id) db
  /\ List.filter (fun bi => negb (BowlIngredient.ingredient_id bi =? ingredient_id))
       (Spec.lines bowl_id db)
     = select_all
         (fun bi => (BowlIngredient.bowl_id bi =? bowl_id)
                    && negb (BowlIngredient.ingredient_id bi =? ingredient_id)) db.
Proof.
  unfold Spec.lines, select_all. rewrite !filter_twice. split; reflexivity.
Qed.

(** An upsert leaves the other lines of the bowl as they are. *)
Lemma upsert_line_others (bowl_id ingredient_id : Z) (quantity : float) (db : DB) :
  lines_ok db ->
  let q := fun bi => (BowlIngredient.bowl_id bi =? bowl_id)
                     && negb (BowlIngredient.ingredient_id bi =? ingredient_id) in
  select_all q (upsert_line bowl_id ingredient_id quantity db) = select_all q db.
Proof.
  intros [[Hnd _] _] q. unfold upsert_line.
  destruct (select_first (for_pair bowl_id ingredient_id) db) as [e|] eqn:Hfirst.
  - apply select_first_Some in Hfirst as [He Hin].
    apply for_pair_spec in He. injection He as Heb Hei.
    apply select_all_update_other.
    + intros x Hx Hpk. simpl in Hpk.
      rewrite (NoDup_key_inj (pk (A := BowlIngredient.t)) _ x e Hnd Hx Hin Hpk).
      unfold q. rewrite Hei, Z.eqb_refl. apply andb_false_r.
    + intros old _. unfold q. simpl. rewrite Hei, Z.eqb_refl. apply andb_false_r.
  - apply select_all_insert_other. unfold q. simpl. rewrite !Z.eqb_refl.
    reflexivity.
Qed.

(** Where the line of the pair lies after an upsert: nothing was written,
    or the bowl's lines are its other lines, in the order they had,
    followed by the line of the pair. *)
Lemma upsert_line_lines (bowl_id ingredient_id : Z) (quantity : float) (db : DB) :
  lines_ok db ->
  let db' := upsert_line bowl_id ingredient_id quantity db in
  db' = db
  \/ exists line,
       select_all (for_pair bowl_id ingredient_id) db' = [line]
       /\ Spec.lines bowl_id db'
          = select_all
              (fun bi => (BowlIngredient.bowl_id bi =? bowl_id)
                         && negb (BowlIngredient.ingredient_id bi =? ingredient_id)) db
            ++ [line].
Proof.
  intros [[Hnd Hle] Hpairs]. cbv zeta. unfold upsert_line.
  destruct (select_first (for_pair bowl_id ingredient_id) db) as [e|] eqn:Hfirst.
  - destruct (select_first_Some _ _ _ Hfirst) as [He Hin].
    apply for_pair_spec in He.
    set (e' := BowlIngredient.with_quantity quantity e).
    assert (Hget : db_get (pk e') db = Some e) by exact (db_get_in e db Hnd Hin).
    assert (Hone : select_all (for_pair bowl_id ingredient_id) db = [e]).
    { apply (filter_key_unique line_pair); [exact Hpairs | exact Hin |].
      intros x. rewrite for_pair_spec, He. reflexivity. }
    destruct (unchanged e e') eqn:Hsame;
      [left; exact (db_update_unchanged e' e db Hget Hsame)|].
    right. exists (updated e e'). injection He as Heb Hei.
    assert (Hbowl : (BowlIngredient.bowl_id (updated e e') =? bowl_id) = true)
      by (simpl; rewrite Heb; apply Z.eqb_refl).
    assert (Hpair : for_pair bowl_id ingredient_id (updated e e') = true).
    { unfold for_pair. simpl. rewrite Heb, Hei, !Z.eqb_refl. reflexivity. }
    split.
    + rewrite (select_all_update _ e' e db Hget Hsame), Hone, Hpair.
      cbn [List.filter]. change (pk e') with (pk e). rewrite Z.eqb_refl. reflexivity.
    + unfold Spec.lines. rewrite (select_all_update _ e' e db Hget Hsame), Hbowl.
      f_equal. unfold select_all. rewrite filter_twice.
      apply List.filter_ext_in. intros x Hx.
      destruct (Z.eqb_spec (BowlIngredient.bowl_id x) bowl_id) as [Hxb|];
        [|reflexivity].
      cbn [andb]. f_equal. change (pk e') with (pk e).
      destruct (Z.eqb_spec (pk x) (pk e)) as [Hpk|Hpk];
        destruct (Z.eqb_spec (BowlIngredient.ingredient_id x) ingredient_id) as [Hxi|Hxi];
        try reflexivity; exfalso.
      * rewrite (NoDup_key_inj (pk (A := BowlIngredient.t)) _ x e Hnd Hx Hin Hpk) in Hxi.
        contradiction.
      * apply Hpk. f_equal.
        apply (NoDup_key_inj line_pair _ x e Hpairs Hx Hin).
        unfold line_pair. congruence.
  - right. apply select_first_None in Hfirst. unfold select_all in Hfirst.
    set (r := {| BowlIngredient.id := 0; BowlIngredient.bowl_id := bowl_id;
                 BowlIngredient.ingredient_id := ingredient_id;
                 BowlIngredient.quantity := quantity |}).
    exists (fst (db_insert r db)). split.
    + unfold select_all. rewrite rows_insert, List.filter_app, Hfirst.
      cbn [List.filter app]. unfold for_pair at 1. simpl. rewrite !Z.eqb_refl.
      reflexivity.
    + unfold Spec.lines, select_all. rewrite rows_insert, List.filter_app.
      cbn [List.filter]. simpl. rewrite Z.eqb_refl. f_equal.
      apply List.filter_ext_in. intros x Hx.
      pose proof (filter_nil_inv _ _ x Hfirst Hx) as Hp. unfold for_pair in Hp.
      destruct (BowlIngredient.bowl_id x =? bowl_id); [|reflexivity].
      simpl in Hp. rewrite Hp. reflexivity.
Qed.



(** The order of the list follows the writes: Alice's bowl lists bananas
    (ingredient 4) and then blueberries (5); she sets the bananas to three,
    and the bowl lists blueberries and then bananas. *)
Example updated_line_is_listed_last :
  let add (ingredient_id : Z) (quantity : float) (db : DB) :=
    snd (run_request
           (bowls_ui.add_ingredient_to_bowl (sample.request_of "alice") (Some 1)
              ingredient_id quantity sample.alice) db) in
  let listed (db : DB) :=
    map Line.id (BowlData.ingredients (bowls_ui.calculate_nutrition 1 1 db)) in
  listed (add 5 1%float sample.db3) = [4; 5]
  /\ listed (add 4 3%float (add 5 1%float sample.db3)) = [5; 4].
Proof. split; reflexivity. Qed.

(** Removing an ingredient from a bowl one owns.  The list of the bowl is
    then the list it was without its entries about the ingredient: nothing
    else goes, nothing changes, the order stays. *)
Theorem removed_ingredient_is_not_listed (request : Request) (bowl_id ingredient_id : Z)
  (current_user : User.t) (db : DB) (b : Bowl.t) :
  lines_ok db ->
  db_get bowl_id db = Some b ->
  Bowl.user_id b = User.id current_user ->
  let db' :=
    snd (run_request
           (bowls_ui.remove_ingredient_from_bowl request bowl_id ingredient_id
              current_user) db) in
  forall user_id,
    BowlData.ingredients (bowls_ui.calculate_nutrition bowl_id user_id db')
    = List.filter (fun e => negb (about ingredient_id e))
        (BowlData.ingredients (bowls_ui.calculate_nutrition bowl_id user_id db)).
Proof.
  intros Hlines Hget Howner db' user_id.
  assert (Hdb' : db' = without_line bowl_id ingredient_id db).
  { unfold db'.
    destruct (remove_routes_store request bowl_id ingredient_id current_user db b
                Hget Howner) as [_ ->].
    destruct (select_first (for_pair bowl_id ingredient_id) db) as [e|] eqn:Hfirst.
    - apply without_line_present; assumption.
    - symmetry. apply without_line_absent, Hfirst. }
  rewrite Hdb'. unfold about. rewrite !listed_entries.
  rewrite (entries_filter (fun i => negb (i =? ingredient_id))).
  rewrite (proj2 (lines_about bowl_id ingredient_id db)).
  assert (Hl : Spec.lines bowl_id (without_line bowl_id ingredient_id db)
               = select_all
                   (fun bi => (BowlIngredient.bowl_id bi =? bowl_id)
                              && negb (BowlIngredient.ingredient_id bi =? ingredient_id))
                   db).
  { unfold Spec.lines, select_all, without_line. rewrite rows_set_table.
    cbn [stored_rows]. rewrite filter_twice. apply List.filter_ext. intros x.
    unfold for_pair.
    destruct (BowlIngredient.bowl_id x =? bowl_id),
      (BowlIngredient.ingredient_id x =? ingredient_id); reflexivity. }
  rewrite Hl. apply flat_map_entry_ext; reflexivity.
Qed.

(** Alice takes the bananas out of her bowl 1: the list is empty, as the
    other line of that bowl had no entry. *)
Lemma removed_ingredient_is_not_listed_witness :
  BowlData.ingredients
    (bowls_ui.calculate_nutrition 1 1
       (snd (run_request
               (bowls_ui.remove_ingredient_from_bowl (sample.request_of "alice") 1 4
                  sample.alice) sample.db1)))
  = List.filter (fun e => negb (about 4 e))
      (BowlData.ingredients (bowls_ui.calculate_nutrition 1 1 sample.db1)).
Proof.
  assert (Hok : lines_ok sample.db1).
  { split; [split|]; simpl.
    - repeat constructor; simpl; intuition lia.
    - repeat constructor; simpl; lia.
    - repeat constructor; simpl; intuition discriminate. }
  exact (removed_ingredient_is_not_listed (sample.request_of "alice") 1 4 sample.alice
           sample.db1 _ Hok eq_refl eq_refl 1).
Defined.
(** ** The override form *)

Lemma edit_ingredient_form_outcome (request : Request) (ingredient_id : Z)
  (bowl_id : option Z) (current_user : User.t) (db : DB) (g : Ingredient.t) :
  db_get ingredient_id db = Some g ->
  let v := bowls_ui.get_ingredient_nutrition ingredient_id (User.id current_user) db in
  run_request (bowls_ui.edit_ingredient_form request ingredient_id bowl_id current_user) db
  = (inr (TemplateResponse "ingredient_edit.html"
            {[ "request" := VRequest request;
               "ingredient" :=
                 VIngredientData
                   {| Ingredient.id := Ingredient.id g;
                      Ingredient.name := Ingredient.name g;
                      Ingredient.calories := Nutrition.calories v;
                      Ingredient.protein := Nutrition.protein v;
                      Ingredient.fiber := Nutrition.fiber v;
                      Ingredient.sugar := Nutrition.sugar v;
                      Ingredient.icon_filename := Ingredient.icon_filename g;
                      Ingredient.bowl_image_filename := Ingredient.bowl_image_filename g;
                      Ingredient.is_drizzle := Ingredient.is_drizzle g |};
               "bowl_id" := opt_value VInt bowl_id ]}), db).
Proof.
  intros Hg. cbv zeta. unfold bowls_ui.edit_ingredient_form. run_m. simpl.
  rewrite Hg. reflexivity.
Qed.

(** The form to edit an ingredient's values shows, for the catalog entry
    it was asked about, the values the user last wrote through either
    override route: the numbers written, where a zero may keep the sign
    the override had; to every other user it shows what it showed
    before. *)
Theorem edit_form_shows_what_was_written (current_user : User.t) (ingredient_id : Z)
  (v : Nutrition.t) (db db' : DB) (g : Ingredient.t) :
  db_get ingredient_id db = Some g ->
  overrides_ok db ->
  (db' = snd (run_request
                (ingredients_api.update_nutrition
                   {| ingredients_api.UpdateNutritionRequest.ingredient_id := ingredient_id;
                      ingredients_api.UpdateNutritionRequest.calories := Nutrition.calories v;
                      ingredients_api.UpdateNutritionRequest.protein := Nutrition.protein v;
                      ingredients_api.UpdateNutritionRequest.fiber := Nutrition.fiber v;
                      ingredients_api.UpdateNutritionRequest.sugar := Nutrition.sugar v |}
                   current_user) db)
   \/ exists request bowl_id,
        db' = snd (run_request
                     (bowls_ui.update_ingredient_htmx request ingredient_id bowl_id
                        (Nutrition.calories v) (Nutrition.protein v) (Nutrition.fiber v)
                        (Nutrition.sugar v) current_user) db)) ->
  let shown := written_over (Spec.override (User.id current_user) ingredient_id db) v in
  (same_number (Nutrition.calories shown) (Nutrition.calories v)
   /\ same_number (Nutrition.protein shown) (Nutrition.protein v)
   /\ same_number (Nutrition.fiber shown) (Nutrition.fiber v)
   /\ same_number (Nutrition.sugar shown) (Nutrition.sugar v))
  /\ (forall request bowl_id,
        run_request
          (bowls_ui.edit_ingredient_form request ingredient_id bowl_id current_user) db'
        = (inr (TemplateResponse "ingredient_edit.html"
                  {[ "request" := VRequest request;
                     "ingredient" :=
                       VIngredientData
                         {| Ingredient.id := Ingredient.id g;
                            Ingredient.name := Ingredient.name g;
                            Ingredient.calories := Nutrition.calories shown;
                            Ingredient.protein := Nutrition.protein shown;
                            Ingredient.fiber := Nutrition.fiber shown;
                            Ingredient.sugar := Nutrition.sugar shown;
                            Ingredient.icon_filename := Ingredient.icon_filename g;
                            Ingredient.bowl_image_filename :=
                              Ingredient.bowl_image_filename g;
                            Ingredient.is_drizzle := Ingredient.is_drizzle g |};
                     "bowl_id" := opt_value VInt bowl_id ]}), db'))
  /\ (forall other request bowl_id,
        User.id other <> User.id current_user ->
        fst (run_request
               (bowls_ui.edit_ingredient_form request ingredient_id bowl_id other) db')
        = fst (run_request
                 (bowls_ui.edit_ingredient_form request ingredient_id bowl_id other) db)).
Proof.
  intros Hg Hok Hroute shown.
  destruct (override_routes_store current_user ingredient_id v db db' g Hg Hroute)
    as (Hov & Hing & _).
  destruct (upsert_override_ok (User.id current_user) ingredient_id v db Hok)
    as (_ & _ & Hothers).
  assert (Hg' : db_get ingredient_id db' = Some g)
    by (rewrite (db_get_ingredient_ext _ _ _ Hing); exact Hg).
  split; [apply written_over_same_number|]. split.
  - intros request bowl_id.
    rewrite (edit_ingredient_form_outcome request ingredient_id bowl_id current_user
               db' g Hg').
    rewrite (override_read_back current_user ingredient_id v db db' g Hg Hok Hroute).
    reflexivity.
  - intros other request bowl_id Hne.
    rewrite (edit_ingredient_form_outcome request ingredient_id bowl_id other db' g Hg'),
      (edit_ingredient_form_outcome request ingredient_id bowl_id other db g Hg).
    cbn [fst].
    rewrite (get_ingredient_nutrition_ext ingredient_id (User.id other) db db' Hing);
      [reflexivity|].
    rewrite (select_all_override_ext _ _ _ Hov). apply Hothers. congruence.
Qed.

(** Carol writes her values for bananas; her form shows them. *)
Lemma edit_form_shows_what_was_written_witness :
  exists db',
    db' = snd (run_request
                 (bowls_ui.update_ingredient_htmx (sample.request_of "carol") 4 None
                    100 2 3 4 sample.carol) sample.db1)
    /\ exists context,
         run_request
           (bowls_ui.edit_ingredient_form (sample.request_of "carol") 4 None sample.carol)
           db'
         = (inr (TemplateResponse "ingredient_edit.html" context), db')
         /\ context !! "ingredient"
            = Some (VIngredientData
                      (seed.row 4 "Banana" 100 2 3 4 (Some "banana_icon.PNG")
                         (Some "banana_slices.PNG") false)).
Proof.
  assert (Hok : overrides_ok sample.db1).
  { split; [split|]; simpl.
    - repeat constructor; simpl; intuition lia.
    - repeat constructor; simpl; lia.
    - repeat constructor; simpl; intuition discriminate. }
  eexists. split; [reflexivity|].
  eexists. split.
  - refine (proj1 (proj2 (edit_form_shows_what_was_written sample.carol 4
                            {| Nutrition.calories := 100; Nutrition.protein := 2;
                               Nutrition.fiber := 3; Nutrition.sugar := 4 |}
                            sample.db1 _ _ eq_refl Hok _)) _ _).
    right. eexists _, _. reflexivity.
  - reflexivity.
Defined.
(** ** The pages and the cookie *)

(** The three pages that look the user up with [get_optional_user].  The
    lookup never raises.  When it finds a user the two forms redirect to
    "/" with 303 and the home page is rendered for that user; when it finds
    none the forms are rendered, as a fragment for a request with the
    header HX-Request: true and inside their wrapper page otherwise, and
    the home page is the login wrapper. *)
Theorem pages_follow_the_cookie (request : Request) (db : DB) :
  let hx := bool_decide (headers request !! "HX-Request" = Some "true") in
  let blank := ({[ "request" := VRequest request; "error" := VNone ]} : gmap string Value) in
  match fst (run_request (auth.get_optional_user request) db) with
  | inr (Some u) =>
      run_request (bowls_ui.login_form request) db = (inr (RedirectResponse "/" 303), db)
      /\ run_request (bowls_ui.register_form request) db
         = (inr (RedirectResponse "/" 303), db)
      /\ exists context,
           run_request (bowls_ui.prepare_home_context request u) db = (inr context, db)
           /\ run_request (bowls_ui.home request) db
              = (inr (TemplateResponse "home.html" context), db)
  | inr None =>
      run_request (bowls_ui.login_form request) db
      = (inr (TemplateResponse (if hx then "login.html" else "login_wrapper.html") blank),
         db)
      /\ run_request (bowls_ui.register_form request) db
         = (inr (TemplateResponse
                   (if hx then "register.html" else "register_wrapper.html") blank), db)
      /\ run_request (bowls_ui.home request) db
         = (inr (TemplateResponse "login_wrapper.html" blank), db)
  | inl _ => False
  end.
Proof.
  cbv zeta.
  set (s0 := {| committed := db; pending := db; deleted := [] |}).
  assert (Hgou : exists ou, auth.get_optional_user request s0 = (inr ou, s0)).
  { unfold auth.get_optional_user.
    destruct (cookies request !! "username") as [[|c name]|];
      eexists; reflexivity. }
  destruct Hgou as [ou Hgou].
  assert (Hctx : forall u, exists context,
             bowls_ui.prepare_home_context request u s0 = (inr context, s0)).
  { intros u. unfold bowls_ui.prepare_home_context, s0. run_m. simpl.
    destruct (select_first _ db); simpl; eexists; reflexivity. }
  unfold bowls_ui.login_form, bowls_ui.register_form, bowls_ui.home.
  cbv beta delta [run_request mbind M_bind try_except]. fold s0. rewrite !Hgou.
  cbn [fst]. destruct ou as [u|].
  - split; [reflexivity|]. split; [reflexivity|].
    destruct (Hctx u) as [context Hrun]. exists context. rewrite Hrun.
    split; reflexivity.
  - cbv beta iota delta [mret M_ret]. cbn [fst snd committed].
    destruct (bool_decide _); repeat split; reflexivity.
Qed.
